(** * MicroTaskBounty: the five ledger contracts, embedded and verified

    The Solidity contracts [ReputationContract], [TaskManager], [BountyPool],
    [VerificationContract] and [AntiFraud] are translated function by
    function.  Storage mappings are finite maps that read as the zero value
    where nothing was written, [uint256] and [int256] are integers with the
    checked arithmetic of Solidity 0.8 (an overflow reverts), and a call
    either returns the new state or reverts with the error of the source,
    in which case the caller keeps the state it started from.

    Events are not recorded.  The five contracts call only each other and
    pay only plain accounts or each other, none of which calls back, so
    [nonReentrant] never fires and is left out.  Of [Ownable] only the
    owner and [onlyOwner] are kept.  The value of a message is read by
    payable functions only. *)

From Stdlib Require Import ZArith Lia Bool List String.
From Stdlib Require Import Reals Lra Machin.
From stdpp Require Import base option gmap strings list.

Local Open Scope Z_scope.

(** ** The execution environment *)

Definition address := Z.

Definition MAX_UINT256 : Z := 2 ^ 256 - 1.
Definition MAX_INT256 : Z := 2 ^ 255 - 1.
Definition MIN_INT256 : Z := - 2 ^ 255.

Definition ether : Z := 10 ^ 18.
Definition minutes : Z := 60.
Definition hours : Z := 3600.
Definition days : Z := 86400.

(** The custom errors of the five contracts.  [TaskManager] and
    [BountyPool] both declare an [InsufficientBounty]; the pool's carries a
    task id and is [PoolInsufficientBounty] here.  [Panic] is the revert of
    checked arithmetic, [RequireFailed] a failed [require] with its
    message, [OwnableUnauthorizedAccount] the error of [onlyOwner],
    [OutOfFunds] a call whose value the sender cannot cover, and
    [UnknownCallee] a function call to an address that does not hold the
    contract the caller expects there. *)
Inductive Error : Type :=
| Panic
| RequireFailed (reason : string)
| OwnableUnauthorizedAccount (account : address)
| OutOfFunds (account : address)
| UnknownCallee (target : address)
| UnauthorizedCaller (caller : address)
| InvalidAddress (addr : address)
| ReputationAlreadyInitialized (user : address)
| InsufficientBounty (provided required : Z)
| TaskNotActive (taskId : Z)
| WorkerAlreadyClaimed (worker : address) (taskId : Z)
| MaxActiveTasksReached (worker : address)
| OutsideLocationRadius (requiredLat requiredLon providedLat providedLon : Z)
| DeadlineExpired (taskId deadline : Z)
| InvalidTaskId (taskId : Z)
| TaskNotClaimed (worker : address) (taskId : Z)
| PoolInsufficientBounty (taskId required available : Z)
| TransferFailed (recipient : address) (amount : Z)
| NoFeesToWithdraw
| InsufficientStake (provided required : Z)
| AlreadyVoted (verifier : address) (submissionId : Z)
| SubmissionNotFound (submissionId : Z)
| AlreadyVerified (submissionId : Z)
| ConsensusNotReached (submissionId : Z)
| MaxVerifiersReached (submissionId : Z)
| RewardAlreadyDistributed (submissionId : Z)
| RewardDistributionTooEarly (submissionId timeRemaining : Z)
| WorkerCannotVerifyOwnSubmission (worker : address)
| RateLimitExceededError (worker : address) (currentCount : Z)
| DuplicateImageDetected (imageHash : string) (originalWorker : address)
| InvalidMetadata (reason : string)
| WorkerBlacklistedError (worker : address)
| NoStakeToForfeit (worker : address).

Inductive result (A : Type) : Type :=
| Ok (a : A)
| Revert (e : Error).
Arguments Ok {A} a.
Arguments Revert {A} e.

Definition bind {A B : Type} (c : result A) (k : A -> result B) : result B :=
  match c with
  | Ok a => k a
  | Revert e => Revert e
  end.

Notation "'let!' x ':=' c 'in' k" := (bind c (fun x => k))
  (at level 10, x pattern, c at level 100, k at level 200).

(** [if (cond) revert E(...)]. *)
Definition revert_if (cond : bool) (e : Error) : result unit :=
  if cond then Revert e else Ok tt.

Definition is_ok {A : Type} (r : result A) : bool :=
  match r with Ok _ => true | Revert _ => false end.

(** Checked arithmetic on [uint256] and [int256]. *)
Definition uadd (a b : Z) : result Z :=
  if a + b <=? MAX_UINT256 then Ok (a + b) else Revert Panic.
Definition usub (a b : Z) : result Z :=
  if b <=? a then Ok (a - b) else Revert Panic.
Definition umul (a b : Z) : result Z :=
  if a * b <=? MAX_UINT256 then Ok (a * b) else Revert Panic.
Definition udiv (a b : Z) : result Z :=
  if b =? 0 then Revert Panic else Ok (a / b).

Definition in_int256 (x : Z) : bool := (MIN_INT256 <=? x) && (x <=? MAX_INT256).
Definition isub (a b : Z) : result Z :=
  if in_int256 (a - b) then Ok (a - b) else Revert Panic.
Definition iadd (a b : Z) : result Z :=
  if in_int256 (a + b) then Ok (a + b) else Revert Panic.
Definition imul (a b : Z) : result Z :=
  if in_int256 (a * b) then Ok (a * b) else Revert Panic.

(** A storage slot that was never written reads as the zero value of its
    type. *)
Class Zero (A : Type) := zero : A.
Global Instance Z_zero : Zero Z := 0.
Global Instance bool_zero : Zero bool := false.
Global Instance string_zero : Zero string := EmptyString.
Global Instance list_zero {A : Type} : Zero (list A) := nil.

Definition sload {K : Type} `{Countable K} {A : Type} `{Zero A}
    (m : gmap K A) (k : K) : A :=
  default zero (m !! k).
Notation "m @ k" := (sload m k) (at level 20, format "m @ k").

(** What a call sees of its transaction: [msg.sender], [msg.value] and
    [block.timestamp]. *)
Record Msg : Type := mkMsg {
  sender : address;
  value : Z;
  timestamp : Z
}.

(** The native-currency ledger.  [pay] moves [amount] between two accounts
    and fails when the payer cannot cover it. *)
Definition balanceOf (b : gmap address Z) (a : address) : Z := b@a.

Definition pay (from to : address) (amount : Z) (b : gmap address Z)
    : option (gmap address Z) :=
  if balanceOf b from <? amount then None
  else
    let b1 := <[from := balanceOf b from - amount]> b in
    Some (<[to := balanceOf b1 to + amount]> b1).

(** ** Structs and enums *)

Inductive TaskCategory : Type :=
| PHOTO_VERIFICATION
| LOCATION_CHECK
| SURVEY
| PRICE_MONITORING
| BUSINESS_HOURS.

Global Instance TaskCategory_zero : Zero TaskCategory := PHOTO_VERIFICATION.
Global Instance TaskCategory_eq_dec : EqDecision TaskCategory.
Proof. solve_decision. Defined.

Definition TaskCategory_index (c : TaskCategory) : nat :=
  match c with
  | PHOTO_VERIFICATION => 0
  | LOCATION_CHECK => 1
  | SURVEY => 2
  | PRICE_MONITORING => 3
  | BUSINESS_HOURS => 4
  end%nat.

Definition TaskCategory_of_index (n : nat) : TaskCategory :=
  match n with
  | 0 => PHOTO_VERIFICATION
  | 1 => LOCATION_CHECK
  | 2 => SURVEY
  | 3 => PRICE_MONITORING
  | _ => BUSINESS_HOURS
  end%nat.

Global Instance TaskCategory_countable : Countable TaskCategory :=
  inj_countable' TaskCategory_index TaskCategory_of_index
    (fun c => match c with
              | PHOTO_VERIFICATION | LOCATION_CHECK | SURVEY
              | PRICE_MONITORING | BUSINESS_HOURS => eq_refl
              end).

Inductive TaskStatus : Type :=
| ACTIVE
| IN_PROGRESS
| COMPLETED
| EXPIRED
| CANCELLED.

Global Instance TaskStatus_zero : Zero TaskStatus := ACTIVE.
Global Instance TaskStatus_eq_dec : EqDecision TaskStatus.
Proof. solve_decision. Defined.

Inductive VerificationStatus : Type :=
| PENDING
| VERIFIED
| REJECTED
| DISPUTED.

Global Instance VerificationStatus_zero : Zero VerificationStatus := PENDING.
Global Instance VerificationStatus_eq_dec : EqDecision VerificationStatus.
Proof. solve_decision. Defined.

(** [latitude] and [longitude] are [int256] degrees scaled by 1e6,
    [radius] is in meters. *)
Module Location.
Record t : Type := mk {
    latitude : Z;
    longitude : Z;
    radius : Z
  }.
Global Instance t_zero : Zero t := mk 0 0 0.
End Location.

Module TaskRequirements.
Record t : Type := mk {
    photoCount : Z;
    requiresLocation : bool;
    minReputation : Z;
    requiredBadge : TaskCategory
  }.
Global Instance t_zero : Zero t := mk 0 false 0 zero.
End TaskRequirements.

Module Task.
Record t : Type := mk {
    id : Z;
    creator : address;
    description : string;
    category : TaskCategory;
    bountyAmount : Z;
    maxWorkers : Z;
    location : Location.t;
    deadline : Z;
    status : TaskStatus;
    requirements : TaskRequirements.t;
    submissionCount : Z;
    verifiedCount : Z;
    createdAt : Z
  }.
Global Instance t_zero : Zero t :=
    mk 0 0 EmptyString zero 0 0 zero 0 zero zero 0 0 0.

Definition with_status (s : TaskStatus) (x : t) : t :=
    mk (id x) (creator x) (description x) (category x) (bountyAmount x)
       (maxWorkers x) (location x) (deadline x) s (requirements x)
       (submissionCount x) (verifiedCount x) (createdAt x).
Definition with_submissionCount (n : Z) (x : t) : t :=
    mk (id x) (creator x) (description x) (category x) (bountyAmount x)
       (maxWorkers x) (location x) (deadline x) (status x) (requirements x)
       n (verifiedCount x) (createdAt x).
End Task.

Module TaskClaim.
Record t : Type := mk {
    worker : address;
    claimedAt : Z;
    completed : bool
  }.
Global Instance t_zero : Zero t := mk 0 0 false.
Definition with_completed (b : bool) (x : t) : t :=
    mk (worker x) (claimedAt x) b.
End TaskClaim.

Module Submission.
Record t : Type := mk {
    id : Z;
    taskId : Z;
    worker : address;
    ipfsHash : string;
    timestamp : Z;
    location : Location.t;
    status : VerificationStatus;
    approvalCount : Z;
    rejectionCount : Z;
    totalVotes : Z;
    bountyAmount : Z;
    rewardDistributed : bool
  }.
Global Instance t_zero : Zero t :=
    mk 0 0 0 EmptyString 0 zero zero 0 0 0 0 false.

Definition with_status (s : VerificationStatus) (x : t) : t :=
    mk (id x) (taskId x) (worker x) (ipfsHash x) (timestamp x) (location x)
       s (approvalCount x) (rejectionCount x) (totalVotes x)
       (bountyAmount x) (rewardDistributed x).
Definition with_counts (a r n : Z) (x : t) : t :=
    mk (id x) (taskId x) (worker x) (ipfsHash x) (timestamp x) (location x)
       (status x) a r n (bountyAmount x) (rewardDistributed x).
Definition with_rewardDistributed (b : bool) (x : t) : t :=
    mk (id x) (taskId x) (worker x) (ipfsHash x) (timestamp x) (location x)
       (status x) (approvalCount x) (rejectionCount x) (totalVotes x)
       (bountyAmount x) b.
End Submission.

Module Vote.
Record t : Type := mk {
    hasVoted : bool;
    approved : bool;
    timestamp : Z;
    stake : Z
  }.
Global Instance t_zero : Zero t := mk false false 0 0.
End Vote.

Module CategoryStats.
Record t : Type := mk {
    successCount : Z;
    totalCount : Z;
    hasBadge : bool
  }.
Global Instance t_zero : Zero t := mk 0 0 false.
End CategoryStats.

Module ReputationData.
Record t : Type := mk {
    score : Z;
    tasksCompleted : Z;
    tasksRejected : Z;
    verificationsPerformed : Z;
    accurateVerifications : Z;
    categoryStats : gmap TaskCategory CategoryStats.t
  }.
Global Instance t_zero : Zero t := mk 0 0 0 0 0 ∅.
Definition with_score (s : Z) (x : t) : t :=
    mk s (tasksCompleted x) (tasksRejected x) (verificationsPerformed x)
       (accurateVerifications x) (categoryStats x).
Definition with_tasksCompleted (n : Z) (x : t) : t :=
    mk (score x) n (tasksRejected x) (verificationsPerformed x)
       (accurateVerifications x) (categoryStats x).
Definition with_tasksRejected (n : Z) (x : t) : t :=
    mk (score x) (tasksCompleted x) n (verificationsPerformed x)
       (accurateVerifications x) (categoryStats x).
Definition with_verificationsPerformed (n : Z) (x : t) : t :=
    mk (score x) (tasksCompleted x) (tasksRejected x) n
       (accurateVerifications x) (categoryStats x).
Definition with_accurateVerifications (n : Z) (x : t) : t :=
    mk (score x) (tasksCompleted x) (tasksRejected x)
       (verificationsPerformed x) n (categoryStats x).
Definition with_categoryStats (m : gmap TaskCategory CategoryStats.t)
      (x : t) : t :=
    mk (score x) (tasksCompleted x) (tasksRejected x)
       (verificationsPerformed x) (accurateVerifications x) m.
End ReputationData.

Module SubmissionRecord.
Record t : Type := mk {
    timestamp : Z;
    imageHash : string;
    metadataHash : Z
  }.
End SubmissionRecord.

Module DailySubmissionCount.
Record t : Type := mk {
    date : Z;
    count : Z
  }.
Global Instance t_zero : Zero t := mk 0 0.
End DailySubmissionCount.

(** ** Storage of the five contracts *)

Module ReputationStorage.
Record t : Type := mk {
  reputations : gmap address ReputationData.t;
  verificationContractAddress : address;
  taskManagerAddress : address;
  owner : address
}.
Definition with_reputations (m : gmap address ReputationData.t) (s : t) : t :=
  mk m (verificationContractAddress s) (taskManagerAddress s) (owner s).
Definition with_verificationContractAddress (a : address) (s : t) : t :=
  mk (reputations s) a (taskManagerAddress s) (owner s).
Definition with_taskManagerAddress (a : address) (s : t) : t :=
  mk (reputations s) (verificationContractAddress s) a (owner s).
End ReputationStorage.

Module AntiFraudStorage.
Record t : Type := mk {
  workerDailySubmissions : gmap address DailySubmissionCount.t;
  workerSubmissions : gmap address (list SubmissionRecord.t);
  usedImageHashes : gmap string bool;
  imageHashToWorker : gmap string address;
  workerStakes : gmap address Z;
  blacklistedWorkers : gmap address bool;
  verificationContractAddress : address;
  taskManagerAddress : address;
  owner : address
}.
Definition with_workerDailySubmissions
    (m : gmap address DailySubmissionCount.t) (s : t) : t :=
  mk m (workerSubmissions s) (usedImageHashes s) (imageHashToWorker s)
     (workerStakes s) (blacklistedWorkers s) (verificationContractAddress s)
     (taskManagerAddress s) (owner s).
Definition with_recorded (subs : gmap address (list SubmissionRecord.t))
    (used : gmap string bool) (owners : gmap string address) (s : t) : t :=
  mk (workerDailySubmissions s) subs used owners
     (workerStakes s) (blacklistedWorkers s) (verificationContractAddress s)
     (taskManagerAddress s) (owner s).
Definition with_workerStakes (m : gmap address Z) (s : t) : t :=
  mk (workerDailySubmissions s) (workerSubmissions s) (usedImageHashes s)
     (imageHashToWorker s) m (blacklistedWorkers s)
     (verificationContractAddress s) (taskManagerAddress s) (owner s).
Definition with_blacklistedWorkers (m : gmap address bool) (s : t) : t :=
  mk (workerDailySubmissions s) (workerSubmissions s) (usedImageHashes s)
     (imageHashToWorker s) (workerStakes s) m
     (verificationContractAddress s) (taskManagerAddress s) (owner s).
Definition with_verificationContractAddress (a : address) (s : t) : t :=
  mk (workerDailySubmissions s) (workerSubmissions s) (usedImageHashes s)
     (imageHashToWorker s) (workerStakes s) (blacklistedWorkers s)
     a (taskManagerAddress s) (owner s).
Definition with_taskManagerAddress (a : address) (s : t) : t :=
  mk (workerDailySubmissions s) (workerSubmissions s) (usedImageHashes s)
     (imageHashToWorker s) (workerStakes s) (blacklistedWorkers s)
     (verificationContractAddress s) a (owner s).
End AntiFraudStorage.

Module BountyPoolStorage.
Record t : Type := mk {
  taskBounties : gmap Z Z;
  accumulatedFees : Z;
  taskManagerAddress : address;
  verificationContractAddress : address;
  owner : address
}.
Definition with_funds (bounties : gmap Z Z) (fees : Z) (s : t) : t :=
  mk bounties fees (taskManagerAddress s) (verificationContractAddress s)
     (owner s).
Definition with_taskManagerAddress (a : address) (s : t) : t :=
  mk (taskBounties s) (accumulatedFees s) a (verificationContractAddress s)
     (owner s).
Definition with_verificationContractAddress (a : address) (s : t) : t :=
  mk (taskBounties s) (accumulatedFees s) (taskManagerAddress s) a (owner s).
End BountyPoolStorage.

Module VerificationStorage.
Record t : Type := mk {
  submissionIdCounter : Z;
  submissions : gmap Z Submission.t;
  verificationVotes : gmap (Z * address) Vote.t;
  submissionVerifiers : gmap Z (list address);
  consensusReachedAt : gmap Z Z;
  bountyPoolAddress : address;
  reputationContractAddress : address;
  taskManagerAddress : address;
  antiFraudAddress : address;
  owner : address
}.
Definition with_submissionIdCounter (n : Z) (s : t) : t :=
  mk n (submissions s) (verificationVotes s) (submissionVerifiers s)
     (consensusReachedAt s) (bountyPoolAddress s)
     (reputationContractAddress s) (taskManagerAddress s)
     (antiFraudAddress s) (owner s).
Definition with_submissions (m : gmap Z Submission.t) (s : t) : t :=
  mk (submissionIdCounter s) m (verificationVotes s) (submissionVerifiers s)
     (consensusReachedAt s) (bountyPoolAddress s)
     (reputationContractAddress s) (taskManagerAddress s)
     (antiFraudAddress s) (owner s).
Definition with_verificationVotes (m : gmap (Z * address) Vote.t) (s : t)
    : t :=
  mk (submissionIdCounter s) (submissions s) m (submissionVerifiers s)
     (consensusReachedAt s) (bountyPoolAddress s)
     (reputationContractAddress s) (taskManagerAddress s)
     (antiFraudAddress s) (owner s).
Definition with_submissionVerifiers (m : gmap Z (list address)) (s : t) : t :=
  mk (submissionIdCounter s) (submissions s) (verificationVotes s) m
     (consensusReachedAt s) (bountyPoolAddress s)
     (reputationContractAddress s) (taskManagerAddress s)
     (antiFraudAddress s) (owner s).
Definition with_consensusReachedAt (m : gmap Z Z) (s : t) : t :=
  mk (submissionIdCounter s) (submissions s) (verificationVotes s)
     (submissionVerifiers s) m (bountyPoolAddress s)
     (reputationContractAddress s) (taskManagerAddress s)
     (antiFraudAddress s) (owner s).
Definition with_addresses (pool rep tm af : address) (s : t) : t :=
  mk (submissionIdCounter s) (submissions s) (verificationVotes s)
     (submissionVerifiers s) (consensusReachedAt s) pool rep tm af (owner s).
End VerificationStorage.

Module TaskManagerStorage.
Record t : Type := mk {
  taskIdCounter : Z;
  tasks : gmap Z Task.t;
  workerActiveTasks : gmap address (list Z);
  taskClaims : gmap (Z * address) TaskClaim.t;
  taskWorkers : gmap Z (list address);
  antiFraudAddress : address;
  owner : address
}.
Definition with_taskIdCounter (n : Z) (s : t) : t :=
  mk n (tasks s) (workerActiveTasks s) (taskClaims s) (taskWorkers s)
     (antiFraudAddress s) (owner s).
Definition with_tasks (m : gmap Z Task.t) (s : t) : t :=
  mk (taskIdCounter s) m (workerActiveTasks s) (taskClaims s) (taskWorkers s)
     (antiFraudAddress s) (owner s).
Definition with_workerActiveTasks (m : gmap address (list Z)) (s : t) : t :=
  mk (taskIdCounter s) (tasks s) m (taskClaims s) (taskWorkers s)
     (antiFraudAddress s) (owner s).
Definition with_taskClaims (m : gmap (Z * address) TaskClaim.t) (s : t) : t :=
  mk (taskIdCounter s) (tasks s) (workerActiveTasks s) m (taskWorkers s)
     (antiFraudAddress s) (owner s).
Definition with_taskWorkers (m : gmap Z (list address)) (s : t) : t :=
  mk (taskIdCounter s) (tasks s) (workerActiveTasks s) (taskClaims s) m
     (antiFraudAddress s) (owner s).
Definition with_antiFraudAddress (a : address) (s : t) : t :=
  mk (taskIdCounter s) (tasks s) (workerActiveTasks s) (taskClaims s)
     (taskWorkers s) a (owner s).
End TaskManagerStorage.

(** ** The deployed system *)

(** Where the five contracts live, and the hash [TaskManager] takes of a
    submission's metadata ([keccak256] of the packed task id, sender,
    content hash, timestamp, latitude and longitude, as a 256-bit number).
    Every other address is an externally owned account: it has no code, so
    it accepts any payment and a function call to it reverts. *)
Record Deployment : Type := mkDeployment {
  taskManagerAt : address;
  bountyPoolAt : address;
  verificationAt : address;
  reputationAt : address;
  antiFraudAt : address;
  keccak256 : Z -> address -> string -> Z -> Z -> Z -> Z
}.

Record World : Type := mkWorld {
  balances : gmap address Z;
  taskManager : TaskManagerStorage.t;
  bountyPool : BountyPoolStorage.t;
  verification : VerificationStorage.t;
  reputation : ReputationStorage.t;
  antiFraud : AntiFraudStorage.t
}.

Definition with_balances (b : gmap address Z) (w : World) : World :=
  mkWorld b (taskManager w) (bountyPool w) (verification w) (reputation w)
    (antiFraud w).
Definition with_taskManager (s : TaskManagerStorage.t) (w : World) : World :=
  mkWorld (balances w) s (bountyPool w) (verification w) (reputation w)
    (antiFraud w).
Definition with_bountyPool (s : BountyPoolStorage.t) (w : World) : World :=
  mkWorld (balances w) (taskManager w) s (verification w) (reputation w)
    (antiFraud w).
Definition with_verification (s : VerificationStorage.t) (w : World) : World :=
  mkWorld (balances w) (taskManager w) (bountyPool w) s (reputation w)
    (antiFraud w).
Definition with_reputation (s : ReputationStorage.t) (w : World) : World :=
  mkWorld (balances w) (taskManager w) (bountyPool w) (verification w) s
    (antiFraud w).
Definition with_antiFraud (s : AntiFraudStorage.t) (w : World) : World :=
  mkWorld (balances w) (taskManager w) (bountyPool w) (verification w)
    (reputation w) s.

(** [TaskManager], [ReputationContract] and [AntiFraud] declare neither
    [receive] nor a payable fallback and refuse plain payments;
    [BountyPool] and [VerificationContract] have an empty [receive]. *)
Definition accepts_payment (D : Deployment) (a : address) : bool :=
  negb ((a =? taskManagerAt D) || (a =? reputationAt D) || (a =? antiFraudAt D)).

(** The plain payment [payable(to).call{value: amount}] made by the
    contract at [from], with empty call data:
    [None] is the [success = false] of the source. *)
Definition call_value (D : Deployment) (from to : address) (amount : Z)
    (w : World) : option World :=
  if accepts_payment D to then
    match pay from to amount (balances w) with
    | Some b => Some (with_balances b w)
    | None => None
    end
  else None.

(** The value attached to a call of a payable function moves to the
    contract before its body runs. *)
Definition receive_value (self : address) (m : Msg) (w : World)
    : result World :=
  match pay (sender m) self (value m) (balances w) with
  | Some b => Ok (with_balances b w)
  | None => Revert (OutOfFunds (sender m))
  end.

(** ** ReputationContract *)

Module ReputationContract.
Import ReputationStorage.

Definition INITIAL_REPUTATION : Z := 50.
Definition REPUTATION_INCREASE : Z := 5.
Definition REPUTATION_DECREASE : Z := 5.
Definition BADGE_TASK_THRESHOLD : Z := 10.
Definition BADGE_SUCCESS_RATE_THRESHOLD : Z := 90.
Definition REPUTATION_MULTIPLIER_PERCENTAGE : Z := 1000.
Definition BASIS_POINTS : Z := 10000.
Definition HIGH_REPUTATION_THRESHOLD : Z := 80.
Definition MAX_REPUTATION : Z := 100.
Definition MIN_REPUTATION : Z := 0.

Definition onlyOwner (m : Msg) (s : t) : result unit :=
  revert_if (negb (sender m =? owner s)) (OwnableUnauthorizedAccount (sender m)).

Definition onlyVerificationContract (m : Msg) (s : t) : result unit :=
  revert_if (negb (sender m =? verificationContractAddress s))
    (UnauthorizedCaller (sender m)).

Definition onlyAuthorizedContracts (m : Msg) (s : t) : result unit :=
  revert_if
    (negb (sender m =? verificationContractAddress s)
     && negb (sender m =? taskManagerAddress s))
    (UnauthorizedCaller (sender m)).

Definition setVerificationContract (m : Msg) (_verificationContract : address)
    (s : t) : result t :=
  let! _ := onlyOwner m s in
  let! _ := revert_if (_verificationContract =? 0)
              (InvalidAddress _verificationContract) in
  Ok (with_verificationContractAddress _verificationContract s).

Definition setTaskManager (m : Msg) (_taskManager : address) (s : t)
    : result t :=
  let! _ := onlyOwner m s in
  let! _ := revert_if (_taskManager =? 0) (InvalidAddress _taskManager) in
  Ok (with_taskManagerAddress _taskManager s).

Definition initializeReputation (m : Msg) (user : address) (s : t)
    : result t :=
  let rep := reputations s@user in
  let! _ := revert_if (negb (ReputationData.score rep =? 0))
              (ReputationAlreadyInitialized user) in
  Ok (with_reputations
        (<[user := ReputationData.with_score INITIAL_REPUTATION rep]>
           (reputations s)) s).

(** The two branches every update function repeats: add 5 capped at 100,
    subtract 5 floored at 0. *)
Definition increase_score (rep : ReputationData.t) : result ReputationData.t :=
  let! raised := uadd (ReputationData.score rep) REPUTATION_INCREASE in
  if raised <=? MAX_REPUTATION
  then Ok (ReputationData.with_score raised rep)
  else Ok (ReputationData.with_score MAX_REPUTATION rep).

Definition decrease_score (rep : ReputationData.t) : result ReputationData.t :=
  if REPUTATION_DECREASE <=? ReputationData.score rep
  then
    let! lowered := usub (ReputationData.score rep) REPUTATION_DECREASE in
    Ok (ReputationData.with_score lowered rep)
  else Ok (ReputationData.with_score MIN_REPUTATION rep).

(** The overall part shared by [updateWorkerReputation] and
    [updateWorkerReputationWithCategory]. *)
Definition worker_outcome (successful : bool) (rep : ReputationData.t)
    : result ReputationData.t :=
  let rep :=
    if (ReputationData.score rep =? 0)
       && (ReputationData.tasksCompleted rep =? 0)
       && (ReputationData.tasksRejected rep =? 0)
    then ReputationData.with_score INITIAL_REPUTATION rep
    else rep in
  if successful then
    let! rep := increase_score rep in
    let! n := uadd (ReputationData.tasksCompleted rep) 1 in
    Ok (ReputationData.with_tasksCompleted n rep)
  else
    let! rep := decrease_score rep in
    let! n := uadd (ReputationData.tasksRejected rep) 1 in
    Ok (ReputationData.with_tasksRejected n rep).

Definition updateWorkerReputation (m : Msg) (worker : address)
    (successful : bool) (s : t) : result t :=
  let! _ := onlyVerificationContract m s in
  let! rep := worker_outcome successful (reputations s@worker) in
  Ok (with_reputations (<[worker := rep]> (reputations s)) s).

Definition _shouldAwardBadge (stats : CategoryStats.t) : result bool :=
  if CategoryStats.totalCount stats <? BADGE_TASK_THRESHOLD then Ok false
  else
    let! scaled := umul (CategoryStats.successCount stats) 100 in
    let! successRate := udiv scaled (CategoryStats.totalCount stats) in
    Ok (BADGE_SUCCESS_RATE_THRESHOLD <=? successRate).

Definition updateWorkerReputationWithCategory (m : Msg) (worker : address)
    (category : TaskCategory) (successful : bool) (s : t) : result t :=
  let! _ := onlyAuthorizedContracts m s in
  let! rep := worker_outcome successful (reputations s@worker) in
  let catStats := ReputationData.categoryStats rep@category in
  let! total := uadd (CategoryStats.totalCount catStats) 1 in
  let! success :=
    if successful then uadd (CategoryStats.successCount catStats) 1
    else Ok (CategoryStats.successCount catStats) in
  let catStats :=
    CategoryStats.mk success total (CategoryStats.hasBadge catStats) in
  let! catStats :=
    if negb (CategoryStats.hasBadge catStats) then
      let! award := _shouldAwardBadge catStats in
      if award then Ok (CategoryStats.mk success total true) else Ok catStats
    else Ok catStats in
  let rep :=
    ReputationData.with_categoryStats
      (<[category := catStats]> (ReputationData.categoryStats rep)) rep in
  Ok (with_reputations (<[worker := rep]> (reputations s)) s).

Definition verifier_outcome (accurateVote : bool) (rep : ReputationData.t)
    : result ReputationData.t :=
  let rep :=
    if (ReputationData.score rep =? 0)
       && (ReputationData.verificationsPerformed rep =? 0)
    then ReputationData.with_score INITIAL_REPUTATION rep
    else rep in
  let! n := uadd (ReputationData.verificationsPerformed rep) 1 in
  let rep := ReputationData.with_verificationsPerformed n rep in
  if accurateVote then
    let! rep := increase_score rep in
    let! k := uadd (ReputationData.accurateVerifications rep) 1 in
    Ok (ReputationData.with_accurateVerifications k rep)
  else decrease_score rep.

Definition updateVerifierReputation (m : Msg) (verifier : address)
    (accurateVote : bool) (s : t) : result t :=
  let! _ := onlyVerificationContract m s in
  let! rep := verifier_outcome accurateVote (reputations s@verifier) in
  Ok (with_reputations (<[verifier := rep]> (reputations s)) s).

Definition getReputationScore (user : address) (s : t) : Z :=
  let rep := reputations s@user in
  if (ReputationData.score rep =? 0)
     && (ReputationData.tasksCompleted rep =? 0)
     && (ReputationData.tasksRejected rep =? 0)
     && (ReputationData.verificationsPerformed rep =? 0)
  then INITIAL_REPUTATION
  else ReputationData.score rep.

(** Returns (score, tasksCompleted, tasksRejected, verificationsPerformed,
    accurateVerifications). *)
Definition getReputationData (user : address) (s : t) : Z * Z * Z * Z * Z :=
  let rep := reputations s@user in
  (if ReputationData.score rep =? 0 then INITIAL_REPUTATION
   else ReputationData.score rep,
   ReputationData.tasksCompleted rep,
   ReputationData.tasksRejected rep,
   ReputationData.verificationsPerformed rep,
   ReputationData.accurateVerifications rep).

Definition hasCategoryBadge (user : address) (category : TaskCategory) (s : t)
    : bool :=
  CategoryStats.hasBadge (ReputationData.categoryStats (reputations s@user)@category).

Definition hasPriorityAccess (user : address) (s : t) : bool :=
  let score := ReputationData.score (reputations s@user) in
  let score := if score =? 0 then INITIAL_REPUTATION else score in
  HIGH_REPUTATION_THRESHOLD <=? score.

(** Returns (successCount, totalCount, hasBadge, successRate). *)
Definition getCategoryStats (user : address) (category : TaskCategory)
    (s : t) : result (Z * Z * bool * Z) :=
  let stats := ReputationData.categoryStats (reputations s@user)@category in
  let successCount := CategoryStats.successCount stats in
  let totalCount := CategoryStats.totalCount stats in
  let! successRate :=
    if 0 <? totalCount then
      let! scaled := umul successCount 100 in
      udiv scaled totalCount
    else Ok 0 in
  Ok (successCount, totalCount, CategoryStats.hasBadge stats, successRate).

Definition getReputationMultiplier (user : address) (category : TaskCategory)
    (s : t) : Z :=
  if CategoryStats.hasBadge
       (ReputationData.categoryStats (reputations s@user)@category)
  then BASIS_POINTS + REPUTATION_MULTIPLIER_PERCENTAGE
  else BASIS_POINTS.

Definition getSuccessRate (user : address) (s : t) : result Z :=
  let rep := reputations s@user in
  let! totalTasks :=
    uadd (ReputationData.tasksCompleted rep) (ReputationData.tasksRejected rep) in
  if totalTasks =? 0 then Ok 0
  else
    let! scaled := umul (ReputationData.tasksCompleted rep) 100 in
    udiv scaled totalTasks.

Definition getVerificationAccuracy (user : address) (s : t) : result Z :=
  let rep := reputations s@user in
  if ReputationData.verificationsPerformed rep =? 0 then Ok 0
  else
    let! scaled := umul (ReputationData.accurateVerifications rep) 100 in
    udiv scaled (ReputationData.verificationsPerformed rep).

(** The state-changing calls of the contract, for sequences of them. *)
Inductive Call : Type :=
| InitializeReputation (user : address)
| UpdateWorkerReputation (worker : address) (successful : bool)
| UpdateWorkerReputationWithCategory (worker : address)
    (category : TaskCategory) (successful : bool)
| UpdateVerifierReputation (verifier : address) (accurateVote : bool).

Definition call (m : Msg) (c : Call) (s : t) : result t :=
  match c with
  | InitializeReputation user => initializeReputation m user s
  | UpdateWorkerReputation worker ok => updateWorkerReputation m worker ok s
  | UpdateWorkerReputationWithCategory worker cat ok =>
      updateWorkerReputationWithCategory m worker cat ok s
  | UpdateVerifierReputation verifier ok =>
      updateVerifierReputation m verifier ok s
  end.

(** A transaction that reverts leaves the storage as it was. *)
Definition apply (s : t) (tx : Msg * Call) : t :=
  match call (fst tx) (snd tx) s with
  | Ok s' => s'
  | Revert _ => s
  end.

Definition run (txs : list (Msg * Call)) (s : t) : t := fold_left apply txs s.

End ReputationContract.

(** ** AntiFraud *)

Module AntiFraud.
Import AntiFraudStorage.

Definition MAX_SUBMISSIONS_PER_DAY : Z := 20.
Definition DUPLICATE_SIMILARITY_THRESHOLD : Z := 95.
Definition ONE_DAY : Z := 1 * days.

Definition onlyOwner (m : Msg) (s : t) : result unit :=
  revert_if (negb (sender m =? owner s)) (OwnableUnauthorizedAccount (sender m)).

Definition onlyVerificationContract (m : Msg) (s : t) : result unit :=
  revert_if (negb (sender m =? verificationContractAddress s))
    (UnauthorizedCaller (sender m)).

Definition onlyAuthorizedContracts (m : Msg) (s : t) : result unit :=
  revert_if
    (negb (sender m =? verificationContractAddress s)
     && negb (sender m =? taskManagerAddress s))
    (UnauthorizedCaller (sender m)).

Definition notBlacklisted (worker : address) (s : t) : result unit :=
  revert_if (blacklistedWorkers s@worker) (WorkerBlacklistedError worker).

Definition setVerificationContract (m : Msg) (_verificationContract : address)
    (s : t) : result t :=
  let! _ := onlyOwner m s in
  let! _ := revert_if (_verificationContract =? 0)
              (InvalidAddress _verificationContract) in
  Ok (with_verificationContractAddress _verificationContract s).

Definition setTaskManager (m : Msg) (_taskManager : address) (s : t)
    : result t :=
  let! _ := onlyOwner m s in
  let! _ := revert_if (_taskManager =? 0) (InvalidAddress _taskManager) in
  Ok (with_taskManagerAddress _taskManager s).

(** [(block.timestamp / ONE_DAY) * ONE_DAY]; the product is at most the
    timestamp, so the checked multiplication cannot overflow. *)
Definition _getCurrentDay (m : Msg) : Z := (timestamp m / ONE_DAY) * ONE_DAY.

Definition _checkRateLimit (m : Msg) (worker : address) (s : t) : result t :=
  let today := _getCurrentDay m in
  let dailyCount := workerDailySubmissions s@worker in
  let dailyCount :=
    if negb (DailySubmissionCount.date dailyCount =? today)
    then DailySubmissionCount.mk today 0
    else dailyCount in
  let! _ := revert_if
              (MAX_SUBMISSIONS_PER_DAY <=? DailySubmissionCount.count dailyCount)
              (RateLimitExceededError worker
                 (DailySubmissionCount.count dailyCount)) in
  let! n := uadd (DailySubmissionCount.count dailyCount) 1 in
  Ok (with_workerDailySubmissions
        (<[worker := DailySubmissionCount.mk (DailySubmissionCount.date dailyCount) n]>
           (workerDailySubmissions s)) s).

Definition _checkDuplicateImage (worker : address) (imageHash : string)
    (s : t) : result unit :=
  if usedImageHashes s@imageHash then
    let originalWorker := imageHashToWorker s@imageHash in
    Revert (DuplicateImageDetected imageHash originalWorker)
  else Ok tt.

Definition _validateMetadata (metadataHash : Z) : result unit :=
  revert_if (metadataHash =? 0)
    (InvalidMetadata "Metadata hash cannot be empty").

Definition _recordSubmission (m : Msg) (worker : address) (taskId : Z)
    (imageHash : string) (metadataHash : Z) (s : t) : t :=
  with_recorded
    (<[worker := (workerSubmissions s@worker)
                   ++ [SubmissionRecord.mk (timestamp m) imageHash metadataHash]]>
       (workerSubmissions s))
    (<[imageHash := true]> (usedImageHashes s))
    (<[imageHash := worker]> (imageHashToWorker s))
    s.

Definition checkAndRecordSubmission (m : Msg) (worker : address) (taskId : Z)
    (imageHash : string) (metadataHash : Z) (s : t) : result (t * bool) :=
  let! _ := onlyAuthorizedContracts m s in
  let! _ := notBlacklisted worker s in
  let! s := _checkRateLimit m worker s in
  let! _ := _checkDuplicateImage worker imageHash s in
  let! _ := _validateMetadata metadataHash in
  let s := _recordSubmission m worker taskId imageHash metadataHash s in
  Ok (s, true).

Definition forfeitStake (m : Msg) (worker : address) (reason : string)
    (s : t) : result t :=
  let! _ := onlyVerificationContract m s in
  let stakeAmount := workerStakes s@worker in
  let! _ := revert_if (stakeAmount =? 0) (NoStakeToForfeit worker) in
  Ok (with_workerStakes (<[worker := 0]> (workerStakes s)) s).

Definition blacklistWorker (m : Msg) (worker : address) (reason : string)
    (s : t) : result t :=
  let! _ := onlyOwner m s in
  Ok (with_blacklistedWorkers (<[worker := true]> (blacklistedWorkers s)) s).

Definition unblacklistWorker (m : Msg) (worker : address) (s : t)
    : result t :=
  let! _ := onlyOwner m s in
  Ok (with_blacklistedWorkers (<[worker := false]> (blacklistedWorkers s)) s).

Definition checkImageSimilarity (imageHash : string)
    (similarityThreshold : Z) (s : t) : bool * address :=
  if usedImageHashes s@imageHash then (true, imageHashToWorker s@imageHash)
  else (false, 0).

Definition getTodaySubmissionCount (m : Msg) (worker : address) (s : t) : Z :=
  let today := _getCurrentDay m in
  let dailyCount := workerDailySubmissions s@worker in
  if DailySubmissionCount.date dailyCount =? today
  then DailySubmissionCount.count dailyCount
  else 0.

Definition getWorkerSubmissions (worker : address) (s : t)
    : list SubmissionRecord.t :=
  workerSubmissions s@worker.

Definition isWorkerBlacklisted (worker : address) (s : t) : bool :=
  blacklistedWorkers s@worker.

(** [block.timestamp - timestamp] is reached only when the first test has
    passed, so the checked subtraction cannot underflow. *)
Definition validateTimestamp (m : Msg) (timestamp_ maxAge : Z) : bool :=
  if timestamp m <? timestamp_ then false
  else if maxAge <? timestamp m - timestamp_ then false
  else true.

Definition isImageHashUsed (imageHash : string) (s : t) : bool :=
  usedImageHashes s@imageHash.

Definition getImageHashWorker (imageHash : string) (s : t) : address :=
  imageHashToWorker s@imageHash.

(** The state-changing calls of the contract. *)
Inductive Call : Type :=
| SetVerificationContract (a : address)
| SetTaskManager (a : address)
| CheckAndRecordSubmission (worker : address) (taskId : Z)
    (imageHash : string) (metadataHash : Z)
| ForfeitStake (worker : address) (reason : string)
| BlacklistWorker (worker : address) (reason : string)
| UnblacklistWorker (worker : address).

Definition call (m : Msg) (c : Call) (s : t) : result t :=
  match c with
  | SetVerificationContract a => setVerificationContract m a s
  | SetTaskManager a => setTaskManager m a s
  | CheckAndRecordSubmission worker taskId imageHash metadataHash =>
      let! r := checkAndRecordSubmission m worker taskId imageHash
                  metadataHash s in
      Ok (fst r)
  | ForfeitStake worker reason => forfeitStake m worker reason s
  | BlacklistWorker worker reason => blacklistWorker m worker reason s
  | UnblacklistWorker worker => unblacklistWorker m worker s
  end.

Definition apply (s : t) (tx : Msg * Call) : t :=
  match call (fst tx) (snd tx) s with
  | Ok s' => s'
  | Revert _ => s
  end.

Definition run (txs : list (Msg * Call)) (s : t) : t := fold_left apply txs s.

End AntiFraud.

(** ** BountyPool *)

Module BountyPool.
Import BountyPoolStorage.

Definition PLATFORM_FEE_PERCENTAGE : Z := 250.
Definition EXPIRED_TASK_FEE_PERCENTAGE : Z := 500.
Definition BASIS_POINTS : Z := 10000.

Definition onlyOwner (m : Msg) (s : t) : result unit :=
  revert_if (negb (sender m =? owner s)) (OwnableUnauthorizedAccount (sender m)).

Definition onlyTaskManager (m : Msg) (s : t) : result unit :=
  revert_if (negb (sender m =? taskManagerAddress s))
    (UnauthorizedCaller (sender m)).

Definition onlyVerificationContract (m : Msg) (s : t) : result unit :=
  revert_if (negb (sender m =? verificationContractAddress s))
    (UnauthorizedCaller (sender m)).

Definition setTaskManager (m : Msg) (_taskManager : address) (w : World)
    : result World :=
  let s := bountyPool w in
  let! _ := onlyOwner m s in
  let! _ := revert_if (_taskManager =? 0) (InvalidAddress _taskManager) in
  Ok (with_bountyPool (with_taskManagerAddress _taskManager s) w).

Definition setVerificationContract (m : Msg) (_verificationContract : address)
    (w : World) : result World :=
  let s := bountyPool w in
  let! _ := onlyOwner m s in
  let! _ := revert_if (_verificationContract =? 0)
              (InvalidAddress _verificationContract) in
  Ok (with_bountyPool
        (with_verificationContractAddress _verificationContract s) w).

Definition depositBounty (D : Deployment) (m : Msg) (taskId : Z) (w : World)
    : result World :=
  let! w := receive_value (bountyPoolAt D) m w in
  let s := bountyPool w in
  let! _ := onlyTaskManager m s in
  let! balance := uadd (taskBounties s@taskId) (value m) in
  Ok (with_bountyPool
        (with_funds (<[taskId := balance]> (taskBounties s))
           (accumulatedFees s) s) w).

Definition distributeReward (D : Deployment) (m : Msg) (taskId : Z)
    (worker : address) (amount : Z) (w : World) : result World :=
  let s := bountyPool w in
  let! _ := onlyVerificationContract m s in
  let! _ := revert_if (taskBounties s@taskId <? amount)
              (PoolInsufficientBounty taskId amount (taskBounties s@taskId)) in
  let! scaled := umul amount PLATFORM_FEE_PERCENTAGE in
  let! platformFee := udiv scaled BASIS_POINTS in
  let! workerReward := usub amount platformFee in
  let! balance := usub (taskBounties s@taskId) amount in
  let! fees := uadd (accumulatedFees s) platformFee in
  let w := with_bountyPool
             (with_funds (<[taskId := balance]> (taskBounties s)) fees s) w in
  match call_value D (bountyPoolAt D) worker workerReward w with
  | Some w => Ok w
  | None => Revert (TransferFailed worker workerReward)
  end.

Definition refundBounty (D : Deployment) (m : Msg) (taskId : Z)
    (creator : address) (amount : Z) (w : World) : result World :=
  let s := bountyPool w in
  let! _ := onlyTaskManager m s in
  let! _ := revert_if (taskBounties s@taskId <? amount)
              (PoolInsufficientBounty taskId amount (taskBounties s@taskId)) in
  let! scaled := umul amount EXPIRED_TASK_FEE_PERCENTAGE in
  let! platformFee := udiv scaled BASIS_POINTS in
  let! refundAmount := usub amount platformFee in
  let! balance := usub (taskBounties s@taskId) amount in
  let! fees := uadd (accumulatedFees s) platformFee in
  let w := with_bountyPool
             (with_funds (<[taskId := balance]> (taskBounties s)) fees s) w in
  match call_value D (bountyPoolAt D) creator refundAmount w with
  | Some w => Ok w
  | None => Revert (TransferFailed creator refundAmount)
  end.

Definition withdrawPlatformFees (D : Deployment) (m : Msg) (w : World)
    : result World :=
  let s := bountyPool w in
  let! _ := onlyOwner m s in
  let amount := accumulatedFees s in
  let! _ := revert_if (amount =? 0) NoFeesToWithdraw in
  let w := with_bountyPool (with_funds (taskBounties s) 0 s) w in
  match call_value D (bountyPoolAt D) (owner s) amount w with
  | Some w => Ok w
  | None => Revert (TransferFailed (owner s) amount)
  end.

Definition getTaskBounty (taskId : Z) (w : World) : Z :=
  taskBounties (bountyPool w)@taskId.

Definition getAccumulatedFees (w : World) : Z := accumulatedFees (bountyPool w).

Definition calculatePlatformFee (amount : Z) : result Z :=
  let! scaled := umul amount PLATFORM_FEE_PERCENTAGE in
  udiv scaled BASIS_POINTS.

Definition calculateExpiredTaskFee (amount : Z) : result Z :=
  let! scaled := umul amount EXPIRED_TASK_FEE_PERCENTAGE in
  udiv scaled BASIS_POINTS.

(** [receive() external payable {}]: a plain payment to the contract. *)
Definition receive (D : Deployment) (m : Msg) (w : World) : result World :=
  receive_value (bountyPoolAt D) m w.

(** The state-changing calls of the contract. *)
Inductive Call : Type :=
| SetTaskManager (a : address)
| SetVerificationContract (a : address)
| DepositBounty (taskId : Z)
| DistributeReward (taskId : Z) (worker : address) (amount : Z)
| RefundBounty (taskId : Z) (creator : address) (amount : Z)
| WithdrawPlatformFees
| Receive.

Definition call (D : Deployment) (m : Msg) (c : Call) (w : World)
    : result World :=
  match c with
  | SetTaskManager a => setTaskManager m a w
  | SetVerificationContract a => setVerificationContract m a w
  | DepositBounty taskId => depositBounty D m taskId w
  | DistributeReward taskId worker amount =>
      distributeReward D m taskId worker amount w
  | RefundBounty taskId creator amount =>
      refundBounty D m taskId creator amount w
  | WithdrawPlatformFees => withdrawPlatformFees D m w
  | Receive => receive D m w
  end.

Definition apply (D : Deployment) (w : World) (tx : Msg * Call) : World :=
  match call D (fst tx) (snd tx) w with
  | Ok w' => w'
  | Revert _ => w
  end.

Definition run (D : Deployment) (txs : list (Msg * Call)) (w : World) : World :=
  fold_left (apply D) txs w.

End BountyPool.

(** ** VerificationContract *)

Module VerificationContract.
Import VerificationStorage.

Definition VERIFICATION_STAKE : Z := ether / 10.
Definition CONSENSUS_THRESHOLD : Z := 3.
Definition MAX_VERIFIERS : Z := 7.
Definition VERIFICATION_REWARD_PERCENTAGE : Z := 1000.
Definition BASIS_POINTS : Z := 10000.
Definition REWARD_DISTRIBUTION_DELAY : Z := 5 * minutes.

Definition onlyOwner (m : Msg) (s : t) : result unit :=
  revert_if (negb (sender m =? owner s)) (OwnableUnauthorizedAccount (sender m)).

Definition onlyTaskManager (m : Msg) (s : t) : result unit :=
  revert_if (negb (sender m =? taskManagerAddress s))
    (UnauthorizedCaller (sender m)).

Definition setBountyPool (m : Msg) (_bountyPool : address) (w : World)
    : result World :=
  let s := verification w in
  let! _ := onlyOwner m s in
  let! _ := revert_if (_bountyPool =? 0) (InvalidAddress _bountyPool) in
  Ok (with_verification
        (with_addresses _bountyPool (reputationContractAddress s)
           (taskManagerAddress s) (antiFraudAddress s) s) w).

Definition setReputationContract (m : Msg) (_reputationContract : address)
    (w : World) : result World :=
  let s := verification w in
  let! _ := onlyOwner m s in
  let! _ := revert_if (_reputationContract =? 0)
              (InvalidAddress _reputationContract) in
  Ok (with_verification
        (with_addresses (bountyPoolAddress s) _reputationContract
           (taskManagerAddress s) (antiFraudAddress s) s) w).

Definition setTaskManager (m : Msg) (_taskManager : address) (w : World)
    : result World :=
  let s := verification w in
  let! _ := onlyOwner m s in
  let! _ := revert_if (_taskManager =? 0) (InvalidAddress _taskManager) in
  Ok (with_verification
        (with_addresses (bountyPoolAddress s) (reputationContractAddress s)
           _taskManager (antiFraudAddress s) s) w).

Definition setAntiFraud (m : Msg) (_antiFraud : address) (w : World)
    : result World :=
  let s := verification w in
  let! _ := onlyOwner m s in
  let! _ := revert_if (_antiFraud =? 0) (InvalidAddress _antiFraud) in
  Ok (with_verification
        (with_addresses (bountyPoolAddress s) (reputationContractAddress s)
           (taskManagerAddress s) _antiFraud s) w).

(** The outgoing calls.  [msg.sender] of the callee is this contract. *)
Definition outgoing (D : Deployment) (m : Msg) : Msg :=
  mkMsg (verificationAt D) 0 (timestamp m).

Definition IReputationContract_updateWorkerReputation (D : Deployment)
    (m : Msg) (target worker : address) (successful : bool) (w : World)
    : result World :=
  if target =? reputationAt D then
    let! r := ReputationContract.updateWorkerReputation (outgoing D m) worker
                successful (reputation w) in
    Ok (with_reputation r w)
  else Revert (UnknownCallee target).

Definition IReputationContract_updateVerifierReputation (D : Deployment)
    (m : Msg) (target verifier : address) (accurateVote : bool) (w : World)
    : result World :=
  if target =? reputationAt D then
    let! r := ReputationContract.updateVerifierReputation (outgoing D m)
                verifier accurateVote (reputation w) in
    Ok (with_reputation r w)
  else Revert (UnknownCallee target).

Definition IAntiFraud_forfeitStake (D : Deployment) (m : Msg)
    (target worker : address) (reason : string) (w : World) : result World :=
  if target =? antiFraudAt D then
    let! a := AntiFraud.forfeitStake (outgoing D m) worker reason
                (antiFraud w) in
    Ok (with_antiFraud a w)
  else Revert (UnknownCallee target).

Definition IBountyPool_distributeReward (D : Deployment) (m : Msg)
    (target : address) (taskId : Z) (worker : address) (amount : Z)
    (w : World) : result World :=
  if target =? bountyPoolAt D then
    BountyPool.distributeReward D (outgoing D m) taskId worker amount w
  else Revert (UnknownCallee target).

Definition createSubmission (m : Msg) (taskId : Z) (worker : address)
    (ipfsHash : string) (location : Location.t) (bountyAmount : Z)
    (w : World) : result (World * Z) :=
  let s := verification w in
  let! _ := onlyTaskManager m s in
  let submissionId := submissionIdCounter s in
  let! next := uadd (submissionIdCounter s) 1 in
  let submission :=
    Submission.mk submissionId taskId worker ipfsHash (timestamp m) location
      PENDING 0 0 0 bountyAmount false in
  Ok (with_verification
        (with_submissions (<[submissionId := submission]> (submissions s))
           (with_submissionIdCounter next s)) w,
      submissionId).

Definition stakeForVerification (D : Deployment) (m : Msg) (submissionId : Z)
    (w : World) : result World :=
  let! w := receive_value (verificationAt D) m w in
  let s := verification w in
  let submission := submissions s@submissionId in
  let! _ := revert_if (negb (Submission.id submission =? submissionId))
              (SubmissionNotFound submissionId) in
  let! _ := revert_if
              (negb (bool_decide (Submission.status submission = PENDING))
               && negb (bool_decide (Submission.status submission = DISPUTED)))
              (AlreadyVerified submissionId) in
  let vote := verificationVotes s@(submissionId, sender m) in
  let! _ := revert_if (Vote.hasVoted vote)
              (AlreadyVoted (sender m) submissionId) in
  let! _ := revert_if
              (MAX_VERIFIERS <=? Z.of_nat (length (submissionVerifiers s@submissionId)))
              (MaxVerifiersReached submissionId) in
  let! _ := revert_if (sender m =? Submission.worker submission)
              (WorkerCannotVerifyOwnSubmission (sender m)) in
  let! _ := revert_if (value m <? VERIFICATION_STAKE)
              (InsufficientStake (value m) VERIFICATION_STAKE) in
  let vote :=
    Vote.mk (Vote.hasVoted vote) (Vote.approved vote) (Vote.timestamp vote)
      (value m) in
  Ok (with_verification
        (with_submissionVerifiers
           (<[submissionId := (submissionVerifiers s@submissionId) ++ [sender m]]>
              (submissionVerifiers s))
           (with_verificationVotes
              (<[(submissionId, sender m) := vote]> (verificationVotes s)) s))
        w).

Definition _checkConsensus (D : Deployment) (m : Msg) (submissionId : Z)
    (w : World) : result World :=
  let s := verification w in
  let submission := submissions s@submissionId in
  if CONSENSUS_THRESHOLD <=? Submission.approvalCount submission then
    let s :=
      with_consensusReachedAt
        (<[submissionId := timestamp m]> (consensusReachedAt s))
        (with_submissions
           (<[submissionId := Submission.with_status VERIFIED submission]>
              (submissions s)) s) in
    let w := with_verification s w in
    if negb (reputationContractAddress s =? 0) then
      IReputationContract_updateWorkerReputation D m
        (reputationContractAddress s) (Submission.worker submission) true w
    else Ok w
  else if CONSENSUS_THRESHOLD <=? Submission.rejectionCount submission then
    let s :=
      with_consensusReachedAt
        (<[submissionId := timestamp m]> (consensusReachedAt s))
        (with_submissions
           (<[submissionId := Submission.with_status REJECTED submission]>
              (submissions s)) s) in
    let w := with_verification s w in
    let! w :=
      if negb (reputationContractAddress s =? 0) then
        IReputationContract_updateWorkerReputation D m
          (reputationContractAddress s) (Submission.worker submission) false w
      else Ok w in
    if negb (antiFraudAddress s =? 0) then
      IAntiFraud_forfeitStake D m (antiFraudAddress s)
        (Submission.worker submission) "Submission rejected by consensus" w
    else Ok w
  else if MAX_VERIFIERS <=? Submission.totalVotes submission then
    Ok (with_verification
          (with_submissions
             (<[submissionId := Submission.with_status DISPUTED submission]>
                (submissions s)) s) w)
  else Ok w.

Definition submitVerification (D : Deployment) (m : Msg) (submissionId : Z)
    (approved : bool) (feedback : string) (w : World) : result World :=
  let s := verification w in
  let submission := submissions s@submissionId in
  let vote := verificationVotes s@(submissionId, sender m) in
  let! _ := revert_if (negb (Submission.id submission =? submissionId))
              (SubmissionNotFound submissionId) in
  let! _ := revert_if (Vote.stake vote =? 0)
              (InsufficientStake 0 VERIFICATION_STAKE) in
  let! _ := revert_if (Vote.hasVoted vote)
              (AlreadyVoted (sender m) submissionId) in
  let vote := Vote.mk true approved (timestamp m) (Vote.stake vote) in
  let! total := uadd (Submission.totalVotes submission) 1 in
  let! approvals :=
    if approved then uadd (Submission.approvalCount submission) 1
    else Ok (Submission.approvalCount submission) in
  let! rejections :=
    if approved then Ok (Submission.rejectionCount submission)
    else uadd (Submission.rejectionCount submission) 1 in
  let submission :=
    Submission.with_counts approvals rejections total submission in
  let s :=
    with_submissions (<[submissionId := submission]> (submissions s))
      (with_verificationVotes
         (<[(submissionId, sender m) := vote]> (verificationVotes s)) s) in
  _checkConsensus D m submissionId (with_verification s w).

(** The loop of [_distributeVerifierRewards] over the memory copy of the
    verifier list; the second component is [totalReward]. *)
Fixpoint reward_verifiers (D : Deployment) (m : Msg) (submissionId : Z)
    (consensusApproved : bool) (verifiers : list address) (totalReward : Z)
    (w : World) : result (World * Z) :=
  match verifiers with
  | [] => Ok (w, totalReward)
  | verifier :: rest =>
      let s := verification w in
      let vote := verificationVotes s@(submissionId, verifier) in
      if negb (Vote.hasVoted vote) then
        reward_verifiers D m submissionId consensusApproved rest totalReward w
      else
        let votedWithConsensus :=
          Bool.eqb (Vote.approved vote) consensusApproved in
        if votedWithConsensus then
          let! scaled := umul (Vote.stake vote) VERIFICATION_REWARD_PERCENTAGE in
          let! bonus := udiv scaled BASIS_POINTS in
          let! reward := uadd (Vote.stake vote) bonus in
          let! totalReward := uadd totalReward reward in
          let! w :=
            match call_value D (verificationAt D) verifier reward w with
            | Some w => Ok w
            | None => Revert (RequireFailed "Verifier reward transfer failed")
            end in
          let! w :=
            if negb (reputationContractAddress s =? 0) then
              IReputationContract_updateVerifierReputation D m
                (reputationContractAddress s) verifier true w
            else Ok w in
          reward_verifiers D m submissionId consensusApproved rest
            totalReward w
        else
          let! w :=
            if negb (reputationContractAddress s =? 0) then
              IReputationContract_updateVerifierReputation D m
                (reputationContractAddress s) verifier false w
            else Ok w in
          reward_verifiers D m submissionId consensusApproved rest
            totalReward w
  end.

Definition _distributeVerifierRewards (D : Deployment) (m : Msg)
    (submissionId : Z) (w : World) : result World :=
  let s := verification w in
  let submission := submissions s@submissionId in
  let verifiers := submissionVerifiers s@submissionId in
  let consensusApproved :=
    bool_decide (Submission.status submission = VERIFIED) in
  let! r := reward_verifiers D m submissionId consensusApproved verifiers 0 w in
  Ok (fst r).

Definition distributeVerificationRewards (D : Deployment) (m : Msg)
    (submissionId : Z) (w : World) : result World :=
  let s := verification w in
  let submission := submissions s@submissionId in
  let! _ := revert_if (negb (Submission.id submission =? submissionId))
              (SubmissionNotFound submissionId) in
  let! _ := revert_if
              (negb (bool_decide (Submission.status submission = VERIFIED))
               && negb (bool_decide (Submission.status submission = REJECTED)))
              (ConsensusNotReached submissionId) in
  let! _ := revert_if (Submission.rewardDistributed submission)
              (RewardAlreadyDistributed submissionId) in
  let! timeSinceConsensus :=
    usub (timestamp m) (consensusReachedAt s@submissionId) in
  let! _ := revert_if (timeSinceConsensus <? REWARD_DISTRIBUTION_DELAY)
              (RewardDistributionTooEarly submissionId
                 (REWARD_DISTRIBUTION_DELAY - timeSinceConsensus)) in
  let submission := Submission.with_rewardDistributed true submission in
  let w :=
    with_verification
      (with_submissions (<[submissionId := submission]> (submissions s)) s)
      w in
  let! w :=
    if bool_decide (Submission.status submission = VERIFIED)
       && negb (bountyPoolAddress s =? 0)
    then
      IBountyPool_distributeReward D m (bountyPoolAddress s)
        (Submission.taskId submission) (Submission.worker submission)
        (Submission.bountyAmount submission) w
    else Ok w in
  _distributeVerifierRewards D m submissionId w.

Definition getSubmission (submissionId : Z) (w : World) : Submission.t :=
  submissions (verification w)@submissionId.

Definition getVote (submissionId : Z) (verifier : address) (w : World)
    : Vote.t :=
  verificationVotes (verification w)@(submissionId, verifier).

Definition getSubmissionVerifiers (submissionId : Z) (w : World)
    : list address :=
  submissionVerifiers (verification w)@submissionId.

Definition hasConsensus (submissionId : Z) (w : World) : bool :=
  let submission := submissions (verification w)@submissionId in
  bool_decide (Submission.status submission = VERIFIED)
  || bool_decide (Submission.status submission = REJECTED).

(** [receive() external payable {}]: a plain payment to the contract. *)
Definition receive (D : Deployment) (m : Msg) (w : World) : result World :=
  receive_value (verificationAt D) m w.

(** The state-changing calls of the contract. *)
Inductive Call : Type :=
| SetBountyPool (a : address)
| SetReputationContract (a : address)
| SetTaskManager (a : address)
| SetAntiFraud (a : address)
| CreateSubmission (taskId : Z) (worker : address) (ipfsHash : string)
    (location : Location.t) (bountyAmount : Z)
| StakeForVerification (submissionId : Z)
| SubmitVerification (submissionId : Z) (approved : bool) (feedback : string)
| DistributeVerificationRewards (submissionId : Z)
| Receive.

Definition call (D : Deployment) (m : Msg) (c : Call) (w : World)
    : result World :=
  match c with
  | SetBountyPool a => setBountyPool m a w
  | SetReputationContract a => setReputationContract m a w
  | SetTaskManager a => setTaskManager m a w
  | SetAntiFraud a => setAntiFraud m a w
  | CreateSubmission taskId worker ipfsHash location bountyAmount =>
      let! r := createSubmission m taskId worker ipfsHash location
                  bountyAmount w in
      Ok (fst r)
  | StakeForVerification submissionId => stakeForVerification D m submissionId w
  | SubmitVerification submissionId approved feedback =>
      submitVerification D m submissionId approved feedback w
  | DistributeVerificationRewards submissionId =>
      distributeVerificationRewards D m submissionId w
  | Receive => receive D m w
  end.

Definition apply (D : Deployment) (w : World) (tx : Msg * Call) : World :=
  match call D (fst tx) (snd tx) w with
  | Ok w' => w'
  | Revert _ => w
  end.

Definition run (D : Deployment) (txs : list (Msg * Call)) (w : World) : World :=
  fold_left (apply D) txs w.

End VerificationContract.

(** ** TaskManager *)

Module TaskManager.
Import TaskManagerStorage.

Definition MINIMUM_BOUNTY : Z := ether / 2.
Definition MAX_ACTIVE_TASKS_PER_WORKER : Z := 3.
Definition TASK_COMPLETION_TIMEOUT : Z := 24 * hours.

Definition onlyOwner (m : Msg) (s : t) : result unit :=
  revert_if (negb (sender m =? owner s)) (OwnableUnauthorizedAccount (sender m)).

Definition setAntiFraud (m : Msg) (_antiFraud : address) (w : World)
    : result World :=
  let s := taskManager w in
  let! _ := onlyOwner m s in
  let! _ := revert_if (_antiFraud =? 0) (RequireFailed "Invalid address") in
  Ok (with_taskManager (with_antiFraudAddress _antiFraud s) w).

(** [msg.value] is received by the contract and stays there: the body
    reads only the [bountyAmount] argument. *)
Definition createTask (D : Deployment) (m : Msg) (description : string)
    (category : TaskCategory) (bountyAmount maxWorkers : Z)
    (location : Location.t) (deadline : Z)
    (requirements : TaskRequirements.t) (w : World) : result (World * Z) :=
  let! w := receive_value (taskManagerAt D) m w in
  let s := taskManager w in
  let! _ := revert_if (bountyAmount <? MINIMUM_BOUNTY)
              (InsufficientBounty bountyAmount MINIMUM_BOUNTY) in
  let! _ := revert_if (deadline <=? timestamp m) (DeadlineExpired 0 deadline) in
  let taskId := taskIdCounter s in
  let! next := uadd (taskIdCounter s) 1 in
  let task :=
    Task.mk taskId (sender m) description category bountyAmount maxWorkers
      location deadline ACTIVE requirements 0 0 (timestamp m) in
  Ok (with_taskManager
        (with_tasks (<[taskId := task]> (tasks s)) (with_taskIdCounter next s))
        w,
      taskId).

Definition claimTask (m : Msg) (taskId : Z) (w : World)
    : result (World * bool) :=
  let s := taskManager w in
  let task := tasks s@taskId in
  let! _ := revert_if (negb (Task.id task =? taskId)) (InvalidTaskId taskId) in
  let! _ := revert_if (negb (bool_decide (Task.status task = ACTIVE)))
              (TaskNotActive taskId) in
  let! _ := revert_if (Task.deadline task <? timestamp m)
              (DeadlineExpired taskId (Task.deadline task)) in
  let! _ := revert_if
              (negb (TaskClaim.worker (taskClaims s@(taskId, sender m)) =? 0))
              (WorkerAlreadyClaimed (sender m) taskId) in
  let! _ := revert_if
              (MAX_ACTIVE_TASKS_PER_WORKER
               <=? Z.of_nat (length (workerActiveTasks s@sender m)))
              (MaxActiveTasksReached (sender m)) in
  let! _ := revert_if
              (Task.maxWorkers task <=? Z.of_nat (length (taskWorkers s@taskId)))
              (TaskNotActive taskId) in
  let claims :=
    <[(taskId, sender m) := TaskClaim.mk (sender m) (timestamp m) false]>
      (taskClaims s) in
  let active :=
    <[sender m := (workerActiveTasks s@sender m) ++ [taskId]]>
      (workerActiveTasks s) in
  let workers := (taskWorkers s@taskId) ++ [sender m] in
  let task :=
    if bool_decide (Task.status task = ACTIVE) && (0 <? Z.of_nat (length workers))
    then Task.with_status IN_PROGRESS task
    else task in
  Ok (with_taskManager
        (with_tasks (<[taskId := task]> (tasks s))
           (with_taskWorkers (<[taskId := workers]> (taskWorkers s))
              (with_workerActiveTasks active (with_taskClaims claims s))))
        w,
      true).

(** The explicit conversion [uint256(...)] of the sum of two squares is
    the identity: the sum is never negative. *)
Definition _isWithinRadius (required provided : Location.t) : result bool :=
  let! latDiff := isub (Location.latitude required) (Location.latitude provided) in
  let! lonDiff := isub (Location.longitude required) (Location.longitude provided) in
  let! latSquare := imul latDiff latDiff in
  let! lonSquare := imul lonDiff lonDiff in
  let! distanceSquared := iadd latSquare lonSquare in
  let! radiusSquared := umul (Location.radius required) (Location.radius required) in
  let scaleFactor := 10 ^ 12 in
  let! scaled := umul radiusSquared scaleFactor in
  let! bound := udiv scaled (111000 * 111000) in
  Ok (distanceSquared <=? bound).

(** The loop of [_removeActiveTask]: [i] runs over the indices left to
    visit; at the first match the last element is copied over it and the
    array loses its last slot.  [None]: no match, nothing written. *)
Fixpoint remove_at_first_match (taskId : Z) (activeTasks : list Z) (i : nat)
    (remaining : nat) : option (list Z) :=
  match remaining with
  | O => None
  | S remaining' =>
      match activeTasks !! i with
      | Some x =>
          if x =? taskId then
            Some (removelast (<[i := List.last activeTasks 0]> activeTasks))
          else remove_at_first_match taskId activeTasks (S i) remaining'
      | None => None
      end
  end.

Definition _removeActiveTask (worker : address) (taskId : Z) (s : t) : t :=
  let activeTasks := workerActiveTasks s@worker in
  match remove_at_first_match taskId activeTasks 0 (length activeTasks) with
  | Some l => with_workerActiveTasks (<[worker := l]> (workerActiveTasks s)) s
  | None => s
  end.

Definition IAntiFraud_checkAndRecordSubmission (D : Deployment) (m : Msg)
    (target worker : address) (taskId : Z) (imageHash : string)
    (metadataHash : Z) (w : World) : result World :=
  if target =? antiFraudAt D then
    let! r := AntiFraud.checkAndRecordSubmission
                (mkMsg (taskManagerAt D) 0 (timestamp m)) worker taskId
                imageHash metadataHash (antiFraud w) in
    Ok (with_antiFraud (fst r) w)
  else Revert (UnknownCallee target).

Definition submitTaskCompletion (D : Deployment) (m : Msg) (taskId : Z)
    (ipfsHash : string) (submissionLocation : Location.t) (w : World)
    : result (World * Z) :=
  let s := taskManager w in
  let task := tasks s@taskId in
  let! _ := revert_if (negb (Task.id task =? taskId)) (InvalidTaskId taskId) in
  let! _ := revert_if (TaskClaim.worker (taskClaims s@(taskId, sender m)) =? 0)
              (TaskNotClaimed (sender m) taskId) in
  let! _ := revert_if (Task.deadline task <? timestamp m)
              (DeadlineExpired taskId (Task.deadline task)) in
  let claim := taskClaims s@(taskId, sender m) in
  let! claimDeadline := uadd (TaskClaim.claimedAt claim) TASK_COMPLETION_TIMEOUT in
  let! _ := revert_if (claimDeadline <? timestamp m)
              (DeadlineExpired taskId claimDeadline) in
  let! _ :=
    if TaskRequirements.requiresLocation (Task.requirements task) then
      let! within := _isWithinRadius (Task.location task) submissionLocation in
      revert_if (negb within)
        (OutsideLocationRadius
           (Location.latitude (Task.location task))
           (Location.longitude (Task.location task))
           (Location.latitude submissionLocation)
           (Location.longitude submissionLocation))
    else Ok tt in
  let! w :=
    if negb (antiFraudAddress s =? 0) then
      let metadataHash :=
        keccak256 D taskId (sender m) ipfsHash (timestamp m)
          (Location.latitude submissionLocation)
          (Location.longitude submissionLocation) in
      IAntiFraud_checkAndRecordSubmission D m (antiFraudAddress s) (sender m)
        taskId ipfsHash metadataHash w
    else Ok w in
  let s := taskManager w in
  let s :=
    with_taskClaims
      (<[(taskId, sender m) := TaskClaim.with_completed true claim]>
         (taskClaims s)) s in
  let s := _removeActiveTask (sender m) taskId s in
  let! count := uadd (Task.submissionCount task) 1 in
  let s :=
    with_tasks (<[taskId := Task.with_submissionCount count task]> (tasks s)) s in
  Ok (with_taskManager s w, count).

(** Only [TaskManager] storage is read and written here; no other
    contract is called. *)
Definition expireTask (m : Msg) (taskId : Z) (w : World)
    : result (World * bool) :=
  let s := taskManager w in
  let task := tasks s@taskId in
  let! _ := revert_if (negb (Task.id task =? taskId)) (InvalidTaskId taskId) in
  let! _ := revert_if (timestamp m <=? Task.deadline task)
              (DeadlineExpired taskId (Task.deadline task)) in
  if bool_decide (Task.status task = EXPIRED)
     || bool_decide (Task.status task = COMPLETED)
  then Ok (w, false)
  else
    Ok (with_taskManager
          (with_tasks (<[taskId := Task.with_status EXPIRED task]> (tasks s)) s)
          w,
        true).

Definition getTask (taskId : Z) (w : World) : Task.t :=
  tasks (taskManager w)@taskId.

Definition getWorkerActiveTasks (worker : address) (w : World) : list Z :=
  workerActiveTasks (taskManager w)@worker.

Definition getTaskWorkers (taskId : Z) (w : World) : list address :=
  taskWorkers (taskManager w)@taskId.

Definition hasWorkerClaimed (taskId : Z) (worker : address) (w : World)
    : bool :=
  negb (TaskClaim.worker (taskClaims (taskManager w)@(taskId, worker)) =? 0).

(** The state-changing calls of the contract. *)
Inductive Call : Type :=
| SetAntiFraud (a : address)
| CreateTask (description : string) (category : TaskCategory)
    (bountyAmount maxWorkers : Z) (location : Location.t) (deadline : Z)
    (requirements : TaskRequirements.t)
| ClaimTask (taskId : Z)
| SubmitTaskCompletion (taskId : Z) (ipfsHash : string)
    (submissionLocation : Location.t)
| ExpireTask (taskId : Z).

Definition call (D : Deployment) (m : Msg) (c : Call) (w : World)
    : result World :=
  match c with
  | SetAntiFraud a => setAntiFraud m a w
  | CreateTask description category bountyAmount maxWorkers location deadline
      requirements =>
      let! r := createTask D m description category bountyAmount maxWorkers
                  location deadline requirements w in
      Ok (fst r)
  | ClaimTask taskId => let! r := claimTask m taskId w in Ok (fst r)
  | SubmitTaskCompletion taskId ipfsHash submissionLocation =>
      let! r := submitTaskCompletion D m taskId ipfsHash submissionLocation w in
      Ok (fst r)
  | ExpireTask taskId => let! r := expireTask m taskId w in Ok (fst r)
  end.

Definition apply (D : Deployment) (w : World) (tx : Msg * Call) : World :=
  match call D (fst tx) (snd tx) w with
  | Ok w' => w'
  | Revert _ => w
  end.

Definition run (D : Deployment) (txs : list (Msg * Call)) (w : World) : World :=
  fold_left (apply D) txs w.

End TaskManager.

(** ** The deployed system

    A transaction is a call of one function of one of the five contracts,
    sent by an account.  The two setters of [ReputationContract] that are
    not among its [Call]s are listed here. *)

Module System.

Inductive Call : Type :=
| ToTaskManager (c : TaskManager.Call)
| ToBountyPool (c : BountyPool.Call)
| ToVerification (c : VerificationContract.Call)
| ToReputation (c : ReputationContract.Call)
| ReputationSetVerificationContract (a : address)
| ReputationSetTaskManager (a : address)
| ToAntiFraud (c : AntiFraud.Call).

Definition call (D : Deployment) (m : Msg) (c : Call) (w : World)
    : result World :=
  match c with
  | ToTaskManager c => TaskManager.call D m c w
  | ToBountyPool c => BountyPool.call D m c w
  | ToVerification c => VerificationContract.call D m c w
  | ToReputation c =>
      let! r := ReputationContract.call m c (reputation w) in
      Ok (with_reputation r w)
  | ReputationSetVerificationContract a =>
      let! r := ReputationContract.setVerificationContract m a (reputation w) in
      Ok (with_reputation r w)
  | ReputationSetTaskManager a =>
      let! r := ReputationContract.setTaskManager m a (reputation w) in
      Ok (with_reputation r w)
  | ToAntiFraud c =>
      let! a := AntiFraud.call m c (antiFraud w) in
      Ok (with_antiFraud a w)
  end.

Definition apply (D : Deployment) (w : World) (tx : Msg * Call) : World :=
  match call D (fst tx) (snd tx) w with
  | Ok w' => w'
  | Revert _ => w
  end.

Definition run (D : Deployment) (txs : list (Msg * Call)) (w : World) : World :=
  fold_left (apply D) txs w.

End System.

(** ** Deployment

    [main] of [scripts/createDemoTasks.ts]: the five contracts are
    created by one account and then told the addresses of each other.
    Each contract's [constructor() Ownable(msg.sender) {}] leaves the
    storage at zero and makes the sender the owner.  The script awaits
    every transaction, so a revert stops it. *)

Module Deploy.

Definition AntiFraud_constructor (m : Msg) : AntiFraudStorage.t :=
  AntiFraudStorage.mk ∅ ∅ ∅ ∅ ∅ ∅ 0 0 (sender m).

Definition ReputationContract_constructor (m : Msg) : ReputationStorage.t :=
  ReputationStorage.mk ∅ 0 0 (sender m).

Definition BountyPool_constructor (m : Msg) : BountyPoolStorage.t :=
  BountyPoolStorage.mk ∅ 0 0 0 (sender m).

Definition VerificationContract_constructor (m : Msg)
    : VerificationStorage.t :=
  VerificationStorage.mk 0 ∅ ∅ ∅ ∅ 0 0 0 0 (sender m).

Definition TaskManager_constructor (m : Msg) : TaskManagerStorage.t :=
  TaskManagerStorage.mk 0 ∅ ∅ ∅ ∅ 0 (sender m).

Definition constructors (m : Msg) (ledger : gmap address Z) : World :=
  mkWorld ledger (TaskManager_constructor m) (BountyPool_constructor m)
    (VerificationContract_constructor m) (ReputationContract_constructor m)
    (AntiFraud_constructor m).

(** Step 6, "Setting up contract interconnections", in its order. *)
Definition interconnections (D : Deployment) : list System.Call :=
  [System.ToAntiFraud (AntiFraud.SetTaskManager (taskManagerAt D));
   System.ToAntiFraud (AntiFraud.SetVerificationContract (verificationAt D));
   System.ToBountyPool (BountyPool.SetTaskManager (taskManagerAt D));
   System.ToBountyPool (BountyPool.SetVerificationContract (verificationAt D));
   System.ToVerification
     (VerificationContract.SetBountyPool (bountyPoolAt D));
   System.ToVerification
     (VerificationContract.SetReputationContract (reputationAt D));
   System.ToVerification
     (VerificationContract.SetTaskManager (taskManagerAt D));
   System.ToVerification (VerificationContract.SetAntiFraud (antiFraudAt D));
   System.ReputationSetVerificationContract (verificationAt D);
   System.ReputationSetTaskManager (taskManagerAt D);
   System.ToTaskManager (TaskManager.SetAntiFraud (antiFraudAt D))].

Fixpoint await_all (D : Deployment) (m : Msg) (calls : list System.Call)
    (w : World) : result World :=
  match calls with
  | [] => Ok w
  | c :: rest =>
      let! w := System.call D m c w in
      await_all D m rest w
  end.

Definition main (D : Deployment) (m : Msg) (ledger : gmap address Z)
    : result World :=
  await_all D m (interconnections D) (constructors m ledger).

End Deploy.

(** ** The great-circle distance of the mobile client

    [LocationService.calculateDistance] of [services/location.ts], the
    haversine formula, over the real numbers instead of floating point.
    Both arguments of its [Math.atan2] are square roots, so only the
    closed first quadrant of [atan2] is needed. *)

Module LocationService.

Definition atan2 (y x : R) : R :=
  if Rlt_dec 0 x then atan (y / x)
  else if Rlt_dec 0 y then (PI / 2)%R
  else 0%R.

Definition calculateDistance (lat1 lon1 lat2 lon2 : R) : R :=
  let R := 6371000%R in
  let phi1 := (lat1 * PI / 180)%R in
  let phi2 := (lat2 * PI / 180)%R in
  let dphi := ((lat2 - lat1) * PI / 180)%R in
  let dlambda := ((lon2 - lon1) * PI / 180)%R in
  let a :=
    (sin (dphi / 2) * sin (dphi / 2)
     + cos phi1 * cos phi2 * sin (dlambda / 2) * sin (dlambda / 2))%R in
  let c := (2 * atan2 (sqrt a) (sqrt (1 - a)))%R in
  (R * c)%R.

(** Degrees of a coordinate stored scaled by 1e6. *)
Definition degrees (scaled : Z) : R := (IZR scaled / 1000000)%R.

(** The provided point is farther from the centre of the geofence than
    its radius in meters, by great-circle distance. *)
Definition outside_geofence (required provided : Location.t) : Prop :=
  (IZR (Location.radius required)
   < calculateDistance
       (degrees (Location.latitude provided))
       (degrees (Location.longitude provided))
       (degrees (Location.latitude required))
       (degrees (Location.longitude required)))%R.

End LocationService.

(** ** A deployment and its accounts

    The wiring is the one the repository's test suite sets up: the pool
    and the reputation contract know the verification contract and the
    task manager, the verification contract knows the pool and the
    reputation contract, the task manager and [AntiFraud] know each other.
    The verification contract takes submissions from the deployer's
    account, as the suite has it, and has no [AntiFraud] configured. *)

Module Scenario.

Definition deployer : address := 100.
Definition creator : address := 101.
Definition worker1 : address := 102.
Definition worker2 : address := 103.
Definition verifier1 : address := 201.
Definition verifier2 : address := 202.
Definition verifier3 : address := 203.
Definition verifier4 : address := 204.
Definition verifier5 : address := 205.
Definition verifier6 : address := 206.

(** Any hash that is never zero will do for the metadata. *)
Definition D : Deployment :=
  mkDeployment 1 2 3 4 5 (fun _ _ _ _ _ _ => 1).

Definition funded_accounts : gmap address Z :=
  list_to_map
    (map (fun a => (a, 100 * ether))
       [deployer; creator; worker1; worker2; verifier1; verifier2; verifier3;
        verifier4; verifier5; verifier6]).

Definition wired : World :=
  mkWorld funded_accounts
    (TaskManagerStorage.mk 0 ∅ ∅ ∅ ∅ (antiFraudAt D) deployer)
    (BountyPoolStorage.mk ∅ 0 (taskManagerAt D) (verificationAt D) deployer)
    (VerificationStorage.mk 0 ∅ ∅ ∅ ∅ (bountyPoolAt D) (reputationAt D)
       deployer 0 deployer)
    (ReputationStorage.mk ∅ (verificationAt D) (taskManagerAt D) deployer)
    (AntiFraudStorage.mk ∅ ∅ ∅ ∅ ∅ ∅ (verificationAt D) (taskManagerAt D)
       deployer).

Definition genesis : Z := 1700000000.

Definition no_requirements : TaskRequirements.t :=
  TaskRequirements.mk 1 false 0 PHOTO_VERIFICATION.

Definition anywhere : Location.t := Location.mk 0 0 100.

Definition deadline : Z := genesis + 1 * days.

Definition at_time (who : address) (attached : Z) (when : Z) : Msg :=
  mkMsg who attached when.

(** The creator opens task 0 with a bounty of one ether, attached. *)
Definition open_task : Msg * TaskManager.Call :=
  (at_time creator ether genesis,
   TaskManager.CreateTask "Take a photo of the storefront" PHOTO_VERIFICATION
     ether 5 anywhere deadline no_requirements).

Definition with_task : World := TaskManager.apply D wired open_task.

(** The deployer takes the task manager's place at the pool and deposits
    one ether for task 0, the way the test suite funds the escrow. *)
Definition escrowed : World :=
  match BountyPool.setTaskManager (at_time deployer 0 genesis) deployer
          with_task with
  | Ok w =>
      match BountyPool.depositBounty D (at_time deployer ether genesis) 0 w with
      | Ok w' => w'
      | Revert _ => w
      end
  | Revert _ => with_task
  end.

(** [worker1] has submitted the content hash "QmTest123" for task 0. *)
Definition first_recorded : AntiFraudStorage.t :=
  AntiFraud.run
    [(at_time (taskManagerAt D) 0 genesis,
      AntiFraud.CheckAndRecordSubmission worker1 0 "QmTest123" 1)]
    (antiFraud wired).

(** Four tasks that stay open for a week; [worker1] claims the first three
    a hundred seconds after they were created. *)
Definition week_end : Z := genesis + 7 * days.

Definition open_week_task : Msg * TaskManager.Call :=
  (at_time creator ether genesis,
   TaskManager.CreateTask "Check the opening hours" BUSINESS_HOURS ether 5
     anywhere week_end no_requirements).

Definition claimed_at : Z := genesis + 100.

Definition three_claims : World :=
  TaskManager.run D
    (replicate 4 open_week_task
     ++ [(at_time worker1 0 claimed_at, TaskManager.ClaimTask 0);
         (at_time worker1 0 claimed_at, TaskManager.ClaimTask 1);
         (at_time worker1 0 claimed_at, TaskManager.ClaimTask 2)])
    wired.

Definition after_timeout : Z := claimed_at + 24 * hours + 1.

(** A task on the equator that requires the submission to come from within
    111 km of (0, 0), claimed by [worker1]; and a point one degree north. *)
Definition fence : Location.t := Location.mk 0 0 111000.

Definition one_degree_north : Location.t := Location.mk 1000000 0 0.

Definition geofenced : World :=
  TaskManager.run D
    [(at_time creator ether genesis,
      TaskManager.CreateTask "Photograph the marker" LOCATION_CHECK ether 5
        fence week_end (TaskRequirements.mk 1 true 0 PHOTO_VERIFICATION));
     (at_time worker1 0 claimed_at, TaskManager.ClaimTask 0)]
    wired.

(** The scenario of the specification: a submission for task 0 with the
    bounty of one ether in escrow; the verification contract holds an
    ether of its own to pay the bonuses from. *)
Definition submitted_at : Z := genesis + 200.
Definition voted_at : Z := genesis + 300.

Definition stake : Z := ether / 10.

Definition submitted : World :=
  VerificationContract.run D
    [(at_time deployer 0 submitted_at,
      VerificationContract.CreateSubmission 0 worker1 "QmTestHash123"
        anywhere ether);
     (at_time deployer ether submitted_at, VerificationContract.Receive)]
    escrowed.

Definition stakes_and_votes (who : address) (approved : bool)
    : list (Msg * VerificationContract.Call) :=
  [(at_time who stake voted_at, VerificationContract.StakeForVerification 0);
   (at_time who 0 voted_at,
    VerificationContract.SubmitVerification 0 approved "no feedback")].

(** Three verifiers stake 0.1 ether each and approve. *)
Definition verified : World :=
  VerificationContract.run D
    (stakes_and_votes verifier1 true ++ stakes_and_votes verifier2 true
     ++ stakes_and_votes verifier3 true)
    submitted.

Definition cooled_down : Z := voted_at + 5 * minutes.

(** The payout, asked for by the deployer once the delay is over. *)
Definition settled : World :=
  VerificationContract.run D
    [(at_time deployer 0 cooled_down,
      VerificationContract.DistributeVerificationRewards 0)]
    verified.

(** Six verifiers stake before anyone votes. *)
Definition six_staked : World :=
  VerificationContract.run D
    (map (fun who =>
            (at_time who stake voted_at,
             VerificationContract.StakeForVerification 0))
       [verifier1; verifier2; verifier3; verifier4; verifier5; verifier6])
    submitted.

Definition votes (approved : bool) (who : list address)
    : list (Msg * VerificationContract.Call) :=
  map (fun a =>
         (at_time a 0 (voted_at + 10),
          VerificationContract.SubmitVerification 0 approved "no feedback"))
    who.

End Scenario.

(** ** Predicates of the statements *)

Definition score_bounded (rep : ReputationData.t) : Prop :=
  0 <= ReputationData.score rep <= 100.

Definition scores_bounded (s : ReputationStorage.t) : Prop :=
  forall user, score_bounded (ReputationStorage.reputations s@user).

(** The record of an identity after [n] outcomes as a worker, all of them
    successes ([ok = true]) or all of them failures, and nothing else. *)
Definition after_worker_outcomes (ok : bool) (n : nat)
    (rep : ReputationData.t) : Prop :=
  ReputationData.verificationsPerformed rep = 0
  /\ ReputationData.tasksCompleted rep
     = (if ok then Z.min (Z.of_nat n) MAX_UINT256 else 0)
  /\ ReputationData.tasksRejected rep
     = (if ok then 0 else Z.min (Z.of_nat n) MAX_UINT256)
  /\ ReputationData.score rep
     = (if Z.of_nat n =? 0 then 0
        else if ok then Z.min 100 (50 + 5 * Z.of_nat n)
        else Z.max 0 (50 - 5 * Z.of_nat n)).

(** The same for [n] outcomes as a verifier. *)
Definition after_verifier_outcomes (ok : bool) (n : nat)
    (rep : ReputationData.t) : Prop :=
  ReputationData.tasksCompleted rep = 0
  /\ ReputationData.tasksRejected rep = 0
  /\ ReputationData.verificationsPerformed rep
     = Z.min (Z.of_nat n) MAX_UINT256
  /\ ReputationData.accurateVerifications rep
     = (if ok then Z.min (Z.of_nat n) MAX_UINT256 else 0)
  /\ ReputationData.score rep
     = (if Z.of_nat n =? 0 then 0
        else if ok then Z.min 100 (50 + 5 * Z.of_nat n)
        else Z.max 0 (50 - 5 * Z.of_nat n)).

(** The state a call leaves behind: its result, or the state it started
    from when it reverts. *)
Definition commit {S : Type} (before : S) (r : result S) : S :=
  match r with
  | Ok after => after
  | Revert _ => before
  end.

(** The content hash is in the global index, claimed by [claimant]. *)
Definition claimed_by (imageHash : string) (claimant : address)
    (s : AntiFraudStorage.t) : Prop :=
  AntiFraud.isImageHashUsed imageHash s = true
  /\ AntiFraud.getImageHashWorker imageHash s = claimant.

(** The claim of [worker] on [taskId] is older than the completion
    timeout at the time of [m]. *)
Definition claim_timed_out (worker : address) (taskId : Z) (w : World)
    (m : Msg) : Prop :=
  TaskClaim.claimedAt
    (TaskManagerStorage.taskClaims (taskManager w)@(taskId, worker))
  + TaskManager.TASK_COMPLETION_TIMEOUT < timestamp m.

(** The test [_isWithinRadius] makes, on exact integers: the squared
    difference of the scaled coordinates against the squared radius at
    111000 meters per degree. *)
Definition planar_within (required provided : Location.t) : bool :=
  let latDiff := Location.latitude required - Location.latitude provided in
  let lonDiff := Location.longitude required - Location.longitude provided in
  latDiff * latDiff + lonDiff * lonDiff
  <=? Location.radius required * Location.radius required * 10 ^ 12
      / (111000 * 111000).

(** The tally of a submission is backed by its verifiers: those who voted
    form a set [voters] no smaller than [totalVotes], every one of them is
    in the verifier list, as is everyone with a stake, the list has at
    most [MAX_VERIFIERS] entries, and the two counts add up to
    [totalVotes]. *)
Definition tally_backed (submissionId : Z) (s : VerificationStorage.t)
    : Prop :=
  let submission := VerificationStorage.submissions s@submissionId in
  let verifiers := VerificationStorage.submissionVerifiers s@submissionId in
  exists voters : gset address,
    (forall a,
       Vote.hasVoted (VerificationStorage.verificationVotes s@(submissionId, a))
       = true <-> a ∈ voters)
    /\ (forall a, a ∈ voters -> a ∈ verifiers)
    /\ (forall a,
          Vote.stake (VerificationStorage.verificationVotes s@(submissionId, a))
          <> 0 -> a ∈ verifiers)
    /\ Z.of_nat (length verifiers) <= VerificationContract.MAX_VERIFIERS
    /\ Submission.approvalCount submission + Submission.rejectionCount submission
       = Submission.totalVotes submission
    /\ Submission.totalVotes submission <= Z.of_nat (size voters).

(** A verification contract that has not been used yet. *)
Definition unused (s : VerificationStorage.t) : Prop :=
  VerificationStorage.submissions s = ∅
  /\ VerificationStorage.verificationVotes s = ∅
  /\ VerificationStorage.submissionVerifiers s = ∅.

(** The submission exists and its rewards have been distributed. *)
Definition settled_in (submissionId : Z) (s : VerificationStorage.t) : Prop :=
  submissionId < VerificationStorage.submissionIdCounter s
  /\ Submission.id (VerificationStorage.submissions s@submissionId)
     = submissionId
  /\ Submission.rewardDistributed
       (VerificationStorage.submissions s@submissionId) = true.

(** The record of an identity after [n] successes in [category], reported
    with the category, and nothing else. *)
Definition after_category_successes (category : TaskCategory) (n : nat)
    (rep : ReputationData.t) : Prop :=
  after_worker_outcomes true n rep
  /\ ReputationData.categoryStats rep@category
     = CategoryStats.mk (Z.of_nat n) (Z.of_nat n) (10 <=? Z.of_nat n).

(** The calls by which [caller] records [subs] (the time and the content
    hash of each) for [worker]. *)
Definition recordings (caller worker : address) (metadataHash : Z)
    (subs : list (Z * string)) : list (Msg * AntiFraud.Call) :=
  map (fun p => (mkMsg caller 0 (fst p),
                 AntiFraud.CheckAndRecordSubmission worker 0 (snd p)
                   metadataHash))
      subs.

(** Twenty submissions with distinct content, a second apart, on the day
    of [Scenario.genesis]. *)
Definition full_day : list (Z * string) :=
  imap (fun i h => (Scenario.genesis + Z.of_nat i, h))
    ["Qm01"; "Qm02"; "Qm03"; "Qm04"; "Qm05"; "Qm06"; "Qm07"; "Qm08"; "Qm09";
     "Qm10"; "Qm11"; "Qm12"; "Qm13"; "Qm14"; "Qm15"; "Qm16"; "Qm17"; "Qm18";
     "Qm19"; "Qm20"].

(** No stake is on record for any worker in [AntiFraud]. *)
Definition no_stakes (a : AntiFraudStorage.t) : Prop :=
  forall worker, AntiFraudStorage.workerStakes a@worker = 0.

(** No submission has the status [REJECTED]. *)
Definition none_rejected (s : VerificationStorage.t) : Prop :=
  forall id,
    Submission.status (VerificationStorage.submissions s@id) <> REJECTED.

(** The system of [Scenario] as the deployment script leaves it. *)
Definition deployed : World :=
  commit Scenario.wired
    (Deploy.main Scenario.D
       (mkMsg Scenario.deployer 0 Scenario.genesis) Scenario.funded_accounts).

(** Every contract knows every other one by its deployed address, the
    way the deployment script wires them. *)
Definition interconnected (D : Deployment) (w : World) : Prop :=
  AntiFraudStorage.taskManagerAddress (antiFraud w) = taskManagerAt D
  /\ AntiFraudStorage.verificationContractAddress (antiFraud w)
     = verificationAt D
  /\ BountyPoolStorage.taskManagerAddress (bountyPool w) = taskManagerAt D
  /\ BountyPoolStorage.verificationContractAddress (bountyPool w)
     = verificationAt D
  /\ VerificationStorage.bountyPoolAddress (verification w) = bountyPoolAt D
  /\ VerificationStorage.reputationContractAddress (verification w)
     = reputationAt D
  /\ VerificationStorage.taskManagerAddress (verification w)
     = taskManagerAt D
  /\ VerificationStorage.antiFraudAddress (verification w) = antiFraudAt D
  /\ ReputationStorage.verificationContractAddress (reputation w)
     = verificationAt D
  /\ ReputationStorage.taskManagerAddress (reputation w) = taskManagerAt D
  /\ TaskManagerStorage.antiFraudAddress (taskManager w) = antiFraudAt D.

(** None of the five contract addresses is the zero address. *)
Definition nonzero_addresses (D : Deployment) : Prop :=
  taskManagerAt D <> 0 /\ bountyPoolAt D <> 0 /\ verificationAt D <> 0
  /\ reputationAt D <> 0 /\ antiFraudAt D <> 0.

(** A transaction to [TaskManager] as a transaction to the system. *)
Definition to_task_manager (tx : Msg * TaskManager.Call)
    : Msg * System.Call :=
  (fst tx, System.ToTaskManager (snd tx)).

Definition to_verification (tx : Msg * VerificationContract.Call)
    : Msg * System.Call :=
  (fst tx, System.ToVerification (snd tx)).

Definition to_bounty_pool (tx : Msg * BountyPool.Call) : Msg * System.Call :=
  (fst tx, System.ToBountyPool (snd tx)).

(** The addresses the contracts have of each other. *)
Definition wiring (w : World) : list address :=
  [AntiFraudStorage.taskManagerAddress (antiFraud w);
   AntiFraudStorage.verificationContractAddress (antiFraud w);
   BountyPoolStorage.taskManagerAddress (bountyPool w);
   BountyPoolStorage.verificationContractAddress (bountyPool w);
   VerificationStorage.bountyPoolAddress (verification w);
   VerificationStorage.reputationContractAddress (verification w);
   VerificationStorage.taskManagerAddress (verification w);
   VerificationStorage.antiFraudAddress (verification w);
   ReputationStorage.verificationContractAddress (reputation w);
   ReputationStorage.taskManagerAddress (reputation w);
   TaskManagerStorage.antiFraudAddress (taskManager w)].

(** The call is one of the eleven address setters. *)
Definition is_setter (c : System.Call) : bool :=
  match c with
  | System.ToTaskManager (TaskManager.SetAntiFraud _) => true
  | System.ToBountyPool (BountyPool.SetTaskManager _) => true
  | System.ToBountyPool (BountyPool.SetVerificationContract _) => true
  | System.ToVerification (VerificationContract.SetBountyPool _) => true
  | System.ToVerification (VerificationContract.SetReputationContract _) => true
  | System.ToVerification (VerificationContract.SetTaskManager _) => true
  | System.ToVerification (VerificationContract.SetAntiFraud _) => true
  | System.ReputationSetVerificationContract _ => true
  | System.ReputationSetTaskManager _ => true
  | System.ToAntiFraud (AntiFraud.SetVerificationContract _) => true
  | System.ToAntiFraud (AntiFraud.SetTaskManager _) => true
  | _ => false
  end.

Definition contract_addresses (D : Deployment) : list address :=
  [taskManagerAt D; bountyPoolAt D; verificationAt D; reputationAt D;
   antiFraudAt D].

(** A transaction sent by a plain account that is not a call of an
    address setter. *)
Definition user_transaction (D : Deployment) (tx : Msg * System.Call)
    : Prop :=
  (sender (fst tx) ∉ contract_addresses D) /\ is_setter (snd tx) = false.

(** No bounty is recorded: neither in a submission nor in the escrow. *)
Definition no_bounties (w : World) : Prop :=
  (forall id,
     Submission.bountyAmount
       (VerificationStorage.submissions (verification w)@id) = 0)
  /\ (forall taskId, BountyPool.getTaskBounty taskId w = 0).

(** What the accounts of [Scenario] send on the first day: the creator
    opens task 0 with one ether attached, the worker claims it and hands in
    a result, a verifier stakes on submission 0, and the deployer asks for
    the fees. *)
Definition first_day : list (Msg * System.Call) :=
  [to_task_manager Scenario.open_task;
   (mkMsg Scenario.worker1 0 Scenario.claimed_at,
    System.ToTaskManager (TaskManager.ClaimTask 0));
   (mkMsg Scenario.worker1 0 Scenario.submitted_at,
    System.ToTaskManager
      (TaskManager.SubmitTaskCompletion 0 "QmTest123" Scenario.anywhere));
   (mkMsg Scenario.verifier1 Scenario.stake Scenario.voted_at,
    System.ToVerification (VerificationContract.StakeForVerification 0));
   (mkMsg Scenario.deployer 0 Scenario.voted_at,
    System.ToBountyPool BountyPool.WithdrawPlatformFees)].

(** The transaction is not sent by [a] and carries no negative value. *)
Definition sent_by_other (a : address) (tx : Msg * System.Call) : Prop :=
  sender (fst tx) <> a /\ 0 <= value (fst tx).

(** The sum of the bounties the escrow has on record. *)
Definition total_bounties (s : BountyPoolStorage.t) : Z :=
  map_fold (fun _ bounty sum => bounty + sum) 0
    (BountyPoolStorage.taskBounties s).

(** The pool holds at least what it has on record: the bounties of all
    tasks and the fees. *)
Definition solvent (D : Deployment) (w : World) : Prop :=
  total_bounties (bountyPool w) + BountyPool.getAccumulatedFees w
  <= balanceOf (balances w) (bountyPoolAt D).

(** No stake of a verifier is negative. *)
Definition stakes_nonneg (s : VerificationStorage.t) : Prop :=
  forall id verifier,
    0 <= Vote.stake (VerificationStorage.verificationVotes s@(id, verifier)).



(** Every task has one worker at most, a task that has one is not
    [ACTIVE], and the slots from the counter on have neither a worker nor
    room for one. *)
Definition single_claims (s : TaskManagerStorage.t) : Prop :=
  (forall taskId,
     (length (TaskManagerStorage.taskWorkers s@taskId) <= 1)%nat
     /\ (TaskManagerStorage.taskWorkers s@taskId <> [] ->
         Task.status (TaskManagerStorage.tasks s@taskId) <> ACTIVE))
  /\ (forall taskId,
        TaskManagerStorage.taskIdCounter s <= taskId ->
        TaskManagerStorage.taskWorkers s@taskId = []
        /\ Task.maxWorkers (TaskManagerStorage.tasks s@taskId) <= 0).

(** No worker has more than three tasks in the active list. *)
Definition within_active_limit (s : TaskManagerStorage.t) : Prop :=
  forall worker,
    Z.of_nat (length (TaskManagerStorage.workerActiveTasks s@worker))
    <= TaskManager.MAX_ACTIVE_TASKS_PER_WORKER.

(** Two tasks are open in the deployed system; [Scenario.worker1] has
    claimed task 0 and [Scenario.worker2] task 1. *)
Definition two_claimed : World :=
  System.run Scenario.D
    (map to_task_manager
       [Scenario.open_week_task; Scenario.open_week_task;
        (Scenario.at_time Scenario.worker1 0 Scenario.claimed_at,
         TaskManager.ClaimTask 0);
        (Scenario.at_time Scenario.worker2 0 Scenario.claimed_at,
         TaskManager.ClaimTask 1)])
    deployed.

(** The counters of a record fit together: none is negative, the accurate
    verifications are among the verifications and the successes of a
    category among its tasks. *)
Definition counters_consistent (rep : ReputationData.t) : Prop :=
  0 <= ReputationData.tasksCompleted rep
  /\ 0 <= ReputationData.tasksRejected rep
  /\ 0 <= ReputationData.accurateVerifications rep
     <= ReputationData.verificationsPerformed rep
  /\ forall category,
       0 <= CategoryStats.successCount
              (ReputationData.categoryStats rep@category)
         <= CategoryStats.totalCount
              (ReputationData.categoryStats rep@category).

(** The transaction is not sent by [a]. *)
Definition not_from (a : address) (tx : Msg * System.Call) : Prop :=
  sender (fst tx) <> a.

(** The deployer has blacklisted [Scenario.worker1] in the deployed
    system. *)
Definition worker1_blacklisted : World :=
  System.apply Scenario.D deployed
    (mkMsg Scenario.deployer 0 Scenario.genesis,
     System.ToAntiFraud
       (AntiFraud.BlacklistWorker Scenario.worker1 "duplicate submissions")).

(** The transaction leaves the [AntiFraud] address of the verification
    contract where it is: it is no [setAntiFraud] to another contract than
    the deployed [AntiFraud]. *)
Definition keeps_verification_antiFraud (D : Deployment)
    (tx : Msg * System.Call) : Prop :=
  forall a,
    snd tx = System.ToVerification (VerificationContract.SetAntiFraud a) ->
    a = antiFraudAt D.

(** The same for the [AntiFraud] address of the task manager. *)
Definition keeps_taskManager_antiFraud (D : Deployment)
    (tx : Msg * System.Call) : Prop :=
  forall a,
    snd tx = System.ToTaskManager (TaskManager.SetAntiFraud a) ->
    a = antiFraudAt D.

(** Submission 0 before it exists: the verification contract holds an ether
    for the bonuses, three verifiers stake 0.1 ether each on id 0 and
    approve. *)
Definition unwritten_verified : World :=
  VerificationContract.run Scenario.D
    ([(Scenario.at_time Scenario.deployer ether Scenario.submitted_at,
       VerificationContract.Receive)]
     ++ Scenario.stakes_and_votes Scenario.verifier1 true
     ++ Scenario.stakes_and_votes Scenario.verifier2 true
     ++ Scenario.stakes_and_votes Scenario.verifier3 true)
    Scenario.escrowed.

Definition unwritten_settled : World :=
  VerificationContract.run Scenario.D
    [(Scenario.at_time Scenario.deployer 0 Scenario.cooled_down,
      VerificationContract.DistributeVerificationRewards 0)]
    unwritten_verified.

(** Then the submission is created, under the id 0 that was settled; three
    other verifiers stake and approve, and the payout is asked for again. *)
Definition written_at : Z := Scenario.cooled_down + 100.
Definition revoted_at : Z := Scenario.cooled_down + 200.

Definition written_verified : World :=
  VerificationContract.run Scenario.D
    ((Scenario.at_time Scenario.deployer 0 written_at,
      VerificationContract.CreateSubmission 0 Scenario.worker1
        "QmTestHash123" Scenario.anywhere ether)
     :: flat_map
          (fun who =>
             [(Scenario.at_time who Scenario.stake revoted_at,
               VerificationContract.StakeForVerification 0);
              (Scenario.at_time who 0 revoted_at,
               VerificationContract.SubmitVerification 0 true "no feedback")])
          [Scenario.verifier4; Scenario.verifier5; Scenario.verifier6])
    unwritten_settled.

Definition written_settled : World :=
  VerificationContract.run Scenario.D
    [(Scenario.at_time Scenario.deployer 0 (revoted_at + 5 * minutes),
      VerificationContract.DistributeVerificationRewards 0)]
    written_verified.

(** * Properties *)

(** ** Storage reads *)

Lemma sload_insert_eq {K : Type} `{Countable K} {A : Type} `{Zero A}
    (m : gmap K A) (k : K) (v : A) :
  (<[k := v]> m)@k = v.
Proof. unfold sload. by rewrite lookup_insert_eq. Qed.

Lemma sload_insert_ne {K : Type} `{Countable K} {A : Type} `{Zero A}
    (m : gmap K A) (k j : K) (v : A) :
  k <> j -> (<[k := v]> m)@j = m@j.
Proof. intros Hne. unfold sload. by rewrite lookup_insert_ne. Qed.

Lemma bind_ok {A B : Type} (c : result A) (k : A -> result B) (b : B) :
  bind c k = Ok b -> exists a, c = Ok a /\ k a = Ok b.
Proof. destruct c as [a|e]; simpl; intros E; [eauto | discriminate]. Qed.

Lemma revert_if_ok (cond : bool) (e : Error) (u : unit) :
  revert_if cond e = Ok u -> cond = false.
Proof. destruct cond; simpl; [discriminate | reflexivity]. Qed.

(** Peel the successful prefix off a computation that returned. *)
Ltac ok_step H :=
  let a := fresh "v" in
  let Ha := fresh "E" in
  apply bind_ok in H; destruct H as (a & Ha & H).

Tactic Notation "ok_bind" hyp(H) "as" ident(a) ident(Ha) :=
  apply bind_ok in H; destruct H as (a & Ha & H).

(** ** Reputation queries at score zero *)

(** C10. When the stored score of a user is 0 and one of the activity
    counters is not, [getReputationScore] answers 0 while
    [getReputationData] reports 50 as the score. *)
Theorem reputation_queries_disagree_at_zero
    (s : ReputationStorage.t) (user : address) :
  ReputationData.score (ReputationStorage.reputations s@user) = 0 ->
  ReputationData.tasksCompleted (ReputationStorage.reputations s@user) <> 0
  \/ ReputationData.tasksRejected (ReputationStorage.reputations s@user) <> 0
  \/ ReputationData.verificationsPerformed
       (ReputationStorage.reputations s@user) <> 0 ->
  ReputationContract.getReputationScore user s = 0
  /\ fst (fst (fst (fst (ReputationContract.getReputationData user s)))) = 50.
Proof.
  intros Hscore Hactive.
  unfold ReputationContract.getReputationScore,
    ReputationContract.getReputationData.
  cbn zeta. rewrite Hscore. split; [| reflexivity].
  destruct Hactive as [Hc | [Hr | Hv]].
  - apply Z.eqb_neq in Hc. rewrite Hc. reflexivity.
  - apply Z.eqb_neq in Hr. rewrite Hr, andb_false_r. reflexivity.
  - apply Z.eqb_neq in Hv. rewrite Hv, andb_false_r. reflexivity.
Qed.

(** An instance: the state after ten rejected submissions of [worker1],
    reported by the verification contract. *)
Lemma reputation_queries_disagree_at_zero_witness :
  let s :=
    ReputationContract.run
      (replicate 10
         (mkMsg (verificationAt Scenario.D) 0 Scenario.genesis,
          ReputationContract.UpdateWorkerReputation Scenario.worker1 false))
      (reputation Scenario.wired) in
  ReputationContract.getReputationScore Scenario.worker1 s = 0
  /\ fst (fst (fst (fst
       (ReputationContract.getReputationData Scenario.worker1 s)))) = 50.
Proof.
  cbv zeta.
  apply reputation_queries_disagree_at_zero.
  - vm_compute. reflexivity.
  - right. left. vm_compute. discriminate.
Defined.

(** ** Reputation scores *)

Section ReputationScores.
Import ReputationContract.

Lemma increase_score_bounded rep rep' :
  increase_score rep = Ok rep' -> score_bounded rep -> score_bounded rep'.
Proof.
  unfold increase_score, score_bounded, uadd, REPUTATION_INCREASE,
    MAX_REPUTATION.
  intros E [Hlo Hhi].
  destruct (ReputationData.score rep + 5 <=? MAX_UINT256); simpl in E;
    [| discriminate].
  destruct (ReputationData.score rep + 5 <=? 100) eqn:Hcap;
    injection E as <-; simpl; lia.
Qed.

Lemma decrease_score_bounded rep rep' :
  decrease_score rep = Ok rep' -> score_bounded rep -> score_bounded rep'.
Proof.
  unfold decrease_score, score_bounded, usub, REPUTATION_DECREASE,
    MIN_REPUTATION.
  intros E [Hlo Hhi].
  destruct (5 <=? ReputationData.score rep) eqn:Hfloor; simpl in E;
    injection E as <-; simpl; lia.
Qed.

Lemma worker_outcome_bounded ok rep rep' :
  worker_outcome ok rep = Ok rep' -> score_bounded rep -> score_bounded rep'.
Proof.
  unfold worker_outcome. intros E Hb.
  match type of E with
  | context [if ?c then ?a else rep] => set (rep0 := if c then a else rep) in E
  end.
  assert (Hb0 : score_bounded rep0).
  { subst rep0.
    match goal with |- context [if ?c then _ else _] => destruct c end;
      [| exact Hb].
    unfold score_bounded, INITIAL_REPUTATION. simpl. lia. }
  destruct ok; ok_step E; ok_step E; injection E as <-.
  - eapply increase_score_bounded in E0; eauto.
  - eapply decrease_score_bounded in E0; eauto.
Qed.

Lemma verifier_outcome_bounded ok rep rep' :
  verifier_outcome ok rep = Ok rep' -> score_bounded rep -> score_bounded rep'.
Proof.
  unfold verifier_outcome. intros E Hb.
  match type of E with
  | context [if ?c then ?a else rep] => set (rep0 := if c then a else rep) in E
  end.
  assert (Hb0 : score_bounded rep0).
  { subst rep0.
    match goal with |- context [if ?c then _ else _] => destruct c end;
      [| exact Hb].
    unfold score_bounded, INITIAL_REPUTATION. simpl. lia. }
  ok_step E. destruct ok.
  - ok_step E. ok_step E. injection E as <-.
    eapply increase_score_bounded in E1; eauto.
  - eapply decrease_score_bounded in E; eauto.
Qed.

Lemma scores_bounded_insert s user rep :
  scores_bounded s -> score_bounded rep ->
  scores_bounded
    (ReputationStorage.with_reputations
       (<[user := rep]> (ReputationStorage.reputations s)) s).
Proof.
  intros Hs Hrep other. simpl.
  destruct (decide (user = other)) as [-> | Hne].
  - by rewrite sload_insert_eq.
  - rewrite sload_insert_ne by done. apply Hs.
Qed.

Lemma call_scores_bounded m c s s' :
  call m c s = Ok s' -> scores_bounded s -> scores_bounded s'.
Proof.
  intros E Hs. destruct c; simpl in E.
  - unfold initializeReputation in E. ok_step E. injection E as <-.
    apply scores_bounded_insert; [done |].
    unfold score_bounded, INITIAL_REPUTATION. simpl. lia.
  - unfold updateWorkerReputation in E. ok_step E. ok_step E.
    injection E as <-. apply scores_bounded_insert; [done |].
    eapply worker_outcome_bounded; eauto.
  - unfold updateWorkerReputationWithCategory in E.
    ok_step E. ok_step E. ok_step E. ok_step E. ok_step E.
    injection E as <-. apply scores_bounded_insert; [done |].
    simpl.
    match goal with
    | H : worker_outcome _ _ = Ok _ |- _ =>
        eapply worker_outcome_bounded in H; eauto
    end.
  - unfold updateVerifierReputation in E. ok_step E. ok_step E.
    injection E as <-. apply scores_bounded_insert; [done |].
    eapply verifier_outcome_bounded; eauto.
Qed.

(** The score of every identity stays within 0..100 along any sequence of
    calls, reverted ones included. *)
Lemma run_scores_bounded txs s :
  scores_bounded s -> scores_bounded (run txs s).
Proof.
  revert s. induction txs as [| tx txs IH]; intros s Hs; [exact Hs |].
  simpl. apply IH. unfold apply.
  destruct (call (fst tx) (snd tx) s) eqn:E; [| exact Hs].
  eapply call_scores_bounded; eauto.
Qed.

Lemma getReputationScore_bounded s user :
  scores_bounded s -> 0 <= getReputationScore user s <= 100.
Proof.
  intros Hs. unfold getReputationScore.
  destruct (_ && _); [unfold INITIAL_REPUTATION; lia | apply Hs].
Qed.

End ReputationScores.

(** ** Consecutive outcomes of one kind *)

Section ConsecutiveOutcomes.
Import ReputationContract.

Lemma MAX_UINT256_large : 1000 <= MAX_UINT256.
Proof. vm_compute. discriminate. Qed.

(** Case analysis on every integer comparison of the goal. *)
Ltac compare_all :=
  repeat match goal with
    | |- context [?a <=? ?b] => destruct (Z.leb_spec a b)
    | |- context [?a <? ?b] => destruct (Z.ltb_spec a b)
    | |- context [?a =? ?b] => destruct (Z.eqb_spec a b)
    | _ => progress (simpl in *)
    end.

Lemma worker_outcome_next ok n rep :
  after_worker_outcomes ok n rep ->
  after_worker_outcomes ok (S n)
    (match worker_outcome ok rep with Ok rep' => rep' | Revert _ => rep end).
Proof.
  pose proof MAX_UINT256_large as Hmax.
  unfold after_worker_outcomes.
  intros (Hv & Hc & Hr & Hs).
  destruct (Z.eqb_spec (Z.of_nat n) 0) as [Hn | Hn];
    destruct (Z.eqb_spec (Z.of_nat (S n)) 0) as [Hn' | Hn']; try lia;
    unfold worker_outcome, increase_score, decrease_score, uadd, usub,
      INITIAL_REPUTATION, REPUTATION_INCREASE, REPUTATION_DECREASE,
      MAX_REPUTATION, MIN_REPUTATION;
    destruct ok; compare_all; repeat split; lia.
Qed.

Lemma verifier_outcome_next ok n rep :
  after_verifier_outcomes ok n rep ->
  after_verifier_outcomes ok (S n)
    (match verifier_outcome ok rep with Ok rep' => rep' | Revert _ => rep end).
Proof.
  pose proof MAX_UINT256_large as Hmax.
  unfold after_verifier_outcomes.
  intros (Hc & Hr & Hv & Ha & Hs).
  destruct (Z.eqb_spec (Z.of_nat n) 0) as [Hn | Hn];
    destruct (Z.eqb_spec (Z.of_nat (S n)) 0) as [Hn' | Hn']; try lia;
    unfold verifier_outcome, increase_score, decrease_score, uadd, usub,
      INITIAL_REPUTATION, REPUTATION_INCREASE, REPUTATION_DECREASE,
      MAX_REPUTATION, MIN_REPUTATION;
    destruct ok; compare_all; repeat split; lia.
Qed.

Lemma run_snoc txs tx s : run (txs ++ [tx]) s = apply (run txs s) tx.
Proof. unfold run. by rewrite fold_left_app. Qed.

Lemma worker_outcomes_run ok (n : nat) m worker s :
  sender m = ReputationStorage.verificationContractAddress s ->
  ReputationStorage.reputations s@worker = zero ->
  let s' := run (replicate n (m, UpdateWorkerReputation worker ok)) s in
  ReputationStorage.verificationContractAddress s'
  = ReputationStorage.verificationContractAddress s
  /\ after_worker_outcomes ok n (ReputationStorage.reputations s'@worker).
Proof.
  intros Hm Hfresh. induction n as [| n [IHa IHr]]; cbv zeta.
  - simpl. split; [done |]. rewrite Hfresh.
    unfold after_worker_outcomes. by destruct ok.
  - rewrite replicate_S_end, run_snoc.
    set (s' := run _ s) in *.
    apply (worker_outcome_next ok) in IHr.
    unfold apply, call, updateWorkerReputation, onlyVerificationContract.
    simpl fst; simpl snd. rewrite IHa, <- Hm, Z.eqb_refl. simpl.
    destruct (worker_outcome ok (ReputationStorage.reputations s'@worker));
      simpl; (split; [congruence |]); [| done].
    by rewrite sload_insert_eq.
Qed.

Lemma verifier_outcomes_run ok (n : nat) m verifier s :
  sender m = ReputationStorage.verificationContractAddress s ->
  ReputationStorage.reputations s@verifier = zero ->
  let s' := run (replicate n (m, UpdateVerifierReputation verifier ok)) s in
  ReputationStorage.verificationContractAddress s'
  = ReputationStorage.verificationContractAddress s
  /\ after_verifier_outcomes ok n (ReputationStorage.reputations s'@verifier).
Proof.
  intros Hm Hfresh. induction n as [| n [IHa IHr]]; cbv zeta.
  - simpl. split; [done |]. rewrite Hfresh.
    unfold after_verifier_outcomes. by destruct ok.
  - rewrite replicate_S_end, run_snoc.
    set (s' := run _ s) in *.
    apply (verifier_outcome_next ok) in IHr.
    unfold apply, call, updateVerifierReputation, onlyVerificationContract.
    simpl fst; simpl snd. rewrite IHa, <- Hm, Z.eqb_refl. simpl.
    destruct (verifier_outcome ok (ReputationStorage.reputations s'@verifier));
      simpl; (split; [congruence |]); [| done].
    by rewrite sload_insert_eq.
Qed.

(** From the default score of 50, [n] consecutive outcomes of a worker
    that are all successes give [min 100 (50 + 5 n)], and all failures
    give [max 0 (50 - 5 n)]. *)
Lemma consecutive_worker_outcomes ok (n : nat) m worker s :
  sender m = ReputationStorage.verificationContractAddress s ->
  ReputationStorage.reputations s@worker = zero ->
  getReputationScore worker
    (run (replicate n (m, UpdateWorkerReputation worker ok)) s)
  = if ok then Z.min 100 (50 + 5 * Z.of_nat n)
    else Z.max 0 (50 - 5 * Z.of_nat n).
Proof.
  intros Hm Hfresh.
  destruct (worker_outcomes_run ok n m worker s Hm Hfresh)
    as (_ & Hv & Hc & Hr & Hs).
  pose proof MAX_UINT256_large as Hmax.
  unfold getReputationScore, INITIAL_REPUTATION. rewrite Hv, Hc, Hr, Hs.
  destruct ok; compare_all; lia.
Qed.

(** The same for the outcomes of a verifier. *)
Lemma consecutive_verifier_outcomes ok (n : nat) m verifier s :
  sender m = ReputationStorage.verificationContractAddress s ->
  ReputationStorage.reputations s@verifier = zero ->
  getReputationScore verifier
    (run (replicate n (m, UpdateVerifierReputation verifier ok)) s)
  = if ok then Z.min 100 (50 + 5 * Z.of_nat n)
    else Z.max 0 (50 - 5 * Z.of_nat n).
Proof.
  intros Hm Hfresh.
  destruct (verifier_outcomes_run ok n m verifier s Hm Hfresh)
    as (_ & Hc & Hr & Hv & _ & Hs).
  pose proof MAX_UINT256_large as Hmax.
  unfold getReputationScore, INITIAL_REPUTATION. rewrite Hv, Hc, Hr, Hs.
  destruct ok; compare_all; lia.
Qed.

End ConsecutiveOutcomes.

(** C8. A worker whose ten submissions were rejected has score 0, where
    the claim puts it; the next adjudicated outcome, an inaccurate vote of
    the same identity as a verifier, is the eleventh failure in a row and
    lifts the score to 45.  [updateVerifierReputation] takes the record for
    a new one because [verificationsPerformed] is 0, sets it to 50 and
    subtracts 5. *)
Theorem verifier_outcome_resets_zero_score :
  let from_verification := mkMsg (verificationAt Scenario.D) 0 Scenario.genesis in
  let ten_rejections :=
    replicate 10
      (from_verification,
       ReputationContract.UpdateWorkerReputation Scenario.worker1 false) in
  let inaccurate_vote :=
    (from_verification,
     ReputationContract.UpdateVerifierReputation Scenario.worker1 false) in
  let s10 := ReputationContract.run ten_rejections (reputation Scenario.wired) in
  let s11 := ReputationContract.run [inaccurate_vote] s10 in
  ReputationContract.getReputationScore Scenario.worker1 s10 = Z.max 0 (50 - 5 * 10)
  /\ ReputationContract.getReputationScore Scenario.worker1 s11 = 45
  /\ Z.max 0 (50 - 5 * 11) = 0.
Proof. vm_compute. repeat split. Qed.

(** ** Checked arithmetic and the ledger *)

Lemma uadd_ok a b c : uadd a b = Ok c -> c = a + b /\ a + b <= MAX_UINT256.
Proof.
  unfold uadd. destruct (Z.leb_spec (a + b) MAX_UINT256); intros E;
    [injection E as <-; done | discriminate].
Qed.

Lemma usub_ok a b c : usub a b = Ok c -> c = a - b /\ b <= a.
Proof.
  unfold usub. destruct (Z.leb_spec b a); intros E;
    [injection E as <-; done | discriminate].
Qed.

Lemma umul_ok a b c : umul a b = Ok c -> c = a * b /\ a * b <= MAX_UINT256.
Proof.
  unfold umul. destruct (Z.leb_spec (a * b) MAX_UINT256); intros E;
    [injection E as <-; done | discriminate].
Qed.

Lemma udiv_ok a b c : udiv a b = Ok c -> c = a / b /\ b <> 0.
Proof.
  unfold udiv. destruct (Z.eqb_spec b 0); intros E;
    [discriminate | injection E as <-; done].
Qed.

Lemma pay_some from to amount b b' :
  pay from to amount b = Some b' ->
  amount <= balanceOf b from
  /\ (from <> to ->
      balanceOf b' to = balanceOf b to + amount
      /\ balanceOf b' from = balanceOf b from - amount)
  /\ (forall other, other <> from -> other <> to ->
      balanceOf b' other = balanceOf b other).
Proof.
  unfold pay. destruct (Z.ltb_spec (balanceOf b from) amount); [discriminate |].
  intros E; injection E as <-. split; [lia |]. unfold balanceOf. split.
  - intros Hne. rewrite sload_insert_eq.
    rewrite (sload_insert_ne _ to from) by done.
    rewrite !(sload_insert_ne _ from to) by done.
    by rewrite sload_insert_eq.
  - intros other Hf Ht. by rewrite !sload_insert_ne.
Qed.

Lemma pay_enough from to amount b :
  amount <= balanceOf b from -> exists b', pay from to amount b = Some b'.
Proof.
  intros Hle. unfold pay.
  destruct (Z.ltb_spec (balanceOf b from) amount); [lia | eauto].
Qed.

(** ** Escrow payouts *)

Section Escrow.
Import BountyPool.

(** The common shape of [distributeReward] and [refundBounty]: what a
    successful payout of [amount] at [rate] basis points does. *)
Ltac payout_effects E :=
  ok_step E; ok_step E; ok_step E; ok_step E; ok_step E; ok_step E;
  ok_step E;
  repeat match goal with
    | H : revert_if _ _ = Ok _ |- _ => apply revert_if_ok in H
    | H : umul _ _ = Ok _ |- _ => apply umul_ok in H; destruct H as [-> ?]
    | H : udiv _ _ = Ok _ |- _ => apply udiv_ok in H; destruct H as [-> ?]
    | H : usub _ _ = Ok _ |- _ => apply usub_ok in H; destruct H as [-> ?]
    | H : uadd _ _ = Ok _ |- _ => apply uadd_ok in H; destruct H as [-> ?]
    end;
  unfold call_value in E;
  match type of E with
  | context [accepts_payment ?D ?a] => destruct (accepts_payment D a)
  end; [| discriminate];
  match type of E with
  | context [pay ?f ?t ?a ?b] => destruct (pay f t a b) eqn:Hpay
  end; [| discriminate];
  injection E as <-.

(** What a call of [distributeReward] that returns has done. *)
Lemma distributeReward_ok D m taskId worker amount w w' :
  distributeReward D m taskId worker amount w = Ok w' ->
  amount <= getTaskBounty taskId w
  /\ getTaskBounty taskId w' = getTaskBounty taskId w - amount
  /\ (forall other, other <> taskId ->
        getTaskBounty other w' = getTaskBounty other w)
  /\ getAccumulatedFees w' = getAccumulatedFees w + amount * 250 / 10000
  /\ pay (bountyPoolAt D) worker (amount - amount * 250 / 10000) (balances w)
     = Some (balances w')
  /\ verification w' = verification w
  /\ reputation w' = reputation w.
Proof.
  unfold getTaskBounty, getAccumulatedFees.
  intros E. unfold distributeReward in E. payout_effects E.
  unfold PLATFORM_FEE_PERCENTAGE, BASIS_POINTS in *. simpl.
  match goal with H : (_ <? _) = false |- _ => apply Z.ltb_ge in H end.
  rewrite sload_insert_eq.
  repeat split; try done.
  intros other Hne. by rewrite sload_insert_ne.
Qed.

(** C4. [distributeReward] with less than [amount] in the task's balance
    reverts and leaves the state as it was.  A call that returns has taken
    the fee [amount * 250 / 10000] in integer arithmetic, moved
    [amount - fee] from the pool to the worker, lowered the task's balance
    by the whole [amount] and raised the fee pool by the fee, in this one
    step; no other task balance changes.  For the verification contract
    as caller, a covered amount and a payment that goes through, the call
    does return. *)
Theorem distributeReward_effects
    (D : Deployment) (m : Msg) (taskId : Z) (worker : address) (amount : Z)
    (w : World) :
  let fee := amount * 250 / 10000 in
  (getTaskBounty taskId w < amount ->
     is_ok (distributeReward D m taskId worker amount w) = false
     /\ commit w (distributeReward D m taskId worker amount w) = w)
  /\ (forall w', distributeReward D m taskId worker amount w = Ok w' ->
        amount <= getTaskBounty taskId w
        /\ getTaskBounty taskId w' = getTaskBounty taskId w - amount
        /\ (forall other, other <> taskId ->
              getTaskBounty other w' = getTaskBounty other w)
        /\ getAccumulatedFees w' = getAccumulatedFees w + fee
        /\ pay (bountyPoolAt D) worker (amount - fee) (balances w)
           = Some (balances w')
        /\ (worker <> bountyPoolAt D ->
              balanceOf (balances w') worker
              = balanceOf (balances w) worker + (amount - fee)))
  /\ (sender m = BountyPoolStorage.verificationContractAddress (bountyPool w) ->
      0 <= amount <= getTaskBounty taskId w ->
      amount * 250 <= MAX_UINT256 ->
      getAccumulatedFees w + fee <= MAX_UINT256 ->
      accepts_payment D worker = true ->
      amount - fee <= balanceOf (balances w) (bountyPoolAt D) ->
      is_ok (distributeReward D m taskId worker amount w) = true).
Proof.
  cbv zeta. unfold getTaskBounty, getAccumulatedFees. split; [| split].
  - intros Hlow. unfold distributeReward, onlyVerificationContract.
    destruct (negb _); simpl; [done |].
    destruct (Z.ltb_spec (BountyPoolStorage.taskBounties (bountyPool w)@taskId)
                amount); [done | lia].
  - intros w' E.
    apply distributeReward_ok in E
      as (Hcover & Hbalance & Hothers & Hfees & Hpay & _).
    unfold getTaskBounty, getAccumulatedFees in *.
    repeat split; try done.
    intros Hne. apply pay_some in Hpay as (_ & Hcredit & _).
    by destruct (Hcredit (not_eq_sym Hne)) as [-> _].
  - intros Hsender [Hpos Hcover] Hmul Hfees Haccept Hfunds.
    unfold distributeReward, onlyVerificationContract, umul, udiv, usub, uadd,
      call_value, PLATFORM_FEE_PERCENTAGE, BASIS_POINTS.
    rewrite Hsender, Z.eqb_refl. simpl.
    destruct (Z.ltb_spec (BountyPoolStorage.taskBounties (bountyPool w)@taskId)
                amount); [lia |]. simpl.
    destruct (Z.leb_spec (amount * 250) MAX_UINT256); [| lia]. simpl.
    assert (Hfee : 0 <= amount * 250 / 10000 <= amount).
    { split; [apply Z.div_pos; lia |].
      apply Z.div_le_upper_bound; lia. }
    destruct (Z.leb_spec (amount * 250 / 10000) amount); [| lia]. simpl.
    destruct (Z.leb_spec amount
                (BountyPoolStorage.taskBounties (bountyPool w)@taskId));
      [| lia]. simpl.
    destruct (Z.leb_spec
                (BountyPoolStorage.accumulatedFees (bountyPool w)
                 + amount * 250 / 10000) MAX_UINT256); [| lia]. simpl.
    rewrite Haccept.
    destruct (pay_enough (bountyPoolAt D) worker (amount - amount * 250 / 10000)
                (balances w) Hfunds) as [b' ->].
    reflexivity.
Qed.

End Escrow.

(** An instance: task 0 holds one ether in escrow.  A payout of two ether
    is refused; the payout of one ether to [worker1] brings 0.975 ether to
    the worker and 0.025 to the fee pool. *)
Lemma distributeReward_effects_witness :
  is_ok
    (BountyPool.distributeReward Scenario.D
       (mkMsg (verificationAt Scenario.D) 0 Scenario.genesis) 0
       Scenario.worker1 (2 * ether) Scenario.escrowed) = false
  /\ exists w',
       BountyPool.distributeReward Scenario.D
         (mkMsg (verificationAt Scenario.D) 0 Scenario.genesis) 0
         Scenario.worker1 ether Scenario.escrowed = Ok w'
       /\ BountyPool.getTaskBounty 0 w' = 0
       /\ BountyPool.getAccumulatedFees w' = 25 * 10 ^ 15
       /\ balanceOf (balances w') Scenario.worker1
          = 100 * ether + 975 * 10 ^ 15.
Proof.
  split.
  { apply (distributeReward_effects Scenario.D
             (mkMsg (verificationAt Scenario.D) 0 Scenario.genesis) 0
             Scenario.worker1 (2 * ether) Scenario.escrowed).
    vm_compute. reflexivity. }
  pose proof (distributeReward_effects Scenario.D
                (mkMsg (verificationAt Scenario.D) 0 Scenario.genesis) 0
                Scenario.worker1 ether Scenario.escrowed)
    as (_ & Heffects & Hreturns).
  assert (Hok : is_ok
                  (BountyPool.distributeReward Scenario.D
                     (mkMsg (verificationAt Scenario.D) 0 Scenario.genesis) 0
                     Scenario.worker1 ether Scenario.escrowed) = true).
  { apply Hreturns; vm_compute;
      first [reflexivity | split; intro Hc; discriminate Hc
            | intro Hc; discriminate Hc]. }
  destruct (BountyPool.distributeReward _ _ _ _ _ _) as [w' |] eqn:E;
    [| discriminate].
  exists w'. split; [reflexivity |].
  destruct (Heffects w' eq_refl) as (_ & Hbal & _ & Hfees & _ & Hcredit).
  rewrite Hbal, Hfees, Hcredit by (vm_compute; intro Hc; discriminate Hc).
  vm_compute. repeat split.
Defined.

(** ** Task creation *)

Section TaskCreation.
Import TaskManager.

(** [createTask] as the code has it, for C1: it reverts, leaving the state
    as it was, whenever the [bountyAmount] argument is below
    [MINIMUM_BOUNTY] or the deadline is not strictly after the block's
    time.  A call that
    returns has stored the task under the next id with status [ACTIVE] and
    the declared bounty; the value attached to the call is now in the task
    manager's own account and the pool's storage is what it was.  With a
    declared bounty of at least the minimum, a later deadline and a sender
    who can cover the attached value, the call does return. *)
Theorem createTask_effects
    (D : Deployment) (m : Msg) (description : string)
    (category : TaskCategory) (bountyAmount maxWorkers : Z)
    (location : Location.t) (deadline : Z)
    (requirements : TaskRequirements.t) (w : World) :
  let attempt :=
    createTask D m description category bountyAmount maxWorkers location
      deadline requirements w in
  (bountyAmount < MINIMUM_BOUNTY \/ deadline <= timestamp m ->
     is_ok attempt = false
     /\ apply D w
          (m, CreateTask description category bountyAmount maxWorkers
                location deadline requirements) = w)
  /\ (forall w' taskId, attempt = Ok (w', taskId) ->
        MINIMUM_BOUNTY <= bountyAmount
        /\ timestamp m < deadline
        /\ taskId = TaskManagerStorage.taskIdCounter (taskManager w)
        /\ getTask taskId w'
           = Task.mk taskId (sender m) description category bountyAmount
               maxWorkers location deadline ACTIVE requirements 0 0
               (timestamp m)
        /\ bountyPool w' = bountyPool w
        /\ pay (sender m) (taskManagerAt D) (value m) (balances w)
           = Some (balances w'))
  /\ (MINIMUM_BOUNTY <= bountyAmount ->
      timestamp m < deadline ->
      value m <= balanceOf (balances w) (sender m) ->
      TaskManagerStorage.taskIdCounter (taskManager w) + 1 <= MAX_UINT256 ->
      is_ok attempt = true).
Proof.
  cbv zeta. split; [| split].
  - intros Hbad.
    assert (Hrev : is_ok
                     (createTask D m description category bountyAmount
                        maxWorkers location deadline requirements w) = false).
    { unfold createTask, receive_value.
      destruct (pay _ _ _ _); simpl; [| done].
      destruct (Z.ltb_spec bountyAmount MINIMUM_BOUNTY); simpl; [done |].
      destruct (Z.leb_spec deadline (timestamp m)); simpl; [done | lia]. }
    split; [exact Hrev |].
    unfold apply, call. cbn [fst snd].
    destruct (createTask _ _ _ _ _ _ _ _ _ _); simpl in *; [discriminate | done].
  - intros w' taskId E. unfold createTask in E.
    ok_step E. ok_step E. ok_step E. ok_step E. injection E as <- <-.
    unfold receive_value in E0.
    destruct (pay _ _ _ _) as [b |] eqn:Hpay; [| discriminate].
    injection E0 as <-. simpl in *.
    apply revert_if_ok, Z.ltb_ge in E1. apply revert_if_ok, Z.leb_gt in E2.
    unfold getTask. simpl. rewrite sload_insert_eq. done.
  - intros Hmin Hlater Hfunds Hcount.
    unfold createTask, receive_value, uadd.
    destruct (pay_enough (sender m) (taskManagerAt D) (value m) (balances w)
                Hfunds) as [b' ->]. simpl.
    destruct (Z.ltb_spec bountyAmount MINIMUM_BOUNTY); [lia |]. simpl.
    destruct (Z.leb_spec deadline (timestamp m)); [lia |]. simpl.
    destruct (Z.leb_spec
                (TaskManagerStorage.taskIdCounter (taskManager w) + 1)
                MAX_UINT256); [| lia].
    reflexivity.
Qed.

(** An instance: declaring a bounty of 0.4 ether is refused; the call that
    opens task 0 in the scenario, declaring one ether, returns. *)
Lemma createTask_effects_witness :
  is_ok
    (createTask Scenario.D
       (Scenario.at_time Scenario.creator ether Scenario.genesis)
       "Take a photo of the storefront" PHOTO_VERIFICATION (4 * ether / 10) 5
       Scenario.anywhere Scenario.deadline Scenario.no_requirements
       Scenario.wired) = false
  /\ exists w',
       createTask Scenario.D
         (Scenario.at_time Scenario.creator ether Scenario.genesis)
         "Take a photo of the storefront" PHOTO_VERIFICATION ether 5
         Scenario.anywhere Scenario.deadline Scenario.no_requirements
         Scenario.wired = Ok (w', 0)
       /\ Task.status (getTask 0 w') = ACTIVE
       /\ BountyPool.getTaskBounty 0 w' = 0.
Proof.
  split.
  { apply (createTask_effects Scenario.D
             (Scenario.at_time Scenario.creator ether Scenario.genesis)
             "Take a photo of the storefront" PHOTO_VERIFICATION
             (4 * ether / 10) 5 Scenario.anywhere Scenario.deadline
             Scenario.no_requirements Scenario.wired).
    left. vm_compute. reflexivity. }
  pose proof (createTask_effects Scenario.D
                (Scenario.at_time Scenario.creator ether Scenario.genesis)
                "Take a photo of the storefront" PHOTO_VERIFICATION ether 5
                Scenario.anywhere Scenario.deadline Scenario.no_requirements
                Scenario.wired) as (_ & Heffects & Hreturns).
  cbv zeta in Heffects, Hreturns.
  assert (Hok : is_ok
                  (createTask Scenario.D
                     (Scenario.at_time Scenario.creator ether Scenario.genesis)
                     "Take a photo of the storefront" PHOTO_VERIFICATION
                     ether 5 Scenario.anywhere Scenario.deadline
                     Scenario.no_requirements Scenario.wired) = true).
  { apply Hreturns; vm_compute;
      first [reflexivity | intro Hc; discriminate Hc]. }
  destruct (createTask _ _ _ _ ether _ _ _ _ _) as [[w' taskId] |] eqn:E;
    [| discriminate].
  destruct (Heffects w' taskId eq_refl) as (_ & _ & -> & Htask & Hpool & _).
  exists w'. split; [reflexivity |].
  unfold BountyPool.getTaskBounty. rewrite Hpool.
  change (TaskManagerStorage.taskIdCounter (taskManager Scenario.wired)) with 0
    in Htask.
  rewrite Htask. split; reflexivity.
Defined.

(** C1.  [createTask] neither checks the attached funds nor escrows them, a
    defect of the code: the function is payable and keeps what it is sent,
    and the pool's [depositBounty], reserved to the task manager, is never
    called.  A call that attaches nothing, less than the minimum bounty, is
    accepted because it declares a bounty of one ether; and a call that
    attaches one ether leaves the escrow balance of the new task at 0: the
    pool's account received nothing, the ether sits in the task manager's
    account. *)
Lemma createTask_neither_checks_nor_forwards_funds :
  (exists w',
     createTask Scenario.D (Scenario.at_time Scenario.creator 0 Scenario.genesis)
       "Take a photo of the storefront" PHOTO_VERIFICATION ether 5
       Scenario.anywhere Scenario.deadline Scenario.no_requirements
       Scenario.wired = Ok (w', 0)
     /\ 0 < MINIMUM_BOUNTY)
  /\ (exists w',
        createTask Scenario.D
          (Scenario.at_time Scenario.creator ether Scenario.genesis)
          "Take a photo of the storefront" PHOTO_VERIFICATION ether 5
          Scenario.anywhere Scenario.deadline Scenario.no_requirements
          Scenario.wired = Ok (w', 0)
        /\ BountyPool.getTaskBounty 0 w' = 0
        /\ balanceOf (balances w') (bountyPoolAt Scenario.D) = 0
        /\ balanceOf (balances w') (taskManagerAt Scenario.D) = ether).
Proof.
  split.
  - eexists. split; [vm_compute; reflexivity | reflexivity].
  - eexists. split; [vm_compute; reflexivity |]. vm_compute. repeat split.
Qed.

End TaskCreation.

(** ** Task expiry *)

Section TaskExpiry.
Import TaskManager.

(** [expireTask] as the code has it, for C5: it returns [true] only when the
    deadline has passed and the task is neither [EXPIRED] nor [COMPLETED],
    and then the task is [EXPIRED]; on [false] nothing changed.  Either
    way the pool's storage and every account balance are what they were:
    no refund is triggered.  The refund with the 5% fee is the pool's own
    [refundBounty], which returns only for the address the pool records as
    task manager: it then takes [amount * 500 / 10000] into the fee pool,
    pays the rest to the creator and lowers the task's balance by
    [amount]. *)
Theorem expireTask_effects
    (D : Deployment) (m : Msg) (taskId : Z) (w : World) :
  let task := getTask taskId w in
  (forall w' expired, expireTask m taskId w = Ok (w', expired) ->
     Task.deadline task < timestamp m
     /\ bountyPool w' = bountyPool w
     /\ balances w' = balances w
     /\ (expired = true ->
           Task.status task <> EXPIRED /\ Task.status task <> COMPLETED
           /\ getTask taskId w' = Task.with_status EXPIRED task)
     /\ (expired = false -> w' = w))
  /\ (Task.id task = taskId ->
      Task.deadline task < timestamp m ->
      Task.status task <> EXPIRED ->
      Task.status task <> COMPLETED ->
      exists w', expireTask m taskId w = Ok (w', true))
  /\ (forall creator amount w',
        BountyPool.refundBounty D m taskId creator amount w = Ok w' ->
        let fee := amount * 500 / 10000 in
        sender m = BountyPoolStorage.taskManagerAddress (bountyPool w)
        /\ amount <= BountyPool.getTaskBounty taskId w
        /\ BountyPool.getTaskBounty taskId w'
           = BountyPool.getTaskBounty taskId w - amount
        /\ BountyPool.getAccumulatedFees w'
           = BountyPool.getAccumulatedFees w + fee
        /\ pay (bountyPoolAt D) creator (amount - fee) (balances w)
           = Some (balances w')).
Proof.
  cbv zeta. unfold getTask. split; [| split].
  - intros w' expired E. unfold expireTask in E.
    ok_step E. ok_step E.
    apply revert_if_ok, Z.leb_gt in E1.
    destruct (bool_decide (Task.status _ = EXPIRED)) eqn:Hexp;
      [| destruct (bool_decide (Task.status _ = COMPLETED)) eqn:Hcom];
      simpl in E; injection E as <- <-; simpl;
      repeat split; try done; try (intros; discriminate).
    + by apply bool_decide_eq_false in Hexp.
    + by apply bool_decide_eq_false in Hcom.
    + by rewrite sload_insert_eq.
  - intros Hid Hlate Hexp Hcom. unfold expireTask.
    rewrite Hid, Z.eqb_refl. simpl.
    destruct (Z.leb_spec (timestamp m)
                (Task.deadline (TaskManagerStorage.tasks (taskManager w)@taskId)));
      [lia |]. simpl.
    rewrite (bool_decide_eq_false_2 _ Hexp), (bool_decide_eq_false_2 _ Hcom).
    simpl. eauto.
  - intros creator amount w' E. unfold BountyPool.refundBounty in E.
    ok_step E; ok_step E; ok_step E; ok_step E; ok_step E; ok_step E;
      ok_step E.
    repeat match goal with
      | H : revert_if _ _ = Ok _ |- _ => apply revert_if_ok in H
      | H : umul _ _ = Ok _ |- _ => apply umul_ok in H; destruct H as [-> ?]
      | H : udiv _ _ = Ok _ |- _ => apply udiv_ok in H; destruct H as [-> ?]
      | H : usub _ _ = Ok _ |- _ => apply usub_ok in H; destruct H as [-> ?]
      | H : uadd _ _ = Ok _ |- _ => apply uadd_ok in H; destruct H as [-> ?]
      end.
    unfold call_value in E.
    destruct (accepts_payment D creator); [| discriminate].
    destruct (pay _ _ _ _) as [b |] eqn:Hpay; [| discriminate].
    injection E as <-.
    unfold BountyPool.getTaskBounty, BountyPool.getAccumulatedFees,
      BountyPool.EXPIRED_TASK_FEE_PERCENTAGE, BountyPool.BASIS_POINTS in *.
    simpl. rewrite sload_insert_eq.
    match goal with H : BountyPool.onlyTaskManager _ _ = Ok _ |- _ =>
      unfold BountyPool.onlyTaskManager in H;
      apply revert_if_ok, negb_false_iff, Z.eqb_eq in H end.
    match goal with H : (_ <? _) = false |- _ => apply Z.ltb_ge in H end.
    done.
Qed.

(** An instance: task 0 of the scenario is expired one second after its
    deadline; and the deployer, whom the pool records as task manager,
    refunds the ether in escrow with 0.05 ether going to the fee pool. *)
Lemma expireTask_effects_witness :
  (exists w',
     expireTask (Scenario.at_time Scenario.deployer 0 (Scenario.deadline + 1)) 0
       Scenario.escrowed = Ok (w', true)
     /\ Task.status (getTask 0 w') = EXPIRED)
  /\ (exists w',
        BountyPool.refundBounty Scenario.D
          (Scenario.at_time Scenario.deployer 0 (Scenario.deadline + 1)) 0
          Scenario.creator ether Scenario.escrowed = Ok w'
        /\ BountyPool.getTaskBounty 0 w' = 0
        /\ BountyPool.getAccumulatedFees w' = 50 * 10 ^ 15).
Proof.
  pose proof (expireTask_effects Scenario.D
                (Scenario.at_time Scenario.deployer 0 (Scenario.deadline + 1))
                0 Scenario.escrowed) as (Heffects & Hreturns & Hrefund).
  cbv zeta in Heffects, Hreturns, Hrefund.
  split.
  - destruct Hreturns as [w' E];
      [vm_compute; reflexivity | vm_compute; reflexivity
       | vm_compute; intro Hc; discriminate Hc
       | vm_compute; intro Hc; discriminate Hc |].
    exists w'. split; [exact E |].
    destruct (Heffects w' true E) as (_ & _ & _ & Hexpired & _).
    destruct (Hexpired eq_refl) as (_ & _ & ->). reflexivity.
  - destruct (BountyPool.refundBounty Scenario.D
                (Scenario.at_time Scenario.deployer 0 (Scenario.deadline + 1))
                0 Scenario.creator ether Scenario.escrowed)
      as [w' |] eqn:E; [| vm_compute in E; discriminate E].
    exists w'. split; [reflexivity |].
    destruct (Hrefund Scenario.creator ether w' E) as (_ & _ & -> & -> & _).
    vm_compute. split; reflexivity.
Defined.

(** C5.  [expireTask] triggers no refund, a defect of the code: the pool's
    [refundBounty], written for expired tasks and reserved to the task
    manager, is never called.  Task 0 has one ether in escrow, its deadline
    has passed, [expireTask] returns [true] and the task is [EXPIRED], yet
    the escrow still holds the whole ether, the fee pool is empty and the
    creator's balance did not move. *)
Lemma expireTask_triggers_no_refund :
  exists w',
    expireTask (Scenario.at_time Scenario.deployer 0 (Scenario.deadline + 1)) 0
      Scenario.escrowed = Ok (w', true)
    /\ Task.status (getTask 0 w') = EXPIRED
    /\ BountyPool.getTaskBounty 0 w' = ether
    /\ BountyPool.getAccumulatedFees w' = 0
    /\ balanceOf (balances w') Scenario.creator
       = balanceOf (balances Scenario.escrowed) Scenario.creator.
Proof. eexists. split; [vm_compute; reflexivity |]. vm_compute. repeat split. Qed.

End TaskExpiry.

(** ** The content-hash index *)

Section ContentHashes.
Import AntiFraud.

Lemma checkAndRecordSubmission_ok m worker taskId imageHash metadataHash s s' b :
  checkAndRecordSubmission m worker taskId imageHash metadataHash s
  = Ok (s', b) ->
  AntiFraudStorage.usedImageHashes s@imageHash = false
  /\ claimed_by imageHash worker s'
  /\ (forall other, other <> imageHash ->
        AntiFraudStorage.usedImageHashes s'@other
        = AntiFraudStorage.usedImageHashes s@other
        /\ AntiFraudStorage.imageHashToWorker s'@other
           = AntiFraudStorage.imageHashToWorker s@other).
Proof.
  intros E. unfold checkAndRecordSubmission in E.
  ok_step E. ok_step E. ok_step E. ok_step E. ok_step E.
  injection E as <- <-.
  unfold _checkRateLimit in E2. ok_step E2. ok_step E2. injection E2 as <-.
  unfold _checkDuplicateImage in E3. simpl in E3.
  destruct (AntiFraudStorage.usedImageHashes s@imageHash) eqn:Hused;
    [discriminate |].
  split; [reflexivity |]. split.
  - unfold claimed_by, isImageHashUsed, getImageHashWorker. simpl.
    by rewrite !sload_insert_eq.
  - intros other Hne. simpl. by rewrite !sload_insert_ne.
Qed.

Lemma call_keeps_claim m c s s' imageHash claimant :
  call m c s = Ok s' ->
  claimed_by imageHash claimant s -> claimed_by imageHash claimant s'.
Proof.
  intros E [Hused Howner].
  unfold claimed_by, isImageHashUsed, getImageHashWorker in *.
  destruct c; simpl in E.
  - unfold setVerificationContract in E. ok_step E. ok_step E.
    by injection E as <-.
  - unfold setTaskManager in E. ok_step E. ok_step E. by injection E as <-.
  - ok_step E. destruct v as [s1 b]. injection E as <-. simpl.
    apply checkAndRecordSubmission_ok in E0 as (Hfresh & _ & Hothers).
    destruct (decide (imageHash0 = imageHash)) as [-> | Hne];
      [congruence |].
    destruct (Hothers imageHash (not_eq_sym Hne)) as [-> ->]. done.
  - unfold forfeitStake in E. ok_step E. ok_step E. by injection E as <-.
  - unfold blacklistWorker in E. ok_step E. by injection E as <-.
  - unfold unblacklistWorker in E. ok_step E. by injection E as <-.
Qed.

Lemma run_keeps_claim txs s imageHash claimant :
  claimed_by imageHash claimant s ->
  claimed_by imageHash claimant (run txs s).
Proof.
  revert s. induction txs as [| tx txs IH]; intros s Hs; [exact Hs |].
  simpl. apply IH. unfold apply.
  destruct (call (fst tx) (snd tx) s) eqn:E; [| exact Hs].
  eapply call_keeps_claim; eauto.
Qed.

(** C7.  A submission whose content hash is not yet in the index is
    accepted when it passes the gates that come before the duplicate check
    (caller, blacklist, rate limit) and carries metadata.  Once a submission of
    [first] with [imageHash] was accepted, then after any further calls of
    the contract the hash is still claimed by [first], every submission
    with the same hash is rejected, and the rejection is
    [DuplicateImageDetected imageHash first] whenever the second
    submission gets as far as the duplicate check. *)
Theorem duplicate_content_hash_rejected
    (imageHash : string) (s : AntiFraudStorage.t) :
  (forall m worker taskId metadataHash,
     isImageHashUsed imageHash s = false ->
     onlyAuthorizedContracts m s = Ok tt ->
     notBlacklisted worker s = Ok tt ->
     is_ok (_checkRateLimit m worker s) = true ->
     metadataHash <> 0 ->
     exists s1,
       checkAndRecordSubmission m worker taskId imageHash metadataHash s
       = Ok (s1, true))
  /\ (forall m1 first taskId1 metadataHash1 s1,
        checkAndRecordSubmission m1 first taskId1 imageHash metadataHash1 s
        = Ok (s1, true) ->
        forall txs m2 second taskId2 metadataHash2,
          let s2 := run txs s1 in
          claimed_by imageHash first s2
          /\ is_ok (checkAndRecordSubmission m2 second taskId2 imageHash
                      metadataHash2 s2) = false
          /\ (onlyAuthorizedContracts m2 s2 = Ok tt ->
              notBlacklisted second s2 = Ok tt ->
              is_ok (_checkRateLimit m2 second s2) = true ->
              checkAndRecordSubmission m2 second taskId2 imageHash
                metadataHash2 s2
              = Revert (DuplicateImageDetected imageHash first))).
Proof.
  split.
  - intros m worker taskId metadataHash Hfresh Hauth Hlist Hrate Hmeta.
    unfold checkAndRecordSubmission. rewrite Hauth, Hlist. simpl.
    destruct (_checkRateLimit m worker s) as [s' |] eqn:Erate;
      [| discriminate]. simpl.
    assert (Hsame : AntiFraudStorage.usedImageHashes s'
                    = AntiFraudStorage.usedImageHashes s).
    { unfold _checkRateLimit in Erate. ok_step Erate. ok_step Erate.
      by injection Erate as <-. }
    unfold _checkDuplicateImage, _validateMetadata, isImageHashUsed in *.
    rewrite Hsame, Hfresh. simpl.
    destruct (Z.eqb_spec metadataHash 0); [done |]. simpl. eauto.
  - intros m1 first taskId1 metadataHash1 s1 Efirst txs m2 second taskId2
      metadataHash2. cbv zeta.
    apply checkAndRecordSubmission_ok in Efirst as (_ & Hclaimed & _).
    apply (run_keeps_claim txs) in Hclaimed.
    set (s2 := run txs s1) in *.
    assert (Hnamed :
              forall s', AntiFraudStorage.usedImageHashes s'
                         = AntiFraudStorage.usedImageHashes s2 ->
                         AntiFraudStorage.imageHashToWorker s'
                         = AntiFraudStorage.imageHashToWorker s2 ->
                         _checkDuplicateImage second imageHash s'
                         = Revert (DuplicateImageDetected imageHash first)).
    { intros s' Hu Ho. destruct Hclaimed as [Hused Howner].
      unfold _checkDuplicateImage, isImageHashUsed, getImageHashWorker in *.
      by rewrite Hu, Ho, Hused, Howner. }
    assert (Hrate :
              forall s', _checkRateLimit m2 second s2 = Ok s' ->
                         _checkDuplicateImage second imageHash s'
                         = Revert (DuplicateImageDetected imageHash first)).
    { intros s' Erate. apply Hnamed;
        unfold _checkRateLimit in Erate; ok_step Erate; ok_step Erate;
        by injection Erate as <-. }
    split; [exact Hclaimed |]. split.
    + unfold checkAndRecordSubmission.
      destruct (onlyAuthorizedContracts m2 s2); simpl; [| done].
      destruct (notBlacklisted second s2); simpl; [| done].
      destruct (_checkRateLimit m2 second s2) as [s' |] eqn:Erate; simpl;
        [| done].
      by rewrite (Hrate s' eq_refl).
    + intros Hauth Hlist Hok. unfold checkAndRecordSubmission.
      rewrite Hauth, Hlist. simpl.
      destruct (_checkRateLimit m2 second s2) as [s' |] eqn:Erate;
        [| discriminate]. simpl.
      by rewrite (Hrate s' eq_refl).
Qed.

End ContentHashes.

(** An instance: [worker1] submits a content hash through the task
    manager, then [worker2] submits the same one. *)
Lemma duplicate_content_hash_rejected_witness :
  let from_taskManager :=
    Scenario.at_time (taskManagerAt Scenario.D) 0 Scenario.genesis in
  (exists s1,
     AntiFraud.checkAndRecordSubmission from_taskManager Scenario.worker1 0
       "QmTest123" 1 (antiFraud Scenario.wired) = Ok (s1, true))
  /\ AntiFraud.checkAndRecordSubmission from_taskManager Scenario.worker1 0
       "QmTest123" 1 (antiFraud Scenario.wired)
     = Ok (Scenario.first_recorded, true)
  /\ AntiFraud.checkAndRecordSubmission from_taskManager Scenario.worker2 1
       "QmTest123" 1 Scenario.first_recorded
     = Revert (DuplicateImageDetected "QmTest123" Scenario.worker1).
Proof.
  cbv zeta.
  destruct (duplicate_content_hash_rejected "QmTest123"
              (antiFraud Scenario.wired)) as [Hfirst Hsecond].
  split.
  { apply Hfirst; first [vm_compute; reflexivity | intro Hc; discriminate Hc]. }
  assert (E1 : AntiFraud.checkAndRecordSubmission
                 (Scenario.at_time (taskManagerAt Scenario.D) 0 Scenario.genesis)
                 Scenario.worker1 0 "QmTest123" 1 (antiFraud Scenario.wired)
               = Ok (Scenario.first_recorded, true))
    by (vm_compute; reflexivity).
  split; [exact E1 |].
  destruct
    (Hsecond _ _ _ _ _ E1 []
       (Scenario.at_time (taskManagerAt Scenario.D) 0 Scenario.genesis)
       Scenario.worker2 1 1) as (_ & _ & Hnamed).
  apply Hnamed; vm_compute; reflexivity.
Defined.

(** ** Claims past the completion timeout *)

Section ExpiredClaims.
Import TaskManager.

Lemma last_lookup (l : list Z) (x d : Z) :
  l !! (length l - 1)%nat = Some x -> List.last l d = x.
Proof.
  induction l as [| y l IH]; [done |].
  destruct l as [| z l]; simpl in *; [congruence |].
  intros Hx. apply IH. by rewrite Nat.sub_0_r.
Qed.

Lemma remove_at_first_match_some taskId l i n l' :
  remove_at_first_match taskId l i n = Some l' ->
  exists j, l !! j = Some taskId
            /\ l' = removelast (<[j := List.last l 0]> l).
Proof.
  revert i. induction n as [| n IH]; intros i E; simpl in E; [done |].
  destruct (l !! i) as [x |] eqn:Hi; [| done].
  destruct (Z.eqb_spec x taskId) as [-> | Hne]; [| eauto].
  injection E as <-. eauto.
Qed.

(** Removing one task id from the active list keeps every other id. *)
Lemma remove_at_first_match_keeps taskId l i n l' (x : Z) :
  remove_at_first_match taskId l i n = Some l' ->
  x ∈ l -> x <> taskId -> x ∈ l'.
Proof.
  intros E Hx Hne.
  apply remove_at_first_match_some in E as (j & Hj & ->).
  apply list_elem_of_lookup_1 in Hx as [k Hk].
  assert (Hjk : j <> k) by congruence.
  pose proof (lookup_lt_Some _ _ _ Hj) as Hjlt.
  pose proof (lookup_lt_Some _ _ _ Hk) as Hklt.
  rewrite removelast_firstn_len, length_insert.
  destruct (decide (k < pred (length l))%nat) as [Hin | Hlast].
  - apply (list_elem_of_lookup_2 _ k).
    rewrite lookup_take_lt by done. by rewrite list_lookup_insert_ne.
  - assert (k = (length l - 1)%nat) as -> by lia.
    apply (list_elem_of_lookup_2 _ j).
    rewrite lookup_take_lt by lia.
    rewrite list_lookup_insert_eq by done.
    f_equal. by apply last_lookup.
Qed.

(** What one call of the task manager leaves alone when the claim of
    [worker] on [taskId] has timed out. *)
Lemma call_keeps_timed_out_claim D m c w w' worker taskId :
  call D m c w = Ok w' ->
  TaskClaim.worker
    (TaskManagerStorage.taskClaims (taskManager w)@(taskId, worker)) <> 0 ->
  claim_timed_out worker taskId w m ->
  taskId ∈ getWorkerActiveTasks worker w ->
  TaskManagerStorage.taskClaims (taskManager w')@(taskId, worker)
  = TaskManagerStorage.taskClaims (taskManager w)@(taskId, worker)
  /\ taskId ∈ getWorkerActiveTasks worker w'
  /\ reputation w' = reputation w.
Proof.
  unfold claim_timed_out, getWorkerActiveTasks.
  intros E Hclaim Hlate Hactive. destruct c; simpl in E.
  - unfold setAntiFraud in E. ok_step E. ok_step E. by injection E as <-.
  - ok_step E. injection E as <-. unfold createTask in E0.
    ok_step E0. ok_step E0. ok_step E0. ok_step E0. injection E0 as <-.
    unfold receive_value in E.
    destruct (pay _ _ _ _); [| done]. by injection E as <-.
  - ok_step E. injection E as <-. unfold claimTask in E0.
    ok_step E0. ok_step E0. ok_step E0. ok_step E0. ok_step E0. ok_step E0.
    injection E0 as <-. simpl.
    apply revert_if_ok, negb_false_iff, Z.eqb_eq in E3.
    assert (Hkey : (taskId0, sender m) <> (taskId, worker)) by congruence.
    rewrite sload_insert_ne by done. split; [done |]. split; [| done].
    destruct (decide (sender m = worker)) as [-> | Hother].
    + rewrite sload_insert_eq. apply elem_of_app. by left.
    + by rewrite sload_insert_ne.
  - ok_bind E as r Er. injection E as <-. unfold submitTaskCompletion in Er.
    ok_bind Er as u1 Eid. ok_bind Er as u2 Eclaimed. ok_bind Er as u3 Etask.
    ok_bind Er as claimDeadline Esum. ok_bind Er as u4 Etimeout.
    ok_bind Er as u5 Ewithin. ok_bind Er as w1 Efraud.
    ok_bind Er as count Ecount. injection Er as <-.
    apply uadd_ok in Esum as [-> _]. apply revert_if_ok, Z.ltb_ge in Etimeout.
    assert (Hkey : (taskId0, sender m) <> (taskId, worker)).
    { intros [= -> Hs]. rewrite Hs in Etimeout. lia. }
    assert (Hw : taskManager w1 = taskManager w /\ reputation w1 = reputation w).
    { destruct (negb _) in Efraud; [| by injection Efraud as <-].
      unfold IAntiFraud_checkAndRecordSubmission in Efraud.
      destruct (_ =? _) in Efraud; [| done].
      ok_bind Efraud as a Ea. by injection Efraud as <-. }
    destruct Hw as [Htm Hrep]. simpl. rewrite Htm, Hrep.
    split; [| split; [| done]].
    + unfold _removeActiveTask.
      destruct (remove_at_first_match _ _ _ _); simpl;
        by rewrite sload_insert_ne.
    + unfold _removeActiveTask. simpl.
      destruct (remove_at_first_match _ _ _ _) as [l |] eqn:Hrm; simpl;
        [| done].
      destruct (decide (sender m = worker)) as [Hs | Hother].
      * rewrite Hs in *. rewrite sload_insert_eq.
        eapply remove_at_first_match_keeps; eauto. congruence.
      * by rewrite sload_insert_ne.
  - ok_step E. injection E as <-. unfold expireTask in E0.
    ok_step E0. ok_step E0.
    destruct (_ || _) in E0; by injection E0 as <-.
Qed.

(** A timed-out claim as the code has it, for C9: once the claim of
    [worker] on [taskId] is
    older than 24 hours, the worker can no longer submit against it.
    Nothing else happens: along any later calls of the task manager the
    task id stays in the worker's active list, where it keeps counting
    against the worker's three slots, and the reputation contract's
    storage is untouched. *)
Theorem timed_out_claim_stays_active
    (D : Deployment) (w : World) (worker : address) (taskId : Z)
    (txs : list (Msg * Call)) :
  TaskClaim.worker
    (TaskManagerStorage.taskClaims (taskManager w)@(taskId, worker)) <> 0 ->
  taskId ∈ getWorkerActiveTasks worker w ->
  Forall (fun tx => claim_timed_out worker taskId w (fst tx)) txs ->
  let w' := run D txs w in
  taskId ∈ getWorkerActiveTasks worker w'
  /\ reputation w' = reputation w
  /\ (forall m ipfsHash submissionLocation,
        sender m = worker ->
        claim_timed_out worker taskId w m ->
        is_ok (submitTaskCompletion D m taskId ipfsHash submissionLocation w')
        = false).
Proof.
  intros Hclaim Hactive Hlate. cbv zeta.
  assert (Hinv :
            TaskManagerStorage.taskClaims (taskManager (run D txs w))@(taskId, worker)
            = TaskManagerStorage.taskClaims (taskManager w)@(taskId, worker)
            /\ taskId ∈ getWorkerActiveTasks worker (run D txs w)
            /\ reputation (run D txs w) = reputation w).
  { revert w Hclaim Hactive Hlate.
    induction txs as [| [m c] txs IH]; intros w Hclaim Hactive Hlate; [done |].
    apply Forall_cons in Hlate as [Hm Hlate]. simpl.
    assert (Hstep :
              TaskManagerStorage.taskClaims (taskManager (apply D w (m, c)))@(taskId, worker)
              = TaskManagerStorage.taskClaims (taskManager w)@(taskId, worker)
              /\ taskId ∈ getWorkerActiveTasks worker (apply D w (m, c))
              /\ reputation (apply D w (m, c)) = reputation w).
    { unfold apply. cbn [fst snd].
      destruct (call D m c w) as [w1 |] eqn:E; [| done].
      eapply call_keeps_timed_out_claim; eauto. }
    destruct Hstep as (Hsame & Hin & Hrep).
    destruct (IH (apply D w (m, c))) as (IH1 & IH2 & IH3).
    - by rewrite Hsame.
    - exact Hin.
    - eapply Forall_impl; [exact Hlate |].
      intros tx Htx. unfold claim_timed_out in *. by rewrite Hsame.
    - split; [congruence |]. split; [done | congruence]. }
  destruct Hinv as (Hsame & Hin & Hrep).
  split; [done |]. split; [done |].
  intros m ipfsHash submissionLocation Hsender Hm.
  unfold claim_timed_out in Hm. unfold submitTaskCompletion.
  destruct (revert_if (negb _) (InvalidTaskId taskId)); simpl; [| done].
  destruct (revert_if (_ =? 0) (TaskNotClaimed (sender m) taskId)); simpl;
    [| done].
  destruct (revert_if (_ <? _) (DeadlineExpired taskId _)); simpl; [| done].
  rewrite Hsender, Hsame. unfold uadd.
  destruct (_ <=? MAX_UINT256); simpl; [| done].
  destruct (Z.ltb_spec
              (TaskClaim.claimedAt
                 (TaskManagerStorage.taskClaims (taskManager w)@(taskId, worker))
               + TASK_COMPLETION_TIMEOUT) (timestamp m)); [done | lia].
Qed.

(** An instance: after the timeout [worker1] tries to submit against
    task 0 and to claim task 3, and the creator opens another task; a
    second later the worker tries to submit once more. *)
Lemma timed_out_claim_stays_active_witness :
  let late := Scenario.after_timeout in
  let w' :=
    run Scenario.D
      [(Scenario.at_time Scenario.worker1 0 late,
        SubmitTaskCompletion 0 "QmLate" Scenario.anywhere);
       (Scenario.at_time Scenario.worker1 0 late, ClaimTask 3);
       (Scenario.at_time Scenario.creator ether late,
        CreateTask "One more" SURVEY ether 5 Scenario.anywhere
          Scenario.week_end Scenario.no_requirements)]
      Scenario.three_claims in
  0 ∈ getWorkerActiveTasks Scenario.worker1 w'
  /\ reputation w' = reputation Scenario.three_claims
  /\ is_ok
       (submitTaskCompletion Scenario.D
          (Scenario.at_time Scenario.worker1 0 (late + 1)) 0 "QmLater"
          Scenario.anywhere w') = false.
Proof.
  cbv zeta.
  pose proof (timed_out_claim_stays_active Scenario.D Scenario.three_claims
                Scenario.worker1 0
                [(Scenario.at_time Scenario.worker1 0 Scenario.after_timeout,
                  SubmitTaskCompletion 0 "QmLate" Scenario.anywhere);
                 (Scenario.at_time Scenario.worker1 0 Scenario.after_timeout,
                  ClaimTask 3);
                 (Scenario.at_time Scenario.creator ether Scenario.after_timeout,
                  CreateTask "One more" SURVEY ether 5 Scenario.anywhere
                    Scenario.week_end Scenario.no_requirements)]) as Hstays.
  cbv zeta in Hstays.
  destruct Hstays as (Hin & Hrep & Hrefused).
  - vm_compute. intro Hc; discriminate Hc.
  - vm_compute. apply list_elem_of_here.
  - repeat constructor; vm_compute; reflexivity.
  - split; [exact Hin |]. split; [exact Hrep |].
    apply Hrefused; vm_compute; reflexivity.
Defined.

(** C9.  A timed-out claim is neither released nor penalised, a defect of
    the code: only a successful submission takes an id out of the active
    list, so three timed-out claims keep a worker from ever claiming
    again.  [worker1] claimed tasks 0, 1 and 2 and let more than 24 hours
    pass.  Submitting against task 0 is refused for the timed-out claim,
    but the three ids are still the worker's active list, a claim on task 3
    is refused for want of a free slot, and the worker's reputation is the
    default it always was. *)
Lemma timed_out_claim_frees_no_slot :
  let late := Scenario.at_time Scenario.worker1 0 Scenario.after_timeout in
  let w := Scenario.three_claims in
  submitTaskCompletion Scenario.D late 0 "QmLate" Scenario.anywhere w
  = Revert (DeadlineExpired 0 (Scenario.claimed_at + 24 * hours))
  /\ getWorkerActiveTasks Scenario.worker1
       (apply Scenario.D w
          (late, SubmitTaskCompletion 0 "QmLate" Scenario.anywhere))
     = [0; 1; 2]
  /\ claimTask late 3 w = Revert (MaxActiveTasksReached Scenario.worker1)
  /\ Task.status (getTask 3 w) = ACTIVE
  /\ reputation w = reputation Scenario.wired
  /\ ReputationContract.getReputationScore Scenario.worker1 (reputation w)
     = 50.
Proof. vm_compute. repeat split. Qed.

End ExpiredClaims.

(** ** The geofence *)

Section Geofence.
Import TaskManager.

Lemma isub_ok a b c : isub a b = Ok c -> c = a - b.
Proof. unfold isub. destruct (in_int256 _); intros E; by inversion E. Qed.

Lemma iadd_ok a b c : iadd a b = Ok c -> c = a + b.
Proof. unfold iadd. destruct (in_int256 _); intros E; by inversion E. Qed.

Lemma imul_ok a b c : imul a b = Ok c -> c = a * b.
Proof. unfold imul. destruct (in_int256 _); intros E; by inversion E. Qed.

Lemma _isWithinRadius_planar required provided b :
  _isWithinRadius required provided = Ok b ->
  b = planar_within required provided.
Proof.
  unfold _isWithinRadius, planar_within. intros E.
  ok_bind E as latDiff Hlat. ok_bind E as lonDiff Hlon.
  ok_bind E as latSquare Hlat2. ok_bind E as lonSquare Hlon2.
  ok_bind E as distanceSquared Hsum. ok_bind E as radiusSquared Hrad.
  ok_bind E as scaled Hscaled. ok_bind E as bound Hbound.
  injection E as <-.
  apply isub_ok in Hlat as ->. apply isub_ok in Hlon as ->.
  apply imul_ok in Hlat2 as ->. apply imul_ok in Hlon2 as ->.
  apply iadd_ok in Hsum as ->. apply umul_ok in Hrad as [-> _].
  apply umul_ok in Hscaled as [-> _]. apply udiv_ok in Hbound as [-> _].
  reflexivity.
Qed.

(** C6, as the code has it.  The distance test of the contract is the
    planar one: whenever [_isWithinRadius] returns, its answer is
    [planar_within].  When the task requires location, a submission is
    rejected unless that test returns [true]; it is rejected with
    [OutsideLocationRadius] when the test returns [false] and the checks
    on the task id, the claim and the two deadlines have passed. *)
Theorem submission_outside_planar_radius_rejected
    (D : Deployment) (m : Msg) (taskId : Z) (ipfsHash : string)
    (submissionLocation : Location.t) (w : World) :
  let task := getTask taskId w in
  let claim :=
    TaskManagerStorage.taskClaims (taskManager w)@(taskId, sender m) in
  TaskRequirements.requiresLocation (Task.requirements task) = true ->
  (forall b, _isWithinRadius (Task.location task) submissionLocation = Ok b ->
             b = planar_within (Task.location task) submissionLocation)
  /\ (_isWithinRadius (Task.location task) submissionLocation <> Ok true ->
      is_ok (submitTaskCompletion D m taskId ipfsHash submissionLocation w)
      = false)
  /\ (_isWithinRadius (Task.location task) submissionLocation = Ok false ->
      Task.id task = taskId ->
      TaskClaim.worker claim <> 0 ->
      timestamp m <= Task.deadline task ->
      timestamp m <= TaskClaim.claimedAt claim + TASK_COMPLETION_TIMEOUT
                     <= MAX_UINT256 ->
      submitTaskCompletion D m taskId ipfsHash submissionLocation w
      = Revert
          (OutsideLocationRadius
             (Location.latitude (Task.location task))
             (Location.longitude (Task.location task))
             (Location.latitude submissionLocation)
             (Location.longitude submissionLocation))).
Proof.
  cbv zeta. unfold getTask. intros Hrequired. split; [| split].
  - intros b. apply _isWithinRadius_planar.
  - intros Hnot. unfold submitTaskCompletion.
    destruct (revert_if (negb _) (InvalidTaskId taskId)); simpl; [| done].
    destruct (revert_if (_ =? 0) (TaskNotClaimed (sender m) taskId)); simpl;
      [| done].
    destruct (revert_if (_ <? _) (DeadlineExpired taskId _)); simpl; [| done].
    destruct (uadd _ TASK_COMPLETION_TIMEOUT); simpl; [| done].
    destruct (revert_if (_ <? _) (DeadlineExpired taskId _)); simpl; [| done].
    rewrite Hrequired.
    destruct (_isWithinRadius _ submissionLocation) as [[|] |]; simpl; done.
  - intros Hout Hid Hclaim Htask [Htimeout Hfits].
    unfold submitTaskCompletion, uadd.
    rewrite Hid, Z.eqb_refl. simpl.
    destruct (Z.eqb_spec
                (TaskClaim.worker
                   (TaskManagerStorage.taskClaims (taskManager w)@(taskId, sender m)))
                0); [done |]. simpl.
    destruct (Z.ltb_spec
                (Task.deadline (TaskManagerStorage.tasks (taskManager w)@taskId))
                (timestamp m)); [lia |]. simpl.
    destruct (Z.leb_spec
                (TaskClaim.claimedAt
                   (TaskManagerStorage.taskClaims (taskManager w)@(taskId, sender m))
                 + TASK_COMPLETION_TIMEOUT) MAX_UINT256); [| lia]. simpl.
    destruct (Z.ltb_spec
                (TaskClaim.claimedAt
                   (TaskManagerStorage.taskClaims (taskManager w)@(taskId, sender m))
                 + TASK_COMPLETION_TIMEOUT) (timestamp m)); [lia |]. simpl.
    by rewrite Hrequired, Hout.
Qed.

(** An instance: [worker1] submits from two degrees north of the centre
    of a fence of 111 km. *)
Lemma submission_outside_planar_radius_rejected_witness :
  planar_within Scenario.fence (Location.mk 2000000 0 0) = false
  /\ is_ok
       (submitTaskCompletion Scenario.D
          (Scenario.at_time Scenario.worker1 0 (Scenario.claimed_at + 60)) 0
          "QmFar" (Location.mk 2000000 0 0) Scenario.geofenced) = false
  /\ submitTaskCompletion Scenario.D
       (Scenario.at_time Scenario.worker1 0 (Scenario.claimed_at + 60)) 0
       "QmFar" (Location.mk 2000000 0 0) Scenario.geofenced
     = Revert (OutsideLocationRadius 0 0 2000000 0).
Proof.
  pose proof (submission_outside_planar_radius_rejected Scenario.D
                (Scenario.at_time Scenario.worker1 0 (Scenario.claimed_at + 60))
                0 "QmFar" (Location.mk 2000000 0 0) Scenario.geofenced)
    as Hrejected.
  cbv zeta in Hrejected.
  destruct Hrejected as (Hplanar & Hrefused & Hnamed);
    [vm_compute; reflexivity |].
  split; [| split].
  - symmetry. apply Hplanar. vm_compute. reflexivity.
  - apply Hrefused. vm_compute. intro Hc; discriminate Hc.
  - apply Hnamed.
    + vm_compute. reflexivity.
    + vm_compute. reflexivity.
    + vm_compute. intro Hc; discriminate Hc.
    + vm_compute. intro Hc; discriminate Hc.
    + split; vm_compute; intro Hc; discriminate Hc.
Defined.

Local Open Scope R_scope.

Lemma PI_above_3_14 : 3.14 < PI.
Proof.
  pose proof (PI_2_3_7_ineq 1) as [Hlow _].
  unfold PI_2_3_7_tg, tg_alt, Ratan_seq in Hlow.
  simpl in Hlow. lra.
Qed.

(** The great-circle distance between two points of one meridian that are
    a degree apart is the arc of one degree. *)
Lemma calculateDistance_one_degree :
  LocationService.calculateDistance 1 0 0 0 = 6371000 * (PI / 180).
Proof.
  pose proof PI_above_3_14 as Hpi. pose proof PI_4 as Hpi4.
  unfold LocationService.calculateDistance.
  set (x := PI / 360).
  assert (Hx : 0 < x < PI / 2) by (unfold x; lra).
  replace ((0 - 1) * PI / 180 / 2) with (- x) by (unfold x; lra).
  replace ((0 - 0) * PI / 180 / 2) with 0 by lra.
  rewrite sin_0, sin_neg.
  assert (Hsin : 0 <= sin x) by (apply sin_ge_0; lra).
  assert (Hcos : 0 < cos x) by (apply cos_gt_0; lra).
  replace (- sin x * - sin x + cos (1 * PI / 180) * cos (0 * PI / 180) * 0 * 0)
    with (sin x * sin x) by lra.
  replace (1 - sin x * sin x) with (cos x * cos x)
    by (pose proof (sin2_cos2 x) as H; unfold Rsqr in H; lra).
  rewrite !sqrt_square by lra.
  unfold LocationService.atan2.
  destruct (Rlt_dec 0 (cos x)) as [_ | Hn]; [| lra].
  change (sin x / cos x) with (tan x).
  rewrite atan_tan by lra.
  unfold x. lra.
Qed.

(** C6, the claim as written, fails: a task requires the submission to be
    within 111000 meters of (0, 0).  The point one degree north is some
    111195 meters away by the haversine formula, outside the fence, and
    the submission from there is accepted: on the scaled coordinates the
    planar test finds 10^12 <= 10^12. *)
Lemma planar_check_accepts_point_outside_geofence :
  LocationService.outside_geofence Scenario.fence Scenario.one_degree_north
  /\ Task.location (getTask 0 Scenario.geofenced) = Scenario.fence
  /\ TaskRequirements.requiresLocation
       (Task.requirements (getTask 0 Scenario.geofenced)) = true
  /\ _isWithinRadius Scenario.fence Scenario.one_degree_north = Ok true
  /\ is_ok
       (submitTaskCompletion Scenario.D
          (Scenario.at_time Scenario.worker1 0 (Scenario.claimed_at + 60)%Z) 0
          "QmNorth" Scenario.one_degree_north Scenario.geofenced) = true.
Proof.
  split.
  - unfold LocationService.outside_geofence, LocationService.degrees.
    simpl.
    replace (1000000 / 1000000) with 1 by lra.
    replace (0 / 1000000) with 0 by lra.
    rewrite calculateDistance_one_degree.
    pose proof PI_above_3_14. lra.
  - vm_compute. repeat split.
Qed.

End Geofence.

(** ** Settlement of a submission *)

Section Settlement.
Import VerificationContract.

(** Paying the verifiers moves money and reputation only. *)
Lemma reward_verifiers_frame D m submissionId consensusApproved verifiers :
  forall totalReward w w' totalReward',
    reward_verifiers D m submissionId consensusApproved verifiers totalReward w
    = Ok (w', totalReward') ->
    verification w' = verification w /\ bountyPool w' = bountyPool w.
Proof.
  induction verifiers as [| verifier rest IH];
    intros totalReward w w' totalReward' E; simpl in E.
  { by injection E as <- <-. }
  assert (Hrep : forall target ok w1 w2,
            (if negb (target =? 0)
             then IReputationContract_updateVerifierReputation D m target
                    verifier ok w1
             else Ok w1) = Ok w2 ->
            verification w2 = verification w1
            /\ bountyPool w2 = bountyPool w1).
  { intros target ok w1 w2 Hcall.
    destruct (negb (target =? 0)); [| by injection Hcall as <-].
    unfold IReputationContract_updateVerifierReputation in Hcall.
    destruct (target =? reputationAt D); [| done].
    ok_bind Hcall as r Hr. by injection Hcall as <-. }
  destruct (negb (Vote.hasVoted _)); [by apply IH in E |].
  destruct (Bool.eqb _ _).
  - ok_bind E as scaled Hscaled.
    ok_bind E as reward Hreward. ok_bind E as total Htotal.
    ok_bind E as w1 Hpaid. ok_bind E as w2 Hrepd.
    apply IH in E as [-> ->]. apply Hrep in Hrepd as [-> ->].
    unfold call_value in Hpaid.
    destruct (accepts_payment D verifier); [| done].
    destruct (pay _ _ _ _); [| done]. by injection Hpaid as <-.
  - ok_bind E as w1 Hrepd. apply IH in E as [-> ->].
    by apply Hrep in Hrepd as [-> ->].
Qed.

(** All that a returning [distributeVerificationRewards] writes to the
    verification contract's own storage is the flag of the submission. *)
Lemma distributeVerificationRewards_verification D m submissionId w w' :
  distributeVerificationRewards D m submissionId w = Ok w' ->
  verification w'
  = VerificationStorage.with_submissions
      (<[submissionId :=
           Submission.with_rewardDistributed true
             (VerificationStorage.submissions (verification w)@submissionId)]>
         (VerificationStorage.submissions (verification w)))
      (verification w).
Proof.
  intros E. unfold distributeVerificationRewards in E.
  ok_bind E as u1 Hid. ok_bind E as u2 Hstatus. ok_bind E as u3 Hflag.
  ok_bind E as elapsed Helapsed. ok_bind E as u4 Hdelay.
  ok_bind E as w1 Hworker.
  unfold _distributeVerifierRewards in E. ok_bind E as r Hverifiers.
  destruct r as [w2 total]. injection E as <-.
  apply reward_verifiers_frame in Hverifiers as [-> _]. simpl in Hworker.
  destruct (_ && _) in Hworker.
  - unfold IBountyPool_distributeReward in Hworker.
    destruct (_ =? bountyPoolAt D) in Hworker; [| done].
    by apply distributeReward_ok in Hworker
      as (_ & _ & _ & _ & _ & -> & _).
  - by injection Hworker as <-.
Qed.

End Settlement.

(** ** Votes after consensus *)

(** C2.  Six verifiers stake on submission 0 before anyone votes.  The
    first three reject: the rejection count reaches 3 and the submission
    is [REJECTED].  The other three then approve; [submitVerification]
    does not look at the status, each vote is counted, and with the third
    approval the submission becomes [VERIFIED]: the status changed after a
    count had reached 3. *)
Theorem rejected_submission_turns_verified :
  let rejected :=
    VerificationContract.run Scenario.D
      (Scenario.votes false
         [Scenario.verifier1; Scenario.verifier2; Scenario.verifier3])
      Scenario.six_staked in
  let later :=
    VerificationContract.run Scenario.D
      (Scenario.votes true
         [Scenario.verifier4; Scenario.verifier5; Scenario.verifier6])
      rejected in
  let before := VerificationContract.getSubmission 0 rejected in
  let after := VerificationContract.getSubmission 0 later in
  Submission.rejectionCount before = 3
  /\ Submission.status before = REJECTED
  /\ Submission.rejectionCount after = 3
  /\ Submission.approvalCount after = 3
  /\ Submission.totalVotes after = 6
  /\ Submission.status after = VERIFIED.
Proof. vm_compute. repeat split. Qed.

(** ** The tally never exceeds the verifier cap *)

Section Tally.
Import VerificationContract.

Lemma size_list_to_set_le (l : list address) :
  (size (list_to_set l : gset address) <= length l)%nat.
Proof.
  induction l as [| x l IH]; [done |].
  rewrite list_to_set_cons, size_union_alt, size_singleton. simpl.
  assert (Hsub : list_to_set l ∖ {[x]} ⊆ (list_to_set l : gset address)).
  { intros a Ha. by apply elem_of_difference in Ha as [Ha _]. }
  apply subseteq_size in Hsub. lia.
Qed.

Lemma tally_backed_bound submissionId s :
  tally_backed submissionId s ->
  Submission.approvalCount (VerificationStorage.submissions s@submissionId)
  + Submission.rejectionCount (VerificationStorage.submissions s@submissionId)
  <= 7.
Proof.
  intros (voters & _ & Hin & _ & Hcap & Hsum & Hvotes).
  cbv zeta in *. rewrite Hsum.
  assert (Hsub : voters ⊆ list_to_set
                   (VerificationStorage.submissionVerifiers s@submissionId)).
  { intros a Ha. apply elem_of_list_to_set. by apply Hin. }
  apply subseteq_size in Hsub.
  pose proof (size_list_to_set_le
                (VerificationStorage.submissionVerifiers s@submissionId)).
  unfold MAX_VERIFIERS in Hcap. lia.
Qed.

Lemma unused_tally_backed submissionId s :
  unused s -> tally_backed submissionId s.
Proof.
  intros (Hs & Hv & Hl). exists ∅. unfold tally_backed.
  rewrite Hs, Hv, Hl. unfold sload. simpl.
  repeat split; try done; try (intros; set_solver).
Qed.

(** The tally is backed in [s'] when [s'] agrees with [s] on the votes,
    the verifier list and the three counters of the submission. *)
Lemma tally_backed_same submissionId s s' :
  (forall a, VerificationStorage.verificationVotes s'@(submissionId, a)
             = VerificationStorage.verificationVotes s@(submissionId, a)) ->
  VerificationStorage.submissionVerifiers s'@submissionId
  = VerificationStorage.submissionVerifiers s@submissionId ->
  Submission.approvalCount (VerificationStorage.submissions s'@submissionId)
  = Submission.approvalCount (VerificationStorage.submissions s@submissionId) ->
  Submission.rejectionCount (VerificationStorage.submissions s'@submissionId)
  = Submission.rejectionCount (VerificationStorage.submissions s@submissionId) ->
  Submission.totalVotes (VerificationStorage.submissions s'@submissionId)
  = Submission.totalVotes (VerificationStorage.submissions s@submissionId) ->
  tally_backed submissionId s -> tally_backed submissionId s'.
Proof.
  intros Hvotes Hlist Ha Hr Ht (voters & H1 & H2 & H3 & H4 & H5 & H6).
  exists voters. cbv zeta in *. rewrite Hlist, Ha, Hr, Ht.
  repeat split; try done.
  - intros Hv. apply H1. by rewrite <- Hvotes.
  - intros Hv. rewrite Hvotes. by apply H1.
  - intros a Hs. apply H3. by rewrite <- Hvotes.
Qed.

Lemma updateWorkerReputation_frame D m target worker ok w w' :
  IReputationContract_updateWorkerReputation D m target worker ok w = Ok w' ->
  verification w' = verification w.
Proof.
  unfold IReputationContract_updateWorkerReputation. intros E.
  destruct (target =? reputationAt D); [| done].
  ok_bind E as r Hr. by injection E as <-.
Qed.

Lemma forfeitStake_frame D m target worker reason w w' :
  IAntiFraud_forfeitStake D m target worker reason w = Ok w' ->
  verification w' = verification w.
Proof.
  unfold IAntiFraud_forfeitStake. intros E.
  destruct (target =? antiFraudAt D); [| done].
  ok_bind E as r Hr. by injection E as <-.
Qed.

(** [_checkConsensus] writes at most the status of the submission and the
    consensus time. *)
Lemma _checkConsensus_verification D m id w w' :
  _checkConsensus D m id w = Ok w' ->
  verification w' = verification w
  \/ exists status reached,
       verification w'
       = VerificationStorage.with_consensusReachedAt reached
           (VerificationStorage.with_submissions
              (<[id := Submission.with_status status
                         (VerificationStorage.submissions (verification w)@id)]>
                 (VerificationStorage.submissions (verification w)))
              (verification w)).
Proof.
  unfold _checkConsensus. intros E.
  destruct (CONSENSUS_THRESHOLD <=? Submission.approvalCount _).
  { right. exists VERIFIED. eexists.
    destruct (negb _) in E.
    - apply updateWorkerReputation_frame in E. rewrite E. reflexivity.
    - injection E as <-. reflexivity. }
  destruct (CONSENSUS_THRESHOLD <=? Submission.rejectionCount _).
  { right. exists REJECTED. eexists.
    ok_bind E as w1 Hrep.
    assert (Hw1 : verification w1
                  = verification
                      (with_verification
                         (VerificationStorage.with_consensusReachedAt
                            (<[id := timestamp m]>
                               (VerificationStorage.consensusReachedAt
                                  (verification w)))
                            (VerificationStorage.with_submissions
                               (<[id := Submission.with_status REJECTED
                                          (VerificationStorage.submissions
                                             (verification w)@id)]>
                                  (VerificationStorage.submissions
                                     (verification w)))
                               (verification w))) w)).
    { destruct (negb _) in Hrep.
      - by apply updateWorkerReputation_frame in Hrep.
      - by injection Hrep as <-. }
    destruct (negb _) in E.
    - apply forfeitStake_frame in E. rewrite E, Hw1. reflexivity.
    - injection E as <-. rewrite Hw1. reflexivity. }
  destruct (MAX_VERIFIERS <=? Submission.totalVotes _).
  - right. exists DISPUTED.
    exists (VerificationStorage.consensusReachedAt (verification w)).
    injection E as <-. simpl. by destruct (verification w).
  - left. by injection E as <-.
Qed.

Lemma _checkConsensus_tally D m id w w' submissionId :
  _checkConsensus D m id w = Ok w' ->
  tally_backed submissionId (verification w) ->
  tally_backed submissionId (verification w').
Proof.
  intros E.
  apply _checkConsensus_verification in E as [-> | (status & reached & ->)];
    [done |].
  apply tally_backed_same; simpl; try done.
  all: destruct (decide (id = submissionId)) as [-> | Hne];
    [by rewrite sload_insert_eq | by rewrite sload_insert_ne].
Qed.

Lemma call_tally D m c w w' submissionId :
  call D m c w = Ok w' ->
  tally_backed submissionId (verification w) ->
  tally_backed submissionId (verification w').
Proof.
  intros E Hback. destruct c; simpl in E.
  - unfold setBountyPool in E. ok_bind E as u1 H1. ok_bind E as u2 H2.
    injection E as <-. by apply (tally_backed_same _ (verification w)).
  - unfold setReputationContract in E. ok_bind E as u1 H1. ok_bind E as u2 H2.
    injection E as <-. by apply (tally_backed_same _ (verification w)).
  - unfold setTaskManager in E. ok_bind E as u1 H1. ok_bind E as u2 H2.
    injection E as <-. by apply (tally_backed_same _ (verification w)).
  - unfold setAntiFraud in E. ok_bind E as u1 H1. ok_bind E as u2 H2.
    injection E as <-. by apply (tally_backed_same _ (verification w)).
  - ok_bind E as r Hr. injection E as <-. unfold createSubmission in Hr.
    ok_bind Hr as u1 Hauth. ok_bind Hr as next Hnext. injection Hr as <-.
    simpl.
    destruct (decide (VerificationStorage.submissionIdCounter (verification w)
                      = submissionId)) as [Heq | Hne].
    + destruct Hback as (voters & H1 & H2 & H3 & H4 & H5 & H6).
      exists voters. cbv zeta in *. simpl.
      rewrite Heq, sload_insert_eq. simpl.
      repeat split; try done; try apply H1. lia.
    + apply (tally_backed_same _ (verification w)); simpl; try done;
        by rewrite sload_insert_ne.
  - unfold stakeForVerification in E. ok_bind E as w1 Hrecv.
    assert (Hw1 : verification w1 = verification w).
    { unfold receive_value in Hrecv. destruct (pay _ _ _ _); [| done].
      by injection Hrecv as <-. }
    rewrite Hw1 in E.
    ok_bind E as u1 Hid. ok_bind E as u2 Hstatus. ok_bind E as u3 Hvoted.
    ok_bind E as u4 Hcap. ok_bind E as u5 Hself. ok_bind E as u6 Hstake.
    injection E as <-. simpl.
    apply revert_if_ok in Hvoted. apply revert_if_ok, Z.leb_gt in Hcap.
    destruct (decide (submissionId0 = submissionId)) as [-> | Hne].
    + destruct Hback as (voters & H1 & H2 & H3 & H4 & H5 & H6).
      exists voters. cbv zeta in *. simpl. rewrite sload_insert_eq.
      assert (Hsame : forall a,
                Vote.hasVoted
                  (<[(submissionId, sender m) :=
                       Vote.mk
                         (Vote.hasVoted
                            (VerificationStorage.verificationVotes
                               (verification w)@(submissionId, sender m)))
                         (Vote.approved
                            (VerificationStorage.verificationVotes
                               (verification w)@(submissionId, sender m)))
                         (Vote.timestamp
                            (VerificationStorage.verificationVotes
                               (verification w)@(submissionId, sender m)))
                         (value m)]>
                     (VerificationStorage.verificationVotes (verification w))
                   @(submissionId, a))
                = Vote.hasVoted
                    (VerificationStorage.verificationVotes
                       (verification w)@(submissionId, a))).
      { intros a. destruct (decide (sender m = a)) as [<- | Ha].
        - by rewrite sload_insert_eq.
        - rewrite sload_insert_ne; [done | congruence]. }
      repeat split; try done.
      * intros Hv. apply H1. by rewrite <- Hsame.
      * intros Hv. rewrite Hsame. by apply H1.
      * intros a Ha. apply elem_of_app. left. by apply H2.
      * intros a Ha. apply elem_of_app.
        destruct (decide (sender m = a)) as [<- | Hother].
        -- right. apply list_elem_of_here.
        -- left. apply H3. rewrite sload_insert_ne in Ha; [done | congruence].
      * rewrite length_app. simpl. lia.
    + apply (tally_backed_same _ (verification w)); simpl; try done.
      * intros a. rewrite sload_insert_ne; [done | congruence].
      * by rewrite sload_insert_ne.
  - unfold submitVerification in E.
    ok_bind E as u1 Hid. ok_bind E as u2 Hstake. ok_bind E as u3 Hvoted.
    ok_bind E as total Htotal. ok_bind E as approvals Happ.
    ok_bind E as rejections Hrej.
    apply _checkConsensus_tally with (submissionId := submissionId) in E;
      [exact E |]. simpl.
    apply revert_if_ok in Hvoted. apply revert_if_ok, Z.eqb_neq in Hstake.
    apply uadd_ok in Htotal as [-> _].
    destruct (decide (submissionId0 = submissionId)) as [-> | Hne].
    + destruct Hback as (voters & H1 & H2 & H3 & H4 & H5 & H6).
      exists (voters ∪ {[sender m]}). cbv zeta in *. simpl.
      rewrite sload_insert_eq. simpl.
      assert (Hnew : sender m ∉ voters).
      { intros Hin. apply H1 in Hin. congruence. }
      repeat split.
      * intros Hv. destruct (decide (sender m = a)) as [<- | Ha].
        -- apply elem_of_union. right. by apply elem_of_singleton.
        -- rewrite sload_insert_ne in Hv by congruence.
           apply elem_of_union. left. by apply H1.
      * intros Hin. destruct (decide (sender m = a)) as [<- | Ha].
        -- by rewrite sload_insert_eq.
        -- rewrite sload_insert_ne by congruence. apply H1.
           apply elem_of_union in Hin as [Hin | Hin]; [done |].
           apply elem_of_singleton in Hin. congruence.
      * intros a Hin. apply elem_of_union in Hin as [Hin | Hin].
        -- by apply H2.
        -- apply elem_of_singleton in Hin as ->. by apply H3.
      * intros a Ha. apply H3.
        destruct (decide (sender m = a)) as [<- | Hother].
        -- by rewrite sload_insert_eq in Ha.
        -- rewrite sload_insert_ne in Ha; [done | congruence].
      * done.
      * destruct approved.
        -- apply uadd_ok in Happ as [-> _]. injection Hrej as <-. lia.
        -- apply uadd_ok in Hrej as [-> _]. injection Happ as <-. lia.
      * rewrite size_union, size_singleton by set_solver. lia.
    + apply (tally_backed_same _ (verification w)); simpl; try done.
      * intros a. rewrite sload_insert_ne; [done | congruence].
      * by rewrite sload_insert_ne.
      * by rewrite sload_insert_ne.
      * by rewrite sload_insert_ne.
  - apply distributeVerificationRewards_verification in E. rewrite E.
    apply (tally_backed_same _ (verification w)); simpl; try done.
    all: destruct (decide (submissionId0 = submissionId)) as [-> | Hne];
      [by rewrite sload_insert_eq | by rewrite sload_insert_ne].
  - unfold receive, receive_value in E. destruct (pay _ _ _ _); [| done].
    by injection E as <-.
Qed.

(** Starting from a verification contract nobody has used, along any
    sequence of its calls (submissions created, stakes, votes, payouts,
    rewiring), the approvals and rejections of any submission add up to at
    most 7. *)
Lemma tally_never_exceeds_cap D txs w submissionId :
  unused (verification w) ->
  let submission := getSubmission submissionId (run D txs w) in
  Submission.approvalCount submission + Submission.rejectionCount submission
  <= 7.
Proof.
  intros Hunused. cbv zeta. unfold getSubmission.
  apply tally_backed_bound.
  apply (unused_tally_backed submissionId) in Hunused.
  revert w Hunused. induction txs as [| [m c] txs IH]; intros w Hback;
    [exact Hback |].
  simpl. apply IH. unfold apply. cbn [fst snd].
  destruct (call D m c w) eqn:E; [| exact Hback].
  eapply call_tally; eauto.
Qed.

End Tally.

(** ** A settled submission stays settled *)

Section Settled.
Import VerificationContract.

Lemma call_keeps_settled D m c w w' submissionId :
  call D m c w = Ok w' ->
  settled_in submissionId (verification w) ->
  settled_in submissionId (verification w').
Proof.
  unfold settled_in. intros E (Hcreated & Hid & Hflag).
  destruct c; simpl in E.
  - unfold setBountyPool in E. ok_bind E as u1 H1. ok_bind E as u2 H2.
    by injection E as <-.
  - unfold setReputationContract in E. ok_bind E as u1 H1. ok_bind E as u2 H2.
    by injection E as <-.
  - unfold setTaskManager in E. ok_bind E as u1 H1. ok_bind E as u2 H2.
    by injection E as <-.
  - unfold setAntiFraud in E. ok_bind E as u1 H1. ok_bind E as u2 H2.
    by injection E as <-.
  - ok_bind E as r Hr. injection E as <-. unfold createSubmission in Hr.
    ok_bind Hr as u1 Hauth. ok_bind Hr as next Hnext. injection Hr as <-.
    apply uadd_ok in Hnext as [-> _]. simpl.
    rewrite sload_insert_ne by lia. split; [lia | done].
  - unfold stakeForVerification in E. ok_bind E as w1 Hrecv.
    assert (Hw1 : verification w1 = verification w).
    { unfold receive_value in Hrecv. destruct (pay _ _ _ _); [| done].
      by injection Hrecv as <-. }
    rewrite Hw1 in E.
    ok_bind E as u1 H1. ok_bind E as u2 H2. ok_bind E as u3 H3.
    ok_bind E as u4 H4. ok_bind E as u5 H5. ok_bind E as u6 H6.
    by injection E as <-.
  - unfold submitVerification in E.
    ok_bind E as u1 H1. ok_bind E as u2 H2. ok_bind E as u3 H3.
    ok_bind E as total Htotal. ok_bind E as approvals Happ.
    ok_bind E as rejections Hrej.
    apply _checkConsensus_verification in E
      as [-> | (status & reached & ->)]; simpl.
    + destruct (decide (submissionId0 = submissionId)) as [-> | Hne];
        [by rewrite sload_insert_eq | by rewrite sload_insert_ne].
    + destruct (decide (submissionId0 = submissionId)) as [-> | Hne].
      * by rewrite !sload_insert_eq.
      * by rewrite !sload_insert_ne.
  - apply distributeVerificationRewards_verification in E. rewrite E. simpl.
    destruct (decide (submissionId0 = submissionId)) as [-> | Hne];
      [by rewrite sload_insert_eq | by rewrite sload_insert_ne].
  - unfold receive, receive_value in E. destruct (pay _ _ _ _); [| done].
    by injection E as <-.
Qed.

(** Once the rewards of a submission are distributed, no sequence of
    later calls of the verification contract makes
    [distributeVerificationRewards] return for it again. *)
Lemma settled_never_pays_again D txs w submissionId m :
  settled_in submissionId (verification w) ->
  is_ok (distributeVerificationRewards D m submissionId (run D txs w)) = false.
Proof.
  intros Hsettled.
  assert (Hlater : settled_in submissionId (verification (run D txs w))).
  { revert w Hsettled. induction txs as [| [m0 c] txs IH]; intros w Hs;
      [exact Hs |].
    simpl. apply IH. unfold apply. cbn [fst snd].
    destruct (call D m0 c w) eqn:E; [| exact Hs].
    eapply call_keeps_settled; eauto. }
  destruct Hlater as (_ & Hid & Hflag).
  unfold distributeVerificationRewards. rewrite Hid, Z.eqb_refl, Hflag. simpl.
  by destruct (negb _ && negb _).
Qed.

End Settled.

(** ** Paying out once *)

Section PayingOnce.
Import VerificationContract.

(** What holds of C3.  A call of [distributeVerificationRewards] that
    returns found the submission [VERIFIED] or [REJECTED], its rewards not
    yet distributed, and at least five minutes gone since the recorded
    consensus time.  It has set the flag and changed nothing else of the
    submission, and when the submission is [VERIFIED] and the deployed pool
    is the one configured it has taken the snapshotted bounty out of the
    task's escrow.  Any further call on the
    same submission, by anyone at any time, reverts with
    [RewardAlreadyDistributed] and so leaves every balance as it is; and
    for a submission that was created through [createSubmission], no
    sequence of later calls of the contract makes the payout return a
    second time. *)
Theorem distributeVerificationRewards_once
    (D : Deployment) (m : Msg) (submissionId : Z) (w w' : World) :
  distributeVerificationRewards D m submissionId w = Ok w' ->
  let submission := getSubmission submissionId w in
  (Submission.status submission = VERIFIED
   \/ Submission.status submission = REJECTED)
  /\ Submission.rewardDistributed submission = false
  /\ VerificationStorage.consensusReachedAt (verification w)@submissionId
     + REWARD_DISTRIBUTION_DELAY <= timestamp m
  /\ getSubmission submissionId w'
     = Submission.with_rewardDistributed true submission
  /\ (Submission.status submission = VERIFIED ->
      bountyPoolAt D <> 0 ->
      VerificationStorage.bountyPoolAddress (verification w) = bountyPoolAt D ->
      BountyPool.getTaskBounty (Submission.taskId submission) w'
      = BountyPool.getTaskBounty (Submission.taskId submission) w
        - Submission.bountyAmount submission)
  /\ (forall m',
        distributeVerificationRewards D m' submissionId w'
        = Revert (RewardAlreadyDistributed submissionId)
        /\ commit w' (distributeVerificationRewards D m' submissionId w') = w')
  /\ (submissionId
      < VerificationStorage.submissionIdCounter (verification w) ->
      forall txs m',
        is_ok (distributeVerificationRewards D m' submissionId (run D txs w'))
        = false).
Proof.
  intros E. cbv zeta. unfold getSubmission.
  pose proof (distributeVerificationRewards_verification _ _ _ _ _ E)
    as Hstorage.
  unfold distributeVerificationRewards in E.
  ok_bind E as u1 Hid. ok_bind E as u2 Hstatus. ok_bind E as u3 Hflag.
  ok_bind E as elapsed Helapsed. ok_bind E as u4 Hdelay.
  ok_bind E as w1 Hworker.
  apply revert_if_ok, negb_false_iff, Z.eqb_eq in Hid.
  apply revert_if_ok in Hstatus. apply revert_if_ok in Hflag.
  apply usub_ok in Helapsed as [-> Hpast].
  apply revert_if_ok, Z.ltb_ge in Hdelay.
  set (s := verification w) in *.
  set (submission := VerificationStorage.submissions s@submissionId) in *.
  assert (Hconsensus : Submission.status submission = VERIFIED
                       \/ Submission.status submission = REJECTED).
  { destruct (decide (Submission.status submission = VERIFIED)) as [Hv | Hv];
      [by left | right].
    rewrite (bool_decide_eq_false_2 _ Hv) in Hstatus. simpl in Hstatus.
    apply negb_false_iff in Hstatus. by apply bool_decide_eq_true in Hstatus. }
  unfold _distributeVerifierRewards in E. ok_bind E as r Hverifiers.
  injection E as <-. destruct r as [w2 total].
  apply reward_verifiers_frame in Hverifiers as [Hv2 Hp2]. simpl.
  set (marked :=
         with_verification
           (VerificationStorage.with_submissions
              (<[submissionId := Submission.with_rewardDistributed true submission]>
                 (VerificationStorage.submissions s)) s) w) in *.
  assert (Hw1 : verification w1 = verification marked
                /\ (Submission.status submission = VERIFIED ->
                    bountyPoolAt D <> 0 ->
                    VerificationStorage.bountyPoolAddress s = bountyPoolAt D ->
                    BountyPool.getTaskBounty (Submission.taskId submission) w1
                    = BountyPool.getTaskBounty (Submission.taskId submission) w
                      - Submission.bountyAmount submission)).
  { simpl in Hworker.
    destruct (bool_decide (Submission.status submission = VERIFIED)) eqn:Hver;
      simpl in Hworker.
    - destruct (Z.eqb_spec (VerificationStorage.bountyPoolAddress s) 0)
        as [Hzero | Hpool]; simpl in Hworker.
      + injection Hworker as <-. split; [done |]. intros _ Hnz Heq.
        congruence.
      + unfold IBountyPool_distributeReward in Hworker.
        destruct (_ =? bountyPoolAt D); [| done].
        apply distributeReward_ok in Hworker
          as (_ & Hbalance & _ & _ & _ & Hverif & _).
        split; [done |]. intros _ _ _. exact Hbalance.
    - injection Hworker as <-. split; [done |].
      intros Hv. apply bool_decide_eq_false in Hver. done. }
  destruct Hw1 as [Hv1 Hescrow].
  assert (Hafter : VerificationStorage.submissions (verification w2)@submissionId
                   = Submission.with_rewardDistributed true submission).
  { rewrite Hv2, Hv1. subst marked. simpl. by rewrite sload_insert_eq. }
  split; [exact Hconsensus |]. split; [exact Hflag |].
  split; [unfold REWARD_DISTRIBUTION_DELAY, minutes in *; lia |].
  split; [exact Hafter |]. split.
  { intros Hv Hnz Hpool. unfold BountyPool.getTaskBounty in *. rewrite Hp2.
    by apply Hescrow. }
  split.
  - intros m'.
    assert (Hagain : distributeVerificationRewards D m' submissionId w2
                     = Revert (RewardAlreadyDistributed submissionId)).
    { unfold distributeVerificationRewards. rewrite Hafter. simpl.
      rewrite Hid, Z.eqb_refl. simpl.
      destruct Hconsensus as [-> | ->]; reflexivity. }
    by rewrite Hagain.
  - intros Hcreated txs m'. apply settled_never_pays_again.
    cbn [fst] in Hstorage.
    unfold settled_in. rewrite Hafter. simpl.
    split; [by rewrite Hstorage | done].
Qed.

(** An instance, the scenario of the specification: bounty of one ether,
    three approvals with stakes of 0.1 ether.  Before the delay is over
    the payout is refused; after it the worker has received 0.975 ether
    and each verifier 0.11, the escrow of the task is empty, and a second
    request is refused, also after a fourth verifier tried to join. *)
Lemma distributeVerificationRewards_once_witness :
  distributeVerificationRewards Scenario.D
    (Scenario.at_time Scenario.deployer 0 (Scenario.cooled_down - 1)) 0
    Scenario.verified
  = Revert (RewardDistributionTooEarly 0 1)
  /\ distributeVerificationRewards Scenario.D
       (Scenario.at_time Scenario.deployer 0 Scenario.cooled_down) 0
       Scenario.verified
     = Ok Scenario.settled
  /\ balanceOf (balances Scenario.settled) Scenario.worker1
     = balanceOf (balances Scenario.verified) Scenario.worker1
       + 975 * 10 ^ 15
  /\ balanceOf (balances Scenario.settled) Scenario.verifier1
     = balanceOf (balances Scenario.verified) Scenario.verifier1
       + 110 * 10 ^ 15
  /\ BountyPool.getTaskBounty 0 Scenario.settled = 0
  /\ distributeVerificationRewards Scenario.D
       (Scenario.at_time Scenario.worker1 0 (Scenario.cooled_down + 1)) 0
       Scenario.settled
     = Revert (RewardAlreadyDistributed 0)
  /\ is_ok
       (distributeVerificationRewards Scenario.D
          (Scenario.at_time Scenario.worker1 0 (Scenario.cooled_down + 600)) 0
          (run Scenario.D
             (Scenario.stakes_and_votes Scenario.verifier4 false)
             Scenario.settled)) = false.
Proof.
  assert (E : distributeVerificationRewards Scenario.D
                (Scenario.at_time Scenario.deployer 0 Scenario.cooled_down) 0
                Scenario.verified
              = Ok Scenario.settled) by (vm_compute; reflexivity).
  split; [vm_compute; reflexivity |]. split; [exact E |].
  split; [vm_compute; reflexivity |]. split; [vm_compute; reflexivity |].
  destruct (distributeVerificationRewards_once _ _ _ _ _ E)
    as (_ & _ & _ & _ & Hescrow & Hagain & Hnever).
  split; [| split].
  - change 0 with
      (Submission.taskId (getSubmission 0 Scenario.verified)) at 1.
    rewrite Hescrow.
    + vm_compute. reflexivity.
    + vm_compute. reflexivity.
    + vm_compute. intro Hc; discriminate Hc.
    + vm_compute. reflexivity.
  - apply Hagain.
  - apply (Hnever ltac:(vm_compute; reflexivity)
             (Scenario.stakes_and_votes Scenario.verifier4 false)).
Defined.

(** C3.  The payout of one submission id can return twice, a defect of the
    code: the existence test [submission.id != submissionId] lets id 0
    through before any submission was created, and [createSubmission] then
    writes a fresh record, its flag unset, over the settled one, while the
    votes and the verifiers on record for the id stay.  Three verifiers
    stake 0.1 ether each on id 0 and approve; the payout returns and pays
    each of them 0.11 ether, and a second request reverts with
    [RewardAlreadyDistributed].  Then the submission is created, under
    id 0; three other verifiers stake and approve, and the payout returns
    again: [verifier1], who staked once and voted once, is paid 0.11 ether
    a second time and has two accurate verifications on record. *)
Theorem submission_zero_is_settled_twice :
  let payout when w :=
    distributeVerificationRewards Scenario.D
      (Scenario.at_time Scenario.deployer 0 when) 0 w in
  let balance w := balanceOf (balances w) Scenario.verifier1 in
  VerificationStorage.submissionIdCounter (verification unwritten_verified) = 0
  /\ getVote 0 Scenario.verifier1 unwritten_verified
     = Vote.mk true true Scenario.voted_at Scenario.stake
  /\ balance unwritten_verified = 100 * ether - Scenario.stake
  /\ payout Scenario.cooled_down unwritten_verified = Ok unwritten_settled
  /\ balance unwritten_settled = balance unwritten_verified + 110 * 10 ^ 15
  /\ payout (Scenario.cooled_down + 1) unwritten_settled
     = Revert (RewardAlreadyDistributed 0)
  /\ getSubmission 0 written_verified
     = Submission.mk 0 0 Scenario.worker1 "QmTestHash123" written_at
         Scenario.anywhere VERIFIED 3 0 3 ether false
  /\ getVote 0 Scenario.verifier1 written_verified
     = getVote 0 Scenario.verifier1 unwritten_verified
  /\ balance written_verified = balance unwritten_settled
  /\ payout (revoted_at + 5 * minutes) written_verified = Ok written_settled
  /\ balance written_settled = balance written_verified + 110 * 10 ^ 15
  /\ balanceOf (balances written_settled) (verificationAt Scenario.D)
     = balanceOf (balances written_verified) (verificationAt Scenario.D)
       - 6 * (110 * 10 ^ 15)
  /\ ReputationContract.getReputationData Scenario.verifier1
       (reputation written_settled) = (60, 0, 0, 2, 2).
Proof.
  cbv zeta. repeat (refine (conj _ _); [vm_compute; reflexivity |]).
  vm_compute. reflexivity.
Qed.

End PayingOnce.

(** * Further properties of the contracts *)

(** ** Reputation: range *)

Lemma unused_reputation_bounded s :
  ReputationStorage.reputations s = ∅ -> scores_bounded s.
Proof.
  intros Hempty user. unfold score_bounded, sload.
  rewrite Hempty, lookup_empty. simpl. lia.
Qed.

(** X1.  Whatever calls the reputation contract receives, from whomever, the
    stored score of every identity and the score [getReputationScore]
    answers stay within 0..100, provided they were so to begin with. *)
Theorem reputation_score_stays_in_range
    (txs : list (Msg * ReputationContract.Call)) (s : ReputationStorage.t)
    (user : address) :
  scores_bounded s ->
  score_bounded
    (ReputationStorage.reputations (ReputationContract.run txs s)@user)
  /\ 0 <= ReputationContract.getReputationScore user
            (ReputationContract.run txs s) <= 100.
Proof.
  intros Hs. apply (run_scores_bounded txs) in Hs.
  split; [apply Hs | by apply getReputationScore_bounded].
Qed.

Lemma reputation_score_stays_in_range_witness :
  let from_verification := mkMsg (verificationAt Scenario.D) 0 Scenario.genesis in
  let s :=
    ReputationContract.run
      (replicate 12
         (from_verification,
          ReputationContract.UpdateWorkerReputation Scenario.worker1 true)
       ++ [(mkMsg Scenario.worker2 0 Scenario.genesis,
            ReputationContract.InitializeReputation Scenario.worker1)])
      (reputation Scenario.wired) in
  0 <= ReputationContract.getReputationScore Scenario.worker1 s <= 100.
Proof.
  cbv zeta.
  apply reputation_score_stays_in_range.
  apply unused_reputation_bounded. reflexivity.
Defined.

(** ** Reputation: category badges *)

Section Badges.
Import ReputationContract.

Lemma increase_score_fields rep rep' :
  increase_score rep = Ok rep' ->
  ReputationData.tasksCompleted rep' = ReputationData.tasksCompleted rep
  /\ ReputationData.tasksRejected rep' = ReputationData.tasksRejected rep
  /\ ReputationData.categoryStats rep' = ReputationData.categoryStats rep.
Proof.
  unfold increase_score. intros E. ok_bind E as raised Hraised.
  destruct (raised <=? MAX_REPUTATION); by injection E as <-.
Qed.

Lemma decrease_score_fields rep rep' :
  decrease_score rep = Ok rep' ->
  ReputationData.tasksCompleted rep' = ReputationData.tasksCompleted rep
  /\ ReputationData.tasksRejected rep' = ReputationData.tasksRejected rep
  /\ ReputationData.categoryStats rep' = ReputationData.categoryStats rep.
Proof.
  unfold decrease_score. intros E.
  destruct (REPUTATION_DECREASE <=? _).
  - ok_bind E as lowered Hlowered. by injection E as <-.
  - by injection E as <-.
Qed.

Lemma worker_outcome_categoryStats ok rep rep' :
  worker_outcome ok rep = Ok rep' ->
  ReputationData.categoryStats rep' = ReputationData.categoryStats rep.
Proof.
  unfold worker_outcome. intros E.
  match type of E with
  | context [if ?c then ?a else rep] => set (rep0 := if c then a else rep) in E
  end.
  assert (H0 : ReputationData.categoryStats rep0 = ReputationData.categoryStats rep).
  { subst rep0.
    by match goal with |- context [if ?c then _ else _] => destruct c end. }
  destruct ok; ok_bind E as rep1 H1; ok_bind E as n Hn; injection E as <-;
    simpl; rewrite <- H0.
  - by apply increase_score_fields in H1 as (_ & _ & ->).
  - by apply decrease_score_fields in H1 as (_ & _ & ->).
Qed.

Lemma verifier_outcome_categoryStats ok rep rep' :
  verifier_outcome ok rep = Ok rep' ->
  ReputationData.categoryStats rep' = ReputationData.categoryStats rep.
Proof.
  unfold verifier_outcome. intros E.
  match type of E with
  | context [if ?c then ?a else rep] => set (rep0 := if c then a else rep) in E
  end.
  assert (H0 : ReputationData.categoryStats rep0 = ReputationData.categoryStats rep).
  { subst rep0.
    by match goal with |- context [if ?c then _ else _] => destruct c end. }
  ok_bind E as n Hn. destruct ok.
  - ok_bind E as rep1 H1. ok_bind E as k Hk. injection E as <-. simpl.
    apply increase_score_fields in H1 as (_ & _ & ->). by rewrite <- H0.
  - apply decrease_score_fields in E as (_ & _ & ->). by rewrite <- H0.
Qed.

Lemma call_keeps_badge m c s s' user category :
  call m c s = Ok s' ->
  hasCategoryBadge user category s = true ->
  hasCategoryBadge user category s' = true.
Proof.
  unfold hasCategoryBadge. intros E Hbadge. destruct c; simpl in E.
  - unfold initializeReputation in E. ok_bind E as u1 H1. injection E as <-.
    simpl. destruct (decide (user0 = user)) as [-> | Hne].
    + by rewrite sload_insert_eq.
    + by rewrite sload_insert_ne.
  - unfold updateWorkerReputation in E. ok_bind E as u1 H1.
    ok_bind E as rep Hrep. injection E as <-. simpl.
    destruct (decide (worker = user)) as [-> | Hne].
    + rewrite sload_insert_eq.
      by rewrite (worker_outcome_categoryStats _ _ _ Hrep).
    + by rewrite sload_insert_ne.
  - unfold updateWorkerReputationWithCategory in E.
    ok_bind E as u1 H1. ok_bind E as rep Hrep. ok_bind E as total Htotal.
    ok_bind E as success Hsuccess. ok_bind E as stats Hstats.
    injection E as <-. simpl.
    destruct (decide (worker = user)) as [-> | Hne];
      [| by rewrite sload_insert_ne].
    rewrite sload_insert_eq. simpl.
    destruct (decide (category0 = category)) as [-> | Hcat].
    + rewrite sload_insert_eq.
      rewrite (worker_outcome_categoryStats _ _ _ Hrep) in Hstats.
      simpl in Hstats. rewrite Hbadge in Hstats. simpl in Hstats.
      by injection Hstats as <-.
    + rewrite sload_insert_ne by done.
      by rewrite (worker_outcome_categoryStats _ _ _ Hrep).
  - unfold updateVerifierReputation in E. ok_bind E as u1 H1.
    ok_bind E as rep Hrep. injection E as <-. simpl.
    destruct (decide (verifier = user)) as [-> | Hne].
    + rewrite sload_insert_eq.
      by rewrite (verifier_outcome_categoryStats _ _ _ Hrep).
    + by rewrite sload_insert_ne.
Qed.

(** X2.  A category badge, once held, is held after any further calls of the
    reputation contract: no failure in the category, no other update and
    no initialisation takes it away, and the reward multiplier stays at
    110%. *)
Theorem badge_is_permanent
    (txs : list (Msg * Call)) (s : ReputationStorage.t) (user : address)
    (category : TaskCategory) :
  hasCategoryBadge user category s = true ->
  hasCategoryBadge user category (run txs s) = true
  /\ getReputationMultiplier user category (run txs s) = 11000.
Proof.
  intros Hbadge.
  assert (Hlater : hasCategoryBadge user category (run txs s) = true).
  { revert s Hbadge. induction txs as [| tx txs IH]; intros s Hbadge;
      [exact Hbadge |].
    simpl. apply IH. unfold apply.
    destruct (call (fst tx) (snd tx) s) eqn:E; [| exact Hbadge].
    eapply call_keeps_badge; eauto. }
  split; [exact Hlater |].
  unfold getReputationMultiplier, hasCategoryBadge in *. by rewrite Hlater.
Qed.

Lemma category_success_next category n rep :
  Z.of_nat (S n) <= MAX_UINT256 ->
  after_category_successes category n rep ->
  exists rep1,
    worker_outcome true rep = Ok rep1
    /\ after_worker_outcomes true (S n) rep1
    /\ ReputationData.categoryStats rep1 = ReputationData.categoryStats rep.
Proof.
  intros Hfits [Hrep Hstats].
  pose proof (worker_outcome_next true n rep Hrep) as Hnext.
  destruct (worker_outcome true rep) as [rep1 |] eqn:E.
  - exists rep1. split; [done |]. split; [done |].
    by apply worker_outcome_categoryStats in E.
  - destruct Hrep as (_ & Hc & _). destruct Hnext as (_ & Hc' & _).
    simpl in *. lia.
Qed.

Lemma category_successes_run category (n : nat) m worker s :
  sender m = ReputationStorage.verificationContractAddress s
  \/ sender m = ReputationStorage.taskManagerAddress s ->
  ReputationStorage.reputations s@worker = zero ->
  Z.of_nat n <= MAX_UINT256 ->
  let s' :=
    run (replicate n
           (m, UpdateWorkerReputationWithCategory worker category true)) s in
  ReputationStorage.verificationContractAddress s'
  = ReputationStorage.verificationContractAddress s
  /\ ReputationStorage.taskManagerAddress s'
     = ReputationStorage.taskManagerAddress s
  /\ after_category_successes category n
       (ReputationStorage.reputations s'@worker).
Proof.
  intros Hauth Hfresh. induction n as [| n IH]; intros Hfits; cbv zeta.
  - simpl. split; [done |]. split; [done |]. rewrite Hfresh.
    split; [by unfold after_worker_outcomes |]. reflexivity.
  - destruct IH as (IHv & IHt & IHrep); [lia |].
    rewrite replicate_S_end, run_snoc.
    set (s' := run _ s) in *.
    destruct (category_success_next category n _ Hfits IHrep)
      as (rep1 & Hout & Hnext & Hcats).
    destruct IHrep as [_ Hstats].
    assert (Hgate : onlyAuthorizedContracts m s' = Ok tt).
    { unfold onlyAuthorizedContracts. rewrite IHv, IHt.
      destruct Hauth as [-> | ->]; rewrite Z.eqb_refl; simpl;
        [done | by rewrite andb_false_r]. }
    unfold apply, call, updateWorkerReputationWithCategory. cbn [fst snd].
    rewrite Hgate, Hout. simpl. rewrite Hcats, Hstats. simpl.
    unfold uadd.
    destruct (Z.leb_spec (Z.of_nat n + 1) MAX_UINT256); [| lia]. simpl.
    assert (Hstep :
              (if negb (10 <=? Z.of_nat n)
               then
                 let! award :=
                   _shouldAwardBadge
                     (CategoryStats.mk (Z.of_nat n + 1) (Z.of_nat n + 1)
                        (10 <=? Z.of_nat n)) in
                 if award
                 then Ok (CategoryStats.mk (Z.of_nat n + 1) (Z.of_nat n + 1) true)
                 else Ok (CategoryStats.mk (Z.of_nat n + 1) (Z.of_nat n + 1)
                            (10 <=? Z.of_nat n))
               else Ok (CategoryStats.mk (Z.of_nat n + 1) (Z.of_nat n + 1)
                          (10 <=? Z.of_nat n)))
              = Ok (CategoryStats.mk (Z.of_nat (S n)) (Z.of_nat (S n))
                      (10 <=? Z.of_nat (S n)))).
    { replace (Z.of_nat (S n)) with (Z.of_nat n + 1) by lia.
      destruct (Z.leb_spec 10 (Z.of_nat n)) as [Hten | Hless]; simpl.
      - destruct (Z.leb_spec 10 (Z.of_nat n + 1)); [done | lia].
      - unfold _shouldAwardBadge, BADGE_TASK_THRESHOLD,
          BADGE_SUCCESS_RATE_THRESHOLD, umul, udiv. simpl.
        destruct (Z.ltb_spec (Z.of_nat n + 1) 10) as [Hnine | Hnow]; simpl.
        + destruct (Z.leb_spec 10 (Z.of_nat n + 1)); [lia | done].
        + assert (Hn : Z.of_nat n + 1 = 10) by lia. rewrite Hn.
          vm_compute. reflexivity. }
    rewrite Hstep. simpl.
    split; [done |]. split; [done |].
    rewrite sload_insert_eq. split; [| by simpl; rewrite sload_insert_eq].
    destruct Hnext as (H1 & H2 & H3 & H4). by repeat split.
Qed.

(** X3.  Successes reported with their category, one after the other for a
    fresh identity: the badge of the category is held exactly from the
    tenth on, and the score is [min 100 (50 + 5 n)]. *)
Theorem badge_from_tenth_success
    (category : TaskCategory) (n : nat) (m : Msg) (worker : address)
    (s : ReputationStorage.t) :
  sender m = ReputationStorage.verificationContractAddress s
  \/ sender m = ReputationStorage.taskManagerAddress s ->
  ReputationStorage.reputations s@worker = zero ->
  Z.of_nat n <= MAX_UINT256 ->
  let s' :=
    run (replicate n
           (m, UpdateWorkerReputationWithCategory worker category true)) s in
  hasCategoryBadge worker category s' = (10 <=? Z.of_nat n)
  /\ getReputationScore worker s' = Z.min 100 (50 + 5 * Z.of_nat n).
Proof.
  intros Hauth Hfresh Hfits. cbv zeta.
  destruct (category_successes_run category n m worker s Hauth Hfresh Hfits)
    as (_ & _ & (Hv & Hc & Hr & Hs) & Hstats).
  split.
  - unfold hasCategoryBadge. by rewrite Hstats.
  - pose proof MAX_UINT256_large as Hmax.
    unfold getReputationScore, INITIAL_REPUTATION. rewrite Hv, Hc, Hr, Hs.
    repeat match goal with
      | |- context [?a <=? ?b] => destruct (Z.leb_spec a b)
      | |- context [?a <? ?b] => destruct (Z.ltb_spec a b)
      | |- context [?a =? ?b] => destruct (Z.eqb_spec a b)
      | _ => progress (simpl in *)
      end; lia.
Qed.

Lemma badge_from_tenth_success_witness :
  let from_taskManager := mkMsg (taskManagerAt Scenario.D) 0 Scenario.genesis in
  let successes n :=
    run (replicate n
           (from_taskManager,
            UpdateWorkerReputationWithCategory Scenario.worker1 SURVEY true))
      (reputation Scenario.wired) in
  hasCategoryBadge Scenario.worker1 SURVEY (successes 9%nat) = false
  /\ hasCategoryBadge Scenario.worker1 SURVEY (successes 10%nat) = true.
Proof.
  cbv zeta. split.
  - apply (badge_from_tenth_success SURVEY 9);
      [right; reflexivity | reflexivity | vm_compute; intro Hc; discriminate Hc].
  - apply (badge_from_tenth_success SURVEY 10);
      [right; reflexivity | reflexivity | vm_compute; intro Hc; discriminate Hc].
Defined.

(** An instance: a worker earns the badge with ten successes and keeps it
    through five failures in the same category. *)
Lemma badge_is_permanent_witness :
  let from_taskManager := mkMsg (taskManagerAt Scenario.D) 0 Scenario.genesis in
  let earned :=
    run (replicate 10
           (from_taskManager,
            UpdateWorkerReputationWithCategory Scenario.worker1 SURVEY true))
      (reputation Scenario.wired) in
  let later :=
    run (replicate 5
           (from_taskManager,
            UpdateWorkerReputationWithCategory Scenario.worker1 SURVEY false))
      earned in
  hasCategoryBadge Scenario.worker1 SURVEY later = true
  /\ getReputationMultiplier Scenario.worker1 SURVEY later = 11000.
Proof.
  cbv zeta. apply badge_is_permanent. vm_compute. reflexivity.
Defined.

End Badges.

(** ** Reputation: initialisation at score zero *)

Section Reinitialisation.
Import ReputationContract.

(** X4.  [initializeReputation] is open to every caller and looks at the stored
    score only.  After ten or more failures in a row have brought a fresh
    worker to score 0, anybody can call it: the score is 50 again while
    the failures stay on record. *)
Theorem zero_score_can_be_reinitialised
    (n : nat) (m anyone : Msg) (worker : address) (s : ReputationStorage.t) :
  sender m = ReputationStorage.verificationContractAddress s ->
  ReputationStorage.reputations s@worker = zero ->
  (10 <= n)%nat ->
  let failed := run (replicate n (m, UpdateWorkerReputation worker false)) s in
  getReputationScore worker failed = 0
  /\ exists s',
       initializeReputation anyone worker failed = Ok s'
       /\ getReputationScore worker s' = 50
       /\ ReputationData.tasksRejected (ReputationStorage.reputations s'@worker)
          = Z.min (Z.of_nat n) MAX_UINT256.
Proof.
  intros Hm Hfresh Hten. cbv zeta.
  pose proof MAX_UINT256_large as Hmax.
  destruct (worker_outcomes_run false n m worker s Hm Hfresh)
    as (_ & Hv & Hc & Hr & Hs).
  cbv zeta in *. simpl in Hc, Hr.
  set (failed := run _ s) in *.
  assert (Hzero : ReputationData.score (ReputationStorage.reputations failed@worker)
                  = 0).
  { rewrite Hs. destruct (Z.eqb_spec (Z.of_nat n) 0); lia. }
  split.
  { unfold getReputationScore. rewrite Hzero, Hr.
    destruct (Z.eqb_spec (Z.min (Z.of_nat n) MAX_UINT256) 0); [lia |].
    by rewrite andb_false_r. }
  unfold initializeReputation. rewrite Hzero. simpl.
  eexists. split; [reflexivity |].
  unfold getReputationScore. simpl. rewrite sload_insert_eq. simpl.
  split; [reflexivity | exact Hr].
Qed.

Lemma zero_score_can_be_reinitialised_witness :
  let failed :=
    run (replicate 12
           (mkMsg (verificationAt Scenario.D) 0 Scenario.genesis,
            UpdateWorkerReputation Scenario.worker1 false))
      (reputation Scenario.wired) in
  getReputationScore Scenario.worker1 failed = 0
  /\ exists s',
       initializeReputation (mkMsg Scenario.worker1 0 Scenario.genesis)
         Scenario.worker1 failed = Ok s'
       /\ getReputationScore Scenario.worker1 s' = 50
       /\ ReputationData.tasksRejected
            (ReputationStorage.reputations s'@Scenario.worker1)
          = Z.min (Z.of_nat 12) MAX_UINT256.
Proof.
  cbv zeta.
  apply (zero_score_can_be_reinitialised 12); [reflexivity | reflexivity | lia].
Defined.

End Reinitialisation.

(** ** AntiFraud: the daily rate limit *)

Section RateLimit.
Import AntiFraud.

Lemma MAX_UINT256_above_21 : 21 <= MAX_UINT256.
Proof. vm_compute. intro Hc; discriminate Hc. Qed.

(** What an accepted submission leaves behind, beyond the hash index. *)
Lemma checkAndRecordSubmission_accept m worker taskId imageHash metadataHash s :
  onlyAuthorizedContracts m s = Ok tt ->
  isWorkerBlacklisted worker s = false ->
  getTodaySubmissionCount m worker s < 20 ->
  isImageHashUsed imageHash s = false ->
  metadataHash <> 0 ->
  exists s',
    checkAndRecordSubmission m worker taskId imageHash metadataHash s
    = Ok (s', true)
    /\ getTodaySubmissionCount m worker s'
       = getTodaySubmissionCount m worker s + 1
    /\ getWorkerSubmissions worker s'
       = getWorkerSubmissions worker s
         ++ [SubmissionRecord.mk (timestamp m) imageHash metadataHash]
    /\ AntiFraudStorage.blacklistedWorkers s'
       = AntiFraudStorage.blacklistedWorkers s
    /\ AntiFraudStorage.verificationContractAddress s'
       = AntiFraudStorage.verificationContractAddress s
    /\ AntiFraudStorage.taskManagerAddress s'
       = AntiFraudStorage.taskManagerAddress s.
Proof.
  pose proof MAX_UINT256_above_21 as Hmax.
  unfold isWorkerBlacklisted, getTodaySubmissionCount, isImageHashUsed,
    getWorkerSubmissions.
  intros Hauth Hlisted Htoday Hfresh Hmeta.
  unfold checkAndRecordSubmission, notBlacklisted, _checkRateLimit,
    _checkDuplicateImage, _validateMetadata, uadd, MAX_SUBMISSIONS_PER_DAY.
  rewrite Hauth, Hlisted. simpl.
  destruct (Z.eqb_spec
              (DailySubmissionCount.date
                 (AntiFraudStorage.workerDailySubmissions s@worker))
              (_getCurrentDay m)) as [Hday | Hday]; simpl.
  - destruct (Z.leb_spec 20
                (DailySubmissionCount.count
                   (AntiFraudStorage.workerDailySubmissions s@worker)));
      [lia |]. simpl.
    destruct (Z.leb_spec
                (DailySubmissionCount.count
                   (AntiFraudStorage.workerDailySubmissions s@worker) + 1)
                MAX_UINT256); [| lia]. simpl.
    rewrite Hfresh. simpl.
    destruct (Z.eqb_spec metadataHash 0); [done |]. simpl.
    eexists. split; [reflexivity |]. simpl.
    rewrite !sload_insert_eq. simpl. rewrite Hday, Z.eqb_refl. done.
  - rewrite Hfresh. simpl.
    destruct (Z.eqb_spec metadataHash 0); [done |]. simpl.
    eexists. split; [reflexivity |]. simpl.
    rewrite !sload_insert_eq. simpl. rewrite Z.eqb_refl. done.
Qed.

(** X5.  For an authorized caller and a worker who is not blacklisted,
    [getTodaySubmissionCount] decides the rate gate: at 20 or more the
    submission is refused with [RateLimitExceededError] carrying that
    count, whatever the hash; below 20 a submission with a fresh hash and
    metadata is accepted, the count of the day goes up by one and the
    record is appended to the worker's log.  A counter stamped with
    another day counts as 0. *)
Theorem rate_limit_gate
    (m : Msg) (worker : address) (taskId : Z) (imageHash : string)
    (metadataHash : Z) (s : AntiFraudStorage.t) :
  onlyAuthorizedContracts m s = Ok tt ->
  isWorkerBlacklisted worker s = false ->
  let today := getTodaySubmissionCount m worker s in
  (20 <= today ->
     checkAndRecordSubmission m worker taskId imageHash metadataHash s
     = Revert (RateLimitExceededError worker today))
  /\ (today < 20 ->
      isImageHashUsed imageHash s = false ->
      metadataHash <> 0 ->
      exists s',
        checkAndRecordSubmission m worker taskId imageHash metadataHash s
        = Ok (s', true)
        /\ getTodaySubmissionCount m worker s' = today + 1
        /\ getWorkerSubmissions worker s'
           = getWorkerSubmissions worker s
             ++ [SubmissionRecord.mk (timestamp m) imageHash metadataHash])
  /\ (DailySubmissionCount.date
        (AntiFraudStorage.workerDailySubmissions s@worker)
      <> _getCurrentDay m -> today = 0).
Proof.
  intros Hauth Hlisted. cbv zeta. split; [| split].
  - unfold getTodaySubmissionCount. intros Hfull.
    unfold checkAndRecordSubmission, notBlacklisted, _checkRateLimit,
      MAX_SUBMISSIONS_PER_DAY.
    unfold isWorkerBlacklisted in Hlisted. rewrite Hauth, Hlisted. simpl.
    destruct (Z.eqb_spec
                (DailySubmissionCount.date
                   (AntiFraudStorage.workerDailySubmissions s@worker))
                (_getCurrentDay m)) as [Hday | Hday]; [| lia]. simpl.
    destruct (Z.leb_spec 20
                (DailySubmissionCount.count
                   (AntiFraudStorage.workerDailySubmissions s@worker)));
      [done | lia].
  - intros Hbelow Hfresh Hmeta.
    destruct (checkAndRecordSubmission_accept m worker taskId imageHash
                metadataHash s Hauth Hlisted Hbelow Hfresh Hmeta)
      as (s' & E & Hcount & Hlog & _).
    eauto.
  - intros Hday. unfold getTodaySubmissionCount.
    by destruct (Z.eqb_spec
                   (DailySubmissionCount.date
                      (AntiFraudStorage.workerDailySubmissions s@worker))
                   (_getCurrentDay m)).
Qed.

End RateLimit.

Section DailyQuota.
Import AntiFraud.

Lemma getTodaySubmissionCount_day m1 m2 worker s :
  _getCurrentDay m1 = _getCurrentDay m2 ->
  getTodaySubmissionCount m1 worker s = getTodaySubmissionCount m2 worker s.
Proof. unfold getTodaySubmissionCount. by intros ->. Qed.

Lemma authorized_sender caller value when s :
  caller = AntiFraudStorage.verificationContractAddress s
  \/ caller = AntiFraudStorage.taskManagerAddress s ->
  onlyAuthorizedContracts (mkMsg caller value when) s = Ok tt.
Proof.
  unfold onlyAuthorizedContracts. simpl.
  intros [-> | ->]; rewrite Z.eqb_refl; simpl;
    rewrite ?andb_false_r; reflexivity.
Qed.

(** X6.  Submissions of one day with pairwise distinct, unused content hashes
    are all accepted as long as the day's count stays within 20: the count
    grows by their number, the worker's log by their records in order, and
    each hash is claimed by the worker. *)
Theorem daily_quota_fills_up
    (caller worker : address) (metadataHash : Z) (subs : list (Z * string))
    (now : Msg) (s : AntiFraudStorage.t) :
  caller = AntiFraudStorage.verificationContractAddress s
  \/ caller = AntiFraudStorage.taskManagerAddress s ->
  isWorkerBlacklisted worker s = false ->
  metadataHash <> 0 ->
  NoDup (map snd subs) ->
  Forall (fun p => isImageHashUsed (snd p) s = false
                   /\ _getCurrentDay (mkMsg caller 0 (fst p))
                      = _getCurrentDay now) subs ->
  getTodaySubmissionCount now worker s + Z.of_nat (length subs) <= 20 ->
  let s' := run (recordings caller worker metadataHash subs) s in
  getTodaySubmissionCount now worker s'
  = getTodaySubmissionCount now worker s + Z.of_nat (length subs)
  /\ getWorkerSubmissions worker s'
     = getWorkerSubmissions worker s
       ++ map (fun p => SubmissionRecord.mk (fst p) (snd p) metadataHash) subs
  /\ Forall (fun p => claimed_by (snd p) worker s') subs.
Proof.
  intros Hcaller Hlisted Hmeta. cbv zeta. revert s Hcaller Hlisted.
  induction subs as [| [when h] subs IH]; intros s Hcaller Hlisted Hdup Hsubs Hroom.
  - simpl. rewrite app_nil_r. split; [lia |]. split; [reflexivity | constructor].
  - simpl in Hdup. apply NoDup_cons in Hdup as [Hnotin Hdup].
    apply Forall_cons in Hsubs as [[Hfresh Hday] Hsubs]. simpl in Hfresh, Hday.
    rewrite length_cons in Hroom.
    assert (Hbelow : getTodaySubmissionCount (mkMsg caller 0 when) worker s < 20).
    { rewrite (getTodaySubmissionCount_day _ now) by exact Hday. lia. }
    destruct (checkAndRecordSubmission_accept (mkMsg caller 0 when) worker 0 h
                metadataHash s (authorized_sender caller 0 when s Hcaller)
                Hlisted Hbelow Hfresh Hmeta)
      as (s1 & E & Hcount & Hlog & Hblack & Hver & Htm).
    assert (Hrun : run (recordings caller worker metadataHash ((when, h) :: subs)) s
                   = run (recordings caller worker metadataHash subs) s1).
    { unfold run, recordings. simpl. unfold apply. simpl. by rewrite E. }
    rewrite Hrun.
    pose proof (checkAndRecordSubmission_ok _ _ _ _ _ _ _ _ E)
      as (_ & Hclaimed & Hothers).
    rewrite !(getTodaySubmissionCount_day (mkMsg caller 0 when) now) in Hcount
      by exact Hday.
    destruct (IH s1) as (IHcount & IHlog & IHclaimed).
    + by rewrite Hver, Htm.
    + unfold isWorkerBlacklisted in *. by rewrite Hblack.
    + exact Hdup.
    + apply Forall_forall. intros [when' h'] Hin.
      rewrite Forall_forall in Hsubs. destruct (Hsubs _ Hin) as [Hf Hd].
      split; [| exact Hd]. simpl in *.
      assert (Hne : h' <> h).
      { intros ->. apply Hnotin. apply list_elem_of_fmap.
        by exists (when', h). }
      unfold isImageHashUsed in *.
      by destruct (Hothers h' Hne) as [-> _].
    + lia.
    + split; [rewrite IHcount, Hcount, length_cons; lia |].
      split.
      * rewrite IHlog, Hlog. by rewrite <- app_assoc.
      * constructor; [| exact IHclaimed]. simpl.
        by apply run_keeps_claim.
Qed.

Lemma daily_quota_fills_up_witness :
  let s' := run (recordings (taskManagerAt Scenario.D) Scenario.worker1 1
                   full_day) (antiFraud Scenario.wired) in
  getTodaySubmissionCount (mkMsg 0 0 Scenario.genesis) Scenario.worker1 s' = 20
  /\ length (getWorkerSubmissions Scenario.worker1 s') = 20%nat.
Proof.
  destruct (daily_quota_fills_up (taskManagerAt Scenario.D) Scenario.worker1 1
              full_day (mkMsg 0 0 Scenario.genesis)
              (antiFraud Scenario.wired))
    as (Hcount & Hlog & _).
  - right. reflexivity.
  - reflexivity.
  - intro Hc; discriminate Hc.
  - apply (bool_decide_unpack _). vm_compute. reflexivity.
  - repeat (apply Forall_cons_2; [split; vm_compute; reflexivity |]).
    apply Forall_nil_2.
  - vm_compute. intro Hc; discriminate Hc.
  - cbv zeta. split; [rewrite Hcount; reflexivity |].
    rewrite Hlog. reflexivity.
Defined.

(** The gate at a full day: after the twenty submissions of [full_day] the
    twenty-first of the same day is refused whatever its content, and the
    first of the next day is accepted. *)
Lemma rate_limit_gate_witness :
  let s := run (recordings (taskManagerAt Scenario.D) Scenario.worker1 1
                  full_day) (antiFraud Scenario.wired) in
  checkAndRecordSubmission
    (mkMsg (taskManagerAt Scenario.D) 0 (Scenario.genesis + 3600))
    Scenario.worker1 0 "Qm21" 1 s
  = Revert (RateLimitExceededError Scenario.worker1 20)
  /\ exists s',
       checkAndRecordSubmission
         (mkMsg (taskManagerAt Scenario.D) 0 (Scenario.genesis + 1 * days))
         Scenario.worker1 0 "Qm21" 1 s
       = Ok (s', true)
       /\ getTodaySubmissionCount
            (mkMsg (taskManagerAt Scenario.D) 0 (Scenario.genesis + 1 * days))
            Scenario.worker1 s' = 1.
Proof.
  cbv zeta. split.
  - refine (proj1 (rate_limit_gate
                     (mkMsg (taskManagerAt Scenario.D) 0
                        (Scenario.genesis + 3600))
                     Scenario.worker1 0 "Qm21" 1 _ _ _) _).
    + vm_compute. reflexivity.
    + vm_compute. reflexivity.
    + vm_compute. intro Hc; discriminate Hc.
  - destruct (proj1 (proj2 (rate_limit_gate
                     (mkMsg (taskManagerAt Scenario.D) 0
                        (Scenario.genesis + 1 * days))
                     Scenario.worker1 0 "Qm21" 1
                     (run (recordings (taskManagerAt Scenario.D)
                             Scenario.worker1 1 full_day)
                        (antiFraud Scenario.wired))
                     ltac:(vm_compute; reflexivity)
                     ltac:(vm_compute; reflexivity)))
                ltac:(vm_compute; reflexivity)
                ltac:(vm_compute; reflexivity)
                ltac:(intro Hc; discriminate Hc))
      as (s' & E & Hcount & _).
    exists s'. split; [exact E |]. rewrite Hcount. vm_compute. reflexivity.
Defined.

End DailyQuota.

(** ** What a call leaves alone *)

Section Frames.

Lemma call_value_some D from to amount w w' :
  call_value D from to amount w = Some w' ->
  exists b, pay from to amount (balances w) = Some b
            /\ accepts_payment D to = true
            /\ w' = with_balances b w.
Proof.
  unfold call_value. destruct (accepts_payment D to); [| done].
  destruct (pay _ _ _ _) as [b |]; [| done].
  intros E. injection E as <-. eauto.
Qed.

Lemma receive_value_ok self m w w' :
  receive_value self m w = Ok w' ->
  exists b, pay (sender m) self (value m) (balances w) = Some b
            /\ w' = with_balances b w.
Proof.
  unfold receive_value. destruct (pay _ _ _ _) as [b |]; [| done].
  intros E. injection E as <-. eauto.
Qed.

(** [TaskManager] writes its own storage, takes the value attached to
    [createTask] and has [AntiFraud] record a submission; nothing else. *)
Lemma TaskManager_call_frame D m c w w' :
  TaskManager.call D m c w = Ok w' ->
  bountyPool w' = bountyPool w
  /\ verification w' = verification w
  /\ reputation w' = reputation w
  /\ (balances w' = balances w
      \/ pay (sender m) (taskManagerAt D) (value m) (balances w)
         = Some (balances w'))
  /\ (antiFraud w' = antiFraud w
      \/ exists worker taskId imageHash metadataHash b,
           AntiFraud.checkAndRecordSubmission
             (mkMsg (taskManagerAt D) 0 (timestamp m)) worker taskId
             imageHash metadataHash (antiFraud w)
           = Ok (antiFraud w', b)).
Proof.
  intros E. destruct c; simpl in E.
  - unfold TaskManager.setAntiFraud in E. ok_step E. ok_step E.
    injection E as <-. simpl. tauto.
  - ok_bind E as r Hr. injection E as <-.
    unfold TaskManager.createTask in Hr.
    ok_bind Hr as w1 Hpaid. ok_step Hr. ok_step Hr. ok_step Hr.
    injection Hr as <-. simpl.
    apply receive_value_ok in Hpaid as (b & Hpay & ->). simpl. tauto.
  - ok_bind E as r Hr. injection E as <-.
    unfold TaskManager.claimTask in Hr.
    do 6 ok_step Hr. injection Hr as <-. simpl. tauto.
  - ok_bind E as r Hr. injection E as <-.
    unfold TaskManager.submitTaskCompletion in Hr.
    do 6 ok_step Hr. ok_bind Hr as w1 Hrec. ok_step Hr.
    injection Hr as <-. simpl.
    destruct (negb _) in Hrec.
    + unfold TaskManager.IAntiFraud_checkAndRecordSubmission in Hrec.
      destruct (_ =? antiFraudAt D) in Hrec; [| done].
      ok_bind Hrec as r Hr. injection Hrec as <-. simpl.
      destruct r as [a b]. repeat split; try tauto. right. eauto 10.
    + injection Hrec as <-. tauto.
  - ok_bind E as r Hr. injection E as <-.
    unfold TaskManager.expireTask in Hr. ok_step Hr. ok_step Hr.
    destruct (_ || _) in Hr; injection Hr as <-; simpl; tauto.
Qed.

(** [BountyPool] writes its own storage and the ledger. *)
Lemma BountyPool_call_frame D m c w w' :
  BountyPool.call D m c w = Ok w' ->
  taskManager w' = taskManager w
  /\ verification w' = verification w
  /\ reputation w' = reputation w
  /\ antiFraud w' = antiFraud w.
Proof.
  intros E. destruct c; simpl in E.
  - unfold BountyPool.setTaskManager in E. ok_step E. ok_step E.
    by injection E as <-.
  - unfold BountyPool.setVerificationContract in E. ok_step E. ok_step E.
    by injection E as <-.
  - unfold BountyPool.depositBounty in E.
    ok_bind E as w1 Hpaid. ok_step E. ok_step E. injection E as <-.
    by apply receive_value_ok in Hpaid as (b & _ & ->).
  - unfold BountyPool.distributeReward in E. do 7 ok_step E.
    destruct (call_value _ _ _ _ _) as [w1 |] eqn:Hpaid; [| done].
    injection E as <-.
    by apply call_value_some in Hpaid as (b & _ & _ & ->).
  - unfold BountyPool.refundBounty in E. do 7 ok_step E.
    destruct (call_value _ _ _ _ _) as [w1 |] eqn:Hpaid; [| done].
    injection E as <-.
    by apply call_value_some in Hpaid as (b & _ & _ & ->).
  - unfold BountyPool.withdrawPlatformFees in E. do 2 ok_step E.
    destruct (call_value _ _ _ _ _) as [w1 |] eqn:Hpaid; [| done].
    injection E as <-.
    by apply call_value_some in Hpaid as (b & _ & _ & ->).
  - unfold BountyPool.receive in E.
    by apply receive_value_ok in E as (b & _ & ->).
Qed.

Lemma updateVerifierReputation_frame D m target verifier ok w w' :
  VerificationContract.IReputationContract_updateVerifierReputation D m
    target verifier ok w = Ok w' ->
  exists r, w' = with_reputation r w.
Proof.
  unfold VerificationContract.IReputationContract_updateVerifierReputation.
  intros E. destruct (target =? reputationAt D); [| done].
  ok_bind E as r Hr. injection E as <-. eauto.
Qed.

Lemma updateWorkerReputation_world D m target worker ok w w' :
  VerificationContract.IReputationContract_updateWorkerReputation D m
    target worker ok w = Ok w' ->
  exists r, w' = with_reputation r w.
Proof.
  unfold VerificationContract.IReputationContract_updateWorkerReputation.
  intros E. destruct (target =? reputationAt D); [| done].
  ok_bind E as r Hr. injection E as <-. eauto.
Qed.

(** Paying the verifiers leaves [TaskManager] and [AntiFraud] alone. *)
Lemma reward_verifiers_others D m submissionId consensusApproved verifiers :
  forall totalReward w w' totalReward',
    VerificationContract.reward_verifiers D m submissionId consensusApproved
      verifiers totalReward w
    = Ok (w', totalReward') ->
    taskManager w' = taskManager w /\ antiFraud w' = antiFraud w.
Proof.
  induction verifiers as [| verifier rest IH];
    intros totalReward w w' totalReward' E; simpl in E.
  { by injection E as <- <-. }
  assert (Hrep : forall target ok w1 w2,
            (if negb (target =? 0)
             then VerificationContract.IReputationContract_updateVerifierReputation
                    D m target verifier ok w1
             else Ok w1) = Ok w2 ->
            taskManager w2 = taskManager w1 /\ antiFraud w2 = antiFraud w1).
  { intros target ok w1 w2 Hcall.
    destruct (negb (target =? 0)); [| by injection Hcall as <-].
    by apply updateVerifierReputation_frame in Hcall as (r & ->). }
  destruct (negb (Vote.hasVoted _)); [by apply IH in E |].
  destruct (Bool.eqb _ _).
  - ok_bind E as scaled Hscaled.
    ok_bind E as reward Hreward. ok_bind E as total Htotal.
    ok_bind E as w1 Hpaid. ok_bind E as w2 Hrepd.
    apply IH in E as [-> ->]. apply Hrep in Hrepd as [-> ->].
    destruct (call_value _ _ _ _ _) as [w0 |] eqn:Hcv; [| done].
    injection Hpaid as <-.
    by apply call_value_some in Hcv as (b & _ & _ & ->).
  - ok_bind E as w1 Hrepd. apply IH in E as [-> ->].
    by apply Hrep in Hrepd as [-> ->].
Qed.

(** [VerificationContract] never touches [TaskManager]; what it does to
    [AntiFraud] is one [forfeitStake] at most. *)
Lemma VerificationContract_call_frame D m c w w' :
  VerificationContract.call D m c w = Ok w' ->
  taskManager w' = taskManager w
  /\ (antiFraud w' = antiFraud w
      \/ exists worker reason,
           AntiFraud.forfeitStake (VerificationContract.outgoing D m) worker
             reason (antiFraud w)
           = Ok (antiFraud w')).
Proof.
  intros E. destruct c; simpl in E.
  - unfold VerificationContract.setBountyPool in E. do 2 ok_step E.
    injection E as <-. simpl. tauto.
  - unfold VerificationContract.setReputationContract in E. do 2 ok_step E.
    injection E as <-. simpl. tauto.
  - unfold VerificationContract.setTaskManager in E. do 2 ok_step E.
    injection E as <-. simpl. tauto.
  - unfold VerificationContract.setAntiFraud in E. do 2 ok_step E.
    injection E as <-. simpl. tauto.
  - ok_bind E as r Hr. injection E as <-.
    unfold VerificationContract.createSubmission in Hr. do 2 ok_step Hr.
    injection Hr as <-. simpl. tauto.
  - unfold VerificationContract.stakeForVerification in E.
    ok_bind E as w1 Hpaid. do 6 ok_step E. injection E as <-. simpl.
    apply receive_value_ok in Hpaid as (b & _ & ->). simpl. tauto.
  - unfold VerificationContract.submitVerification in E.
    do 6 ok_step E. unfold VerificationContract._checkConsensus in E.
    simpl in E.
    destruct (VerificationContract.CONSENSUS_THRESHOLD <=? _) in E.
    { destruct (negb _) in E.
      - apply updateWorkerReputation_world in E as (r & ->). simpl. tauto.
      - injection E as <-. simpl. tauto. }
    destruct (VerificationContract.CONSENSUS_THRESHOLD <=? _) in E.
    { ok_bind E as w1 Hrep.
      assert (Hw1 : taskManager w1 = taskManager w
                    /\ antiFraud w1 = antiFraud w).
      { destruct (negb _) in Hrep.
        - by apply updateWorkerReputation_world in Hrep as (r & ->).
        - by injection Hrep as <-. }
      destruct Hw1 as [Htm Haf].
      destruct (negb _) in E.
      - unfold VerificationContract.IAntiFraud_forfeitStake in E.
        destruct (_ =? antiFraudAt D) in E; [| done].
        ok_bind E as a Ha. injection E as <-. simpl.
        split; [done |]. right. rewrite <- Haf. eauto.
      - injection E as <-. tauto. }
    destruct (VerificationContract.MAX_VERIFIERS <=? _) in E;
      injection E as <-; simpl; tauto.
  - unfold VerificationContract.distributeVerificationRewards in E.
    do 5 ok_step E. ok_bind E as w1 Hworker.
    unfold VerificationContract._distributeVerifierRewards in E.
    ok_bind E as r Hverifiers. destruct r as [w2 total].
    injection E as <-.
    apply reward_verifiers_others in Hverifiers as [-> ->]. simpl.
    destruct (_ && _) in Hworker.
    + unfold VerificationContract.IBountyPool_distributeReward in Hworker.
      destruct (_ =? bountyPoolAt D) in Hworker; [| done].
      apply (BountyPool_call_frame D _ (BountyPool.DistributeReward _ _ _))
        in Hworker as (-> & _ & _ & ->). simpl. tauto.
    + injection Hworker as <-. simpl. tauto.
  - unfold VerificationContract.receive in E.
    apply receive_value_ok in E as (b & _ & ->). simpl. tauto.
Qed.

End Frames.

(** ** Deployment *)

Section Deployment.

(** X7.  The deployment script goes through: when none of the five addresses
    is zero, every setter returns, each contract ends up knowing the
    others by their deployed addresses, the deployer owns all five, and
    nothing else has been written: no money has moved, no task, no
    submission, no stake exists. *)
Theorem main_wires_the_contracts
    (D : Deployment) (m : Msg) (ledger : gmap address Z) :
  nonzero_addresses D ->
  exists w,
    Deploy.main D m ledger = Ok w
    /\ interconnected D w
    /\ balances w = ledger
    /\ TaskManagerStorage.owner (taskManager w) = sender m
    /\ BountyPoolStorage.owner (bountyPool w) = sender m
    /\ VerificationStorage.owner (verification w) = sender m
    /\ ReputationStorage.owner (reputation w) = sender m
    /\ AntiFraudStorage.owner (antiFraud w) = sender m
    /\ TaskManagerStorage.taskIdCounter (taskManager w) = 0
    /\ VerificationStorage.submissionIdCounter (verification w) = 0
    /\ no_stakes (antiFraud w).
Proof.
  intros (Htm & Hbp & Hv & Hr & Haf).
  destruct D as [tm bp v r af hash]. destruct m as [deployer attached now].
  simpl in *.
  apply Z.eqb_neq in Htm, Hbp, Hv, Hr, Haf.
  unfold Deploy.main, Deploy.interconnections, Deploy.constructors.
  repeat (progress (cbv -[Z.eqb];
                    rewrite ?Z.eqb_refl, ?Htm, ?Hbp, ?Hv, ?Hr, ?Haf)).
  eexists. split; [reflexivity |].
  unfold interconnected, no_stakes. cbv -[Z.eqb]. repeat split; reflexivity.
Qed.

Lemma main_wires_the_contracts_witness :
  interconnected Scenario.D deployed /\ no_stakes (antiFraud deployed).
Proof.
  destruct (main_wires_the_contracts Scenario.D
              (mkMsg Scenario.deployer 0 Scenario.genesis)
              Scenario.funded_accounts)
    as (w & E & Hwired & _ & _ & _ & _ & _ & _ & _ & _ & Hstakes).
  - repeat split; intro Hc; discriminate Hc.
  - unfold deployed. rewrite E. simpl. split; assumption.
Defined.

End Deployment.

(** ** Stakes of workers *)

Section Stakes.

Lemma forfeitStake_needs_stake m worker reason a a' :
  AntiFraud.forfeitStake m worker reason a = Ok a' ->
  AntiFraudStorage.workerStakes a@worker <> 0.
Proof.
  unfold AntiFraud.forfeitStake. intros E. ok_step E. ok_step E.
  apply revert_if_ok in E1. by apply Z.eqb_neq.
Qed.

Lemma AntiFraud_call_no_stakes m c a a' :
  AntiFraud.call m c a = Ok a' -> no_stakes a -> no_stakes a'.
Proof.
  intros E Hnone. destruct c; simpl in E.
  - unfold AntiFraud.setVerificationContract in E. do 2 ok_step E.
    by injection E as <-.
  - unfold AntiFraud.setTaskManager in E. do 2 ok_step E.
    by injection E as <-.
  - ok_bind E as r Hr. injection E as <-.
    unfold AntiFraud.checkAndRecordSubmission in Hr.
    ok_step Hr. ok_step Hr. ok_bind Hr as a1 Hrate. ok_step Hr. ok_step Hr.
    injection Hr as <-. simpl.
    unfold AntiFraud._checkRateLimit in Hrate. do 2 ok_step Hrate.
    by injection Hrate as <-.
  - apply forfeitStake_needs_stake in E. destruct E. apply Hnone.
  - unfold AntiFraud.blacklistWorker in E. ok_step E. by injection E as <-.
  - unfold AntiFraud.unblacklistWorker in E. ok_step E. by injection E as <-.
Qed.

Lemma System_call_no_stakes D m c w w' :
  System.call D m c w = Ok w' ->
  no_stakes (antiFraud w) -> no_stakes (antiFraud w').
Proof.
  intros E Hnone. destruct c; simpl in E.
  - apply TaskManager_call_frame in E
      as (_ & _ & _ & _ & [-> | (worker & taskId & h & md & b & E)]);
      [done |].
    apply (AntiFraud_call_no_stakes
             (mkMsg (taskManagerAt D) 0 (timestamp m))
             (AntiFraud.CheckAndRecordSubmission worker taskId h md)
             (antiFraud w)); [| done].
    simpl. by rewrite E.
  - by apply BountyPool_call_frame in E as (_ & _ & _ & ->).
  - apply VerificationContract_call_frame in E
      as (_ & [-> | (worker & reason & E)]); [done |].
    apply forfeitStake_needs_stake in E. destruct E. apply Hnone.
  - ok_bind E as r Hr. by injection E as <-.
  - ok_bind E as r Hr. by injection E as <-.
  - ok_bind E as r Hr. by injection E as <-.
  - ok_bind E as a Ha. injection E as <-. simpl.
    by eapply AntiFraud_call_no_stakes.
Qed.

Lemma System_run_no_stakes D txs w :
  no_stakes (antiFraud w) -> no_stakes (antiFraud (System.run D txs w)).
Proof.
  revert w. induction txs as [| tx txs IH]; intros w Hw; [exact Hw |].
  simpl. apply IH. unfold System.apply.
  destruct (System.call D (fst tx) (snd tx) w) eqn:E; [| exact Hw].
  by eapply System_call_no_stakes.
Qed.

(** X8.  No function of the five contracts records a stake for a worker, so
    a system in which none is on record stays that way whatever is sent
    to it, and [forfeitStake] can only revert: with [NoStakeToForfeit]
    for the verification contract, with [UnauthorizedCaller] for everyone
    else. *)
Theorem forfeitStake_never_returns
    (D : Deployment) (txs : list (Msg * System.Call)) (w : World)
    (m : Msg) (worker : address) (reason : string) :
  no_stakes (antiFraud w) ->
  let a := antiFraud (System.run D txs w) in
  no_stakes a
  /\ AntiFraud.forfeitStake m worker reason a
     = Revert
         (if sender m =? AntiFraudStorage.verificationContractAddress a
          then NoStakeToForfeit worker
          else UnauthorizedCaller (sender m)).
Proof.
  intros Hnone. cbv zeta.
  pose proof (System_run_no_stakes D txs w Hnone) as Hrun.
  split; [exact Hrun |].
  unfold AntiFraud.forfeitStake, AntiFraud.onlyVerificationContract.
  destruct (sender m =? _); simpl; [| reflexivity].
  by rewrite (Hrun worker).
Qed.

Lemma deployed_no_stakes : no_stakes (antiFraud deployed).
Proof.
  assert (E : AntiFraudStorage.workerStakes (antiFraud deployed) = ∅)
    by (vm_compute; reflexivity).
  intros worker. rewrite E. reflexivity.
Qed.

Lemma forfeitStake_never_returns_witness :
  AntiFraud.forfeitStake
    (mkMsg (verificationAt Scenario.D) 0 Scenario.claimed_at)
    Scenario.worker1 "Submission rejected by consensus"
    (antiFraud
       (System.run Scenario.D
          [to_task_manager Scenario.open_task;
           (mkMsg Scenario.worker1 0 Scenario.claimed_at,
            System.ToTaskManager (TaskManager.ClaimTask 0));
           (mkMsg Scenario.worker1 0 Scenario.claimed_at,
            System.ToTaskManager
              (TaskManager.SubmitTaskCompletion 0 "QmTest123"
                 Scenario.anywhere))]
          deployed))
  = Revert (NoStakeToForfeit Scenario.worker1).
Proof.
  destruct (forfeitStake_never_returns Scenario.D
              [to_task_manager Scenario.open_task;
               (mkMsg Scenario.worker1 0 Scenario.claimed_at,
                System.ToTaskManager (TaskManager.ClaimTask 0));
               (mkMsg Scenario.worker1 0 Scenario.claimed_at,
                System.ToTaskManager
                  (TaskManager.SubmitTaskCompletion 0 "QmTest123"
                     Scenario.anywhere))]
              deployed
              (mkMsg (verificationAt Scenario.D) 0 Scenario.claimed_at)
              Scenario.worker1 "Submission rejected by consensus"
              deployed_no_stakes) as [_ E].
  rewrite E. vm_compute. reflexivity.
Defined.

End Stakes.

(** ** Rejection by consensus *)

Section Rejection.
Import VerificationContract.

(** The vote that brings the rejections to three reverts when the deployed
    [AntiFraud] is the one configured and no stake is on record there. *)
Lemma third_rejection_reverts D m submissionId feedback w :
  antiFraudAt D <> 0 ->
  VerificationStorage.antiFraudAddress (verification w) = antiFraudAt D ->
  no_stakes (antiFraud w) ->
  let submission :=
    VerificationStorage.submissions (verification w)@submissionId in
  Submission.approvalCount submission < 3 ->
  2 <= Submission.rejectionCount submission ->
  is_ok (submitVerification D m submissionId false feedback w) = false.
Proof.
  intros Hnz Hwired Hnone. cbv zeta. intros Happ Hrej.
  destruct (submitVerification D m submissionId false feedback w)
    as [w' |] eqn:E; [| reflexivity].
  exfalso. unfold submitVerification in E.
  ok_step E. ok_step E. ok_step E. ok_bind E as total Htotal.
  ok_bind E as approvals Happrovals. ok_bind E as rejections Hrejections.
  injection Happrovals as <-. apply uadd_ok in Hrejections as [-> _].
  unfold _checkConsensus in E. simpl in E.
  rewrite sload_insert_eq in E. simpl in E.
  unfold CONSENSUS_THRESHOLD in E.
  destruct (Z.leb_spec 3
              (Submission.approvalCount
                 (VerificationStorage.submissions (verification w)@submissionId)));
    [lia |].
  destruct (Z.leb_spec 3
              (Submission.rejectionCount
                 (VerificationStorage.submissions (verification w)@submissionId)
               + 1)); [| lia].
  ok_bind E as w1 Hrep.
  assert (Haf : antiFraud w1 = antiFraud w).
  { destruct (negb _) in Hrep.
    - by apply updateWorkerReputation_world in Hrep as (r & ->).
    - by injection Hrep as <-. }
  rewrite Hwired in E. apply Z.eqb_neq in Hnz. rewrite Hnz in E. simpl in E.
  unfold IAntiFraud_forfeitStake in E. rewrite Z.eqb_refl in E.
  ok_bind E as a Ha. rewrite Haf in Ha.
  apply forfeitStake_needs_stake in Ha. apply Ha, Hnone.
Qed.

Lemma System_call_none_rejected D m c w w' :
  System.call D m c w = Ok w' ->
  (forall a,
     c = System.ToVerification (SetAntiFraud a) -> a = antiFraudAt D) ->
  antiFraudAt D <> 0 ->
  VerificationStorage.antiFraudAddress (verification w) = antiFraudAt D ->
  no_stakes (antiFraud w) ->
  none_rejected (verification w) ->
  VerificationStorage.antiFraudAddress (verification w') = antiFraudAt D
  /\ none_rejected (verification w').
Proof.
  unfold none_rejected. intros E Hkeeps Hnz Hwired Hnone Hrej.
  destruct c as [c | c | c | c | a | a | c]; simpl in E.
  - by apply TaskManager_call_frame in E as (_ & -> & _).
  - by apply BountyPool_call_frame in E as (_ & -> & _).
  - destruct c; simpl in E.
    + unfold setBountyPool in E. do 2 ok_step E. by injection E as <-.
    + unfold setReputationContract in E. do 2 ok_step E. by injection E as <-.
    + unfold setTaskManager in E. do 2 ok_step E. by injection E as <-.
    + unfold setAntiFraud in E. ok_step E. ok_bind E as u Hu.
      injection E as <-. simpl. split; [| done].
      by apply Hkeeps.
    + ok_bind E as r Hr. injection E as <-.
      unfold createSubmission in Hr. do 2 ok_step Hr. injection Hr as <-.
      simpl. split; [done |]. intros id.
      destruct (decide (VerificationStorage.submissionIdCounter (verification w) = id))
        as [-> | Hne].
      * by rewrite sload_insert_eq.
      * rewrite sload_insert_ne by done. apply Hrej.
    + unfold stakeForVerification in E.
      ok_bind E as w1 Hpaid. do 6 ok_step E. injection E as <-. simpl.
      by apply receive_value_ok in Hpaid as (b & _ & ->).
    + pose proof E as Hcall. unfold submitVerification in E.
      ok_step E. ok_step E. ok_step E. ok_bind E as total Htotal.
      ok_bind E as approvals Happrovals. ok_bind E as rejections Hrejections.
      unfold _checkConsensus in E. simpl in E.
      rewrite sload_insert_eq in E. simpl in E.
      destruct (CONSENSUS_THRESHOLD <=? approvals) eqn:Happ.
      { assert (Hv : verification w'
                     = verification
                         (with_verification
                            (VerificationStorage.with_consensusReachedAt
                               (<[submissionId := timestamp m]>
                                  (VerificationStorage.consensusReachedAt
                                     (verification w)))
                               (VerificationStorage.with_submissions
                                  (<[submissionId :=
                                       Submission.with_status VERIFIED
                                         (Submission.with_counts approvals
                                            rejections total
                                            (VerificationStorage.submissions
                                               (verification w)@submissionId))]>
                                     (<[submissionId :=
                                          Submission.with_counts approvals
                                            rejections total
                                            (VerificationStorage.submissions
                                               (verification w)@submissionId)]>
                                        (VerificationStorage.submissions
                                           (verification w))))
                                  (VerificationStorage.with_verificationVotes
                                     (<[(submissionId, sender m) :=
                                          Vote.mk true approved (timestamp m)
                                            (Vote.stake
                                               (VerificationStorage.verificationVotes
                                                  (verification w)
                                                @(submissionId, sender m)))]>
                                        (VerificationStorage.verificationVotes
                                           (verification w)))
                                     (verification w)))) w)).
        { destruct (negb _) in E.
          - by apply updateWorkerReputation_world in E as (r & ->).
          - by injection E as <-. }
        rewrite Hv. simpl. split; [done |]. intros id.
        destruct (decide (submissionId = id)) as [-> | Hne].
        - by rewrite sload_insert_eq.
        - rewrite !sload_insert_ne by done. apply Hrej. }
      destruct (CONSENSUS_THRESHOLD <=? rejections) eqn:Hrejs.
      { exfalso.
        ok_bind E as w1 Hrep.
        assert (Haf : antiFraud w1 = antiFraud w).
        { destruct (negb _) in Hrep.
          - by apply updateWorkerReputation_world in Hrep as (r & ->).
          - by injection Hrep as <-. }
        rewrite Hwired in E. apply Z.eqb_neq in Hnz. rewrite Hnz in E.
        simpl in E.
        unfold IAntiFraud_forfeitStake in E. rewrite Z.eqb_refl in E.
        ok_bind E as a Ha. rewrite Haf in Ha.
        apply forfeitStake_needs_stake in Ha. apply Ha, Hnone. }
      destruct (MAX_VERIFIERS <=? total); injection E as <-; simpl;
        (split; [done |]); intros id;
        (destruct (decide (submissionId = id)) as [-> | Hne];
         [rewrite sload_insert_eq; simpl; try done; apply Hrej
         | rewrite !sload_insert_ne by done; apply Hrej]).
    + apply distributeVerificationRewards_verification in E.
      rewrite E. simpl. split; [done |]. intros id.
      destruct (decide (submissionId = id)) as [-> | Hne].
      * rewrite sload_insert_eq. simpl. apply Hrej.
      * rewrite sload_insert_ne by done. apply Hrej.
    + unfold receive in E.
      by apply receive_value_ok in E as (b & _ & ->).
  - ok_bind E as r Hr. by injection E as <-.
  - ok_bind E as r Hr. by injection E as <-.
  - ok_bind E as r Hr. by injection E as <-.
  - ok_bind E as r Hr. by injection E as <-.
Qed.

(** X9.  While the verification contract consults the deployed [AntiFraud],
    as the deployment script wires it, and no stake is on record there, no
    submission ever gets the status [REJECTED]: under all transactions that
    leave that address where it is (anything but a [setAntiFraud] to another
    contract), the vote that would bring the rejections to three reverts,
    every time. *)
Theorem no_rejection_with_antiFraud
    (D : Deployment) (txs : list (Msg * System.Call)) (w : World) :
  antiFraudAt D <> 0 ->
  VerificationStorage.antiFraudAddress (verification w) = antiFraudAt D ->
  Forall (keeps_verification_antiFraud D) txs ->
  no_stakes (antiFraud w) ->
  none_rejected (verification w) ->
  let w' := System.run D txs w in
  VerificationStorage.antiFraudAddress (verification w') = antiFraudAt D
  /\ none_rejected (verification w')
  /\ forall m submissionId feedback,
       Submission.approvalCount (getSubmission submissionId w') < 3 ->
       2 <= Submission.rejectionCount (getSubmission submissionId w') ->
       is_ok (submitVerification D m submissionId false feedback w') = false.
Proof.
  intros Hnz Hwired Htxs Hnone Hrej. cbv zeta.
  assert (Hrun : VerificationStorage.antiFraudAddress
                   (verification (System.run D txs w)) = antiFraudAt D
                 /\ no_stakes (antiFraud (System.run D txs w))
                 /\ none_rejected (verification (System.run D txs w))).
  { revert w Hwired Hnone Hrej.
    induction txs as [| tx txs IH]; intros w Hwired Hnone Hrej; [done |].
    apply Forall_cons in Htxs as [Htx Htxs].
    change (System.run D (tx :: txs) w)
      with (System.run D txs (System.apply D w tx)).
    assert (Hstep : VerificationStorage.antiFraudAddress
                      (verification (System.apply D w tx)) = antiFraudAt D
                    /\ no_stakes (antiFraud (System.apply D w tx))
                    /\ none_rejected (verification (System.apply D w tx))).
    { unfold System.apply.
      destruct (System.call D (fst tx) (snd tx) w) as [w1 |] eqn:E; [| done].
      pose proof (System_call_no_stakes _ _ _ _ _ E Hnone).
      by destruct (System_call_none_rejected _ _ _ _ _ E Htx Hnz Hwired
                     Hnone Hrej). }
    destruct Hstep as (? & ? & ?). by apply IH. }
  destruct Hrun as (Hwired' & Hnone' & Hrej').
  split; [exact Hwired' |]. split; [exact Hrej' |].
  intros m submissionId feedback. unfold getSubmission.
  by apply third_rejection_reverts.
Qed.

Lemma no_rejection_with_antiFraud_witness :
  let w' :=
    System.run Scenario.D
      (map to_verification
         (Scenario.stakes_and_votes Scenario.verifier1 false
          ++ Scenario.stakes_and_votes Scenario.verifier2 false
          ++ Scenario.stakes_and_votes Scenario.verifier3 false))
      deployed in
  Submission.rejectionCount (getSubmission 0 w') = 2
  /\ Submission.status (getSubmission 0 w') <> REJECTED
  /\ is_ok (submitVerification Scenario.D
              (mkMsg Scenario.verifier3 0 Scenario.voted_at) 0 false
              "no feedback" w') = false.
Proof.
  cbv zeta.
  destruct (no_rejection_with_antiFraud Scenario.D
              (map to_verification
                 (Scenario.stakes_and_votes Scenario.verifier1 false
                  ++ Scenario.stakes_and_votes Scenario.verifier2 false
                  ++ Scenario.stakes_and_votes Scenario.verifier3 false))
              deployed) as (_ & Hnone & Hreverts).
  - vm_compute. intro Hc; discriminate Hc.
  - vm_compute. reflexivity.
  - repeat (apply Forall_cons_2; [intros a Hc; discriminate Hc |]).
    apply Forall_nil_2.
  - exact deployed_no_stakes.
  - intros id.
    assert (E : VerificationStorage.submissions (verification deployed) = ∅)
      by (vm_compute; reflexivity).
    rewrite E. intro Hc; discriminate Hc.
  - split; [vm_compute; reflexivity |]. split; [apply Hnone |].
    apply Hreverts; vm_compute; [reflexivity | intro Hc; discriminate Hc].
Defined.

End Rejection.

(** ** The wiring under user transactions *)

Section Wiring.

Lemma checkAndRecordSubmission_addresses m worker taskId imageHash
    metadataHash a a' b :
  AntiFraud.checkAndRecordSubmission m worker taskId imageHash metadataHash a
  = Ok (a', b) ->
  AntiFraudStorage.taskManagerAddress a'
  = AntiFraudStorage.taskManagerAddress a
  /\ AntiFraudStorage.verificationContractAddress a'
     = AntiFraudStorage.verificationContractAddress a.
Proof.
  intros Hr. unfold AntiFraud.checkAndRecordSubmission in Hr.
  ok_step Hr. ok_step Hr. ok_bind Hr as a1 Hrate. ok_step Hr. ok_step Hr.
  injection Hr as <- <-. simpl.
  unfold AntiFraud._checkRateLimit in Hrate. do 2 ok_step Hrate.
  by injection Hrate as <-.
Qed.

Lemma forfeitStake_addresses m worker reason a a' :
  AntiFraud.forfeitStake m worker reason a = Ok a' ->
  AntiFraudStorage.taskManagerAddress a'
  = AntiFraudStorage.taskManagerAddress a
  /\ AntiFraudStorage.verificationContractAddress a'
     = AntiFraudStorage.verificationContractAddress a.
Proof.
  unfold AntiFraud.forfeitStake. intros E. do 2 ok_step E.
  by injection E as <-.
Qed.

Lemma ReputationContract_call_addresses m c r r' :
  ReputationContract.call m c r = Ok r' ->
  ReputationStorage.verificationContractAddress r'
  = ReputationStorage.verificationContractAddress r
  /\ ReputationStorage.taskManagerAddress r'
     = ReputationStorage.taskManagerAddress r.
Proof.
  intros E. destruct c; simpl in E.
  - unfold ReputationContract.initializeReputation in E. ok_step E.
    by injection E as <-.
  - unfold ReputationContract.updateWorkerReputation in E. do 2 ok_step E.
    by injection E as <-.
  - unfold ReputationContract.updateWorkerReputationWithCategory in E.
    do 5 ok_step E. by injection E as <-.
  - unfold ReputationContract.updateVerifierReputation in E. do 2 ok_step E.
    by injection E as <-.
Qed.

Lemma with_reputation_wiring r w :
  ReputationStorage.verificationContractAddress r
  = ReputationStorage.verificationContractAddress (reputation w)
  /\ ReputationStorage.taskManagerAddress r
     = ReputationStorage.taskManagerAddress (reputation w) ->
  wiring (with_reputation r w) = wiring w.
Proof. intros [Hv Ht]. unfold wiring. simpl. by rewrite Hv, Ht. Qed.

Lemma with_antiFraud_wiring a w :
  AntiFraudStorage.taskManagerAddress a
  = AntiFraudStorage.taskManagerAddress (antiFraud w)
  /\ AntiFraudStorage.verificationContractAddress a
     = AntiFraudStorage.verificationContractAddress (antiFraud w) ->
  wiring (with_antiFraud a w) = wiring w.
Proof. intros [Ht Hv]. unfold wiring. simpl. by rewrite Hv, Ht. Qed.

Lemma updateWorkerReputation_wiring D m target worker ok w w' :
  VerificationContract.IReputationContract_updateWorkerReputation D m
    target worker ok w = Ok w' ->
  wiring w' = wiring w.
Proof.
  unfold VerificationContract.IReputationContract_updateWorkerReputation.
  intros E. destruct (target =? reputationAt D); [| done].
  ok_bind E as r Hr. injection E as <-.
  apply with_reputation_wiring.
  by apply (ReputationContract_call_addresses
              (VerificationContract.outgoing D m)
              (ReputationContract.UpdateWorkerReputation worker ok)).
Qed.

Lemma updateVerifierReputation_wiring D m target verifier ok w w' :
  VerificationContract.IReputationContract_updateVerifierReputation D m
    target verifier ok w = Ok w' ->
  wiring w' = wiring w.
Proof.
  unfold VerificationContract.IReputationContract_updateVerifierReputation.
  intros E. destruct (target =? reputationAt D); [| done].
  ok_bind E as r Hr. injection E as <-.
  apply with_reputation_wiring.
  by apply (ReputationContract_call_addresses
              (VerificationContract.outgoing D m)
              (ReputationContract.UpdateVerifierReputation verifier ok)).
Qed.

Lemma reward_verifiers_wiring D m submissionId consensusApproved verifiers :
  forall totalReward w w' totalReward',
    VerificationContract.reward_verifiers D m submissionId consensusApproved
      verifiers totalReward w
    = Ok (w', totalReward') ->
    wiring w' = wiring w.
Proof.
  induction verifiers as [| verifier rest IH];
    intros totalReward w w' totalReward' E; simpl in E.
  { by injection E as <- <-. }
  assert (Hrep : forall target ok w1 w2,
            (if negb (target =? 0)
             then VerificationContract.IReputationContract_updateVerifierReputation
                    D m target verifier ok w1
             else Ok w1) = Ok w2 ->
            wiring w2 = wiring w1).
  { intros target ok w1 w2 Hcall.
    destruct (negb (target =? 0)); [| by injection Hcall as <-].
    by apply updateVerifierReputation_wiring in Hcall. }
  destruct (negb (Vote.hasVoted _)); [by apply IH in E |].
  destruct (Bool.eqb _ _).
  - ok_bind E as scaled Hscaled.
    ok_bind E as reward Hreward. ok_bind E as total Htotal.
    ok_bind E as w1 Hpaid. ok_bind E as w2 Hrepd.
    apply IH in E as ->. apply Hrep in Hrepd as ->.
    destruct (call_value _ _ _ _ _) as [w0 |] eqn:Hcv; [| done].
    injection Hpaid as <-.
    by apply call_value_some in Hcv as (b & _ & _ & ->).
  - ok_bind E as w1 Hrepd. apply IH in E as ->.
    by apply Hrep in Hrepd as ->.
Qed.

(** Only the eleven setters change what the contracts know of each
    other. *)
Lemma System_call_wiring D m c w w' :
  System.call D m c w = Ok w' ->
  is_setter c = false ->
  wiring w' = wiring w.
Proof.
  intros E Hc. destruct c as [c | c | c | c | a | a | c]; simpl in E;
    try discriminate Hc.
  - destruct c; try discriminate Hc; simpl in E.
    + ok_bind E as r Hr. injection E as <-.
      unfold TaskManager.createTask in Hr.
      ok_bind Hr as w1 Hpaid. ok_step Hr. ok_step Hr. ok_step Hr.
      injection Hr as <-.
      by apply receive_value_ok in Hpaid as (b & Hpay & ->).
    + ok_bind E as r Hr. injection E as <-.
      unfold TaskManager.claimTask in Hr.
      do 6 ok_step Hr. by injection Hr as <-.
    + ok_bind E as r Hr. injection E as <-.
      unfold TaskManager.submitTaskCompletion in Hr.
      do 6 ok_step Hr. ok_bind Hr as w1 Hrec. ok_step Hr.
      injection Hr as <-.
      assert (Hw1 : wiring w1 = wiring w).
      { destruct (negb _) in Hrec; [| by injection Hrec as <-].
        unfold TaskManager.IAntiFraud_checkAndRecordSubmission in Hrec.
        destruct (_ =? antiFraudAt D) in Hrec; [| done].
        ok_bind Hrec as r Hr. injection Hrec as <-. destruct r as [a b].
        apply with_antiFraud_wiring.
        by apply checkAndRecordSubmission_addresses in Hr. }
      rewrite <- Hw1. unfold wiring. simpl.
      unfold TaskManager._removeActiveTask.
      by destruct (TaskManager.remove_at_first_match _ _ _ _).
    + ok_bind E as r Hr. injection E as <-.
      unfold TaskManager.expireTask in Hr. ok_step Hr. ok_step Hr.
      by destruct (_ || _) in Hr; injection Hr as <-.
  - destruct c; try discriminate Hc; simpl in E.
    + unfold BountyPool.depositBounty in E.
      ok_bind E as w1 Hpaid. ok_step E. ok_step E. injection E as <-.
      by apply receive_value_ok in Hpaid as (b & _ & ->).
    + unfold BountyPool.distributeReward in E. do 7 ok_step E.
      destruct (call_value _ _ _ _ _) as [w1 |] eqn:Hpaid; [| done].
      injection E as <-.
      by apply call_value_some in Hpaid as (b & _ & _ & ->).
    + unfold BountyPool.refundBounty in E. do 7 ok_step E.
      destruct (call_value _ _ _ _ _) as [w1 |] eqn:Hpaid; [| done].
      injection E as <-.
      by apply call_value_some in Hpaid as (b & _ & _ & ->).
    + unfold BountyPool.withdrawPlatformFees in E. do 2 ok_step E.
      destruct (call_value _ _ _ _ _) as [w1 |] eqn:Hpaid; [| done].
      injection E as <-.
      by apply call_value_some in Hpaid as (b & _ & _ & ->).
    + unfold BountyPool.receive in E.
      by apply receive_value_ok in E as (b & _ & ->).
  - destruct c; try discriminate Hc; simpl in E.
    + ok_bind E as r Hr. injection E as <-.
      unfold VerificationContract.createSubmission in Hr. do 2 ok_step Hr.
      by injection Hr as <-.
    + unfold VerificationContract.stakeForVerification in E.
      ok_bind E as w1 Hpaid. do 6 ok_step E. injection E as <-.
      by apply receive_value_ok in Hpaid as (b & _ & ->).
    + unfold VerificationContract.submitVerification in E.
      do 6 ok_step E. unfold VerificationContract._checkConsensus in E.
      simpl in E.
      destruct (VerificationContract.CONSENSUS_THRESHOLD <=? _) in E.
      { destruct (negb _) in E.
        - by apply updateWorkerReputation_wiring in E as ->.
        - by injection E as <-. }
      destruct (VerificationContract.CONSENSUS_THRESHOLD <=? _) in E.
      { ok_bind E as w1 Hrep.
        assert (Hw1 : wiring w1 = wiring w).
        { destruct (negb _) in Hrep.
          - by apply updateWorkerReputation_wiring in Hrep as ->.
          - by injection Hrep as <-. }
        destruct (negb _) in E; [| by injection E as <-].
        unfold VerificationContract.IAntiFraud_forfeitStake in E.
        destruct (_ =? antiFraudAt D) in E; [| done].
        ok_bind E as a Ha. injection E as <-. rewrite <- Hw1.
        apply with_antiFraud_wiring. by apply forfeitStake_addresses in Ha. }
      by destruct (VerificationContract.MAX_VERIFIERS <=? _) in E;
        injection E as <-.
    + unfold VerificationContract.distributeVerificationRewards in E.
      do 5 ok_step E. ok_bind E as w1 Hworker.
      unfold VerificationContract._distributeVerifierRewards in E.
      ok_bind E as r Hverifiers. destruct r as [w2 total].
      injection E as <-.
      apply reward_verifiers_wiring in Hverifiers as ->.
      destruct (_ && _) in Hworker; [| by injection Hworker as <-].
      unfold VerificationContract.IBountyPool_distributeReward in Hworker.
      destruct (_ =? bountyPoolAt D) in Hworker; [| done].
      unfold BountyPool.distributeReward in Hworker. do 7 ok_step Hworker.
      destruct (call_value _ _ _ _ _) as [w0 |] eqn:Hpaid; [| done].
      injection Hworker as <-.
      by apply call_value_some in Hpaid as (b & _ & _ & ->).
    + unfold VerificationContract.receive in E.
      by apply receive_value_ok in E as (b & _ & ->).
  - ok_bind E as r Hr. injection E as <-.
    apply with_reputation_wiring.
    by apply ReputationContract_call_addresses in Hr.
  - destruct c; try discriminate Hc; simpl in E.
    + ok_bind E as a Ha. injection E as <-. ok_bind Ha as r Hr.
      injection Ha as <-. destruct r as [a b].
      apply with_antiFraud_wiring.
      by apply checkAndRecordSubmission_addresses in Hr.
    + ok_bind E as a Ha. injection E as <-.
      apply with_antiFraud_wiring. by apply forfeitStake_addresses in Ha.
    + ok_bind E as a Ha. injection E as <-.
      unfold AntiFraud.blacklistWorker in Ha. ok_step Ha.
      by injection Ha as <-.
    + ok_bind E as a Ha. injection E as <-.
      unfold AntiFraud.unblacklistWorker in Ha. ok_step Ha.
      by injection Ha as <-.
Qed.

End Wiring.

(** ** The registry of submissions and the escrow in the deployed system *)

Section Unreachable.
Import VerificationContract.

Lemma wiring_interconnected D w w' :
  wiring w' = wiring w -> interconnected D w -> interconnected D w'.
Proof.
  unfold wiring, interconnected. intros E.
  injection E as -> -> -> -> -> -> -> -> -> -> ->. done.
Qed.

Lemma not_contract_address D a :
  a ∉ contract_addresses D ->
  a <> taskManagerAt D /\ a <> bountyPoolAt D /\ a <> verificationAt D
  /\ a <> reputationAt D /\ a <> antiFraudAt D.
Proof.
  unfold contract_addresses. intros Hnot.
  repeat split; intros ->; apply Hnot; set_solver.
Qed.

(** What a vote does to the submissions: counts and status of the one
    voted on; the pool is not involved. *)
Lemma submitVerification_bounties D m submissionId approved feedback w w' :
  submitVerification D m submissionId approved feedback w = Ok w' ->
  bountyPool w' = bountyPool w
  /\ VerificationStorage.submissionIdCounter (verification w')
     = VerificationStorage.submissionIdCounter (verification w)
  /\ forall id,
       Submission.bountyAmount
         (VerificationStorage.submissions (verification w')@id)
       = Submission.bountyAmount
           (VerificationStorage.submissions (verification w)@id).
Proof.
  intros E. unfold submitVerification in E.
  ok_step E. ok_step E. ok_step E. ok_bind E as total Htotal.
  ok_bind E as approvals Happrovals. ok_bind E as rejections Hrejections.
  match type of E with
  | _checkConsensus _ _ _ ?w0 = _ => set (w1 := w0) in *
  end.
  assert (Hpool : bountyPool w' = bountyPool w1).
  { unfold _checkConsensus in E.
    destruct (CONSENSUS_THRESHOLD <=? _) in E.
    { destruct (negb _) in E.
      - by apply updateWorkerReputation_world in E as (r & ->).
      - by injection E as <-. }
    destruct (CONSENSUS_THRESHOLD <=? _) in E.
    { ok_bind E as w2 Hrep.
      assert (Hw2 : bountyPool w2 = bountyPool w1).
      { destruct (negb _) in Hrep.
        - by apply updateWorkerReputation_world in Hrep as (r & ->).
        - by injection Hrep as <-. }
      destruct (negb _) in E; [| by injection E as <-].
      unfold IAntiFraud_forfeitStake in E.
      destruct (_ =? antiFraudAt D) in E; [| done].
      ok_bind E as a Ha. by injection E as <-. }
    by destruct (MAX_VERIFIERS <=? _) in E; injection E as <-. }
  split; [by rewrite Hpool |].
  apply _checkConsensus_verification in E
    as [-> | (status & reached & ->)]; subst w1; simpl.
  - split; [done |]. intros id.
    destruct (decide (submissionId = id)) as [-> | Hne].
    + by rewrite sload_insert_eq.
    + by rewrite sload_insert_ne.
  - split; [done |]. intros id.
    destruct (decide (submissionId = id)) as [-> | Hne].
    + by rewrite !sload_insert_eq.
    + by rewrite !sload_insert_ne.
Qed.

Lemma System_call_no_bounties D m c w w' :
  System.call D m c w = Ok w' ->
  user_transaction D (m, c) ->
  interconnected D w ->
  no_bounties w ->
  no_bounties w'
  /\ VerificationStorage.submissionIdCounter (verification w')
     = VerificationStorage.submissionIdCounter (verification w).
Proof.
  unfold no_bounties, BountyPool.getTaskBounty.
  intros E [Hsender Hc] Hwired [Hsubs Hpool]. simpl in Hsender, Hc.
  apply not_contract_address in Hsender as (Htm & Hbp & Hv & Hr & Haf).
  destruct Hwired as (_ & _ & Hptm & Hpv & _ & _ & Hvtm & _).
  destruct c as [c | c | c | c | a | a | c]; simpl in E;
    try discriminate Hc.
  - by apply TaskManager_call_frame in E as (-> & -> & _).
  - destruct c; try discriminate Hc; simpl in E.
    + exfalso. unfold BountyPool.depositBounty in E.
      ok_bind E as w1 Hpaid. ok_bind E as u Hauth.
      apply receive_value_ok in Hpaid as (b & _ & ->).
      unfold BountyPool.onlyTaskManager in Hauth. simpl in Hauth.
      rewrite Hptm in Hauth. apply Z.eqb_neq in Htm.
      by rewrite Htm in Hauth.
    + exfalso. unfold BountyPool.distributeReward in E.
      ok_bind E as u Hauth.
      unfold BountyPool.onlyVerificationContract in Hauth.
      rewrite Hpv in Hauth. apply Z.eqb_neq in Hv. by rewrite Hv in Hauth.
    + exfalso. unfold BountyPool.refundBounty in E.
      ok_bind E as u Hauth.
      unfold BountyPool.onlyTaskManager in Hauth.
      rewrite Hptm in Hauth. apply Z.eqb_neq in Htm.
      by rewrite Htm in Hauth.
    + unfold BountyPool.withdrawPlatformFees in E. do 2 ok_step E.
      destruct (call_value _ _ _ _ _) as [w1 |] eqn:Hpaid; [| done].
      injection E as <-.
      by apply call_value_some in Hpaid as (b & _ & _ & ->).
    + unfold BountyPool.receive in E.
      by apply receive_value_ok in E as (b & _ & ->).
  - destruct c; try discriminate Hc; simpl in E.
    + exfalso. ok_bind E as r Hcreate. unfold createSubmission in Hcreate.
      ok_bind Hcreate as u Hauth. unfold onlyTaskManager in Hauth.
      rewrite Hvtm in Hauth. apply Z.eqb_neq in Htm.
      by rewrite Htm in Hauth.
    + unfold stakeForVerification in E.
      ok_bind E as w1 Hpaid. do 6 ok_step E. injection E as <-.
      by apply receive_value_ok in Hpaid as (b & _ & ->).
    + apply submitVerification_bounties in E as (-> & -> & Hsame).
      repeat split; try done. intros id. by rewrite Hsame.
    + pose proof (distributeVerificationRewards_verification _ _ _ _ _ E)
        as Hverif.
      rewrite Hverif. simpl. split; [| done]. split.
      * intros id. destruct (decide (submissionId = id)) as [-> | Hne].
        -- rewrite sload_insert_eq. simpl. apply Hsubs.
        -- rewrite sload_insert_ne by done. apply Hsubs.
      * unfold distributeVerificationRewards in E.
        do 5 ok_step E. ok_bind E as w1 Hworker.
        unfold _distributeVerifierRewards in E.
        ok_bind E as r Hverifiers. destruct r as [w2 total].
        injection E as <-.
        apply reward_verifiers_frame in Hverifiers as [_ ->].
        destruct (_ && _) in Hworker.
        -- unfold IBountyPool_distributeReward in Hworker.
           destruct (_ =? bountyPoolAt D) in Hworker; [| done].
           apply distributeReward_ok in Hworker
             as (_ & Hthis & Hothers & _).
           unfold BountyPool.getTaskBounty in Hthis, Hothers.
           simpl in Hthis, Hothers. rewrite Hsubs in Hthis.
           intros taskId.
           destruct (decide
                       (taskId
                        = Submission.taskId
                            (VerificationStorage.submissions (verification w)
                             @submissionId))) as [-> | Hne].
           ++ rewrite Hthis, Hpool. lia.
           ++ by rewrite Hothers.
        -- by injection Hworker as <-.
    + unfold receive in E.
      by apply receive_value_ok in E as (b & _ & ->).
  - ok_bind E as r Hcall. by injection E as <-.
  - ok_bind E as r Hcall. by injection E as <-.
Qed.

(** X10.  In a system wired the way the deployment script wires it, only
    [TaskManager] may call [createSubmission], [depositBounty] and
    [refundBounty], and [TaskManager] calls none of them.  So under
    transactions of plain accounts that leave the setters alone, whatever
    they are, the wiring stays, no submission is ever created, the escrow
    never holds a bounty, and the three functions revert for every such
    account. *)
Theorem deployed_registry_and_escrow_unreachable
    (D : Deployment) (txs : list (Msg * System.Call)) (w : World) :
  interconnected D w ->
  no_bounties w ->
  Forall (user_transaction D) txs ->
  let w' := System.run D txs w in
  interconnected D w'
  /\ no_bounties w'
  /\ VerificationStorage.submissionIdCounter (verification w')
     = VerificationStorage.submissionIdCounter (verification w)
  /\ forall m,
       sender m ∉ contract_addresses D ->
       (forall taskId worker ipfsHash location bountyAmount,
          createSubmission m taskId worker ipfsHash location bountyAmount w'
          = Revert (UnauthorizedCaller (sender m)))
       /\ (forall taskId,
             is_ok (BountyPool.depositBounty D m taskId w') = false)
       /\ (forall taskId creator amount,
             BountyPool.refundBounty D m taskId creator amount w'
             = Revert (UnauthorizedCaller (sender m))).
Proof.
  intros Hwired Hnone Htxs. cbv zeta.
  assert (Hrun : interconnected D (System.run D txs w)
                 /\ no_bounties (System.run D txs w)
                 /\ VerificationStorage.submissionIdCounter
                      (verification (System.run D txs w))
                    = VerificationStorage.submissionIdCounter
                        (verification w)).
  { revert w Hwired Hnone.
    induction Htxs as [| tx txs Htx Htxs IH]; intros w Hwired Hnone; [done |].
    change (System.run D (tx :: txs) w)
      with (System.run D txs (System.apply D w tx)).
    assert (Hstep : interconnected D (System.apply D w tx)
                    /\ no_bounties (System.apply D w tx)
                    /\ VerificationStorage.submissionIdCounter
                         (verification (System.apply D w tx))
                       = VerificationStorage.submissionIdCounter
                           (verification w)).
    { unfold System.apply.
      destruct (System.call D (fst tx) (snd tx) w) as [w1 |] eqn:E; [| done].
      destruct tx as [m c]. simpl in E.
      destruct (System_call_no_bounties _ _ _ _ _ E Htx Hwired Hnone)
        as [Hnone1 Hcounter].
      split; [| done].
      apply (wiring_interconnected D w); [| done].
      eapply System_call_wiring; [exact E | apply Htx]. }
    destruct Hstep as (Hwired1 & Hnone1 & <-). by apply IH. }
  destruct Hrun as (Hwired' & Hnone' & Hcounter).
  repeat (split; [done |]).
  intros m Hsender.
  apply not_contract_address in Hsender as (Htm & _).
  apply Z.eqb_neq in Htm.
  destruct Hwired' as (_ & _ & Hptm & _ & _ & _ & Hvtm & _).
  split; [| split].
  - intros. unfold createSubmission, onlyTaskManager.
    by rewrite Hvtm, Htm.
  - intros. unfold BountyPool.depositBounty.
    destruct (receive_value _ _ _) as [w1 |] eqn:Hpaid; [| done].
    apply receive_value_ok in Hpaid as (b & _ & ->). simpl.
    unfold BountyPool.onlyTaskManager. simpl. by rewrite Hptm, Htm.
  - intros. unfold BountyPool.refundBounty, BountyPool.onlyTaskManager.
    by rewrite Hptm, Htm.
Qed.

Lemma deployed_interconnected : interconnected Scenario.D deployed.
Proof. vm_compute. repeat split; reflexivity. Qed.

Lemma deployed_no_bounties : no_bounties deployed.
Proof.
  assert (E1 : VerificationStorage.submissions (verification deployed) = ∅)
    by (vm_compute; reflexivity).
  assert (E2 : BountyPoolStorage.taskBounties (bountyPool deployed) = ∅)
    by (vm_compute; reflexivity).
  unfold no_bounties, BountyPool.getTaskBounty. rewrite E1, E2.
  split; reflexivity.
Qed.

Lemma first_day_user_transactions :
  Forall (user_transaction Scenario.D) first_day.
Proof.
  repeat (apply Forall_cons_2;
          [split; [apply (bool_decide_unpack _); vm_compute; reflexivity
                  | reflexivity] |]).
  apply Forall_nil_2.
Qed.

Lemma deployed_registry_and_escrow_unreachable_witness :
  let w' := System.run Scenario.D first_day deployed in
  balanceOf (balances w') (taskManagerAt Scenario.D) = ether
  /\ BountyPool.getTaskBounty 0 w' = 0
  /\ VerificationStorage.submissionIdCounter (verification w') = 0
  /\ createSubmission (mkMsg Scenario.deployer 0 Scenario.voted_at) 0
       Scenario.worker1 "QmTest123" Scenario.anywhere ether w'
     = Revert (UnauthorizedCaller Scenario.deployer).
Proof.
  cbv zeta.
  destruct (deployed_registry_and_escrow_unreachable Scenario.D first_day
              deployed deployed_interconnected deployed_no_bounties
              first_day_user_transactions)
    as (_ & [_ Hpool] & Hcounter & Hcalls).
  split; [vm_compute; reflexivity |].
  split; [apply Hpool |].
  split; [rewrite Hcounter; vm_compute; reflexivity |].
  destruct (Hcalls (mkMsg Scenario.deployer 0 Scenario.voted_at))
    as (Hcreate & _).
  - apply (bool_decide_unpack _). vm_compute. reflexivity.
  - apply Hcreate.
Defined.

End Unreachable.

(** ** The balance of TaskManager *)

Section LockedFunds.

Lemma pay_other from to amount b b' a :
  pay from to amount b = Some b' ->
  a <> from -> a <> to -> balanceOf b' a = balanceOf b a.
Proof. intros E Hf Ht. by apply pay_some in E as (_ & _ & ->). Qed.

Lemma call_value_refused D from to amount w w' a :
  call_value D from to amount w = Some w' ->
  a <> from -> accepts_payment D a = false ->
  balanceOf (balances w') a = balanceOf (balances w) a.
Proof.
  intros E Hf Hrefuses.
  apply call_value_some in E as (b & Hpay & Haccepts & ->). simpl.
  apply (pay_other _ _ _ _ _ _ Hpay Hf). intros ->. congruence.
Qed.

Lemma TaskManager_refuses D : accepts_payment D (taskManagerAt D) = false.
Proof. unfold accepts_payment. by rewrite Z.eqb_refl. Qed.

Lemma reward_verifiers_refused D m submissionId consensusApproved verifiers a :
  a <> verificationAt D -> accepts_payment D a = false ->
  forall totalReward w w' totalReward',
    VerificationContract.reward_verifiers D m submissionId consensusApproved
      verifiers totalReward w
    = Ok (w', totalReward') ->
    balanceOf (balances w') a = balanceOf (balances w) a.
Proof.
  intros Hne Hrefuses.
  induction verifiers as [| verifier rest IH];
    intros totalReward w w' totalReward' E; simpl in E.
  { by injection E as <- <-. }
  assert (Hrep : forall target ok w1 w2,
            (if negb (target =? 0)
             then VerificationContract.IReputationContract_updateVerifierReputation
                    D m target verifier ok w1
             else Ok w1) = Ok w2 ->
            balances w2 = balances w1).
  { intros target ok w1 w2 Hcall.
    destruct (negb (target =? 0)); [| by injection Hcall as <-].
    by apply updateVerifierReputation_frame in Hcall as (r & ->). }
  destruct (negb (Vote.hasVoted _)); [by apply IH in E |].
  destruct (Bool.eqb _ _).
  - ok_bind E as scaled Hscaled.
    ok_bind E as reward Hreward. ok_bind E as total Htotal.
    ok_bind E as w1 Hpaid. ok_bind E as w2 Hrepd.
    apply IH in E as ->. apply Hrep in Hrepd as ->.
    destruct (call_value _ _ _ _ _) as [w0 |] eqn:Hcv; [| done].
    injection Hpaid as <-.
    by apply (call_value_refused _ _ _ _ _ _ _ Hcv).
  - ok_bind E as w1 Hrepd. apply IH in E as ->.
    by apply Hrep in Hrepd as ->.
Qed.

Lemma System_call_TaskManager_balance D m c w w' :
  taskManagerAt D <> bountyPoolAt D ->
  taskManagerAt D <> verificationAt D ->
  System.call D m c w = Ok w' ->
  sent_by_other (taskManagerAt D) (m, c) ->
  balanceOf (balances w) (taskManagerAt D)
  <= balanceOf (balances w') (taskManagerAt D).
Proof.
  intros Hbp Hv E [Hsender Hvalue]. simpl in Hsender, Hvalue.
  pose proof (TaskManager_refuses D) as Hrefuses.
  assert (Hreceive : forall self w0 w1,
            receive_value self m w0 = Ok w1 ->
            balanceOf (balances w0) (taskManagerAt D)
            <= balanceOf (balances w1) (taskManagerAt D)).
  { intros self w0 w1 Hpaid.
    apply receive_value_ok in Hpaid as (b & Hpay & ->). simpl.
    destruct (decide (self = taskManagerAt D)) as [-> | Hself].
    - apply pay_some in Hpay as (_ & Hto & _).
      destruct (Hto Hsender) as [-> _]. lia.
    - rewrite (pay_other _ _ _ _ _ (taskManagerAt D) Hpay); [lia | |];
        congruence. }
  assert (Hpayout : forall to amount w0 w1,
            call_value D (bountyPoolAt D) to amount w0 = Some w1 ->
            balanceOf (balances w1) (taskManagerAt D)
            = balanceOf (balances w0) (taskManagerAt D)).
  { intros to amount w0 w1 Hcv.
    by apply (call_value_refused _ _ _ _ _ _ _ Hcv). }
  destruct c as [c | c | c | c | a | a | c]; simpl in E.
  - apply TaskManager_call_frame in E as (_ & _ & _ & [-> | Hpay] & _);
      [lia |].
    apply pay_some in Hpay as (_ & Hto & _).
    destruct (Hto Hsender) as [-> _]. lia.
  - destruct c; simpl in E.
    + unfold BountyPool.setTaskManager in E. do 2 ok_step E.
      injection E as <-. simpl. lia.
    + unfold BountyPool.setVerificationContract in E. do 2 ok_step E.
      injection E as <-. simpl. lia.
    + unfold BountyPool.depositBounty in E.
      ok_bind E as w1 Hpaid. ok_step E. ok_step E. injection E as <-.
      simpl. by apply Hreceive in Hpaid.
    + unfold BountyPool.distributeReward in E. do 7 ok_step E.
      destruct (call_value _ _ _ _ _) as [w1 |] eqn:Hpaid; [| done].
      injection E as <-. apply Hpayout in Hpaid. simpl in Hpaid. lia.
    + unfold BountyPool.refundBounty in E. do 7 ok_step E.
      destruct (call_value _ _ _ _ _) as [w1 |] eqn:Hpaid; [| done].
      injection E as <-. apply Hpayout in Hpaid. simpl in Hpaid. lia.
    + unfold BountyPool.withdrawPlatformFees in E. do 2 ok_step E.
      destruct (call_value _ _ _ _ _) as [w1 |] eqn:Hpaid; [| done].
      injection E as <-. apply Hpayout in Hpaid. simpl in Hpaid. lia.
    + unfold BountyPool.receive in E. by apply Hreceive in E.
  - destruct c; simpl in E.
    + unfold VerificationContract.setBountyPool in E. do 2 ok_step E.
      injection E as <-. simpl. lia.
    + unfold VerificationContract.setReputationContract in E.
      do 2 ok_step E. injection E as <-. simpl. lia.
    + unfold VerificationContract.setTaskManager in E. do 2 ok_step E.
      injection E as <-. simpl. lia.
    + unfold VerificationContract.setAntiFraud in E. do 2 ok_step E.
      injection E as <-. simpl. lia.
    + ok_bind E as r Hr. injection E as <-.
      unfold VerificationContract.createSubmission in Hr. do 2 ok_step Hr.
      injection Hr as <-. simpl. lia.
    + unfold VerificationContract.stakeForVerification in E.
      ok_bind E as w1 Hpaid. do 6 ok_step E. injection E as <-. simpl.
      by apply Hreceive in Hpaid.
    + assert (Hsame : balances w' = balances w); [| rewrite Hsame; lia].
      unfold VerificationContract.submitVerification in E.
      do 6 ok_step E. unfold VerificationContract._checkConsensus in E.
      simpl in E.
      destruct (VerificationContract.CONSENSUS_THRESHOLD <=? _) in E.
      { destruct (negb _) in E.
        - by apply updateWorkerReputation_world in E as (r & ->).
        - by injection E as <-. }
      destruct (VerificationContract.CONSENSUS_THRESHOLD <=? _) in E.
      { ok_bind E as w1 Hrep.
        assert (Hw1 : balances w1 = balances w).
        { destruct (negb _) in Hrep.
          - by apply updateWorkerReputation_world in Hrep as (r & ->).
          - by injection Hrep as <-. }
        destruct (negb _) in E; [| by injection E as <-].
        unfold VerificationContract.IAntiFraud_forfeitStake in E.
        destruct (_ =? antiFraudAt D) in E; [| done].
        ok_bind E as a Ha. by injection E as <-. }
      by destruct (VerificationContract.MAX_VERIFIERS <=? _) in E;
        injection E as <-.
    + unfold VerificationContract.distributeVerificationRewards in E.
      do 5 ok_step E. ok_bind E as w1 Hworker.
      unfold VerificationContract._distributeVerifierRewards in E.
      ok_bind E as r Hverifiers. destruct r as [w2 total].
      injection E as <-. simpl.
      rewrite (reward_verifiers_refused _ _ _ _ _ (taskManagerAt D) Hv
                 Hrefuses _ _ _ _ Hverifiers).
      destruct (_ && _) in Hworker.
      * unfold VerificationContract.IBountyPool_distributeReward in Hworker.
        destruct (_ =? bountyPoolAt D) in Hworker; [| done].
        unfold BountyPool.distributeReward in Hworker. do 7 ok_step Hworker.
        destruct (call_value _ _ _ _ _) as [w0 |] eqn:Hpaid; [| done].
        injection Hworker as <-. apply Hpayout in Hpaid. simpl in Hpaid. lia.
      * injection Hworker as <-. simpl. lia.
    + unfold VerificationContract.receive in E. by apply Hreceive in E.
  - ok_bind E as r Hr. injection E as <-. simpl. lia.
  - ok_bind E as r Hr. injection E as <-. simpl. lia.
  - ok_bind E as r Hr. injection E as <-. simpl. lia.
  - ok_bind E as r Hr. injection E as <-. simpl. lia.
Qed.

(** X11.  [TaskManager] takes the value attached to [createTask] and has no
    function that sends value, and no other contract pays it: whatever
    the system is sent, the balance of [TaskManager] never goes down. *)
Theorem TaskManager_balance_never_falls
    (D : Deployment) (txs : list (Msg * System.Call)) (w : World) :
  taskManagerAt D <> bountyPoolAt D ->
  taskManagerAt D <> verificationAt D ->
  Forall (sent_by_other (taskManagerAt D)) txs ->
  balanceOf (balances w) (taskManagerAt D)
  <= balanceOf (balances (System.run D txs w)) (taskManagerAt D).
Proof.
  intros Hbp Hv Htxs. revert w.
  induction Htxs as [| tx txs Htx Htxs IH]; intros w; [simpl; lia |].
  change (System.run D (tx :: txs) w)
    with (System.run D txs (System.apply D w tx)).
  etransitivity; [| apply IH].
  unfold System.apply.
  destruct (System.call D (fst tx) (snd tx) w) as [w1 |] eqn:E; [| lia].
  destruct tx as [m c].
  by apply (System_call_TaskManager_balance D m c).
Qed.

Lemma TaskManager_balance_never_falls_witness :
  balanceOf (balances deployed) (taskManagerAt Scenario.D)
  <= balanceOf (balances (System.run Scenario.D first_day deployed))
       (taskManagerAt Scenario.D).
Proof.
  apply TaskManager_balance_never_falls.
  - intro Hc; discriminate Hc.
  - intro Hc; discriminate Hc.
  - repeat (apply Forall_cons_2;
            [split; vm_compute; intro Hc; discriminate Hc |]).
    apply Forall_nil_2.
Defined.

End LockedFunds.

(** ** Solvency of the escrow *)

Section Solvency.

Lemma sum_insert (m : gmap Z Z) (k v : Z) :
  map_fold (fun _ bounty sum => bounty + sum) 0 (<[k := v]> m)
  = map_fold (fun _ bounty sum => bounty + sum) 0 m - m@k + v.
Proof.
  assert (Hcomm : forall (m' : gmap Z Z) (j1 j2 z1 z2 y : Z),
            j1 <> j2 -> m' !! j1 = Some z1 -> m' !! j2 = Some z2 ->
            z1 + (z2 + y) = z2 + (z1 + y)) by (intros; lia).
  assert (Hfresh : map_fold (fun _ bounty sum => bounty + sum) 0
                     (<[k := v]> (delete k m))
                   = v + map_fold (fun _ bounty sum => bounty + sum) 0
                           (delete k m)).
  { apply (map_fold_insert_L (fun _ bounty sum => bounty + sum));
      [apply Hcomm | apply lookup_delete_eq]. }
  rewrite insert_delete_eq in Hfresh. rewrite Hfresh.
  unfold sload. destruct (m !! k) as [x |] eqn:Hk; simpl.
  - rewrite <- (insert_delete_id m k x Hk) at 2.
    rewrite (map_fold_insert_L (fun _ bounty sum => bounty + sum));
      [| apply Hcomm | apply lookup_delete_eq].
    unfold zero, Z_zero. lia.
  - rewrite (delete_id m k Hk). unfold zero, Z_zero. lia.
Qed.

Lemma total_bounties_with_funds bounties fees s taskId v :
  bounties = <[taskId := v]> (BountyPoolStorage.taskBounties s) ->
  total_bounties (BountyPoolStorage.with_funds bounties fees s)
  = total_bounties s - BountyPoolStorage.taskBounties s@taskId + v.
Proof. intros ->. unfold total_bounties. simpl. apply sum_insert. Qed.

Lemma pay_not_from from to amount b b' a :
  pay from to amount b = Some b' ->
  a <> from -> 0 <= amount -> balanceOf b a <= balanceOf b' a.
Proof.
  intros E Hf Hamount.
  destruct (decide (a = to)) as [-> | Ht].
  - apply pay_some in E as (_ & Hto & _).
    destruct Hto as [-> _]; [done | lia].
  - rewrite (pay_other _ _ _ _ _ a E); [lia | done | done].
Qed.

(** What a payout of the escrow does, in full: [rate] is in basis
    points. *)
Lemma distributeReward_world D m taskId worker amount w w' :
  BountyPool.distributeReward D m taskId worker amount w = Ok w' ->
  exists b,
    pay (bountyPoolAt D) worker (amount - amount * 250 / 10000) (balances w)
    = Some b
    /\ amount * 250 / 10000 <= amount
    /\ w' = with_balances b
              (with_bountyPool
                 (BountyPoolStorage.with_funds
                    (<[taskId := BountyPoolStorage.taskBounties (bountyPool w)
                                 @taskId - amount]>
                       (BountyPoolStorage.taskBounties (bountyPool w)))
                    (BountyPoolStorage.accumulatedFees (bountyPool w)
                     + amount * 250 / 10000)
                    (bountyPool w)) w).
Proof.
  intros E. unfold BountyPool.distributeReward in E.
  ok_step E. ok_step E. ok_bind E as scaled Hscaled.
  ok_bind E as fee Hfee. ok_bind E as reward Hreward.
  ok_bind E as balance Hbalance. ok_bind E as fees Hfees.
  apply umul_ok in Hscaled as [-> _]. apply udiv_ok in Hfee as [-> _].
  apply usub_ok in Hreward as [-> Hle]. apply usub_ok in Hbalance as [-> _].
  apply uadd_ok in Hfees as [-> _].
  destruct (call_value _ _ _ _ _) as [w1 |] eqn:Hpaid; [| done].
  injection E as <-.
  apply call_value_some in Hpaid as (b & Hpay & _ & ->).
  exists b. unfold BountyPool.PLATFORM_FEE_PERCENTAGE, BountyPool.BASIS_POINTS in *.
  simpl in Hpay. done.
Qed.

Lemma refundBounty_world D m taskId creator amount w w' :
  BountyPool.refundBounty D m taskId creator amount w = Ok w' ->
  exists b,
    pay (bountyPoolAt D) creator (amount - amount * 500 / 10000) (balances w)
    = Some b
    /\ amount * 500 / 10000 <= amount
    /\ w' = with_balances b
              (with_bountyPool
                 (BountyPoolStorage.with_funds
                    (<[taskId := BountyPoolStorage.taskBounties (bountyPool w)
                                 @taskId - amount]>
                       (BountyPoolStorage.taskBounties (bountyPool w)))
                    (BountyPoolStorage.accumulatedFees (bountyPool w)
                     + amount * 500 / 10000)
                    (bountyPool w)) w).
Proof.
  intros E. unfold BountyPool.refundBounty in E.
  ok_step E. ok_step E. ok_bind E as scaled Hscaled.
  ok_bind E as fee Hfee. ok_bind E as reward Hreward.
  ok_bind E as balance Hbalance. ok_bind E as fees Hfees.
  apply umul_ok in Hscaled as [-> _]. apply udiv_ok in Hfee as [-> _].
  apply usub_ok in Hreward as [-> Hle]. apply usub_ok in Hbalance as [-> _].
  apply uadd_ok in Hfees as [-> _].
  destruct (call_value _ _ _ _ _) as [w1 |] eqn:Hpaid; [| done].
  injection E as <-.
  apply call_value_some in Hpaid as (b & Hpay & _ & ->).
  exists b.
  unfold BountyPool.EXPIRED_TASK_FEE_PERCENTAGE, BountyPool.BASIS_POINTS in *.
  simpl in Hpay. done.
Qed.

(** A payout keeps the escrow solvent: the pool's balance and what it
    has on record go down by the same amount. *)
Lemma payout_solvent D w b taskId recipient amount fee :
  solvent D w ->
  pay (bountyPoolAt D) recipient (amount - fee) (balances w) = Some b ->
  fee <= amount ->
  solvent D
    (with_balances b
       (with_bountyPool
          (BountyPoolStorage.with_funds
             (<[taskId := BountyPoolStorage.taskBounties (bountyPool w)
                          @taskId - amount]>
                (BountyPoolStorage.taskBounties (bountyPool w)))
             (BountyPoolStorage.accumulatedFees (bountyPool w) + fee)
             (bountyPool w)) w)).
Proof.
  unfold solvent, BountyPool.getAccumulatedFees. intros Hsolvent Hpay Hfee.
  simpl. rewrite (total_bounties_with_funds _ _ _ taskId _ eq_refl).
  destruct (decide (bountyPoolAt D = recipient)) as [<- | Hne].
  - assert (Hsame : balanceOf b (bountyPoolAt D)
                    = balanceOf (balances w) (bountyPoolAt D)).
    { unfold pay in Hpay. destruct (_ <? _) in Hpay; [done |].
      injection Hpay as <-. unfold balanceOf.
      rewrite !sload_insert_eq. lia. }
    lia.
  - apply pay_some in Hpay as (_ & Hmoved & _).
    destruct (Hmoved Hne) as [_ ->]. lia.
Qed.

Lemma reward_verifiers_pool_balance D m submissionId consensusApproved
    verifiers :
  bountyPoolAt D <> verificationAt D ->
  forall totalReward w w' totalReward',
    stakes_nonneg (verification w) ->
    VerificationContract.reward_verifiers D m submissionId consensusApproved
      verifiers totalReward w
    = Ok (w', totalReward') ->
    balanceOf (balances w) (bountyPoolAt D)
    <= balanceOf (balances w') (bountyPoolAt D).
Proof.
  intros Hne.
  induction verifiers as [| verifier rest IH];
    intros totalReward w w' totalReward' Hstakes E; simpl in E.
  { injection E as <- <-. lia. }
  assert (Hrep : forall target ok w1 w2,
            (if negb (target =? 0)
             then VerificationContract.IReputationContract_updateVerifierReputation
                    D m target verifier ok w1
             else Ok w1) = Ok w2 ->
            balances w2 = balances w1 /\ verification w2 = verification w1).
  { intros target ok w1 w2 Hcall.
    destruct (negb (target =? 0)); [| by injection Hcall as <-].
    by apply updateVerifierReputation_frame in Hcall as (r & ->). }
  destruct (negb (Vote.hasVoted _)); [by apply IH in E |].
  destruct (Bool.eqb _ _).
  - ok_bind E as scaled Hscaled.
    ok_bind E as reward Hreward. ok_bind E as total Htotal.
    ok_bind E as w1 Hpaid. ok_bind E as w2 Hrepd.
    apply umul_ok in Hscaled as [-> _].
    unfold VerificationContract.BASIS_POINTS,
      VerificationContract.VERIFICATION_REWARD_PERCENTAGE in *.
    simpl in Hreward. apply uadd_ok in Hreward as [-> _].
    destruct (call_value _ _ _ _ _) as [w0 |] eqn:Hcv; [| done].
    injection Hpaid as <-.
    apply call_value_some in Hcv as (b & Hpay & _ & ->).
    apply Hrep in Hrepd as [Hb2 Hv2]. simpl in Hb2, Hv2.
    apply IH in E; [| by rewrite Hv2].
    rewrite Hb2 in E.
    pose proof (Hstakes submissionId verifier) as Hstake.
    assert (0 <= Vote.stake
                   (VerificationStorage.verificationVotes (verification w)
                    @(submissionId, verifier)) * 1000 / 10000)
      by (apply Z.div_pos; lia).
    apply (pay_not_from _ _ _ _ _ (bountyPoolAt D)) in Hpay; [lia | done | lia].
  - ok_bind E as w1 Hrepd. apply Hrep in Hrepd as [Hb1 Hv1].
    apply IH in E; [| by rewrite Hv1]. by rewrite Hb1 in E.
Qed.

(** The three parts of the invariant: the pool is solvent, no stake is
    negative, and the pool is not its own owner. *)
Lemma System_call_solvent D m c w w' :
  bountyPoolAt D <> verificationAt D ->
  System.call D m c w = Ok w' ->
  sent_by_other (bountyPoolAt D) (m, c) ->
  solvent D w /\ stakes_nonneg (verification w)
  /\ BountyPoolStorage.owner (bountyPool w) <> bountyPoolAt D ->
  solvent D w' /\ stakes_nonneg (verification w')
  /\ BountyPoolStorage.owner (bountyPool w') <> bountyPoolAt D.
Proof.
  intros Hne E [Hsender Hvalue] (Hsolvent & Hstakes & Howner).
  simpl in Hsender, Hvalue.
  assert (Hreceive : forall self w0 w1,
            receive_value self m w0 = Ok w1 ->
            balanceOf (balances w0) (bountyPoolAt D)
            <= balanceOf (balances w1) (bountyPoolAt D)
            /\ w1 = with_balances (balances w1) w0
            /\ (self = bountyPoolAt D ->
                balanceOf (balances w1) (bountyPoolAt D)
                = balanceOf (balances w0) (bountyPoolAt D) + value m)).
  { intros self w0 w1 Hpaid.
    apply receive_value_ok in Hpaid as (b & Hpay & ->). simpl.
    split; [by apply (pay_not_from _ _ _ _ _ _ Hpay) |].
    split; [done |]. intros ->.
    apply pay_some in Hpay as (_ & Hto & _).
    by destruct (Hto Hsender) as [-> _]. }
  destruct c as [c | c | c | c | a | a | c]; simpl in E.
  - apply TaskManager_call_frame in E as (Hpool & Hverif & _ & Hbal & _).
    unfold solvent, BountyPool.getAccumulatedFees in *.
    rewrite Hpool, Hverif. repeat split; try done.
    destruct Hbal as [-> | Hpay]; [done |].
    apply (pay_not_from _ _ _ _ _ (bountyPoolAt D)) in Hpay; [lia | done | lia].
  - destruct c; simpl in E.
    + unfold BountyPool.setTaskManager in E. do 2 ok_step E.
      by injection E as <-.
    + unfold BountyPool.setVerificationContract in E. do 2 ok_step E.
      by injection E as <-.
    + unfold BountyPool.depositBounty in E.
      ok_bind E as w1 Hpaid. ok_step E. ok_bind E as balance Hbalance.
      injection E as <-. apply uadd_ok in Hbalance as [-> _].
      apply Hreceive in Hpaid as (_ & -> & Hmore). simpl in *.
      repeat split; try done.
      unfold solvent, BountyPool.getAccumulatedFees in *. simpl.
      rewrite (total_bounties_with_funds _ _ _ taskId _ eq_refl).
      rewrite (Hmore eq_refl). lia.
    + apply distributeReward_world in E as (b & Hpay & Hfee & ->).
      split; [by eapply payout_solvent | done].
    + apply refundBounty_world in E as (b & Hpay & Hfee & ->).
      split; [by eapply payout_solvent | done].
    + unfold BountyPool.withdrawPlatformFees in E. do 2 ok_step E.
      destruct (call_value _ _ _ _ _) as [w1 |] eqn:Hpaid; [| done].
      injection E as <-.
      apply call_value_some in Hpaid as (b & Hpay & _ & ->). simpl in *.
      repeat split; try done.
      unfold solvent, BountyPool.getAccumulatedFees, total_bounties in *.
      simpl. apply pay_some in Hpay as (_ & Hmoved & _).
      destruct Hmoved as [_ ->]; [done | lia].
    + unfold BountyPool.receive in E.
      apply Hreceive in E as (Hle & -> & _). simpl.
      repeat split; try done.
      unfold solvent, BountyPool.getAccumulatedFees in *. simpl in *. lia.
  - destruct c; simpl in E.
    + unfold VerificationContract.setBountyPool in E. do 2 ok_step E.
      by injection E as <-.
    + unfold VerificationContract.setReputationContract in E.
      do 2 ok_step E. by injection E as <-.
    + unfold VerificationContract.setTaskManager in E. do 2 ok_step E.
      by injection E as <-.
    + unfold VerificationContract.setAntiFraud in E. do 2 ok_step E.
      by injection E as <-.
    + ok_bind E as r Hr. injection E as <-.
      unfold VerificationContract.createSubmission in Hr. do 2 ok_step Hr.
      by injection Hr as <-.
    + unfold VerificationContract.stakeForVerification in E.
      ok_bind E as w1 Hpaid. do 6 ok_step E. injection E as <-.
      apply Hreceive in Hpaid as (Hle & -> & _). simpl in *.
      split; [unfold solvent, BountyPool.getAccumulatedFees in *;
              simpl in *; lia |].
      split; [| done]. intros id verifier. simpl.
      destruct (decide ((submissionId, sender m) = (id, verifier)))
        as [<- | Hother].
      * rewrite sload_insert_eq. simpl. lia.
      * rewrite sload_insert_ne by done. apply Hstakes.
    + assert (Hsame : balances w' = balances w
                      /\ bountyPool w' = bountyPool w).
      { unfold VerificationContract.submitVerification in E.
        do 6 ok_step E. unfold VerificationContract._checkConsensus in E.
        simpl in E.
        destruct (VerificationContract.CONSENSUS_THRESHOLD <=? _) in E.
        { destruct (negb _) in E.
          - by apply updateWorkerReputation_world in E as (r & ->).
          - by injection E as <-. }
        destruct (VerificationContract.CONSENSUS_THRESHOLD <=? _) in E.
        { ok_bind E as w1 Hrep.
          assert (Hw1 : balances w1 = balances w
                        /\ bountyPool w1 = bountyPool w).
          { destruct (negb _) in Hrep.
            - by apply updateWorkerReputation_world in Hrep as (r & ->).
            - by injection Hrep as <-. }
          destruct (negb _) in E; [| by injection E as <-].
          unfold VerificationContract.IAntiFraud_forfeitStake in E.
          destruct (_ =? antiFraudAt D) in E; [| done].
          ok_bind E as a Ha. by injection E as <-. }
        by destruct (VerificationContract.MAX_VERIFIERS <=? _) in E;
          injection E as <-. }
      destruct Hsame as [Hb Hp].
      unfold solvent, BountyPool.getAccumulatedFees in *. rewrite Hb, Hp.
      repeat split; try done. intros id verifier.
      unfold VerificationContract.submitVerification in E.
      ok_step E. ok_step E. ok_step E. ok_bind E as total Htotal.
      ok_bind E as approvals Happrovals. ok_bind E as rejections Hrejections.
      apply _checkConsensus_verification in E
        as [-> | (status & reached & ->)]; simpl;
        (destruct (decide ((submissionId, sender m) = (id, verifier)))
           as [<- | Hother];
         [rewrite sload_insert_eq; simpl; apply Hstakes
         | rewrite sload_insert_ne by done; apply Hstakes]).
    + pose proof (distributeVerificationRewards_verification _ _ _ _ _ E)
        as Hverif.
      assert (Hstakes' : stakes_nonneg (verification w'))
        by (rewrite Hverif; exact Hstakes).
      unfold VerificationContract.distributeVerificationRewards in E.
      do 5 ok_step E. ok_bind E as w1 Hworker.
      unfold VerificationContract._distributeVerifierRewards in E.
      ok_bind E as r Hverifiers. destruct r as [w2 total].
      injection E as <-. simpl in *.
      assert (Hw1 : solvent D w1 /\ stakes_nonneg (verification w1)
                    /\ BountyPoolStorage.owner (bountyPool w1)
                       <> bountyPoolAt D).
      { destruct (_ && _) in Hworker.
        - unfold VerificationContract.IBountyPool_distributeReward in Hworker.
          destruct (_ =? bountyPoolAt D) in Hworker; [| done].
          apply distributeReward_world in Hworker as (b & Hpay & Hfee & ->).
          split; [by eapply payout_solvent | done].
        - by injection Hworker as <-. }
      destruct Hw1 as (Hsolvent1 & Hstakes1 & Howner1).
      pose proof (reward_verifiers_pool_balance _ _ _ _ _ Hne _ _ _ _
                    Hstakes1 Hverifiers) as Hle.
      apply reward_verifiers_frame in Hverifiers as [_ Hpool].
      unfold solvent, BountyPool.getAccumulatedFees in *.
      rewrite Hpool. repeat split; try done. lia.
    + unfold VerificationContract.receive in E.
      apply Hreceive in E as (Hle & -> & _). simpl.
      repeat split; try done.
      unfold solvent, BountyPool.getAccumulatedFees in *. simpl in *. lia.
  - ok_bind E as r Hr. by injection E as <-.
  - ok_bind E as r Hr. by injection E as <-.
  - ok_bind E as r Hr. by injection E as <-.
  - ok_bind E as r Hr. by injection E as <-.
Qed.

(** X12.  The escrow is solvent for good: if the pool holds at least the sum
    of all task bounties and the fees, it still does after any sequence
    of transactions to any of the contracts, as long as the pool itself
    sends none of them. *)
Theorem escrow_stays_solvent
    (D : Deployment) (txs : list (Msg * System.Call)) (w : World) :
  bountyPoolAt D <> verificationAt D ->
  Forall (sent_by_other (bountyPoolAt D)) txs ->
  solvent D w ->
  stakes_nonneg (verification w) ->
  BountyPoolStorage.owner (bountyPool w) <> bountyPoolAt D ->
  solvent D (System.run D txs w).
Proof.
  intros Hne Htxs Hsolvent Hstakes Howner.
  assert (Hrun : solvent D (System.run D txs w)
                 /\ stakes_nonneg (verification (System.run D txs w))
                 /\ BountyPoolStorage.owner
                      (bountyPool (System.run D txs w)) <> bountyPoolAt D);
    [| by destruct Hrun].
  revert w Hsolvent Hstakes Howner.
  induction Htxs as [| tx txs Htx Htxs IH]; intros w Hsolvent Hstakes Howner;
    [done |].
  change (System.run D (tx :: txs) w)
    with (System.run D txs (System.apply D w tx)).
  assert (Hstep : solvent D (System.apply D w tx)
                  /\ stakes_nonneg (verification (System.apply D w tx))
                  /\ BountyPoolStorage.owner
                       (bountyPool (System.apply D w tx)) <> bountyPoolAt D).
  { unfold System.apply.
    destruct (System.call D (fst tx) (snd tx) w) as [w1 |] eqn:E; [| done].
    destruct tx as [m c].
    by apply (System_call_solvent D m c w w1). }
  destruct Hstep as (? & ? & ?). by apply IH.
Qed.

Lemma escrow_stays_solvent_witness :
  solvent Scenario.D
    (System.run Scenario.D
       (map to_verification
          ([(Scenario.at_time Scenario.deployer 0 Scenario.submitted_at,
             VerificationContract.CreateSubmission 0 Scenario.worker1
               "QmTestHash123" Scenario.anywhere ether);
            (Scenario.at_time Scenario.deployer ether Scenario.submitted_at,
             VerificationContract.Receive)]
           ++ Scenario.stakes_and_votes Scenario.verifier1 true
           ++ Scenario.stakes_and_votes Scenario.verifier2 true
           ++ Scenario.stakes_and_votes Scenario.verifier3 true
           ++ [(Scenario.at_time Scenario.deployer 0 Scenario.cooled_down,
                VerificationContract.DistributeVerificationRewards 0)]))
       Scenario.escrowed).
Proof.
  apply escrow_stays_solvent.
  - intro Hc; discriminate Hc.
  - repeat (apply Forall_cons_2;
            [split; vm_compute; intro Hc; discriminate Hc |]).
    apply Forall_nil_2.
  - vm_compute. intro Hc; discriminate Hc.
  - assert (E : VerificationStorage.verificationVotes
                  (verification Scenario.escrowed) = ∅)
      by (vm_compute; reflexivity).
    intros id verifier. rewrite E. done.
  - vm_compute. intro Hc; discriminate Hc.
Defined.

End Solvency.

(** ** Submissions that were never created *)

Section Unwritten.
Import VerificationContract.

(** X13.  [stakeForVerification] tells a submission that exists from one that
    does not by comparing the stored [id] with the one asked for, and a
    slot that was never written reads as [id = 0].  So every id but 0 is
    refused with [SubmissionNotFound] until it is created, while
    submission 0 can be staked on before it exists: by anyone but the
    zero address, which is the worker of the empty slot. *)
Theorem unwritten_submission_zero_takes_stakes
    (D : Deployment) (m : Msg) (submissionId : Z) (w : World) :
  VerificationStorage.submissions (verification w) !! submissionId = None ->
  value m <= balanceOf (balances w) (sender m) ->
  (submissionId <> 0 ->
   stakeForVerification D m submissionId w
   = Revert (SubmissionNotFound submissionId))
  /\ (submissionId = 0 ->
      sender m <> 0 ->
      VERIFICATION_STAKE <= value m ->
      Vote.hasVoted (getVote 0 (sender m) w) = false ->
      Z.of_nat (length (getSubmissionVerifiers 0 w)) < MAX_VERIFIERS ->
      exists w',
        stakeForVerification D m 0 w = Ok w'
        /\ getSubmissionVerifiers 0 w'
           = getSubmissionVerifiers 0 w ++ [sender m]
        /\ Vote.stake (getVote 0 (sender m) w') = value m
        /\ getSubmission 0 w' = zero).
Proof.
  intros Hnone Hfunds.
  assert (Hzero : VerificationStorage.submissions (verification w)@submissionId
                  = zero) by (unfold sload; by rewrite Hnone).
  destruct (pay_enough (sender m) (verificationAt D) (value m) (balances w)
              Hfunds) as [b Hpay].
  split.
  - intros Hid. unfold stakeForVerification, receive_value.
    rewrite Hpay. cbn [bind with_balances verification]. rewrite Hzero.
    change (Submission.id zero) with 0.
    apply Z.eqb_neq in Hid. rewrite (Z.eqb_sym 0 submissionId), Hid.
    reflexivity.
  - unfold getVote, getSubmissionVerifiers, getSubmission.
    intros -> Hsender Hstake Hvote Hroom.
    unfold stakeForVerification, receive_value.
    rewrite Hpay. cbn [bind with_balances verification].
    rewrite Hzero, Hvote.
    change (Submission.id zero) with 0.
    change (Submission.worker zero) with 0.
    change (Submission.status zero) with PENDING.
    apply Z.eqb_neq in Hsender. rewrite Hsender.
    destruct (Z.leb_spec MAX_VERIFIERS
                (Z.of_nat
                   (length
                      (VerificationStorage.submissionVerifiers (verification w)
                       @0)))); [lia |].
    destruct (Z.ltb_spec (value m) VERIFICATION_STAKE); [lia |].
    cbn [Z.eqb negb revert_if bind bool_decide andb].
    eexists. split; [reflexivity |]. simpl.
    rewrite !sload_insert_eq. simpl. done.
Qed.

Lemma unwritten_submission_zero_takes_stakes_witness :
  stakeForVerification Scenario.D
    (mkMsg Scenario.verifier1 Scenario.stake Scenario.voted_at) 7 deployed
  = Revert (SubmissionNotFound 7)
  /\ exists w',
       stakeForVerification Scenario.D
         (mkMsg Scenario.verifier1 Scenario.stake Scenario.voted_at) 0
         deployed
       = Ok w'
       /\ getSubmissionVerifiers 0 w' = [Scenario.verifier1].
Proof.
  split.
  - apply (unwritten_submission_zero_takes_stakes Scenario.D
             (mkMsg Scenario.verifier1 Scenario.stake Scenario.voted_at) 7
             deployed);
      [reflexivity | vm_compute; intro Hc; discriminate Hc
      | intro Hc; discriminate Hc].
  - destruct (unwritten_submission_zero_takes_stakes Scenario.D
                (mkMsg Scenario.verifier1 Scenario.stake Scenario.voted_at) 0
                deployed) as [_ Hzero];
      [reflexivity | vm_compute; intro Hc; discriminate Hc |].
    destruct Hzero as (w' & E & Hlist & _);
      [reflexivity | intro Hc; discriminate Hc
      | vm_compute; intro Hc; discriminate Hc | reflexivity
      | vm_compute; reflexivity |].
    exists w'. split; [exact E | exact Hlist].
Defined.

End Unwritten.

(** ** One vote per verifier *)

Section OneVote.
Import VerificationContract.

Lemma System_call_keeps_vote D m c w w' submissionId verifier :
  System.call D m c w = Ok w' ->
  Vote.hasVoted (getVote submissionId verifier w) = true ->
  getVote submissionId verifier w' = getVote submissionId verifier w.
Proof.
  unfold getVote. intros E Hvoted.
  destruct c as [c | c | c | c | a | a | c]; simpl in E.
  - by apply TaskManager_call_frame in E as (_ & -> & _).
  - by apply BountyPool_call_frame in E as (_ & -> & _).
  - destruct c; simpl in E.
    + unfold setBountyPool in E. do 2 ok_step E. by injection E as <-.
    + unfold setReputationContract in E. do 2 ok_step E. by injection E as <-.
    + unfold setTaskManager in E. do 2 ok_step E. by injection E as <-.
    + unfold setAntiFraud in E. do 2 ok_step E. by injection E as <-.
    + ok_bind E as r Hr. injection E as <-.
      unfold createSubmission in Hr. do 2 ok_step Hr. by injection Hr as <-.
    + unfold stakeForVerification in E.
      ok_bind E as w1 Hpaid. ok_step E. ok_step E. ok_bind E as u Hfirst.
      do 3 ok_step E. injection E as <-.
      apply receive_value_ok in Hpaid as (b & _ & ->). simpl in *.
      apply revert_if_ok in Hfirst.
      destruct (decide ((submissionId0, sender m) = (submissionId, verifier)))
        as [Hsame | Hother].
      * rewrite Hsame in Hfirst. congruence.
      * by rewrite sload_insert_ne.
    + unfold submitVerification in E.
      ok_step E. ok_step E. ok_bind E as u Hfirst. ok_bind E as total Htotal.
      ok_bind E as approvals Happrovals. ok_bind E as rejections Hrejections.
      apply revert_if_ok in Hfirst.
      assert (Hother : (submissionId0, sender m) <> (submissionId, verifier))
        by (intros Hsame; rewrite Hsame in Hfirst; congruence).
      apply _checkConsensus_verification in E
        as [-> | (status & reached & ->)]; simpl;
        by rewrite sload_insert_ne.
    + apply distributeVerificationRewards_verification in E. by rewrite E.
    + unfold receive in E.
      by apply receive_value_ok in E as (b & _ & ->).
  - ok_bind E as r Hr. by injection E as <-.
  - ok_bind E as r Hr. by injection E as <-.
  - ok_bind E as r Hr. by injection E as <-.
  - ok_bind E as r Hr. by injection E as <-.
Qed.

(** X14.  A vote is final.  Once a verifier has voted on a submission, nothing
    that is sent to the system changes the vote, its time or its stake,
    and the verifier can neither vote nor stake on that submission
    again. *)
Theorem a_vote_is_final
    (D : Deployment) (txs : list (Msg * System.Call)) (w : World)
    (submissionId : Z) (verifier : address) :
  Vote.hasVoted (getVote submissionId verifier w) = true ->
  let w' := System.run D txs w in
  getVote submissionId verifier w' = getVote submissionId verifier w
  /\ forall m approved feedback,
       sender m = verifier ->
       is_ok (submitVerification D m submissionId approved feedback w')
       = false
       /\ is_ok (stakeForVerification D m submissionId w') = false.
Proof.
  intros Hvoted. cbv zeta.
  assert (Hrun : getVote submissionId verifier (System.run D txs w)
                 = getVote submissionId verifier w).
  { revert w Hvoted. induction txs as [| tx txs IH]; intros w Hvoted; [done |].
    change (System.run D (tx :: txs) w)
      with (System.run D txs (System.apply D w tx)).
    assert (Hstep : getVote submissionId verifier (System.apply D w tx)
                    = getVote submissionId verifier w).
    { unfold System.apply.
      destruct (System.call D (fst tx) (snd tx) w) as [w1 |] eqn:E; [| done].
      by eapply System_call_keeps_vote. }
    rewrite <- Hstep. apply IH. by rewrite Hstep. }
  split; [exact Hrun |].
  rewrite <- Hrun in Hvoted. unfold getVote in Hvoted.
  intros m approved feedback <-. split.
  - unfold submitVerification. rewrite Hvoted.
    destruct (revert_if (negb _) _); [| done]. simpl.
    by destruct (revert_if (Vote.stake _ =? 0) _).
  - unfold stakeForVerification.
    destruct (receive_value _ _ _) as [w1 |] eqn:Hpaid; [| done].
    apply receive_value_ok in Hpaid as (b & _ & ->). simpl.
    rewrite Hvoted.
    destruct (revert_if (negb _) _); [| done]. simpl.
    by destruct (revert_if (_ && _) _).
Qed.

Lemma a_vote_is_final_witness :
  let w' :=
    System.run Scenario.D
      (map to_verification
         (Scenario.stakes_and_votes Scenario.verifier1 false
          ++ Scenario.stakes_and_votes Scenario.verifier4 true))
      Scenario.verified in
  Vote.approved (getVote 0 Scenario.verifier1 w') = true
  /\ is_ok (submitVerification Scenario.D
              (mkMsg Scenario.verifier1 0 Scenario.cooled_down) 0 false
              "no feedback" w') = false.
Proof.
  cbv zeta.
  destruct (a_vote_is_final Scenario.D
              (map to_verification
                 (Scenario.stakes_and_votes Scenario.verifier1 false
                  ++ Scenario.stakes_and_votes Scenario.verifier4 true))
              Scenario.verified 0 Scenario.verifier1) as [Hvote Hcalls].
  - vm_compute. reflexivity.
  - split; [rewrite Hvote; vm_compute; reflexivity |].
    destruct (Hcalls (mkMsg Scenario.verifier1 0 Scenario.cooled_down) false
                "no feedback" eq_refl) as [Hrefused _].
    exact Hrefused.
Defined.

End OneVote.

(** ** The time of consensus *)

Section ConsensusTime.
Import VerificationContract.

Lemma _checkConsensus_reached D m id w w' :
  _checkConsensus D m id w = Ok w' ->
  let submission := VerificationStorage.submissions (verification w)@id in
  3 <= Submission.approvalCount submission
  \/ 3 <= Submission.rejectionCount submission ->
  verification w'
  = VerificationStorage.with_consensusReachedAt
      (<[id := timestamp m]>
         (VerificationStorage.consensusReachedAt (verification w)))
      (VerificationStorage.with_submissions
         (<[id := Submission.with_status
                    (if 3 <=? Submission.approvalCount submission
                     then VERIFIED else REJECTED) submission]>
            (VerificationStorage.submissions (verification w)))
         (verification w)).
Proof.
  unfold _checkConsensus, CONSENSUS_THRESHOLD. cbv zeta. intros E Hcounts.
  destruct (3 <=? Submission.approvalCount _) eqn:Happ.
  { destruct (negb _) in E.
    - apply updateWorkerReputation_frame in E. by rewrite E.
    - by injection E as <-. }
  destruct (Z.leb_spec 3
              (Submission.rejectionCount
                 (VerificationStorage.submissions (verification w)@id)));
    [| apply Z.leb_gt in Happ; lia].
  ok_bind E as w1 Hrep.
  assert (Hw1 : verification w1
                = VerificationStorage.with_consensusReachedAt
                    (<[id := timestamp m]>
                       (VerificationStorage.consensusReachedAt
                          (verification w)))
                    (VerificationStorage.with_submissions
                       (<[id := Submission.with_status REJECTED
                                  (VerificationStorage.submissions
                                     (verification w)@id)]>
                          (VerificationStorage.submissions (verification w)))
                       (verification w))).
  { destruct (negb _) in Hrep.
    - apply updateWorkerReputation_frame in Hrep. by rewrite Hrep.
    - by injection Hrep as <-. }
  destruct (negb _) in E.
  - apply forfeitStake_frame in E. by rewrite E, Hw1.
  - injection E as <-. by rewrite Hw1.
Qed.

(** X15.  The time of consensus is the time of the last vote, not of the vote
    that decided: every vote that finds three approvals or three
    rejections stamps the submission anew, and the payout has to wait
    five minutes from then. *)
Theorem each_vote_restarts_the_payout_delay
    (D : Deployment) (m : Msg) (submissionId : Z) (approved : bool)
    (feedback : string) (w w' : World) :
  submitVerification D m submissionId approved feedback w = Ok w' ->
  3 <= Submission.approvalCount (getSubmission submissionId w')
  \/ 3 <= Submission.rejectionCount (getSubmission submissionId w') ->
  VerificationStorage.consensusReachedAt (verification w')@submissionId
  = timestamp m
  /\ hasConsensus submissionId w' = true
  /\ forall later,
       timestamp m <= timestamp later
       < timestamp m + REWARD_DISTRIBUTION_DELAY ->
       Submission.rewardDistributed (getSubmission submissionId w') = false ->
       distributeVerificationRewards D later submissionId w'
       = Revert
           (RewardDistributionTooEarly submissionId
              (REWARD_DISTRIBUTION_DELAY - (timestamp later - timestamp m))).
Proof.
  unfold getSubmission, hasConsensus. intros E Hcounts.
  unfold submitVerification in E.
  ok_bind E as u1 Hid. ok_step E. ok_step E. ok_bind E as total Htotal.
  ok_bind E as approvals Happrovals. ok_bind E as rejections Hrejections.
  apply revert_if_ok in Hid. apply negb_false_iff in Hid.
  pose proof (_checkConsensus_verification _ _ _ _ _ E) as Hshape.
  assert (Hsame : Submission.approvalCount
                    (VerificationStorage.submissions (verification w')
                     @submissionId) = approvals
                  /\ Submission.rejectionCount
                       (VerificationStorage.submissions (verification w')
                        @submissionId) = rejections).
  { destruct Hshape as [-> | (status & reached & ->)]; simpl;
      by rewrite !sload_insert_eq. }
  destruct Hsame as [Ha Hr]. rewrite Ha, Hr in Hcounts.
  apply _checkConsensus_reached in E;
    [| simpl; by rewrite sload_insert_eq].
  simpl in E. rewrite sload_insert_eq in E. simpl in E.
  rewrite E. simpl. rewrite !sload_insert_eq. simpl.
  split; [done |]. split; [by destruct (3 <=? approvals) |].
  intros later Hlater Hflag.
  unfold distributeVerificationRewards. rewrite E. simpl.
  rewrite !sload_insert_eq. simpl. rewrite Hid. simpl.
  simpl in Hflag. rewrite Hflag.
  unfold usub, REWARD_DISTRIBUTION_DELAY in *.
  destruct (Z.leb_spec (timestamp m) (timestamp later)); [| lia].
  destruct (3 <=? approvals); simpl;
    (destruct (Z.ltb_spec (timestamp later - timestamp m) (5 * minutes));
     [reflexivity | lia]).
Qed.

Lemma each_vote_restarts_the_payout_delay_witness :
  exists w',
    submitVerification Scenario.D
      (mkMsg Scenario.verifier4 0 (Scenario.voted_at + 400)) 0 true
      "no feedback"
      (System.run Scenario.D
         (map to_verification
            (Scenario.votes true
               [Scenario.verifier1; Scenario.verifier2; Scenario.verifier3]))
         Scenario.six_staked)
    = Ok w'
    /\ distributeVerificationRewards Scenario.D
         (mkMsg Scenario.deployer 0 (Scenario.voted_at + 401)) 0 w'
       = Revert (RewardDistributionTooEarly 0 299).
Proof.
  destruct (submitVerification Scenario.D
              (mkMsg Scenario.verifier4 0 (Scenario.voted_at + 400)) 0 true
              "no feedback"
              (System.run Scenario.D
                 (map to_verification
                    (Scenario.votes true
                       [Scenario.verifier1; Scenario.verifier2;
                        Scenario.verifier3]))
                 Scenario.six_staked)) as [w' |] eqn:E;
    [| vm_compute in E; discriminate E].
  exists w'. split; [reflexivity |].
  destruct (each_vote_restarts_the_payout_delay _ _ _ _ _ _ _ E)
    as (_ & _ & Hearly).
  - left. apply (f_equal (fun r => match r with
                                   | Ok w0 =>
                                       3 <=? Submission.approvalCount
                                               (getSubmission 0 w0)
                                   | Revert _ => false
                                   end)) in E.
    vm_compute in E. by apply Z.leb_le.
  - apply (Hearly (mkMsg Scenario.deployer 0 (Scenario.voted_at + 401))).
    + vm_compute. split; [intro Hc; discriminate Hc | reflexivity].
    + apply (f_equal (fun r => match r with
                               | Ok w0 =>
                                   Submission.rewardDistributed
                                     (getSubmission 0 w0)
                               | Revert _ => true
                               end)) in E.
      vm_compute in E. done.
Defined.

End ConsensusTime.

(** ** Funding of the verifier rewards *)

Section Funding.
Import VerificationContract.




End Funding.

(** ** Invariants of the task manager *)

Section TaskManagerInvariants.
Import TaskManager.

(** Only calls of [TaskManager] write its storage. *)
Lemma System_run_taskManager (P : TaskManagerStorage.t -> Prop) D :
  (forall m c w w',
     TaskManager.call D m c w = Ok w' ->
     P (taskManager w) -> P (taskManager w')) ->
  forall txs w,
    P (taskManager w) -> P (taskManager (System.run D txs w)).
Proof.
  intros Hstep txs. induction txs as [| tx txs IH]; intros w Hw; [done |].
  change (System.run D (tx :: txs) w)
    with (System.run D txs (System.apply D w tx)).
  apply IH. unfold System.apply.
  destruct (System.call D (fst tx) (snd tx) w) as [w1 |] eqn:E; [| done].
  destruct (snd tx) as [c | c | c | c | a | a | c]; simpl in E.
  - by eapply Hstep.
  - by apply BountyPool_call_frame in E as (-> & _).
  - by apply VerificationContract_call_frame in E as (-> & _).
  - ok_bind E as r Hr. by injection E as <-.
  - ok_bind E as r Hr. by injection E as <-.
  - ok_bind E as r Hr. by injection E as <-.
  - ok_bind E as r Hr. by injection E as <-.
Qed.

Lemma _removeActiveTask_fields worker taskId s :
  TaskManagerStorage.taskIdCounter (_removeActiveTask worker taskId s)
  = TaskManagerStorage.taskIdCounter s
  /\ TaskManagerStorage.tasks (_removeActiveTask worker taskId s)
     = TaskManagerStorage.tasks s
  /\ TaskManagerStorage.taskWorkers (_removeActiveTask worker taskId s)
     = TaskManagerStorage.taskWorkers s
  /\ TaskManagerStorage.taskClaims (_removeActiveTask worker taskId s)
     = TaskManagerStorage.taskClaims s.
Proof.
  unfold _removeActiveTask.
  by destruct (remove_at_first_match _ _ _ _).
Qed.

Lemma call_single_claims D m c w w' :
  call D m c w = Ok w' ->
  single_claims (taskManager w) -> single_claims (taskManager w').
Proof.
  unfold single_claims. intros E [Hone Hfree]. destruct c; simpl in E.
  - unfold setAntiFraud in E. do 2 ok_step E. by injection E as <-.
  - ok_bind E as r Hr. injection E as <-. unfold createTask in Hr.
    ok_bind Hr as w1 Hpaid. ok_step Hr. ok_step Hr.
    ok_bind Hr as next Hnext. injection Hr as <-.
    apply receive_value_ok in Hpaid as (b & _ & ->).
    apply uadd_ok in Hnext as [-> _]. simpl in *. split.
    + intros taskId.
      destruct (decide (TaskManagerStorage.taskIdCounter (taskManager w)
                        = taskId)) as [<- | Hother].
      * destruct (Hfree (TaskManagerStorage.taskIdCounter (taskManager w)))
          as [Hnone _]; [lia |].
        rewrite Hnone. simpl. split; [lia | done].
      * rewrite sload_insert_ne by done. apply Hone.
    + intros taskId Hbeyond.
      rewrite sload_insert_ne by lia. apply Hfree. lia.
  - ok_bind E as r Hr. injection E as <-. unfold claimTask in Hr.
    ok_step Hr. ok_bind Hr as u2 Hactive. ok_step Hr. ok_step Hr. ok_step Hr.
    ok_bind Hr as u6 Hroom. injection Hr as <-.
    apply revert_if_ok in Hactive, Hroom.
    apply negb_false_iff, bool_decide_eq_true in Hactive.
    apply Z.leb_gt in Hroom. simpl in *.
    assert (Hempty : TaskManagerStorage.taskWorkers (taskManager w)@taskId = []).
    { destruct (TaskManagerStorage.taskWorkers (taskManager w)@taskId)
        as [| a l] eqn:Hl; [done |].
      destruct (Hone taskId) as [_ Hnot]. rewrite Hl in Hnot.
      by destruct Hnot. }
    rewrite Hempty in *. rewrite Hactive. simpl. split.
    + intros id. destruct (decide (taskId = id)) as [<- | Hother].
      * rewrite !sload_insert_eq. simpl. split; [lia | done].
      * rewrite !sload_insert_ne by done. apply Hone.
    + intros id Hbeyond.
      assert (Hother : taskId <> id).
      { intros <-. destruct (Hfree taskId Hbeyond) as [_ Hmax].
        simpl in Hroom. lia. }
      rewrite !sload_insert_ne by done. by apply Hfree.
  - ok_bind E as r Hr. injection E as <-.
    unfold submitTaskCompletion in Hr.
    do 6 ok_step Hr. ok_bind Hr as w1 Hrec. ok_bind Hr as count Hcount.
    injection Hr as <-. simpl.
    assert (Hw1 : taskManager w1 = taskManager w).
    { destruct (negb _) in Hrec; [| by injection Hrec as <-].
      unfold IAntiFraud_checkAndRecordSubmission in Hrec.
      destruct (_ =? antiFraudAt D) in Hrec; [| done].
      ok_bind Hrec as r Hr. by injection Hrec as <-. }
    rewrite Hw1.
    match goal with
    | |- context [_removeActiveTask ?a ?t ?s0] =>
        destruct (_removeActiveTask_fields a t s0) as (Hf1 & Hf2 & Hf3 & _);
        rewrite ?Hf1, ?Hf2, ?Hf3
    end.
    simpl. split.
    + intros id. destruct (decide (taskId = id)) as [<- | Hother].
      * rewrite sload_insert_eq. simpl. apply Hone.
      * rewrite sload_insert_ne by done. apply Hone.
    + intros id Hbeyond. destruct (decide (taskId = id)) as [<- | Hother].
      * rewrite sload_insert_eq. simpl. by apply Hfree.
      * rewrite sload_insert_ne by done. by apply Hfree.
  - ok_bind E as r Hr. injection E as <-. unfold expireTask in Hr.
    ok_step Hr. ok_step Hr.
    destruct (_ || _) in Hr; injection Hr as <-; [done |]. simpl. split.
    + intros id. destruct (decide (taskId = id)) as [<- | Hother].
      * rewrite sload_insert_eq. simpl.
        split; [apply Hone | intros _ Hc; discriminate Hc].
      * rewrite sload_insert_ne by done. apply Hone.
    + intros id Hbeyond. destruct (decide (taskId = id)) as [<- | Hother].
      * rewrite sload_insert_eq. simpl. by apply Hfree.
      * rewrite sload_insert_ne by done. by apply Hfree.
Qed.

(** X17.  A task never has more than one worker, whatever its [maxWorkers]:
    the first claim moves the task from [ACTIVE] to [IN_PROGRESS], nothing
    moves it back, and [claimTask] wants it [ACTIVE].  This holds after
    any sequence of transactions, from every state in which it holds,
    the state after deployment among them. *)
Theorem a_task_has_one_worker_at_most
    (D : Deployment) (txs : list (Msg * System.Call)) (w : World) :
  single_claims (taskManager w) ->
  let w' := System.run D txs w in
  (forall taskId, (length (getTaskWorkers taskId w') <= 1)%nat)
  /\ forall m taskId,
       getTaskWorkers taskId w' <> [] ->
       claimTask m taskId w' = Revert (InvalidTaskId taskId)
       \/ claimTask m taskId w' = Revert (TaskNotActive taskId).
Proof.
  intros Hw. cbv zeta.
  pose proof (System_run_taskManager single_claims D
                (call_single_claims D) txs w Hw) as [Hone _].
  unfold getTaskWorkers. split; [intros taskId; apply Hone |].
  intros m taskId Hclaimed. destruct (Hone taskId) as [_ Hstatus].
  specialize (Hstatus Hclaimed). unfold claimTask.
  destruct (Task.id _ =? taskId); simpl; [| by left].
  right. destruct (bool_decide_reflect
                     (Task.status
                        (TaskManagerStorage.tasks
                           (taskManager (System.run D txs w))@taskId)
                      = ACTIVE)); [done | reflexivity].
Qed.

Lemma deployed_single_claims : single_claims (taskManager deployed).
Proof.
  assert (E1 : TaskManagerStorage.tasks (taskManager deployed) = ∅)
    by (vm_compute; reflexivity).
  assert (E2 : TaskManagerStorage.taskWorkers (taskManager deployed) = ∅)
    by (vm_compute; reflexivity).
  unfold single_claims. rewrite E1, E2. unfold sload.
  split; intros taskId; [| intros _]; rewrite !lookup_empty; simpl.
  - split; [lia | intros Hc; by destruct Hc].
  - split; [done | reflexivity].
Qed.

Lemma a_task_has_one_worker_at_most_witness :
  let w' :=
    System.run Scenario.D
      [to_task_manager Scenario.open_task;
       (mkMsg Scenario.worker1 0 Scenario.claimed_at,
        System.ToTaskManager (ClaimTask 0));
       (mkMsg Scenario.worker2 0 Scenario.claimed_at,
        System.ToTaskManager (ClaimTask 0))]
      deployed in
  Task.maxWorkers (getTask 0 w') = 5
  /\ getTaskWorkers 0 w' = [Scenario.worker1]
  /\ (length (getTaskWorkers 0 w') <= 1)%nat.
Proof.
  cbv zeta. split; [vm_compute; reflexivity |].
  split; [vm_compute; reflexivity |].
  apply (a_task_has_one_worker_at_most Scenario.D).
  exact deployed_single_claims.
Defined.

Lemma remove_at_first_match_length taskId l i n l' :
  remove_at_first_match taskId l i n = Some l' ->
  length l' = (length l - 1)%nat.
Proof.
  intros E. apply remove_at_first_match_some in E as (j & Hj & ->).
  rewrite removelast_firstn_len, length_take, length_insert. lia.
Qed.

Lemma call_within_active_limit D m c w w' :
  call D m c w = Ok w' ->
  within_active_limit (taskManager w) -> within_active_limit (taskManager w').
Proof.
  unfold within_active_limit, MAX_ACTIVE_TASKS_PER_WORKER.
  intros E Hlimit. destruct c; simpl in E.
  - unfold setAntiFraud in E. do 2 ok_step E. by injection E as <-.
  - ok_bind E as r Hr. injection E as <-. unfold createTask in Hr.
    ok_bind Hr as w1 Hpaid. do 3 ok_step Hr. injection Hr as <-.
    by apply receive_value_ok in Hpaid as (b & _ & ->).
  - ok_bind E as r Hr. injection E as <-. unfold claimTask in Hr.
    do 4 ok_step Hr. ok_bind Hr as u5 Hroom. ok_step Hr.
    injection Hr as <-. apply revert_if_ok in Hroom.
    apply Z.leb_gt in Hroom. unfold MAX_ACTIVE_TASKS_PER_WORKER in Hroom.
    simpl. intros worker.
    destruct (decide (sender m = worker)) as [<- | Hother].
    + rewrite sload_insert_eq, length_app. simpl. lia.
    + rewrite sload_insert_ne by done. apply Hlimit.
  - ok_bind E as r Hr. injection E as <-.
    unfold submitTaskCompletion in Hr.
    do 6 ok_step Hr. ok_bind Hr as w1 Hrec. ok_bind Hr as count Hcount.
    injection Hr as <-. simpl.
    assert (Hw1 : taskManager w1 = taskManager w).
    { destruct (negb _) in Hrec; [| by injection Hrec as <-].
      unfold IAntiFraud_checkAndRecordSubmission in Hrec.
      destruct (_ =? antiFraudAt D) in Hrec; [| done].
      ok_bind Hrec as r Hr. by injection Hrec as <-. }
    rewrite Hw1. unfold _removeActiveTask. simpl.
    destruct (remove_at_first_match _ _ _ _) as [l' |] eqn:Hremoved;
      simpl; [| done].
    apply remove_at_first_match_length in Hremoved.
    intros worker. destruct (decide (sender m = worker)) as [<- | Hother].
    + rewrite sload_insert_eq. specialize (Hlimit (sender m)). lia.
    + rewrite sload_insert_ne by done. apply Hlimit.
  - ok_bind E as r Hr. injection E as <-. unfold expireTask in Hr.
    do 2 ok_step Hr. by destruct (_ || _) in Hr; injection Hr as <-.
Qed.

(** X18.  No worker ever has more than three tasks in the active list, and a
    worker who has three cannot claim. *)
Theorem active_tasks_stay_within_limit
    (D : Deployment) (txs : list (Msg * System.Call)) (w : World) :
  within_active_limit (taskManager w) ->
  let w' := System.run D txs w in
  (forall worker, (length (getWorkerActiveTasks worker w') <= 3)%nat)
  /\ forall m taskId,
       length (getWorkerActiveTasks (sender m) w') = 3%nat ->
       is_ok (claimTask m taskId w') = false.
Proof.
  intros Hw. cbv zeta.
  pose proof (System_run_taskManager within_active_limit D
                (call_within_active_limit D) txs w Hw) as Hlimit.
  unfold within_active_limit, MAX_ACTIVE_TASKS_PER_WORKER in Hlimit.
  unfold getWorkerActiveTasks.
  split; [intros worker; specialize (Hlimit worker); lia |].
  intros m taskId Hfull. unfold claimTask, MAX_ACTIVE_TASKS_PER_WORKER.
  rewrite Hfull. simpl.
  repeat match goal with
         | |- context [revert_if ?c ?e] => destruct (revert_if c e)
         end; try done.
Qed.

Lemma active_tasks_stay_within_limit_witness :
  let w' :=
    System.run Scenario.D
      (map to_task_manager
         [Scenario.open_week_task; Scenario.open_week_task;
          Scenario.open_week_task; Scenario.open_week_task;
          (Scenario.at_time Scenario.worker1 0 Scenario.claimed_at,
           ClaimTask 0);
          (Scenario.at_time Scenario.worker1 0 Scenario.claimed_at,
           ClaimTask 1);
          (Scenario.at_time Scenario.worker1 0 Scenario.claimed_at,
           ClaimTask 2);
          (Scenario.at_time Scenario.worker1 0 Scenario.claimed_at,
           ClaimTask 3)])
      deployed in
  getWorkerActiveTasks Scenario.worker1 w' = [0; 1; 2]
  /\ is_ok (claimTask (mkMsg Scenario.worker1 0 Scenario.claimed_at) 3 w')
     = false.
Proof.
  cbv zeta. split; [vm_compute; reflexivity |].
  refine (proj2 (active_tasks_stay_within_limit Scenario.D _ deployed _)
            (mkMsg Scenario.worker1 0 Scenario.claimed_at) 3 _).
  - assert (E : TaskManagerStorage.workerActiveTasks (taskManager deployed)
                = ∅) by (vm_compute; reflexivity).
    intros worker. rewrite E. vm_compute. intro Hc; discriminate Hc.
  - vm_compute. reflexivity.
Defined.

End TaskManagerInvariants.

(** ** Removing a task from the active list *)

Section RemoveActiveTask.
Import TaskManager.

Lemma remove_at_first_match_none taskId l i n :
  remove_at_first_match taskId l i n = None ->
  (i + n = length l)%nat ->
  forall k, (i <= k)%nat -> l !! k <> Some taskId.
Proof.
  revert i. induction n as [| n IH]; intros i E Hlen k Hk; simpl in E.
  - intros Hc. apply lookup_lt_Some in Hc. lia.
  - destruct (l !! i) as [x |] eqn:Hi.
    + destruct (Z.eqb_spec x taskId) as [-> | Hne]; [done |].
      destruct (decide (k = i)) as [-> | Hother]; [congruence |].
      apply (IH (S i)); [done | lia | lia].
    + apply lookup_ge_None in Hi. lia.
Qed.

Lemma swap_with_last_permutation (l : list Z) (j : nat) (x : Z) :
  l !! j = Some x ->
  x :: removelast (<[j := List.last l 0]> l) ≡ₚ l.
Proof.
  intros Hj.
  destruct (exists_last (l := l)) as (front & z & ->).
  { intros ->. done. }
  rewrite last_last.
  destruct (decide (j < length front)%nat) as [Hin | Hlast].
  - rewrite lookup_app_l in Hj by done.
    rewrite insert_app_l by done. rewrite removelast_last.
    pose proof (take_drop_middle front j x Hj) as Hsplit.
    rewrite insert_take_drop by done.
    set (A := take j front) in *. set (B := drop (S j) front) in *.
    rewrite <- Hsplit. rewrite <- app_assoc. simpl.
    rewrite <- !Permutation_middle. by rewrite app_nil_r.
  - apply lookup_lt_Some in Hj as Hlt. rewrite length_app in Hlt.
    simpl in Hlt. assert (j = length front) as -> by lia.
    rewrite list_lookup_middle in Hj by done. injection Hj as <-.
    rewrite list_insert_id by (by rewrite list_lookup_middle).
    rewrite removelast_last. apply Permutation_cons_append.
Qed.

(** X19.  [_removeActiveTask] takes exactly one occurrence of the task id out
    of the worker's list, by overwriting the first one with the last
    element and dropping the last slot, so what stays is a rearrangement of
    the rest; a list without the id and the lists of all other workers are
    left as they are. *)
Theorem _removeActiveTask_removes_one_occurrence
    (worker : address) (taskId : Z) (s : TaskManagerStorage.t) :
  let before := TaskManagerStorage.workerActiveTasks s@worker in
  let s' := _removeActiveTask worker taskId s in
  (taskId ∈ before ->
   taskId :: TaskManagerStorage.workerActiveTasks s'@worker ≡ₚ before)
  /\ (taskId ∉ before -> s' = s)
  /\ forall other,
       other <> worker ->
       TaskManagerStorage.workerActiveTasks s'@other
       = TaskManagerStorage.workerActiveTasks s@other.
Proof.
  cbv zeta. unfold _removeActiveTask.
  destruct (remove_at_first_match taskId _ 0 _) as [l' |] eqn:E.
  - pose proof (remove_at_first_match_some _ _ _ _ _ E) as (j & Hj & ->).
    split; [| split].
    + intros _. simpl. rewrite sload_insert_eq.
      by apply swap_with_last_permutation.
    + intros Hnot. destruct Hnot. by apply (list_elem_of_lookup_2 _ j).
    + intros other Hother. simpl. by rewrite sload_insert_ne.
  - split; [| done]. intros Hin.
    apply list_elem_of_lookup_1 in Hin as [k Hk].
    by destruct (remove_at_first_match_none _ _ _ _ E eq_refl k (Nat.le_0_l k)).
Qed.

Lemma _removeActiveTask_removes_one_occurrence_witness :
  TaskManagerStorage.workerActiveTasks
    (_removeActiveTask Scenario.worker1 0
       (taskManager Scenario.three_claims))@Scenario.worker1
  = [2; 1]
  /\ 0 :: TaskManagerStorage.workerActiveTasks
            (_removeActiveTask Scenario.worker1 0
               (taskManager Scenario.three_claims))@Scenario.worker1
     ≡ₚ TaskManagerStorage.workerActiveTasks
          (taskManager Scenario.three_claims)@Scenario.worker1.
Proof.
  split; [vm_compute; reflexivity |].
  apply (proj1 (_removeActiveTask_removes_one_occurrence Scenario.worker1 0
                  (taskManager Scenario.three_claims))).
  apply (list_elem_of_lookup_2 _ 0%nat). vm_compute. reflexivity.
Defined.

End RemoveActiveTask.

(** ** A content hash passes once *)

Section HashOnce.
Import TaskManager.

Lemma System_call_keeps_claim D m c w w' imageHash claimant :
  System.call D m c w = Ok w' ->
  claimed_by imageHash claimant (antiFraud w) ->
  claimed_by imageHash claimant (antiFraud w').
Proof.
  intros E Hclaimed. destruct c as [c | c | c | c | a | a | c]; simpl in E.
  - apply TaskManager_call_frame in E
      as (_ & _ & _ & _ & [-> | (worker & taskId & h & md & b & E)]);
      [done |].
    apply (call_keeps_claim (mkMsg (taskManagerAt D) 0 (timestamp m))
             (AntiFraud.CheckAndRecordSubmission worker taskId h md)
             (antiFraud w)); [| done].
    simpl. by rewrite E.
  - by apply BountyPool_call_frame in E as (_ & _ & _ & ->).
  - apply VerificationContract_call_frame in E
      as (_ & [-> | (worker & reason & E)]); [done |].
    by apply (call_keeps_claim (VerificationContract.outgoing D m)
                (AntiFraud.ForfeitStake worker reason) (antiFraud w)).
  - ok_bind E as r Hr. by injection E as <-.
  - ok_bind E as r Hr. by injection E as <-.
  - ok_bind E as r Hr. by injection E as <-.
  - ok_bind E as a Ha. injection E as <-. simpl.
    by eapply call_keeps_claim.
Qed.

Lemma call_keeps_antiFraudAddress D m c w w' :
  call D m c w = Ok w' ->
  (forall a, c = SetAntiFraud a -> a = antiFraudAt D) ->
  TaskManagerStorage.antiFraudAddress (taskManager w) = antiFraudAt D ->
  TaskManagerStorage.antiFraudAddress (taskManager w') = antiFraudAt D.
Proof.
  intros E Hkeeps Hset. destruct c; simpl in E.
  - unfold setAntiFraud in E. ok_step E. ok_bind E as u Hu.
    injection E as <-. simpl. by apply Hkeeps.
  - ok_bind E as r Hr. injection E as <-. unfold createTask in Hr.
    ok_bind Hr as w1 Hpaid. do 3 ok_step Hr. injection Hr as <-.
    by apply receive_value_ok in Hpaid as (b & _ & ->).
  - ok_bind E as r Hr. injection E as <-. unfold claimTask in Hr.
    do 6 ok_step Hr. by injection Hr as <-.
  - ok_bind E as r Hr. injection E as <-.
    unfold submitTaskCompletion in Hr.
    do 6 ok_step Hr. ok_bind Hr as w1 Hrec. ok_bind Hr as count Hcount.
    injection Hr as <-. simpl.
    assert (Hw1 : taskManager w1 = taskManager w).
    { destruct (negb _) in Hrec; [| by injection Hrec as <-].
      rewrite Hset in Hrec.
      unfold IAntiFraud_checkAndRecordSubmission in Hrec.
      rewrite Z.eqb_refl in Hrec.
      ok_bind Hrec as r Hr. by injection Hrec as <-. }
    rewrite Hw1. unfold _removeActiveTask. simpl.
    by destruct (remove_at_first_match _ _ _ _).
  - ok_bind E as r Hr. injection E as <-. unfold expireTask in Hr.
    do 2 ok_step Hr. by destruct (_ || _) in Hr; injection Hr as <-.
Qed.

Lemma System_run_keeps_antiFraudAddress D txs w :
  Forall (keeps_taskManager_antiFraud D) txs ->
  TaskManagerStorage.antiFraudAddress (taskManager w) = antiFraudAt D ->
  TaskManagerStorage.antiFraudAddress (taskManager (System.run D txs w))
  = antiFraudAt D.
Proof.
  revert w. induction txs as [| tx txs IH]; intros w Htxs Hset; [done |].
  apply Forall_cons in Htxs as [Htx Htxs].
  change (System.run D (tx :: txs) w)
    with (System.run D txs (System.apply D w tx)).
  apply IH; [done |]. unfold System.apply.
  destruct (System.call D (fst tx) (snd tx) w) as [w1 |] eqn:E; [| done].
  unfold keeps_taskManager_antiFraud in Htx.
  destruct (snd tx) as [c | c | c | c | a | a | c]; simpl in E.
  - apply (call_keeps_antiFraudAddress D (fst tx) c w); [done | | done].
    intros a ->. by apply Htx.
  - by apply BountyPool_call_frame in E as (-> & _).
  - by apply VerificationContract_call_frame in E as (-> & _).
  - ok_bind E as r Hr. by injection E as <-.
  - ok_bind E as r Hr. by injection E as <-.
  - ok_bind E as r Hr. by injection E as <-.
  - ok_bind E as r Hr. by injection E as <-.
Qed.

(** X20.  While the task manager consults the deployed [AntiFraud], as the
    deployment script wires it, a content hash gets through
    [submitTaskCompletion] once: after one submission with it was accepted,
    it stays claimed by that worker and, under all transactions that leave
    that address where it is (anything but a [setAntiFraud] to another
    contract), every later submission with the same hash reverts, for
    every task and every worker. *)
Theorem content_hash_passes_once
    (D : Deployment) (txs : list (Msg * System.Call)) (w w1 : World)
    (first : Msg) (taskId : Z) (ipfsHash : string) (location : Location.t)
    (count : Z) :
  antiFraudAt D <> 0 ->
  TaskManagerStorage.antiFraudAddress (taskManager w) = antiFraudAt D ->
  Forall (keeps_taskManager_antiFraud D) txs ->
  submitTaskCompletion D first taskId ipfsHash location w = Ok (w1, count) ->
  let w' := System.run D txs w1 in
  claimed_by ipfsHash (sender first) (antiFraud w')
  /\ TaskManagerStorage.antiFraudAddress (taskManager w') = antiFraudAt D
  /\ forall m otherTask otherLocation,
       is_ok (submitTaskCompletion D m otherTask ipfsHash otherLocation w')
       = false.
Proof.
  intros Hnz Hset Htxs E. cbv zeta.
  apply Z.eqb_neq in Hnz.
  assert (Hfirst : claimed_by ipfsHash (sender first) (antiFraud w1)
                   /\ TaskManagerStorage.antiFraudAddress (taskManager w1)
                      = antiFraudAt D).
  { split.
    - unfold submitTaskCompletion in E.
      do 6 ok_step E. ok_bind E as w0 Hrec. ok_bind E as n Hn.
      injection E as <- _. simpl.
      rewrite Hset, Hnz in Hrec. simpl in Hrec.
      unfold IAntiFraud_checkAndRecordSubmission in Hrec.
      rewrite Z.eqb_refl in Hrec.
      ok_bind Hrec as r Hr. injection Hrec as <-. destruct r as [a b].
      by apply checkAndRecordSubmission_ok in Hr as (_ & Hclaimed & _).
    - apply (call_keeps_antiFraudAddress D first
               (SubmitTaskCompletion taskId ipfsHash location) w);
        [| intros a Hc; discriminate Hc | done].
      simpl. by rewrite E. }
  destruct Hfirst as [Hclaimed Hset1].
  assert (Hrun : claimed_by ipfsHash (sender first)
                   (antiFraud (System.run D txs w1))).
  { clear E Hset1 Htxs. revert w1 Hclaimed.
    induction txs as [| tx txs IH]; intros w1 Hclaimed; [done |].
    change (System.run D (tx :: txs) w1)
      with (System.run D txs (System.apply D w1 tx)).
    apply IH. unfold System.apply.
    destruct (System.call D (fst tx) (snd tx) w1) as [w2 |] eqn:E; [| done].
    by eapply System_call_keeps_claim. }
  pose proof (System_run_keeps_antiFraudAddress D txs w1 Htxs Hset1)
    as Hset'.
  split; [exact Hrun |]. split; [exact Hset' |].
  intros m otherTask otherLocation.
  destruct (submitTaskCompletion D m otherTask ipfsHash otherLocation
              (System.run D txs w1)) as [[w2 n2] |] eqn:Hsecond; [| done].
  exfalso. unfold submitTaskCompletion in Hsecond.
  do 6 ok_step Hsecond. ok_bind Hsecond as w0 Hrec.
  rewrite Hset', Hnz in Hrec. simpl in Hrec.
  unfold IAntiFraud_checkAndRecordSubmission in Hrec.
  rewrite Z.eqb_refl in Hrec.
  ok_bind Hrec as r Hr. destruct r as [a b].
  apply checkAndRecordSubmission_ok in Hr as (Hfresh & _).
  destruct Hrun as [Hused _]. unfold AntiFraud.isImageHashUsed in Hused.
  congruence.
Qed.

Lemma content_hash_passes_once_witness :
  exists w1 count,
    submitTaskCompletion Scenario.D
      (mkMsg Scenario.worker1 0 Scenario.submitted_at) 0 "QmTest123"
      Scenario.anywhere two_claimed
    = Ok (w1, count)
    /\ AntiFraud.getImageHashWorker "QmTest123"
         (antiFraud (System.run Scenario.D [to_task_manager Scenario.open_week_task] w1))
       = Scenario.worker1
    /\ is_ok (submitTaskCompletion Scenario.D
                (mkMsg Scenario.worker2 0 Scenario.submitted_at) 1
                "QmTest123" Scenario.anywhere
                (System.run Scenario.D [to_task_manager Scenario.open_week_task] w1))
       = false.
Proof.
  destruct (submitTaskCompletion Scenario.D
              (mkMsg Scenario.worker1 0 Scenario.submitted_at) 0 "QmTest123"
              Scenario.anywhere two_claimed) as [[w1 count] |] eqn:E;
    [| vm_compute in E; discriminate E].
  exists w1, count. split; [reflexivity |].
  destruct (content_hash_passes_once Scenario.D
              [to_task_manager Scenario.open_week_task] two_claimed w1
              (mkMsg Scenario.worker1 0 Scenario.submitted_at) 0 "QmTest123"
              Scenario.anywhere count) as ([_ Howner] & _ & Hrefused).
  - vm_compute. intro Hc; discriminate Hc.
  - vm_compute. reflexivity.
  - apply Forall_cons_2; [intros a Hc; discriminate Hc | apply Forall_nil_2].
  - exact E.
  - split; [exact Howner |].
    exact (Hrefused (mkMsg Scenario.worker2 0 Scenario.submitted_at) 1
             Scenario.anywhere).
Defined.

End HashOnce.

(** ** Streaks *)

Section Streaks.
Import ReputationContract.

(** X21.  From a fresh record, [n] outcomes in a row that are all good bring
    the score to [min 100 (50 + 5 n)] and [n] that are all bad to
    [max 0 (50 - 5 n)], for the outcomes of a worker and for those of a
    verifier alike: twenty steps of five span the whole range. *)
Theorem score_after_a_streak
    (ok : bool) (n : nat) (m : Msg) (user : address) (s : ReputationStorage.t) :
  sender m = ReputationStorage.verificationContractAddress s ->
  ReputationStorage.reputations s@user = zero ->
  let expected :=
    if ok then Z.min 100 (50 + 5 * Z.of_nat n)
    else Z.max 0 (50 - 5 * Z.of_nat n) in
  getReputationScore user
    (run (replicate n (m, UpdateWorkerReputation user ok)) s) = expected
  /\ getReputationScore user
       (run (replicate n (m, UpdateVerifierReputation user ok)) s) = expected.
Proof.
  intros Hm Hfresh. cbv zeta.
  pose proof MAX_UINT256_large as Hmax.
  destruct (worker_outcomes_run ok n m user s Hm Hfresh)
    as (_ & Hv & Hc & Hr & Hs).
  destruct (verifier_outcomes_run ok n m user s Hm Hfresh)
    as (_ & Hc' & Hr' & Hv' & _ & Hs').
  unfold getReputationScore, INITIAL_REPUTATION.
  rewrite Hv, Hc, Hr, Hs, Hc', Hr', Hv', Hs'.
  destruct (Z.eqb_spec (Z.of_nat n) 0) as [Hn | Hn].
  - destruct ok; simpl; rewrite Hn; simpl; split; reflexivity.
  - assert (Hpos : 1 <= Z.of_nat n) by lia.
    assert (Hmin : Z.min (Z.of_nat n) MAX_UINT256 <> 0) by lia.
    apply Z.eqb_neq in Hmin.
    destruct ok; simpl; rewrite ?Hmin, ?andb_false_r; simpl.
    + split; (destruct (Z.eqb_spec (Z.min 100 (50 + 5 * Z.of_nat n)) 0);
              [lia | reflexivity]).
    + split; (destruct (Z.eqb_spec (Z.max 0 (50 - 5 * Z.of_nat n)) 0);
              simpl; [lia | reflexivity]).
Qed.

Lemma score_after_a_streak_witness :
  getReputationScore Scenario.worker1
    (run (replicate 11
            (mkMsg (verificationAt Scenario.D) 0 Scenario.genesis,
             UpdateWorkerReputation Scenario.worker1 false))
       (reputation Scenario.wired)) = 0
  /\ getReputationScore Scenario.worker1
       (run (replicate 11
               (mkMsg (verificationAt Scenario.D) 0 Scenario.genesis,
                UpdateVerifierReputation Scenario.worker1 false))
          (reputation Scenario.wired)) = 0.
Proof.
  apply (score_after_a_streak false 11
           (mkMsg (verificationAt Scenario.D) 0 Scenario.genesis)
           Scenario.worker1 (reputation Scenario.wired));
    reflexivity.
Defined.

End Streaks.

(** ** The tally of a submission *)

Section SystemTally.
Import VerificationContract.

(** X22.  In a system whose verification contract starts unused, whatever is
    sent to any of the contracts, a submission never has more than seven
    verifiers and its approvals and rejections never add up to more than
    seven. *)
Theorem votes_never_exceed_seven
    (D : Deployment) (txs : list (Msg * System.Call)) (w : World)
    (submissionId : Z) :
  unused (verification w) ->
  let w' := System.run D txs w in
  Submission.approvalCount (getSubmission submissionId w')
  + Submission.rejectionCount (getSubmission submissionId w') <= 7
  /\ (length (getSubmissionVerifiers submissionId w') <= 7)%nat.
Proof.
  intros Hunused. cbv zeta.
  apply (unused_tally_backed submissionId) in Hunused.
  assert (Hrun : tally_backed submissionId
                   (verification (System.run D txs w))).
  { revert w Hunused. induction txs as [| tx txs IH]; intros w Hback;
      [exact Hback |].
    change (System.run D (tx :: txs) w)
      with (System.run D txs (System.apply D w tx)).
    apply IH. unfold System.apply.
    destruct (System.call D (fst tx) (snd tx) w) as [w1 |] eqn:E; [| done].
    destruct (snd tx) as [c | c | c | c | a | a | c]; simpl in E.
    - by apply TaskManager_call_frame in E as (_ & -> & _).
    - by apply BountyPool_call_frame in E as (_ & -> & _).
    - by eapply call_tally.
    - ok_bind E as r Hr. by injection E as <-.
    - ok_bind E as r Hr. by injection E as <-.
    - ok_bind E as r Hr. by injection E as <-.
    - ok_bind E as r Hr. by injection E as <-. }
  split; [by apply tally_backed_bound |].
  destruct Hrun as (voters & _ & _ & _ & Hlist & _).
  unfold getSubmissionVerifiers, MAX_VERIFIERS in *. lia.
Qed.

Lemma votes_never_exceed_seven_witness :
  let w' :=
    System.run Scenario.D
      (map to_verification
         (Scenario.stakes_and_votes Scenario.verifier1 true
          ++ Scenario.stakes_and_votes Scenario.verifier2 false
          ++ Scenario.stakes_and_votes Scenario.verifier3 true))
      deployed in
  Submission.approvalCount (getSubmission 0 w') = 2
  /\ Submission.approvalCount (getSubmission 0 w')
     + Submission.rejectionCount (getSubmission 0 w') <= 7.
Proof.
  cbv zeta. split; [vm_compute; reflexivity |].
  apply (votes_never_exceed_seven Scenario.D).
  repeat split; vm_compute; reflexivity.
Defined.

End SystemTally.

(** ** Refunds and fees of the escrow *)

Section Refunds.
Import BountyPool.

(** X23.  [refundBounty] is the payout of an expired task: open to the task
    manager only, refused when the task's balance does not cover the
    amount, and otherwise taking 5 % as fee, [amount * 500 / 10000] in
    integer arithmetic: the creator receives the rest, the task's balance
    goes down by the whole amount and the fee pool up by the fee. *)
Theorem refundBounty_effects
    (D : Deployment) (m : Msg) (taskId : Z) (creator : address) (amount : Z)
    (w : World) :
  let fee := amount * 500 / 10000 in
  (sender m <> BountyPoolStorage.taskManagerAddress (bountyPool w) ->
   refundBounty D m taskId creator amount w
   = Revert (UnauthorizedCaller (sender m)))
  /\ (sender m = BountyPoolStorage.taskManagerAddress (bountyPool w) ->
      getTaskBounty taskId w < amount ->
      refundBounty D m taskId creator amount w
      = Revert (PoolInsufficientBounty taskId amount (getTaskBounty taskId w)))
  /\ (forall w', refundBounty D m taskId creator amount w = Ok w' ->
        getTaskBounty taskId w' = getTaskBounty taskId w - amount
        /\ (forall other, other <> taskId ->
              getTaskBounty other w' = getTaskBounty other w)
        /\ getAccumulatedFees w' = getAccumulatedFees w + fee
        /\ pay (bountyPoolAt D) creator (amount - fee) (balances w)
           = Some (balances w')
        /\ (creator <> bountyPoolAt D ->
              balanceOf (balances w') creator
              = balanceOf (balances w) creator + (amount - fee)))
  /\ (sender m = BountyPoolStorage.taskManagerAddress (bountyPool w) ->
      0 <= amount <= getTaskBounty taskId w ->
      amount * 500 <= MAX_UINT256 ->
      getAccumulatedFees w + fee <= MAX_UINT256 ->
      accepts_payment D creator = true ->
      amount - fee <= balanceOf (balances w) (bountyPoolAt D) ->
      is_ok (refundBounty D m taskId creator amount w) = true).
Proof.
  cbv zeta. unfold getTaskBounty, getAccumulatedFees.
  split; [| split; [| split]].
  - intros Hsender. apply Z.eqb_neq in Hsender.
    unfold refundBounty, onlyTaskManager. by rewrite Hsender.
  - intros Hsender Hlow. unfold refundBounty, onlyTaskManager.
    rewrite Hsender, Z.eqb_refl. simpl.
    by destruct (Z.ltb_spec (BountyPoolStorage.taskBounties (bountyPool w)@taskId)
                   amount); [| lia].
  - intros w' E.
    apply refundBounty_world in E as (b & Hpay & Hfee & ->). simpl.
    rewrite sload_insert_eq. repeat split; try done.
    + intros other Hother. by rewrite sload_insert_ne.
    + intros Hne. apply pay_some in Hpay as (_ & Hcredit & _).
      by destruct (Hcredit (not_eq_sym Hne)) as [-> _].
  - intros Hsender [Hpos Hcover] Hmul Hfees Haccept Hfunds.
    unfold refundBounty, onlyTaskManager, umul, udiv, usub, uadd,
      call_value, EXPIRED_TASK_FEE_PERCENTAGE, BASIS_POINTS.
    rewrite Hsender, Z.eqb_refl. simpl.
    destruct (Z.ltb_spec (BountyPoolStorage.taskBounties (bountyPool w)@taskId)
                amount); [lia |]. simpl.
    destruct (Z.leb_spec (amount * 500) MAX_UINT256); [| lia]. simpl.
    assert (Hfee : 0 <= amount * 500 / 10000 <= amount).
    { split; [apply Z.div_pos; lia |].
      apply Z.div_le_upper_bound; lia. }
    destruct (Z.leb_spec (amount * 500 / 10000) amount); [| lia]. simpl.
    destruct (Z.leb_spec amount
                (BountyPoolStorage.taskBounties (bountyPool w)@taskId));
      [| lia]. simpl.
    destruct (Z.leb_spec
                (BountyPoolStorage.accumulatedFees (bountyPool w)
                 + amount * 500 / 10000) MAX_UINT256); [| lia]. simpl.
    rewrite Haccept.
    destruct (pay_enough (bountyPoolAt D) creator
                (amount - amount * 500 / 10000) (balances w) Hfunds)
      as [b' ->].
    reflexivity.
Qed.

Lemma refundBounty_effects_witness :
  exists w',
    refundBounty Scenario.D (mkMsg Scenario.deployer 0 Scenario.week_end) 0
      Scenario.creator ether Scenario.escrowed = Ok w'
    /\ getTaskBounty 0 w' = 0
    /\ getAccumulatedFees w' = ether / 20
    /\ balanceOf (balances w') Scenario.creator
       = balanceOf (balances Scenario.escrowed) Scenario.creator
         + (ether - ether / 20).
Proof.
  destruct (refundBounty_effects Scenario.D
              (mkMsg Scenario.deployer 0 Scenario.week_end) 0
              Scenario.creator ether Scenario.escrowed)
    as (_ & _ & Heffects & Hreturns).
  destruct (refundBounty Scenario.D
              (mkMsg Scenario.deployer 0 Scenario.week_end) 0
              Scenario.creator ether Scenario.escrowed) as [w' |] eqn:E.
  - exists w'. split; [reflexivity |].
    destruct (Heffects w' eq_refl) as (Hbounty & _ & Hfees & _ & Hcreator).
    split; [rewrite Hbounty; vm_compute; reflexivity |].
    split; [rewrite Hfees; vm_compute; reflexivity |].
    rewrite Hcreator; [reflexivity | intro Hc; discriminate Hc].
  - exfalso.
    assert (Hok : is_ok (Revert e : result World) = true);
      [| discriminate Hok].
    apply Hreturns; vm_compute; try reflexivity;
      try (intro Hc; discriminate Hc).
    split; intro Hc; discriminate Hc.
Defined.

(** X24.  [withdrawPlatformFees] hands the whole fee pool to the owner and
    empties it, so a second call finds nothing: it is refused for
    everybody else, refused with [NoFeesToWithdraw] when the pool is
    empty, and leaves the bounties of the tasks alone. *)
Theorem withdrawPlatformFees_effects
    (D : Deployment) (m : Msg) (w : World) :
  let s := bountyPool w in
  (sender m <> BountyPoolStorage.owner s ->
   withdrawPlatformFees D m w
   = Revert (OwnableUnauthorizedAccount (sender m)))
  /\ (sender m = BountyPoolStorage.owner s ->
      getAccumulatedFees w = 0 ->
      withdrawPlatformFees D m w = Revert NoFeesToWithdraw)
  /\ (forall w', withdrawPlatformFees D m w = Ok w' ->
        getAccumulatedFees w' = 0
        /\ BountyPoolStorage.taskBounties (bountyPool w')
           = BountyPoolStorage.taskBounties s
        /\ pay (bountyPoolAt D) (BountyPoolStorage.owner s)
             (getAccumulatedFees w) (balances w)
           = Some (balances w')
        /\ withdrawPlatformFees D m w' = Revert NoFeesToWithdraw)
  /\ (sender m = BountyPoolStorage.owner s ->
      getAccumulatedFees w <> 0 ->
      accepts_payment D (BountyPoolStorage.owner s) = true ->
      getAccumulatedFees w <= balanceOf (balances w) (bountyPoolAt D) ->
      is_ok (withdrawPlatformFees D m w) = true).
Proof.
  cbv zeta. unfold getAccumulatedFees. split; [| split; [| split]].
  - intros Hsender. apply Z.eqb_neq in Hsender.
    unfold withdrawPlatformFees, onlyOwner. by rewrite Hsender.
  - intros Hsender Hnone. unfold withdrawPlatformFees, onlyOwner.
    rewrite Hsender, Z.eqb_refl, Hnone. reflexivity.
  - intros w' E. unfold withdrawPlatformFees in E.
    ok_bind E as u1 Howner. ok_bind E as u2 Hfees.
    destruct (call_value _ _ _ _ _) as [w1 |] eqn:Hpaid; [| done].
    injection E as <-.
    apply call_value_some in Hpaid as (b & Hpay & _ & ->). simpl in *.
    repeat split; try done.
    unfold withdrawPlatformFees, onlyOwner in *. simpl.
    apply revert_if_ok in Howner. by rewrite Howner.
  - intros Hsender Hsome Haccept Hfunds.
    unfold withdrawPlatformFees, onlyOwner, call_value.
    rewrite Hsender, Z.eqb_refl. simpl.
    apply Z.eqb_neq in Hsome. rewrite Hsome. simpl. rewrite Haccept.
    destruct (pay_enough (bountyPoolAt D)
                (BountyPoolStorage.owner (bountyPool w))
                (BountyPoolStorage.accumulatedFees (bountyPool w))
                (balances w) Hfunds) as [b' Hpay].
    simpl in Hpay. by rewrite Hpay.
Qed.

Lemma withdrawPlatformFees_effects_witness :
  exists w',
    withdrawPlatformFees Scenario.D
      (mkMsg Scenario.deployer 0 Scenario.cooled_down) Scenario.settled
    = Ok w'
    /\ getAccumulatedFees Scenario.settled = ether / 40
    /\ getAccumulatedFees w' = 0
    /\ withdrawPlatformFees Scenario.D
         (mkMsg Scenario.deployer 0 Scenario.cooled_down) w'
       = Revert NoFeesToWithdraw.
Proof.
  destruct (withdrawPlatformFees_effects Scenario.D
              (mkMsg Scenario.deployer 0 Scenario.cooled_down)
              Scenario.settled) as (_ & _ & Heffects & Hreturns).
  destruct (withdrawPlatformFees Scenario.D
              (mkMsg Scenario.deployer 0 Scenario.cooled_down)
              Scenario.settled) as [w' |] eqn:E.
  - exists w'. split; [reflexivity |].
    destruct (Heffects w' eq_refl) as (Hfees & _ & _ & Hagain).
    split; [vm_compute; reflexivity |]. split; assumption.
  - exfalso.
    assert (Hok : is_ok (Revert e : result World) = true);
      [| discriminate Hok].
    apply Hreturns; vm_compute; try reflexivity; intro Hc; discriminate Hc.
Defined.

End Refunds.

(** ** Rates *)

Section Rates.
Import ReputationContract.

Lemma increase_score_shape rep rep' :
  increase_score rep = Ok rep' ->
  exists score, rep' = ReputationData.with_score score rep.
Proof.
  unfold increase_score. intros E. ok_bind E as raised Hraised.
  destruct (raised <=? MAX_REPUTATION); injection E as <-; eauto.
Qed.

Lemma decrease_score_shape rep rep' :
  decrease_score rep = Ok rep' ->
  exists score, rep' = ReputationData.with_score score rep.
Proof.
  unfold decrease_score. intros E.
  destruct (REPUTATION_DECREASE <=? _).
  - ok_bind E as lowered Hlowered. injection E as <-. eauto.
  - injection E as <-. eauto.
Qed.

Lemma worker_outcome_consistent ok rep rep' :
  worker_outcome ok rep = Ok rep' ->
  counters_consistent rep -> counters_consistent rep'.
Proof.
  unfold worker_outcome, counters_consistent.
  intros E (Hc & Hr & Hv & Hcat).
  match type of E with
  | context [if ?c then ?a else rep] => set (rep0 := if c then a else rep) in E
  end.
  assert (H0 : exists score, rep0 = ReputationData.with_score score rep).
  { subst rep0.
    match goal with |- context [if ?c then _ else _] => destruct c end;
      [eauto |].
    exists (ReputationData.score rep). by destruct rep. }
  destruct H0 as [score0 ->].
  destruct ok; ok_bind E as rep1 H1; ok_bind E as n Hn; injection E as <-;
    apply uadd_ok in Hn as [-> _].
  - apply increase_score_shape in H1 as [score1 ->]. simpl.
    repeat split; try lia; apply Hcat.
  - apply decrease_score_shape in H1 as [score1 ->]. simpl.
    repeat split; try lia; apply Hcat.
Qed.

Lemma verifier_outcome_consistent ok rep rep' :
  verifier_outcome ok rep = Ok rep' ->
  counters_consistent rep -> counters_consistent rep'.
Proof.
  unfold verifier_outcome, counters_consistent.
  intros E (Hc & Hr & Hv & Hcat).
  match type of E with
  | context [if ?c then ?a else rep] => set (rep0 := if c then a else rep) in E
  end.
  assert (H0 : exists score, rep0 = ReputationData.with_score score rep).
  { subst rep0.
    match goal with |- context [if ?c then _ else _] => destruct c end;
      [eauto |].
    exists (ReputationData.score rep). by destruct rep. }
  destruct H0 as [score0 ->].
  ok_bind E as n Hn. apply uadd_ok in Hn as [-> _]. destruct ok.
  - ok_bind E as rep1 H1. ok_bind E as k Hk. injection E as <-.
    apply uadd_ok in Hk as [-> _].
    apply increase_score_shape in H1 as [score1 ->]. simpl in *.
    repeat split; try lia; apply Hcat.
  - apply decrease_score_shape in E as [score1 ->]. simpl in *.
    repeat split; try lia; apply Hcat.
Qed.

Lemma call_consistent m c s s' :
  call m c s = Ok s' ->
  (forall user, counters_consistent (ReputationStorage.reputations s@user)) ->
  forall user, counters_consistent (ReputationStorage.reputations s'@user).
Proof.
  intros E Hs user. destruct c; simpl in E.
  - unfold initializeReputation in E. ok_step E. injection E as <-. simpl.
    destruct (decide (user0 = user)) as [-> | Hne];
      [| by rewrite sload_insert_ne].
    rewrite sload_insert_eq. apply (Hs user).
  - unfold updateWorkerReputation in E. ok_step E. ok_bind E as rep Hrep.
    injection E as <-. simpl.
    destruct (decide (worker = user)) as [-> | Hne];
      [| by rewrite sload_insert_ne].
    rewrite sload_insert_eq. by eapply worker_outcome_consistent.
  - unfold updateWorkerReputationWithCategory in E.
    ok_step E. ok_bind E as rep Hrep. ok_bind E as total Htotal.
    ok_bind E as success Hsuccess. ok_bind E as stats Hstats.
    injection E as <-. simpl.
    destruct (decide (worker = user)) as [-> | Hne];
      [| by rewrite sload_insert_ne].
    rewrite sload_insert_eq.
    apply worker_outcome_consistent in Hrep; [| apply Hs].
    destruct Hrep as (Hc & Hr & Hv & Hcat).
    assert (Hcounts : CategoryStats.successCount stats = success
                      /\ CategoryStats.totalCount stats = total).
    { simpl in Hstats. destruct (negb _) in Hstats.
      - ok_bind Hstats as award Haward.
        destruct award; by injection Hstats as <-.
      - by injection Hstats as <-. }
    destruct Hcounts as [Hsc Htc].
    apply uadd_ok in Htotal as [-> _].
    assert (Hsuccess' : CategoryStats.successCount
                          (ReputationData.categoryStats rep@category)
                        <= success
                        <= CategoryStats.successCount
                             (ReputationData.categoryStats rep@category) + 1).
    { destruct successful;
        [apply uadd_ok in Hsuccess as [-> _] | injection Hsuccess as <-];
        lia. }
    unfold counters_consistent. simpl. repeat (split; [lia |]).
    intros cat. destruct (decide (category = cat)) as [<- | Hother].
    + rewrite sload_insert_eq, Hsc, Htc. specialize (Hcat category). lia.
    + rewrite sload_insert_ne by done. apply Hcat.
  - unfold updateVerifierReputation in E. ok_step E. ok_bind E as rep Hrep.
    injection E as <-. simpl.
    destruct (decide (verifier = user)) as [-> | Hne];
      [| by rewrite sload_insert_ne].
    rewrite sload_insert_eq. by eapply verifier_outcome_consistent.
Qed.

Lemma percentage (part whole : Z) :
  0 <= part <= whole -> 0 < whole -> 0 <= part * 100 / whole <= 100.
Proof.
  intros Hpart Hwhole. split.
  - apply Z.div_pos; lia.
  - apply Z.div_le_upper_bound; lia.
Qed.

Lemma getSuccessRate_range user s rate :
  counters_consistent (ReputationStorage.reputations s@user) ->
  getSuccessRate user s = Ok rate -> 0 <= rate <= 100.
Proof.
  intros (Hc & Hr & _) E. unfold getSuccessRate in E.
  ok_bind E as total Htotal. apply uadd_ok in Htotal as [-> _].
  destruct (Z.eqb_spec (ReputationData.tasksCompleted
                          (ReputationStorage.reputations s@user)
                        + ReputationData.tasksRejected
                            (ReputationStorage.reputations s@user)) 0).
  - injection E as <-. lia.
  - ok_bind E as scaled Hscaled. apply umul_ok in Hscaled as [-> _].
    apply udiv_ok in E as [-> _]. apply percentage; lia.
Qed.

Lemma getVerificationAccuracy_range user s rate :
  counters_consistent (ReputationStorage.reputations s@user) ->
  getVerificationAccuracy user s = Ok rate -> 0 <= rate <= 100.
Proof.
  intros (_ & _ & Hv & _) E. unfold getVerificationAccuracy in E.
  destruct (Z.eqb_spec (ReputationData.verificationsPerformed
                          (ReputationStorage.reputations s@user)) 0).
  - injection E as <-. lia.
  - ok_bind E as scaled Hscaled. apply umul_ok in Hscaled as [-> _].
    apply udiv_ok in E as [-> _]. apply percentage; lia.
Qed.

Lemma getCategoryStats_range user category s stats :
  counters_consistent (ReputationStorage.reputations s@user) ->
  getCategoryStats user category s = Ok stats -> 0 <= snd stats <= 100.
Proof.
  intros (_ & _ & _ & Hcat) E. specialize (Hcat category).
  unfold getCategoryStats in E. ok_bind E as rate Hrate.
  injection E as <-. simpl.
  destruct (Z.ltb_spec 0 (CategoryStats.totalCount
                            (ReputationData.categoryStats
                               (ReputationStorage.reputations s@user)
                             @category))).
  - ok_bind Hrate as scaled Hscaled. apply umul_ok in Hscaled as [-> _].
    apply udiv_ok in Hrate as [-> _]. apply percentage; lia.
  - injection Hrate as <-. lia.
Qed.

(** X25.  The three rates the contract reports are percentages.  From records
    whose counters fit together, after any calls of the contract
    [getSuccessRate], [getVerificationAccuracy] and the rate of
    [getCategoryStats] lie between 0 and 100 whenever they return, and
    they return unless a counter times 100 leaves [uint256]. *)
Theorem rates_are_percentages
    (txs : list (Msg * Call)) (s : ReputationStorage.t) (user : address)
    (category : TaskCategory) :
  (forall u, counters_consistent (ReputationStorage.reputations s@u)) ->
  let s' := run txs s in
  let rep := ReputationStorage.reputations s'@user in
  (forall rate, getSuccessRate user s' = Ok rate -> 0 <= rate <= 100)
  /\ (forall rate,
        getVerificationAccuracy user s' = Ok rate -> 0 <= rate <= 100)
  /\ (forall stats,
        getCategoryStats user category s' = Ok stats ->
        0 <= snd stats <= 100)
  /\ (ReputationData.tasksCompleted rep + ReputationData.tasksRejected rep
      <= MAX_UINT256 ->
      ReputationData.tasksCompleted rep * 100 <= MAX_UINT256 ->
      is_ok (getSuccessRate user s') = true)
  /\ (ReputationData.accurateVerifications rep * 100 <= MAX_UINT256 ->
      is_ok (getVerificationAccuracy user s') = true)
  /\ (CategoryStats.successCount (ReputationData.categoryStats rep@category)
      * 100 <= MAX_UINT256 ->
      is_ok (getCategoryStats user category s') = true).
Proof.
  intros Hs. cbv zeta.
  assert (Hrun : forall u,
            counters_consistent
              (ReputationStorage.reputations (run txs s)@u)).
  { revert s Hs. induction txs as [| tx txs IH]; intros s Hs; [exact Hs |].
    simpl. apply IH. unfold apply.
    destruct (call (fst tx) (snd tx) s) as [s1 |] eqn:E; [| exact Hs].
    by eapply call_consistent. }
  pose proof (Hrun user) as Huser.
  destruct Huser as (Hc & Hr & Hv & Hcat). specialize (Hcat category).
  split; [intros rate; by apply getSuccessRate_range |].
  split; [intros rate; by apply getVerificationAccuracy_range |].
  split; [intros stats; by apply getCategoryStats_range |].
  unfold getSuccessRate, getVerificationAccuracy, getCategoryStats,
    uadd, umul, udiv.
  set (rep := ReputationStorage.reputations (run txs s)@user) in *.
  split; [| split].
  - intros Hsum Hmul.
    destruct (Z.leb_spec (ReputationData.tasksCompleted rep
                          + ReputationData.tasksRejected rep) MAX_UINT256);
      [| lia]. simpl.
    destruct (Z.eqb_spec (ReputationData.tasksCompleted rep
                          + ReputationData.tasksRejected rep) 0); [done |].
    destruct (Z.leb_spec (ReputationData.tasksCompleted rep * 100)
                MAX_UINT256); [| lia]. simpl.
    reflexivity.
  - intros Hmul.
    destruct (Z.eqb_spec (ReputationData.verificationsPerformed rep) 0);
      [done |].
    destruct (Z.leb_spec (ReputationData.accurateVerifications rep * 100)
                MAX_UINT256); [| lia]. simpl.
    reflexivity.
  - intros Hmul.
    destruct (Z.ltb_spec 0 (CategoryStats.totalCount
                              (ReputationData.categoryStats rep@category)));
      simpl; [| done].
    destruct (Z.leb_spec (CategoryStats.successCount
                            (ReputationData.categoryStats rep@category) * 100)
                MAX_UINT256); [| lia]. simpl.
    destruct (Z.eqb_spec (CategoryStats.totalCount
                            (ReputationData.categoryStats rep@category)) 0);
      [lia | done].
Qed.

Lemma rates_are_percentages_witness :
  let s' :=
    run [(mkMsg (verificationAt Scenario.D) 0 Scenario.genesis,
          UpdateWorkerReputationWithCategory Scenario.worker1 SURVEY true);
         (mkMsg (verificationAt Scenario.D) 0 Scenario.genesis,
          UpdateWorkerReputationWithCategory Scenario.worker1 SURVEY false);
         (mkMsg (verificationAt Scenario.D) 0 Scenario.genesis,
          UpdateWorkerReputationWithCategory Scenario.worker1 SURVEY true)]
      (reputation Scenario.wired) in
  getSuccessRate Scenario.worker1 s' = Ok 66
  /\ forall rate,
       getSuccessRate Scenario.worker1 s' = Ok rate -> 0 <= rate <= 100.
Proof.
  cbv zeta. split; [vm_compute; reflexivity |].
  apply (rates_are_percentages _ (reputation Scenario.wired)
           Scenario.worker1 SURVEY).
  intros u.
  assert (E : ReputationStorage.reputations (reputation Scenario.wired) = ∅)
    by reflexivity.
  rewrite E. unfold counters_consistent, sload. rewrite lookup_empty. simpl.
  repeat split; try lia.
  all: rewrite lookup_empty; simpl; lia.
Defined.

End Rates.

(** ** The blacklist *)

Section Blacklist.
Import AntiFraud.

Lemma checkAndRecordSubmission_blacklist m worker taskId imageHash
    metadataHash a a' b :
  checkAndRecordSubmission m worker taskId imageHash metadataHash a
  = Ok (a', b) ->
  AntiFraudStorage.blacklistedWorkers a' = AntiFraudStorage.blacklistedWorkers a
  /\ AntiFraudStorage.owner a' = AntiFraudStorage.owner a.
Proof.
  intros Hr. unfold checkAndRecordSubmission in Hr.
  ok_step Hr. ok_step Hr. ok_bind Hr as a1 Hrate. ok_step Hr. ok_step Hr.
  injection Hr as <- <-. simpl.
  unfold _checkRateLimit in Hrate. do 2 ok_step Hrate.
  by injection Hrate as <-.
Qed.

Lemma call_blacklist m c a a' :
  call m c a = Ok a' ->
  sender m <> AntiFraudStorage.owner a
  \/ (exists worker taskId imageHash metadataHash,
        c = CheckAndRecordSubmission worker taskId imageHash metadataHash)
  \/ (exists worker reason, c = ForfeitStake worker reason) ->
  AntiFraudStorage.blacklistedWorkers a' = AntiFraudStorage.blacklistedWorkers a
  /\ AntiFraudStorage.owner a' = AntiFraudStorage.owner a.
Proof.
  intros E Hwho.
  assert (Howner : forall u,
            onlyOwner m a = Ok u -> sender m = AntiFraudStorage.owner a).
  { unfold onlyOwner. intros u Hu. apply revert_if_ok in Hu.
    apply negb_false_iff in Hu. by apply Z.eqb_eq. }
  destruct c; simpl in E.
  - unfold setVerificationContract in E. do 2 ok_step E.
    by injection E as <-.
  - unfold setTaskManager in E. do 2 ok_step E. by injection E as <-.
  - ok_bind E as r Hr. injection E as <-. destruct r as [a1 b].
    by apply checkAndRecordSubmission_blacklist in Hr.
  - unfold forfeitStake in E. do 2 ok_step E. by injection E as <-.
  - unfold blacklistWorker in E. ok_bind E as u Hu. apply Howner in Hu.
    destruct Hwho as [Hne | [(? & ? & ? & ? & Hc) | (? & ? & Hc)]];
      [done | discriminate Hc | discriminate Hc].
  - unfold unblacklistWorker in E. ok_bind E as u Hu. apply Howner in Hu.
    destruct Hwho as [Hne | [(? & ? & ? & ? & Hc) | (? & ? & Hc)]];
      [done | discriminate Hc | discriminate Hc].
Qed.

Lemma System_call_blacklist D m c w w' :
  System.call D m c w = Ok w' ->
  sender m <> AntiFraudStorage.owner (antiFraud w) ->
  AntiFraudStorage.blacklistedWorkers (antiFraud w')
  = AntiFraudStorage.blacklistedWorkers (antiFraud w)
  /\ AntiFraudStorage.owner (antiFraud w')
     = AntiFraudStorage.owner (antiFraud w).
Proof.
  intros E Hsender. destruct c as [c | c | c | c | x | x | c]; simpl in E.
  - apply TaskManager_call_frame in E
      as (_ & _ & _ & _ & [-> | (worker & taskId & h & md & b & E)]);
      [done |].
    by apply checkAndRecordSubmission_blacklist in E.
  - by apply BountyPool_call_frame in E as (_ & _ & _ & ->).
  - apply VerificationContract_call_frame in E
      as (_ & [-> | (worker & reason & E)]); [done |].
    apply (call_blacklist _ (ForfeitStake worker reason)) in E; [done |].
    right. right. eauto.
  - ok_bind E as r Hr. by injection E as <-.
  - ok_bind E as r Hr. by injection E as <-.
  - ok_bind E as r Hr. by injection E as <-.
  - ok_bind E as a Ha. injection E as <-. simpl.
    apply call_blacklist in Ha; [done | by left].
Qed.

(** X26.  A blacklisted worker stays blacklisted until the owner of
    [AntiFraud] says otherwise: under transactions of anybody else, to
    any of the contracts, the entry stays, [checkAndRecordSubmission]
    refuses the worker, and so does [submitTaskCompletion] of a task
    manager that consults this [AntiFraud], the deployed one. *)
Theorem only_the_owner_lifts_a_blacklist
    (D : Deployment) (txs : list (Msg * System.Call)) (w : World)
    (worker : address) :
  isWorkerBlacklisted worker (antiFraud w) = true ->
  Forall (not_from (AntiFraudStorage.owner (antiFraud w))) txs ->
  let w' := System.run D txs w in
  isWorkerBlacklisted worker (antiFraud w') = true
  /\ (forall m taskId imageHash metadataHash,
        is_ok (checkAndRecordSubmission m worker taskId imageHash
                 metadataHash (antiFraud w')) = false)
  /\ (forall m taskId ipfsHash location,
        sender m = worker ->
        antiFraudAt D <> 0 ->
        TaskManagerStorage.antiFraudAddress (taskManager w') = antiFraudAt D ->
        is_ok (TaskManager.submitTaskCompletion D m taskId ipfsHash location
                 w') = false).
Proof.
  unfold isWorkerBlacklisted. intros Hlisted Htxs. cbv zeta.
  assert (Hrun : AntiFraudStorage.blacklistedWorkers
                   (antiFraud (System.run D txs w))
                 = AntiFraudStorage.blacklistedWorkers (antiFraud w)).
  { revert w Hlisted Htxs.
    induction txs as [| tx txs IH]; intros w Hlisted Htxs; [done |].
    apply Forall_cons in Htxs as [Htx Htxs].
    change (System.run D (tx :: txs) w)
      with (System.run D txs (System.apply D w tx)).
    assert (Hstep : AntiFraudStorage.blacklistedWorkers
                      (antiFraud (System.apply D w tx))
                    = AntiFraudStorage.blacklistedWorkers (antiFraud w)
                    /\ AntiFraudStorage.owner
                         (antiFraud (System.apply D w tx))
                       = AntiFraudStorage.owner (antiFraud w)).
    { unfold System.apply.
      destruct (System.call D (fst tx) (snd tx) w) as [w1 |] eqn:E; [| done].
      by apply System_call_blacklist in E. }
    destruct Hstep as [Hb Ho]. rewrite <- Hb. apply IH.
    - by rewrite Hb.
    - by rewrite Ho. }
  rewrite Hrun. split; [done |].
  assert (Hrefused : forall m taskId imageHash metadataHash,
            is_ok (checkAndRecordSubmission m worker taskId imageHash
                     metadataHash (antiFraud (System.run D txs w))) = false).
  { intros. unfold checkAndRecordSubmission, notBlacklisted.
    destruct (onlyAuthorizedContracts _ _); [| done]. simpl.
    by rewrite Hrun, Hlisted. }
  split; [exact Hrefused |].
  intros m taskId ipfsHash location <- Hnz Hwired.
  destruct (TaskManager.submitTaskCompletion D m taskId ipfsHash location
              (System.run D txs w)) as [[w2 n2] |] eqn:E; [| done].
  exfalso. unfold TaskManager.submitTaskCompletion in E.
  do 6 ok_step E. ok_bind E as w0 Hrec.
  apply Z.eqb_neq in Hnz. rewrite Hwired, Hnz in Hrec. simpl in Hrec.
  unfold TaskManager.IAntiFraud_checkAndRecordSubmission in Hrec.
  rewrite Z.eqb_refl in Hrec.
  ok_bind Hrec as r Hr.
  match type of Hr with
  | checkAndRecordSubmission ?m0 _ ?t ?h ?md _ = _ =>
      pose proof (Hrefused m0 t h md) as Hno
  end.
  by rewrite Hr in Hno.
Qed.

Lemma only_the_owner_lifts_a_blacklist_witness :
  let w' :=
    System.run Scenario.D
      [(mkMsg Scenario.worker1 0 Scenario.genesis,
        System.ToAntiFraud (UnblacklistWorker Scenario.worker1));
       to_task_manager Scenario.open_task;
       (mkMsg Scenario.worker1 0 Scenario.claimed_at,
        System.ToTaskManager (TaskManager.ClaimTask 0))]
      worker1_blacklisted in
  TaskManager.hasWorkerClaimed 0 Scenario.worker1 w' = true
  /\ is_ok (TaskManager.submitTaskCompletion Scenario.D
              (mkMsg Scenario.worker1 0 Scenario.submitted_at) 0 "QmTest123"
              Scenario.anywhere w') = false.
Proof.
  cbv zeta. split; [vm_compute; reflexivity |].
  destruct (only_the_owner_lifts_a_blacklist Scenario.D
              [(mkMsg Scenario.worker1 0 Scenario.genesis,
                System.ToAntiFraud (UnblacklistWorker Scenario.worker1));
               to_task_manager Scenario.open_task;
               (mkMsg Scenario.worker1 0 Scenario.claimed_at,
                System.ToTaskManager (TaskManager.ClaimTask 0))]
              worker1_blacklisted Scenario.worker1) as (_ & _ & Hsubmit).
  - vm_compute. reflexivity.
  - repeat (apply Forall_cons_2; [vm_compute; intro Hc; discriminate Hc |]).
    apply Forall_nil_2.
  - apply (Hsubmit (mkMsg Scenario.worker1 0 Scenario.submitted_at) 0
             "QmTest123" Scenario.anywhere eq_refl).
    + vm_compute. intro Hc; discriminate Hc.
    + vm_compute. reflexivity.
Defined.

End Blacklist.

(** ** Verified for good *)

Section VerifiedForGood.
Import VerificationContract.

Lemma System_call_keeps_verified D m c w w' submissionId :
  System.call D m c w = Ok w' ->
  submissionId < VerificationStorage.submissionIdCounter (verification w)
  /\ 3 <= Submission.approvalCount (getSubmission submissionId w)
  /\ Submission.status (getSubmission submissionId w) = VERIFIED ->
  submissionId < VerificationStorage.submissionIdCounter (verification w')
  /\ 3 <= Submission.approvalCount (getSubmission submissionId w')
  /\ Submission.status (getSubmission submissionId w') = VERIFIED.
Proof.
  unfold getSubmission. intros E (Hcreated & Happ & Hstatus).
  destruct c as [c | c | c | c | a | a | c]; simpl in E.
  - by apply TaskManager_call_frame in E as (_ & -> & _).
  - by apply BountyPool_call_frame in E as (_ & -> & _).
  - destruct c; simpl in E.
    + unfold setBountyPool in E. do 2 ok_step E. by injection E as <-.
    + unfold setReputationContract in E. do 2 ok_step E. by injection E as <-.
    + unfold setTaskManager in E. do 2 ok_step E. by injection E as <-.
    + unfold setAntiFraud in E. do 2 ok_step E. by injection E as <-.
    + ok_bind E as r Hr. injection E as <-.
      unfold createSubmission in Hr. ok_step Hr. ok_bind Hr as next Hnext.
      injection Hr as <-. apply uadd_ok in Hnext as [-> _]. simpl.
      rewrite sload_insert_ne by lia. repeat split; [lia | done | done].
    + unfold stakeForVerification in E.
      ok_bind E as w1 Hpaid. do 6 ok_step E. injection E as <-. simpl.
      by apply receive_value_ok in Hpaid as (b & _ & ->).
    + unfold submitVerification in E.
      ok_step E. ok_step E. ok_step E. ok_bind E as total Htotal.
      ok_bind E as approvals Happrovals.
      ok_bind E as rejections Hrejections.
      destruct (decide (submissionId0 = submissionId)) as [-> | Hother].
      * assert (Hmore : 3 <= approvals).
        { destruct approved;
            [apply uadd_ok in Happrovals as [-> _]
            | injection Happrovals as <-]; lia. }
        apply _checkConsensus_reached in E;
          [| simpl; rewrite sload_insert_eq; simpl; by left].
        rewrite E. simpl. rewrite !sload_insert_eq. simpl.
        destruct (Z.leb_spec 3 approvals); [done | lia].
      * apply _checkConsensus_verification in E
          as [-> | (status & reached & ->)]; simpl;
          by rewrite !sload_insert_ne.
    + apply distributeVerificationRewards_verification in E.
      rewrite E. simpl.
      destruct (decide (submissionId0 = submissionId)) as [-> | Hother].
      * by rewrite sload_insert_eq.
      * by rewrite sload_insert_ne.
    + unfold receive in E.
      by apply receive_value_ok in E as (b & _ & ->).
  - ok_bind E as r Hr. by injection E as <-.
  - ok_bind E as r Hr. by injection E as <-.
  - ok_bind E as r Hr. by injection E as <-.
  - ok_bind E as r Hr. by injection E as <-.
Qed.

(** X28.  A submission that was created and has been verified with three
    approvals stays verified: no later vote, no rejection, however many,
    and nothing else that is sent to the system changes its status. *)
Theorem a_verified_submission_stays_verified
    (D : Deployment) (txs : list (Msg * System.Call)) (w : World)
    (submissionId : Z) :
  submissionId < VerificationStorage.submissionIdCounter (verification w) ->
  3 <= Submission.approvalCount (getSubmission submissionId w) ->
  Submission.status (getSubmission submissionId w) = VERIFIED ->
  let w' := System.run D txs w in
  Submission.status (getSubmission submissionId w') = VERIFIED
  /\ hasConsensus submissionId w' = true.
Proof.
  intros Hcreated Happ Hstatus. cbv zeta.
  assert (Hrun : submissionId
                 < VerificationStorage.submissionIdCounter
                     (verification (System.run D txs w))
                 /\ 3 <= Submission.approvalCount
                           (getSubmission submissionId (System.run D txs w))
                 /\ Submission.status
                      (getSubmission submissionId (System.run D txs w))
                    = VERIFIED).
  { revert w Hcreated Happ Hstatus.
    induction txs as [| tx txs IH]; intros w Hcreated Happ Hstatus; [done |].
    change (System.run D (tx :: txs) w)
      with (System.run D txs (System.apply D w tx)).
    assert (Hstep : submissionId
                    < VerificationStorage.submissionIdCounter
                        (verification (System.apply D w tx))
                    /\ 3 <= Submission.approvalCount
                              (getSubmission submissionId
                                 (System.apply D w tx))
                    /\ Submission.status
                         (getSubmission submissionId (System.apply D w tx))
                       = VERIFIED).
    { unfold System.apply.
      destruct (System.call D (fst tx) (snd tx) w) as [w1 |] eqn:E; [| done].
      by eapply System_call_keeps_verified. }
    destruct Hstep as (? & ? & ?). by apply IH. }
  destruct Hrun as (_ & _ & Hfinal). split; [exact Hfinal |].
  unfold hasConsensus, getSubmission in *. by rewrite Hfinal.
Qed.

Lemma a_verified_submission_stays_verified_witness :
  let w' :=
    System.run Scenario.D
      (map to_verification
         (Scenario.votes false
            [Scenario.verifier4; Scenario.verifier5; Scenario.verifier6]))
      (System.run Scenario.D
         (map to_verification
            (Scenario.votes true
               [Scenario.verifier1; Scenario.verifier2; Scenario.verifier3]))
         Scenario.six_staked) in
  Submission.rejectionCount (getSubmission 0 w') = 3
  /\ Submission.status (getSubmission 0 w') = VERIFIED.
Proof.
  cbv zeta. split; [vm_compute; reflexivity |].
  apply (a_verified_submission_stays_verified Scenario.D).
  - vm_compute. reflexivity.
  - vm_compute. intro Hc; discriminate Hc.
  - vm_compute. reflexivity.
Defined.

End VerifiedForGood.

(** ** Staking twice *)

Section StakingTwice.
Import VerificationContract.

Lemma stakeForVerification_ok D m submissionId w w' :
  stakeForVerification D m submissionId w = Ok w' ->
  exists b,
    pay (sender m) (verificationAt D) (value m) (balances w) = Some b
    /\ balances w' = b
    /\ getSubmissionVerifiers submissionId w'
       = getSubmissionVerifiers submissionId w ++ [sender m]
    /\ Vote.stake (getVote submissionId (sender m) w') = value m
    /\ Vote.hasVoted (getVote submissionId (sender m) w') = false.
Proof.
  unfold getSubmissionVerifiers, getVote. intros E.
  unfold stakeForVerification in E.
  ok_bind E as w1 Hpaid. ok_step E. ok_step E. ok_bind E as u Hfirst.
  do 3 ok_step E. injection E as <-.
  apply receive_value_ok in Hpaid as (b & Hpay & ->). simpl in *.
  apply revert_if_ok in Hfirst.
  exists b. rewrite !sload_insert_eq. simpl. done.
Qed.

(** X29.  Nothing keeps a verifier from staking on the same submission again
    before voting.  The second stake goes to the contract like the first,
    but the vote record holds one stake, which the second overwrites, and
    the verifier is entered in the list of the submission once more, which
    is the list the payout walks through. *)
Theorem staking_twice_lists_the_verifier_twice
    (D : Deployment) (first second : Msg) (submissionId : Z)
    (w w1 w2 : World) :
  stakeForVerification D first submissionId w = Ok w1 ->
  stakeForVerification D second submissionId w1 = Ok w2 ->
  sender second = sender first ->
  getSubmissionVerifiers submissionId w2
  = getSubmissionVerifiers submissionId w ++ [sender first; sender first]
  /\ Vote.stake (getVote submissionId (sender first) w2) = value second
  /\ (sender first <> verificationAt D ->
      balanceOf (balances w2) (verificationAt D)
      = balanceOf (balances w) (verificationAt D)
        + value first + value second).
Proof.
  intros E1 E2 Hsame.
  apply stakeForVerification_ok in E1 as (b1 & Hpay1 & Hb1 & Hlist1 & _).
  apply stakeForVerification_ok in E2 as (b2 & Hpay2 & Hb2 & Hlist2 & Hstake & _).
  rewrite Hsame in *. split; [| split].
  - rewrite Hlist2, Hlist1. by rewrite <- app_assoc.
  - exact Hstake.
  - intros Hne. rewrite Hb2. rewrite Hb1 in Hpay2.
    apply pay_some in Hpay1 as (_ & Hto1 & _).
    apply pay_some in Hpay2 as (_ & Hto2 & _).
    destruct (Hto1 Hne) as [H1 _]. destruct (Hto2 Hne) as [H2 _]. lia.
Qed.

Lemma staking_twice_lists_the_verifier_twice_witness :
  exists w1 w2,
    stakeForVerification Scenario.D
      (mkMsg Scenario.verifier1 Scenario.stake Scenario.voted_at) 0
      Scenario.submitted = Ok w1
    /\ stakeForVerification Scenario.D
         (mkMsg Scenario.verifier1 (2 * Scenario.stake) Scenario.voted_at) 0
         w1 = Ok w2
    /\ getSubmissionVerifiers 0 w2 = [Scenario.verifier1; Scenario.verifier1]
    /\ Vote.stake (getVote 0 Scenario.verifier1 w2) = 2 * Scenario.stake.
Proof.
  destruct (stakeForVerification Scenario.D
              (mkMsg Scenario.verifier1 Scenario.stake Scenario.voted_at) 0
              Scenario.submitted) as [w1 |] eqn:E1;
    [| vm_compute in E1; discriminate E1].
  destruct (stakeForVerification Scenario.D
              (mkMsg Scenario.verifier1 (2 * Scenario.stake)
                 Scenario.voted_at) 0 w1) as [w2 |] eqn:E2.
  - exists w1, w2. split; [reflexivity |]. split; [exact E2 |].
    destruct (staking_twice_lists_the_verifier_twice _ _ _ _ _ _ _ E1 E2
                eq_refl) as (Hlist & Hstake & _).
    split; [exact Hlist | exact Hstake].
  - exfalso.
    apply (f_equal (fun r => match r with
                             | Ok w0 =>
                                 is_ok (stakeForVerification Scenario.D
                                          (mkMsg Scenario.verifier1
                                             (2 * Scenario.stake)
                                             Scenario.voted_at) 0 w0)
                             | Revert _ => true
                             end)) in E1.
    rewrite E2 in E1. vm_compute in E1. discriminate E1.
Defined.

End StakingTwice.

(** ** Priority access *)

Section Priority.
Import ReputationContract.

(** X30.  Priority access wants a score of 80.  From a fresh record a worker
    has it after six successes in a row and not before, and a worker
    whose outcomes are all failures never has it, however low the score
    falls: the stored 0, which [hasPriorityAccess] reads as 50, is below
    80 either way. *)
Theorem priority_access_from_sixth_success
    (ok : bool) (n : nat) (m : Msg) (worker : address)
    (s : ReputationStorage.t) :
  sender m = ReputationStorage.verificationContractAddress s ->
  ReputationStorage.reputations s@worker = zero ->
  hasPriorityAccess worker
    (run (replicate n (m, UpdateWorkerReputation worker ok)) s)
  = ok && (6 <=? Z.of_nat n).
Proof.
  intros Hm Hfresh.
  destruct (worker_outcomes_run ok n m worker s Hm Hfresh)
    as (_ & _ & _ & _ & Hs).
  unfold hasPriorityAccess, HIGH_REPUTATION_THRESHOLD, INITIAL_REPUTATION.
  rewrite Hs.
  destruct (Z.eqb_spec (Z.of_nat n) 0) as [Hn | Hn].
  - simpl. rewrite Hn. simpl. by rewrite andb_false_r.
  - destruct ok; simpl.
    + destruct (Z.eqb_spec (Z.min 100 (50 + 5 * Z.of_nat n)) 0); [lia |].
      destruct (Z.leb_spec 80 (Z.min 100 (50 + 5 * Z.of_nat n)));
        destruct (Z.leb_spec 6 (Z.of_nat n)); try reflexivity; lia.
    + destruct (Z.eqb_spec (Z.max 0 (50 - 5 * Z.of_nat n)) 0);
        [reflexivity |].
      destruct (Z.leb_spec 80 (Z.max 0 (50 - 5 * Z.of_nat n)));
        [lia | reflexivity].
Qed.

Lemma priority_access_from_sixth_success_witness :
  hasPriorityAccess Scenario.worker1
    (run (replicate 5
            (mkMsg (verificationAt Scenario.D) 0 Scenario.genesis,
             UpdateWorkerReputation Scenario.worker1 true))
       (reputation Scenario.wired)) = false
  /\ hasPriorityAccess Scenario.worker1
       (run (replicate 6
               (mkMsg (verificationAt Scenario.D) 0 Scenario.genesis,
                UpdateWorkerReputation Scenario.worker1 true))
          (reputation Scenario.wired)) = true.
Proof.
  split.
  - apply (priority_access_from_sixth_success true 5); reflexivity.
  - apply (priority_access_from_sixth_success true 6); reflexivity.
Defined.

End Priority.
